(** * unitorch: tensor containers and generation wrappers

    A shallow embedding of

    - [unitorch/cli/models/modeling_utils.py]: the container mixins
      [TensorsMixin], [ListTensorsMixin], [CombineTensorsMixin], the
      dictionary-backed classes [TensorsInputs], [ListTensorsInputs],
      [CombineTensorsInputs], the classes of outputs and targets that derive
      from the mixins, and [LossOutputs];
    - the output repacking of [ChatGLMForGeneration.generate]
      ([unitorch/models/chatglm/modeling.py]) and
      [XProphetNetForGeneration.generate]
      ([unitorch/models/xprophetnet/modeling.py]);
    - the token arithmetic of [MiniGPT4ViTLlamaProcessor]
      ([unitorch/models/minigpt4/processing.py]): [prompt],
      [generation_inputs], [generation_labels] and [generation], over an
      arbitrary tokenizer;
    - how [ClipForTextClassificationPipeline] and
      [ClipForImageClassificationPipeline] are built from a configuration
      ([unitorch/cli/pipelines/clip.py]), with Python's binding of the
      arguments of a call to the parameters of [__init__];
    - the availability flags of [unitorch/utils/import_utils.py].

    Python exceptions are an error monad and Python [dict]s are
    insertion-ordered association lists.  An object is its class, the two
    mappings [__tensors__] and [__list_tensors__], and the other attributes
    of the instance; [setattr] stores an attribute of any name, so that an
    instance attribute named like a method hides the method, and raises for
    the names the language keeps to itself.  Mutating methods pass the
    receiver's state explicitly.  [torch] tensors are a shape, a row-major
    element list and a device.

    Not modelled: [sync] (collective communication), element types, and the
    identity of dict objects (a default argument [dict()] is an empty dict at
    every call).  A CUDA device is taken to be available.  The names found on
    a class are those of CPython 3.10. *)

From Stdlib Require Import String ZArith Lia Bool Arith PeanoNat List.
Import ListNotations.
Open Scope string_scope.
Open Scope list_scope.

Set Implicit Arguments.

(* ===================================================================== *)
(** ** Exceptions *)
(* ===================================================================== *)

Inductive exn : Type :=
| AssertionError
| TypeError
| AttributeError
| KeyError
| IndexError
| RuntimeError.

Inductive result (A : Type) : Type :=
| Ok (a : A)
| Raise (e : exn).

Arguments Ok {A} a.
Arguments Raise {A} e.

Definition bind {A B : Type} (m : result A) (k : A -> result B) : result B :=
  match m with
  | Ok a => k a
  | Raise e => Raise e
  end.

Notation "x <- m ;; k" := (bind m (fun x => k))
  (at level 61, m at next level, right associativity).
Notation "' p <- m ;; k" := (bind m (fun x => match x with p => k end))
  (at level 61, p pattern, m at next level, right associativity).
Notation "m ;;; k" := (bind m (fun _ => k))
  (at level 61, right associativity).

(** [assert b] *)
Definition py_assert (b : bool) : result unit :=
  if b then Ok tt else Raise AssertionError.

(** A failed library-side check. *)
Definition require (b : bool) (e : exn) : result unit :=
  if b then Ok tt else Raise e.

(** [for x in l: s = body(s, x)] with exceptions leaving the loop. *)
Fixpoint for_each {A S : Type} (l : list A) (body : S -> A -> result S) (s : S)
  : result S :=
  match l with
  | [] => Ok s
  | x :: l' => s' <- body s x ;; for_each l' body s'
  end.

(** [[f(x) for x in l]] *)
Fixpoint comprehension {A B : Type} (f : A -> result B) (l : list A)
  : result (list B) :=
  match l with
  | [] => Ok []
  | x :: l' => y <- f x ;; ys <- comprehension f l' ;; Ok (y :: ys)
  end.

(* ===================================================================== *)
(** ** Tensors *)
(* ===================================================================== *)

Inductive Device : Type :=
| cpu_device
| cuda_device (index : nat).

Definition Device_eqb (a b : Device) : bool :=
  match a, b with
  | cpu_device, cpu_device => true
  | cuda_device i, cuda_device j => Nat.eqb i j
  | _, _ => false
  end.

(** A tensor: its sizes, its elements in row-major order, its device.
    Element types are not distinguished. *)
Record Tensor : Type := mkTensor {
  shape : list nat;
  data : list Z;
  device : Device
}.

Definition numel (s : list nat) : nat := fold_right Nat.mul 1 s.

(** A tensor owns exactly as many elements as its shape says. *)
Definition wf_tensor (t : Tensor) : Prop := length (data t) = numel (shape t).

Definition shape_eqb (s1 s2 : list nat) : bool :=
  if list_eq_dec Nat.eq_dec s1 s2 then true else false.

(** The [j]-th block of [m] consecutive elements. *)
Definition chunk (m j : nat) (l : list Z) : list Z := firstn m (skipn (j * m) l).

(** A dimension or an index that may count from the end. *)
Definition wrap_dim (dim : Z) (n : nat) : result nat :=
  if ((0 <=? dim) && (dim <? Z.of_nat n))%Z then Ok (Z.to_nat dim)
  else if ((- Z.of_nat n <=? dim) && (dim <? 0))%Z then Ok (Z.to_nat (dim + Z.of_nat n))
  else Raise IndexError.

(** [t.cpu()] *)
Definition Tensor_cpu (t : Tensor) : Tensor :=
  mkTensor (shape t) (data t) cpu_device.

(** [t.cuda()]: to the current CUDA device (device 0); a tensor already on a
    CUDA device is returned as it is. *)
Definition Tensor_cuda (t : Tensor) : Tensor :=
  match device t with
  | cuda_device _ => t
  | cpu_device => mkTensor (shape t) (data t) (cuda_device 0)
  end.

(** [torch.cat(ts, dim)]: sizes agree except along [dim]; one-dimensional
    empty tensors are skipped. *)
Definition legacy_empty (t : Tensor) : bool := shape_eqb (shape t) [0].

Definition same_except (d : nat) (s1 s2 : list nat) : bool :=
  Nat.eqb (length s1) (length s2)
  && shape_eqb (firstn d s1) (firstn d s2)
  && shape_eqb (skipn (S d) s1) (skipn (S d) s2).

Definition torch_cat (ts : list Tensor) (dim : Z) : result Tensor :=
  match filter (fun t => negb (legacy_empty t)) ts with
  | [] =>
      match ts with
      | [] => Raise RuntimeError
      | t :: _ => Ok t
      end
  | (t0 :: _) as ts' =>
      require (negb (Nat.eqb (length (shape t0)) 0)) RuntimeError ;;;
      d <- wrap_dim dim (length (shape t0)) ;;
      require (forallb (fun t => same_except d (shape t0) (shape t)) ts') RuntimeError ;;;
      require (forallb (fun t => Device_eqb (device t) (device t0)) ts') RuntimeError ;;;
      let outer := numel (firstn d (shape t0)) in
      let inner := numel (skipn (S d) (shape t0)) in
      Ok (mkTensor
            (firstn d (shape t0)
               ++ list_sum (map (fun t => nth d (shape t) 0) ts')
               :: skipn (S d) (shape t0))
            (flat_map
               (fun o => flat_map (fun t => chunk (nth d (shape t) 0 * inner) o (data t)) ts')
               (seq 0 outer))
            (device t0))
  end.

(** [torch.stack(ts, dim)]: equal sizes; a new axis of length [len(ts)] at
    position [dim]. *)
Definition torch_stack (ts : list Tensor) (dim : Z) : result Tensor :=
  match ts with
  | [] => Raise RuntimeError
  | t0 :: _ =>
      d <- wrap_dim dim (S (length (shape t0))) ;;
      require (forallb (fun t => shape_eqb (shape t) (shape t0)) ts) RuntimeError ;;;
      require (forallb (fun t => Device_eqb (device t) (device t0)) ts) RuntimeError ;;;
      let outer := numel (firstn d (shape t0)) in
      let inner := numel (skipn d (shape t0)) in
      Ok (mkTensor
            (firstn d (shape t0) ++ length ts :: skipn d (shape t0))
            (flat_map
               (fun o => flat_map (fun t => chunk inner o (data t)) ts)
               (seq 0 outer))
            (device t0))
  end.

(** [t.select(dim, index)], the slice [t[:, ..., index, ...]] that drops
    axis [dim]. *)
Definition torch_select (t : Tensor) (dim index : Z) : result Tensor :=
  d <- wrap_dim dim (length (shape t)) ;;
  i <- wrap_dim index (nth d (shape t) 0) ;;
  let outer := numel (firstn d (shape t)) in
  let n := nth d (shape t) 0 in
  let inner := numel (skipn (S d) (shape t)) in
  Ok (mkTensor
        (firstn d (shape t) ++ skipn (S d) (shape t))
        (flat_map (fun o => chunk inner (o * n + i) (data t)) (seq 0 outer))
        (device t)).

(* ===================================================================== *)
(** ** Python values, dictionaries and objects *)
(* ===================================================================== *)

#[warnings="-register-all"]
Inductive pyval : Type :=
| VTensor (t : Tensor)
| VList (l : list pyval)
| VDict (d : list (string * pyval))
| VNone.

(** A [dict] keeps its keys in insertion order. *)
Definition dict : Type := list (string * pyval).

Definition isinstance_Tensor (v : pyval) : bool :=
  match v with VTensor _ => true | _ => false end.

Definition isinstance_list (v : pyval) : bool :=
  match v with VList _ => true | _ => false end.

Fixpoint dict_get (k : string) (d : dict) : option pyval :=
  match d with
  | [] => None
  | (k', v) :: d' => if String.eqb k k' then Some v else dict_get k d'
  end.

(** [d[k] = v]: an existing key keeps its place, a new key goes last. *)
Fixpoint dict_set (k : string) (v : pyval) (d : dict) : dict :=
  match d with
  | [] => [(k, v)]
  | (k', v') :: d' =>
      if String.eqb k k' then (k, v) :: d' else (k', v') :: dict_set k v d'
  end.

(** [list(d.keys())] *)
Definition dict_keys (d : dict) : list string := map fst d.

(** [k in d] *)
Definition dict_contains (k : string) (d : dict) : bool :=
  match dict_get k d with Some _ => true | None => false end.

(** [{**a, **b}] *)
Definition dict_merge (a b : dict) : dict :=
  fold_left (fun acc kv => dict_set (fst kv) (snd kv) acc) b a.

Fixpoint dict_remove (k : string) (d : dict) : dict :=
  match d with
  | [] => []
  | (k', v) :: d' =>
      if String.eqb k k' then dict_remove k d' else (k', v) :: dict_remove k d'
  end.

(** [keys == list(...)] *)
Definition keys_eqb (a b : list string) : bool :=
  if list_eq_dec string_dec a b then true else false.

(** [v.keys()], [v.items()]: only a dict has them. *)
Definition as_dict (v : pyval) : result dict :=
  match v with
  | VDict d => Ok d
  | _ => Raise AttributeError
  end.

(** [**v] inside a dict display or a call. *)
Definition mapping (v : pyval) : result dict :=
  match v with
  | VDict d => Ok d
  | _ => Raise TypeError
  end.

(** [v[key]] for a string key. *)
Definition getitem (v : pyval) (key : string) : result pyval :=
  match v with
  | VDict d =>
      match dict_get key d with
      | Some x => Ok x
      | None => Raise KeyError
      end
  | VTensor _ => Raise IndexError
  | _ => Raise TypeError
  end.

(** [v[key] = value] for a string key. *)
Definition setitem (v : pyval) (key : string) (value : pyval) : result pyval :=
  match v with
  | VDict d => Ok (VDict (dict_set key value d))
  | VTensor _ => Raise IndexError
  | _ => Raise TypeError
  end.

(** [key in v] for a string key; only asked of a dict by well-formed
    containers. *)
Definition contains (v : pyval) (key : string) : result bool :=
  match v with
  | VDict d => Ok (dict_contains key d)
  | _ => Raise TypeError
  end.

(** [for x in v] over the value of a list field. *)
Definition iterate (v : pyval) : result (list pyval) :=
  match v with
  | VList l => Ok l
  | _ => Raise TypeError
  end.

(** [v.cpu()], [v.cuda()] *)
Definition method_cpu (v : pyval) : result pyval :=
  match v with
  | VTensor t => Ok (VTensor (Tensor_cpu t))
  | _ => Raise AttributeError
  end.

Definition method_cuda (v : pyval) : result pyval :=
  match v with
  | VTensor t => Ok (VTensor (Tensor_cuda t))
  | _ => Raise AttributeError
  end.

(** The list of tensors handed to [torch.cat] or [torch.stack]. *)
Definition tensor_list (vs : list pyval) : result (list Tensor) :=
  comprehension
    (fun v => match v with VTensor t => Ok t | _ => Raise TypeError end) vs.

(** The classes of [modeling_utils.py]. *)
Inductive klass : Type :=
| TensorsMixin
| ListTensorsMixin
| CombineTensorsMixin
| TensorsInputs
| ListTensorsInputs
| CombineTensorsInputs
| TensorsOutputs
| TensorsTargets
| ListTensorsOutputs
| ListTensorsTargets
| CombineTensorsOutputs
| CombineTensorsTargets
| LossOutputs.

(** The methods the container classes define; every class of the file has
    each of them, by definition or by inheritance. *)
Definition method_names : list string :=
  ["__post_init__"; "union"; "stack"; "add"; "cpu"; "cuda"; "sync"; "dict"].

(** What every instance finds on [object] and on its class as such, and what
    the [dataclass] decorator leaves on the two mixins (CPython 3.10). *)
Definition object_names : list string :=
  ["__class__"; "__delattr__"; "__dict__"; "__dir__"; "__doc__"; "__eq__";
   "__format__"; "__ge__"; "__getattribute__"; "__gt__"; "__hash__";
   "__init__"; "__init_subclass__"; "__le__"; "__lt__"; "__module__";
   "__ne__"; "__new__"; "__reduce__"; "__reduce_ex__"; "__repr__";
   "__setattr__"; "__sizeof__"; "__str__"; "__subclasshook__"; "__weakref__";
   "__dataclass_fields__"; "__dataclass_params__"; "__match_args__"].

(** What [abc.ABCMeta] leaves on [ModelInputs], [ModelOutputs] and
    [ModelTargets]. *)
Definition abc_names : list string := ["__abstractmethods__"; "_abc_impl"].

(** [fields(self)]: the names of the dataclass fields of the class.
    [LossOutputs] declares the one field of the file, without a default. *)
Definition fields (cls : klass) : list string :=
  match cls with
  | LossOutputs => ["loss"]
  | _ => []
  end.

(** The names an instance finds on its class. *)
Definition class_attribute (cls : klass) (name : string) : bool :=
  existsb (String.eqb name) (method_names ++ object_names)
  || match cls with
     | TensorsMixin | ListTensorsMixin | CombineTensorsMixin => false
     | LossOutputs =>
         existsb (String.eqb name) ("__annotations__" :: abc_names)
     | _ => existsb (String.eqb name) abc_names
     end.

(** An instance: its class and its own attributes.  The two mappings have a
    place of their own, where [None] is a mapping that was never assigned;
    [attributes] holds every other attribute the instance was given, in the
    order of the first assignment. *)
Record object : Type := mkObject {
  class_of : klass;
  __tensors__ : option pyval;
  __list_tensors__ : option pyval;
  attributes : dict
}.

Definition new_object (cls : klass) : object := mkObject cls None None [].

(** The instance's own attribute of that name. *)
Definition lookup_attr (self : object) (name : string) : option pyval :=
  if String.eqb name "__tensors__" then __tensors__ self
  else if String.eqb name "__list_tensors__" then __list_tensors__ self
  else dict_get name (attributes self).

(** [hasattr(self, name)]: an attribute of the instance or of its class. *)
Definition hasattr (self : object) (name : string) : bool :=
  match lookup_attr self name with
  | Some _ => true
  | None => class_attribute (class_of self) name
  end.

(** [self.name], [getattr(self, name)] for a name that is read as a value:
    the two mappings and the fields.  Methods are called, see
    [bound_method]. *)
Definition getattr (self : object) (name : string) : result pyval :=
  match lookup_attr self name with
  | Some v => Ok v
  | None => Raise AttributeError
  end.

(** The instance with its own attribute [name] bound to [v]. *)
Definition store_attr (self : object) (name : string) (v : pyval) : object :=
  if String.eqb name "__tensors__"
  then mkObject (class_of self) (Some v) (__list_tensors__ self) (attributes self)
  else if String.eqb name "__list_tensors__"
  then mkObject (class_of self) (__tensors__ self) (Some v) (attributes self)
  else mkObject (class_of self) (__tensors__ self) (__list_tensors__ self)
         (dict_set name v (attributes self)).

(** [setattr(self, name, v)], [self.name = v].  An instance takes any name
    but three: [__class__] must be a class and [__dict__] a dict, which then
    replaces all attributes, and [__weakref__] cannot be written. *)
Definition setattr (self : object) (name : string) (v : pyval) : result object :=
  if String.eqb name "__class__" then Raise TypeError
  else if String.eqb name "__dict__" then
    match v with
    | VDict d =>
        Ok (mkObject (class_of self)
              (dict_get "__tensors__" d) (dict_get "__list_tensors__" d)
              (dict_remove "__tensors__" (dict_remove "__list_tensors__" d)))
    | _ => Raise TypeError
    end
  else if String.eqb name "__weakref__" then Raise AttributeError
  else Ok (store_attr self name v).

(** [self.name[key] = value]: the dict the attribute holds is changed in
    place. *)
Definition setitem_attr (self : object) (name key : string) (value : pyval)
  : result object :=
  m <- getattr self name ;;
  m' <- setitem m key value ;;
  Ok (store_attr self name m').

(** [self.name( ... )] for a method [name] of the class: an attribute of that
    name on the instance itself comes first, and none of the values an
    instance holds (a tensor, a list, a dict, [None]) can be called. *)
Definition bound_method {A : Type} (self : object) (name : string) (method : result A)
  : result A :=
  match lookup_attr self name with
  | Some _ => Raise TypeError
  | None => method
  end.

(* ===================================================================== *)
(** ** TensorsMixin *)
(* ===================================================================== *)

(** [TensorsMixin.__post_init__] *)
Definition TensorsMixin___post_init__ (self : object) : result object :=
  self <-
    (if hasattr self "__tensors__" then Ok self
     else setattr self "__tensors__" (VDict [])) ;;
  m <- getattr self "__tensors__" ;;
  items <- as_dict m ;;
  for_each items
    (fun self '(key, tensor) =>
       py_assert (isinstance_Tensor tensor) ;;;
       setattr self key tensor)
    self.

(** [if isinstance(value, torch.Tensor): value = [value]] *)
Definition single_tensor_as_list (value : pyval) : pyval :=
  if isinstance_Tensor value then VList [value] else value.

(** [ListTensorsMixin.__post_init__] *)
Definition ListTensorsMixin___post_init__ (self : object) : result object :=
  self <-
    (if hasattr self "__list_tensors__" then Ok self
     else setattr self "__list_tensors__" (VDict [])) ;;
  m <- getattr self "__list_tensors__" ;;
  items <- as_dict m ;;
  let new_list_tensors :=
    fold_left
      (fun new_list_tensors '(key, value) =>
         let value := single_tensor_as_list value in
         dict_set key value new_list_tensors)
      items [] in
  self <- setattr self "__list_tensors__" (VDict new_list_tensors) ;;
  for_each new_list_tensors
    (fun self '(key, list_tensor) =>
       py_assert (isinstance_list list_tensor) ;;;
       l <- iterate list_tensor ;;
       py_assert (forallb isinstance_Tensor l) ;;;
       setattr self key list_tensor)
    self.

(** [TensorsOutputs.__post_init__] and [TensorsTargets.__post_init__]: the
    mapping is filled from the dataclass fields; [super().__post_init__()]
    is [TensorsMixin.__post_init__]. *)
Definition TensorsOutputs___post_init__ (self : object) : result object :=
  self <- setattr self "__tensors__" (VDict []) ;;
  self <-
    for_each (fields (class_of self))
      (fun self f =>
         v <- getattr self f ;;
         setitem_attr self "__tensors__" f v)
      self ;;
  TensorsMixin___post_init__ self.

(** [ListTensorsOutputs.__post_init__] and
    [ListTensorsTargets.__post_init__] *)
Definition ListTensorsOutputs___post_init__ (self : object) : result object :=
  self <- setattr self "__list_tensors__" (VDict []) ;;
  self <-
    for_each (fields (class_of self))
      (fun self f =>
         v <- getattr self f ;;
         setitem_attr self "__list_tensors__" f v)
      self ;;
  ListTensorsMixin___post_init__ self.

(** [CombineTensorsMixin.__post_init__] *)
Definition CombineTensorsMixin___post_init__ (self : object) : result object :=
  self <- TensorsMixin___post_init__ self ;;
  ListTensorsMixin___post_init__ self.

(** [CombineTensorsMixin.__init__]; [CombineTensorsInputs.__init__],
    [CombineTensorsOutputs.__init__] and [CombineTensorsTargets.__init__]
    pass their two arguments on to it. *)
Definition CombineTensorsMixin___init__
  (self : object) (dict_of_tensors dict_of_list_tensors : pyval) : result object :=
  self <- setattr self "__tensors__" dict_of_tensors ;;
  self <- setattr self "__list_tensors__" dict_of_list_tensors ;;
  CombineTensorsMixin___post_init__ self.

(** [TensorsInputs.__init__] *)
Definition TensorsInputs___init__ (self : object) (inputs : pyval) (kwargs : dict)
  : result object :=
  self <- setattr self "__tensors__" (VDict []) ;;
  inputs <- mapping inputs ;;
  for_each (dict_merge inputs kwargs)
    (fun self '(k, v) =>
       self <- (if hasattr self k then Ok self else setattr self k v) ;;
       setitem_attr self "__tensors__" k v)
    self.

(** [ListTensorsInputs.__init__] *)
Definition ListTensorsInputs___init__ (self : object) (inputs : pyval) (kwargs : dict)
  : result object :=
  self <- setattr self "__list_tensors__" (VDict []) ;;
  inputs <- mapping inputs ;;
  self <- for_each (dict_merge inputs kwargs)
    (fun self '(k, v) =>
       self <- (if hasattr self k then Ok self else setattr self k v) ;;
       setitem_attr self "__list_tensors__" k v)
    self ;;
  ListTensorsMixin___post_init__ self.

(** A keyword argument when given, else the parameter's default [dict()]. *)
Definition keyword_or_default (name : string) (kw : dict) : pyval :=
  match dict_get name kw with
  | Some v => v
  | None => VDict []
  end.

(** [cls( **kw )]: the keywords are bound to the parameters of the class's
    [__init__].  The two mixins are dataclasses without fields, whose
    generated [__init__] takes no argument and calls [self.__post_init__()];
    the [Outputs] and [Targets] classes of one mapping inherit it.  The
    generated [__init__] of [LossOutputs] takes [loss], assigns it and calls
    [self.__post_init__()]. *)
Definition call (cls : klass) (kw : dict) : result object :=
  require (negb (dict_contains "self" kw)) TypeError ;;;
  match cls with
  | TensorsMixin =>
      require (Nat.eqb (length kw) 0) TypeError ;;;
      TensorsMixin___post_init__ (new_object cls)
  | ListTensorsMixin =>
      require (Nat.eqb (length kw) 0) TypeError ;;;
      ListTensorsMixin___post_init__ (new_object cls)
  | TensorsOutputs | TensorsTargets =>
      require (Nat.eqb (length kw) 0) TypeError ;;;
      TensorsOutputs___post_init__ (new_object cls)
  | ListTensorsOutputs | ListTensorsTargets =>
      require (Nat.eqb (length kw) 0) TypeError ;;;
      ListTensorsOutputs___post_init__ (new_object cls)
  | LossOutputs =>
      require (forallb (String.eqb "loss") (dict_keys kw)) TypeError ;;;
      match dict_get "loss" kw with
      | None => Raise TypeError
      | Some loss =>
          self <- setattr (new_object cls) "loss" loss ;;
          TensorsOutputs___post_init__ self
      end
  | TensorsInputs =>
      TensorsInputs___init__ (new_object cls)
        (keyword_or_default "inputs" kw) (dict_remove "inputs" kw)
  | ListTensorsInputs =>
      ListTensorsInputs___init__ (new_object cls)
        (keyword_or_default "inputs" kw) (dict_remove "inputs" kw)
  | CombineTensorsMixin | CombineTensorsInputs
  | CombineTensorsOutputs | CombineTensorsTargets =>
      require
        (forallb
           (fun k => String.eqb k "dict_of_tensors"
                     || String.eqb k "dict_of_list_tensors")
           (dict_keys kw))
        TypeError ;;;
      CombineTensorsMixin___init__ (new_object cls)
        (keyword_or_default "dict_of_tensors" kw)
        (keyword_or_default "dict_of_list_tensors" kw)
  end.

(** [list(o.__tensors__.keys())] *)
Definition tensors_keys (o : object) : result (list string) :=
  m <- getattr o "__tensors__" ;;
  d <- as_dict m ;;
  Ok (dict_keys d).

(** [for tensors in list_tensors: assert keys == list(tensors.__tensors__.keys())] *)
Definition assert_same_tensors_keys (keys : list string) (list_tensors : list object)
  : result unit :=
  for_each list_tensors
    (fun _ tensors =>
       ks <- tensors_keys tensors ;;
       py_assert (keys_eqb keys ks))
    tt.

(** [[tensors.__tensors__[key] for tensors in list_tensors]] *)
Definition gather_tensors (key : string) (list_tensors : list object)
  : result (list pyval) :=
  comprehension
    (fun tensors => m <- getattr tensors "__tensors__" ;; getitem m key)
    list_tensors.

(** [TensorsMixin.union] *)
Definition TensorsMixin_union (cls : klass) (list_tensors : list object) (dim : Z)
  : result object :=
  match list_tensors with
  | [] => call cls []
  | first_tensors :: _ =>
      keys <- tensors_keys first_tensors ;;
      assert_same_tensors_keys keys list_tensors ;;;
      new_tensors <-
        for_each keys
          (fun new_tensors key =>
             new_tensor <- gather_tensors key list_tensors ;;
             ts <- tensor_list new_tensor ;;
             t <- torch_cat ts dim ;;
             Ok (dict_set key (VTensor t) new_tensors))
          [] ;;
      call cls new_tensors
  end.

(** [TensorsMixin.stack] *)
Definition TensorsMixin_stack (cls : klass) (list_tensors : list object) (dim : Z)
  : result object :=
  match list_tensors with
  | [] => call cls []
  | first_tensors :: _ =>
      keys <- tensors_keys first_tensors ;;
      assert_same_tensors_keys keys list_tensors ;;;
      new_tensors <-
        for_each keys
          (fun new_tensors key =>
             new_tensor <- gather_tensors key list_tensors ;;
             ts <- tensor_list new_tensor ;;
             t <- torch_stack ts dim ;;
             Ok (dict_set key (VTensor t) new_tensors))
          [] ;;
      call cls new_tensors
  end.

(** The argument of [add]: a dict or another container. *)
Inductive dict_or_object : Type :=
| a_dict (d : dict)
| an_object (o : object).

(** [TensorsMixin.add].  On a key that is already present the source
    evaluates [assert ValueError(...)]: the asserted value is an exception
    instance, which is true, so nothing is raised. *)
Definition TensorsMixin_add (self : object) (tensors : dict_or_object)
  : result object :=
  tensors_dict <-
    match tensors with
    | a_dict d => Ok d
    | an_object o => m <- getattr o "__tensors__" ;; as_dict m
    end ;;
  for_each tensors_dict
    (fun self '(key, value) =>
       py_assert (isinstance_Tensor value) ;;;
       m <- getattr self "__tensors__" ;;
       present <- contains m key ;;
       if present then
         py_assert true ;;;
         Ok self
       else
         self <- setitem_attr self "__tensors__" key value ;;
         setattr self key value)
    self.

(** [TensorsMixin.cpu]: the receiver afterwards and the returned value
    ([None] for Python's [None]). *)
Definition TensorsMixin_cpu (self : object) (inplace : bool)
  : result (object * option object) :=
  m <- getattr self "__tensors__" ;;
  items <- as_dict m ;;
  new_tensors <-
    for_each items
      (fun new_tensors '(key, value) =>
         new_value <- method_cpu value ;;
         Ok (dict_set key new_value new_tensors))
      [] ;;
  if inplace then
    self <- for_each new_tensors
      (fun self '(key, value) => setitem_attr self "__tensors__" key value)
      self ;;
    Ok (self, None)
  else
    r <- call (class_of self) new_tensors ;;
    Ok (self, Some r).

(** [TensorsMixin.cuda] *)
Definition TensorsMixin_cuda (self : object) (inplace : bool)
  : result (object * option object) :=
  m <- getattr self "__tensors__" ;;
  items <- as_dict m ;;
  new_tensors <-
    for_each items
      (fun new_tensors '(key, value) =>
         new_value <- method_cuda value ;;
         Ok (dict_set key new_value new_tensors))
      [] ;;
  if inplace then
    self <- for_each new_tensors
      (fun self '(key, value) => setitem_attr self "__tensors__" key value)
      self ;;
    Ok (self, None)
  else
    r <- call (class_of self) new_tensors ;;
    Ok (self, Some r).

(** [TensorsMixin.dict] *)
Definition TensorsMixin_dict (self : object) : result pyval :=
  getattr self "__tensors__".

(* ===================================================================== *)
(** ** ListTensorsMixin *)
(* ===================================================================== *)

(** [list(o.__list_tensors__.keys())] *)
Definition list_tensors_keys (o : object) : result (list string) :=
  m <- getattr o "__list_tensors__" ;;
  d <- as_dict m ;;
  Ok (dict_keys d).

Definition assert_same_list_tensors_keys
  (keys : list string) (list_of_list_tensors : list object) : result unit :=
  for_each list_of_list_tensors
    (fun _ list_tensors =>
       ks <- list_tensors_keys list_tensors ;;
       py_assert (keys_eqb keys ks))
    tt.

(** [[list_tensors.__list_tensors__[key] for list_tensors in list_of_list_tensors]] *)
Definition gather_list_tensors (key : string) (list_of_list_tensors : list object)
  : result (list pyval) :=
  comprehension
    (fun list_tensors => m <- getattr list_tensors "__list_tensors__" ;; getitem m key)
    list_of_list_tensors.

(** [list(chain.from_iterable(ls))] *)
Definition chain_from_iterable (ls : list pyval) : result (list pyval) :=
  for_each ls (fun acc l => xs <- iterate l ;; Ok (acc ++ xs)) [].

(** [len(v)] of a list field's value. *)
Definition len (v : pyval) : result nat :=
  match v with
  | VList l => Ok (length l)
  | VDict d => Ok (length d)
  | _ => Raise TypeError
  end.

(** [ListTensorsMixin.union] *)
Definition ListTensorsMixin_union
  (cls : klass) (list_of_list_tensors : list object) (dim : Z) : result object :=
  match list_of_list_tensors with
  | [] => call cls []
  | first_list_tensors :: _ =>
      keys <- list_tensors_keys first_list_tensors ;;
      assert_same_list_tensors_keys keys list_of_list_tensors ;;;
      new_list_tensors <-
        for_each keys
          (fun new_list_tensors key =>
             new_list_tensor <- gather_list_tensors key list_of_list_tensors ;;
             flat <- chain_from_iterable new_list_tensor ;;
             Ok (dict_set key (VList flat) new_list_tensors))
          [] ;;
      call cls new_list_tensors
  end.

(** [ListTensorsMixin.stack] *)
Definition ListTensorsMixin_stack
  (cls : klass) (list_of_list_tensors : list object) (dim : Z) : result object :=
  match list_of_list_tensors with
  | [] => call cls []
  | first_list_tensors :: _ =>
      keys <- list_tensors_keys first_list_tensors ;;
      assert_same_list_tensors_keys keys list_of_list_tensors ;;;
      new_list_tensors <-
        for_each keys
          (fun new_list_tensors key =>
             new_list_tensor <- gather_list_tensors key list_of_list_tensors ;;
             lens <- comprehension len new_list_tensor ;;
             py_assert (forallb (fun n => Nat.eqb n 1) lens) ;;;
             flat <- chain_from_iterable new_list_tensor ;;
             Ok (dict_set key (VList flat) new_list_tensors))
          [] ;;
      call cls new_list_tensors
  end.

(** [ListTensorsMixin.add]; the same [assert ValueError(...)] as in
    [TensorsMixin.add]. *)
Definition ListTensorsMixin_add (self : object) (list_tensors : dict_or_object)
  : result object :=
  list_tensors_dict <-
    match list_tensors with
    | a_dict d => Ok d
    | an_object o => m <- getattr o "__list_tensors__" ;; as_dict m
    end ;;
  for_each list_tensors_dict
    (fun self '(key, value) =>
       py_assert (isinstance_list value) ;;;
       m <- getattr self "__list_tensors__" ;;
       present <- contains m key ;;
       if present then
         py_assert true ;;;
         Ok self
       else
         let value := single_tensor_as_list value in
         self <- setitem_attr self "__list_tensors__" key value ;;
         setattr self key value)
    self.

(** [ListTensorsMixin.cpu].  With [inplace] the source assigns
    [self.__tensors__[key] = value]. *)
Definition ListTensorsMixin_cpu (self : object) (inplace : bool)
  : result (object * option object) :=
  m <- getattr self "__list_tensors__" ;;
  items <- as_dict m ;;
  new_list_tensors <-
    for_each items
      (fun new_list_tensors '(key, value) =>
         l <- iterate value ;;
         new_value <- comprehension method_cpu l ;;
         Ok (dict_set key (VList new_value) new_list_tensors))
      [] ;;
  if inplace then
    self <- for_each new_list_tensors
      (fun self '(key, value) => setitem_attr self "__tensors__" key value)
      self ;;
    Ok (self, None)
  else
    r <- call (class_of self) new_list_tensors ;;
    Ok (self, Some r).

(** [ListTensorsMixin.cuda].  With [inplace] the source assigns
    [self.__list_tensors__[key] = value]. *)
Definition ListTensorsMixin_cuda (self : object) (inplace : bool)
  : result (object * option object) :=
  m <- getattr self "__list_tensors__" ;;
  items <- as_dict m ;;
  new_list_tensors <-
    for_each items
      (fun new_list_tensors '(key, value) =>
         l <- iterate value ;;
         new_value <- comprehension method_cuda l ;;
         Ok (dict_set key (VList new_value) new_list_tensors))
      [] ;;
  if inplace then
    self <- for_each new_list_tensors
      (fun self '(key, value) => setitem_attr self "__list_tensors__" key value)
      self ;;
    Ok (self, None)
  else
    r <- call (class_of self) new_list_tensors ;;
    Ok (self, Some r).

(** [ListTensorsMixin.dict] *)
Definition ListTensorsMixin_dict (self : object) : result pyval :=
  getattr self "__list_tensors__".

(* ===================================================================== *)
(** ** CombineTensorsMixin *)
(* ===================================================================== *)

(** [for mix_tensors in list_of_mix_tensors: assert ...; assert ...] *)
Definition assert_same_mix_keys
  (tensors_keys_ list_tensors_keys_ : list string) (list_of_mix_tensors : list object)
  : result unit :=
  for_each list_of_mix_tensors
    (fun _ mix_tensors =>
       ks <- tensors_keys mix_tensors ;;
       py_assert (keys_eqb tensors_keys_ ks) ;;;
       ls <- list_tensors_keys mix_tensors ;;
       py_assert (keys_eqb list_tensors_keys_ ls))
    tt.

(** [cls(dict_of_tensors=a, dict_of_list_tensors=b)] *)
Definition call_combine (cls : klass) (a b : dict) : result object :=
  call cls [("dict_of_tensors", VDict a); ("dict_of_list_tensors", VDict b)].

(** [CombineTensorsMixin.union] *)
Definition CombineTensorsMixin_union
  (cls : klass) (list_of_mix_tensors : list object) (dim : Z) : result object :=
  match list_of_mix_tensors with
  | [] => call cls []
  | first_mix_tensors :: _ =>
      tensors_keys_ <- tensors_keys first_mix_tensors ;;
      list_tensors_keys_ <- list_tensors_keys first_mix_tensors ;;
      assert_same_mix_keys tensors_keys_ list_tensors_keys_ list_of_mix_tensors ;;;
      new_tensors <-
        for_each tensors_keys_
          (fun new_tensors key =>
             new_tensor <- gather_tensors key list_of_mix_tensors ;;
             ts <- tensor_list new_tensor ;;
             t <- torch_cat ts dim ;;
             Ok (dict_set key (VTensor t) new_tensors))
          [] ;;
      new_list_tensors <-
        for_each list_tensors_keys_
          (fun new_list_tensors key =>
             new_list_tensor <- gather_list_tensors key list_of_mix_tensors ;;
             flat <- chain_from_iterable new_list_tensor ;;
             Ok (dict_set key (VList flat) new_list_tensors))
          [] ;;
      call_combine cls new_tensors new_list_tensors
  end.

(** [CombineTensorsMixin.stack]: the gathered lists are stored as they are,
    one list per input. *)
Definition CombineTensorsMixin_stack
  (cls : klass) (list_of_mix_tensors : list object) (dim : Z) : result object :=
  match list_of_mix_tensors with
  | [] => call cls []
  | first_mix_tensors :: _ =>
      tensors_keys_ <- tensors_keys first_mix_tensors ;;
      list_tensors_keys_ <- list_tensors_keys first_mix_tensors ;;
      assert_same_mix_keys tensors_keys_ list_tensors_keys_ list_of_mix_tensors ;;;
      new_tensors <-
        for_each tensors_keys_
          (fun new_tensors key =>
             new_tensor <- gather_tensors key list_of_mix_tensors ;;
             ts <- tensor_list new_tensor ;;
             t <- torch_stack ts dim ;;
             Ok (dict_set key (VTensor t) new_tensors))
          [] ;;
      new_list_tensors <-
        for_each list_tensors_keys_
          (fun new_list_tensors key =>
             new_list_tensor <- gather_list_tensors key list_of_mix_tensors ;;
             Ok (dict_set key (VList new_list_tensor) new_list_tensors))
          [] ;;
      call_combine cls new_tensors new_list_tensors
  end.

(** [isinstance(o, TensorsMixin)], [isinstance(o, ListTensorsMixin)] *)
Definition isinstance_TensorsMixin (o : object) : bool :=
  match class_of o with
  | ListTensorsMixin | ListTensorsInputs | ListTensorsOutputs | ListTensorsTargets =>
      false
  | _ => true
  end.

Definition isinstance_ListTensorsMixin (o : object) : bool :=
  match class_of o with
  | TensorsMixin | TensorsInputs | TensorsOutputs | TensorsTargets | LossOutputs =>
      false
  | _ => true
  end.

(** An attribute value handed to a mixin's [add]: a dict is taken as it is;
    of any other value [add] reads the mapping attribute, which a tensor, a
    list and [None] do not have. *)
Definition mapping_or_object (m : pyval) : result dict_or_object :=
  match m with
  | VDict d => Ok (a_dict d)
  | _ => Raise AttributeError
  end.

(** [CombineTensorsMixin.add] *)
Definition CombineTensorsMixin_add (self mix_tensors : object) : result object :=
  self <-
    (if isinstance_TensorsMixin mix_tensors then
       m <- getattr mix_tensors "__tensors__" ;;
       d <- mapping_or_object m ;;
       TensorsMixin_add self d
     else Ok self) ;;
  if isinstance_ListTensorsMixin mix_tensors then
    m <- getattr mix_tensors "__list_tensors__" ;;
    d <- mapping_or_object m ;;
    ListTensorsMixin_add self d
  else Ok self.

(** [CombineTensorsMixin.cpu] *)
Definition CombineTensorsMixin_cpu (self : object) (inplace : bool)
  : result (object * option object) :=
  '(self, new_tensors) <- TensorsMixin_cpu self inplace ;;
  '(self, new_list_tensors) <- ListTensorsMixin_cpu self inplace ;;
  if inplace then Ok (self, None)
  else
    match new_tensors, new_list_tensors with
    | Some new_tensors, Some new_list_tensors =>
        a <- getattr new_tensors "__tensors__" ;;
        b <- getattr new_list_tensors "__list_tensors__" ;;
        r <- call (class_of self)
               [("dict_of_tensors", a); ("dict_of_list_tensors", b)] ;;
        Ok (self, Some r)
    | _, _ => Raise AttributeError
    end.

(** [CombineTensorsMixin.cuda] *)
Definition CombineTensorsMixin_cuda (self : object) (inplace : bool)
  : result (object * option object) :=
  '(self, new_tensors) <- TensorsMixin_cuda self inplace ;;
  '(self, new_list_tensors) <- ListTensorsMixin_cuda self inplace ;;
  if inplace then Ok (self, None)
  else
    match new_tensors, new_list_tensors with
    | Some new_tensors, Some new_list_tensors =>
        a <- getattr new_tensors "__tensors__" ;;
        b <- getattr new_list_tensors "__list_tensors__" ;;
        r <- call (class_of self)
               [("dict_of_tensors", a); ("dict_of_list_tensors", b)] ;;
        Ok (self, Some r)
    | _, _ => Raise AttributeError
    end.

(** [CombineTensorsMixin.dict] *)
Definition CombineTensorsMixin_dict (self : object) : result pyval :=
  a <- getattr self "__tensors__" ;;
  b <- getattr self "__list_tensors__" ;;
  a <- mapping a ;;
  b <- mapping b ;;
  Ok (VDict (dict_merge a b)).

(* ===================================================================== *)
(** ** Method resolution *)
(* ===================================================================== *)

(** The mixin whose methods a class has: the first of [TensorsMixin],
    [ListTensorsMixin] and [CombineTensorsMixin] on its resolution order. *)
Inductive mixin : Type :=
| tensors_mixin
| list_tensors_mixin
| combine_tensors_mixin.

Definition mixin_of (cls : klass) : mixin :=
  match cls with
  | TensorsMixin | TensorsInputs | TensorsOutputs | TensorsTargets | LossOutputs =>
      tensors_mixin
  | ListTensorsMixin | ListTensorsInputs | ListTensorsOutputs | ListTensorsTargets =>
      list_tensors_mixin
  | CombineTensorsMixin | CombineTensorsInputs
  | CombineTensorsOutputs | CombineTensorsTargets =>
      combine_tensors_mixin
  end.

(** [cls.union( *bundles, dim=dim )] *)
Definition union (cls : klass) (bundles : list object) (dim : Z) : result object :=
  match mixin_of cls with
  | tensors_mixin => TensorsMixin_union cls bundles dim
  | list_tensors_mixin => ListTensorsMixin_union cls bundles dim
  | combine_tensors_mixin => CombineTensorsMixin_union cls bundles dim
  end.

(** [cls.stack( *bundles, dim=dim )] *)
Definition stack (cls : klass) (bundles : list object) (dim : Z) : result object :=
  match mixin_of cls with
  | tensors_mixin => TensorsMixin_stack cls bundles dim
  | list_tensors_mixin => ListTensorsMixin_stack cls bundles dim
  | combine_tensors_mixin => CombineTensorsMixin_stack cls bundles dim
  end.

(** [self.add(other)]; a combined container looks at the class of [other],
    and a dict is an instance of neither mixin. *)
Definition add (self : object) (other : dict_or_object) : result object :=
  bound_method self "add"
    match mixin_of (class_of self) with
    | tensors_mixin => TensorsMixin_add self other
    | list_tensors_mixin => ListTensorsMixin_add self other
    | combine_tensors_mixin =>
        match other with
        | a_dict _ => Ok self
        | an_object mix_tensors => CombineTensorsMixin_add self mix_tensors
        end
    end.

(** [self.cpu(inplace)] *)
Definition cpu (self : object) (inplace : bool) : result (object * option object) :=
  bound_method self "cpu"
    match mixin_of (class_of self) with
    | tensors_mixin => TensorsMixin_cpu self inplace
    | list_tensors_mixin => ListTensorsMixin_cpu self inplace
    | combine_tensors_mixin => CombineTensorsMixin_cpu self inplace
    end.

(** [self.cuda(inplace)] *)
Definition cuda (self : object) (inplace : bool) : result (object * option object) :=
  bound_method self "cuda"
    match mixin_of (class_of self) with
    | tensors_mixin => TensorsMixin_cuda self inplace
    | list_tensors_mixin => ListTensorsMixin_cuda self inplace
    | combine_tensors_mixin => CombineTensorsMixin_cuda self inplace
    end.

(** [self.dict()] *)
Definition dict_ (self : object) : result pyval :=
  bound_method self "dict"
    match mixin_of (class_of self) with
    | tensors_mixin => TensorsMixin_dict self
    | list_tensors_mixin => ListTensorsMixin_dict self
    | combine_tensors_mixin => CombineTensorsMixin_dict self
    end.

(* ===================================================================== *)
(** ** Generation wrappers *)
(* ===================================================================== *)

(** [t.size(dim)] *)
Definition Tensor_size (t : Tensor) (dim : Z) : result nat :=
  d <- wrap_dim dim (length (shape t)) ;;
  Ok (nth d (shape t) 0).

(** [t.reshape( *sizes )], where one size may be [-1] and is then inferred. *)
Definition torch_reshape (t : Tensor) (sizes : list Z) : result Tensor :=
  require (forallb (fun s => (-1 <=? s)%Z) sizes) RuntimeError ;;;
  let n := Z.of_nat (numel (shape t)) in
  let known := fold_right Z.mul 1%Z (filter (fun s => negb (s =? -1)%Z) sizes) in
  match count_occ Z.eq_dec sizes (-1)%Z with
  | 0 =>
      require (known =? n)%Z RuntimeError ;;;
      Ok (mkTensor (map Z.to_nat sizes) (data t) (device t))
  | 1 =>
      require (0 <? known)%Z RuntimeError ;;;
      require (n mod known =? 0)%Z RuntimeError ;;;
      Ok (mkTensor
            (map (fun s => if (s =? -1)%Z then Z.to_nat (n / known) else Z.to_nat s) sizes)
            (data t) (device t))
  | _ => Raise RuntimeError
  end.

(** [torch.zeros( *sizes )] *)
Definition torch_zeros (sizes : list Z) : result Tensor :=
  require (forallb (fun s => (0 <=? s)%Z) sizes) RuntimeError ;;;
  let s := map Z.to_nat sizes in
  Ok (mkTensor s (repeat 0%Z (numel s)) cpu_device).

(** [t.to(device=d)] *)
Definition Tensor_to (t : Tensor) (d : Device) : Tensor :=
  mkTensor (shape t) (data t) d.

(** [t.long()]; element types are not distinguished. *)
Definition Tensor_long (t : Tensor) : Tensor := t.

(** The bounds of the Python slice [start:stop] on an axis of length [n]:
    a negative bound counts from the end, and both are clamped to [0..n]. *)
Definition slice_bound (i : Z) (n : nat) : nat :=
  let i := if (i <? 0)%Z then (i + Z.of_nat n)%Z else i in
  Z.to_nat (Z.max 0 (Z.min i (Z.of_nat n))).

Definition slice_bounds (start stop : option Z) (n : nat) : nat * nat :=
  let lo := match start with Some i => slice_bound i n | None => 0 end in
  let hi := match stop with Some i => slice_bound i n | None => n end in
  (lo, hi - lo).

(** [t[:, :, start:stop]] of a tensor with three axes. *)
Definition index_last_slice (t : Tensor) (start stop : option Z) : result Tensor :=
  match shape t with
  | [a; b; n] =>
      let '(lo, m) := slice_bounds start stop n in
      Ok (mkTensor [a; b; m]
            (flat_map (fun r => firstn m (skipn lo (chunk n r (data t)))) (seq 0 (a * b)))
            (device t))
  | _ => Raise IndexError
  end.

(** [dest[:, :, start:stop].copy_(src)] for tensors with three axes: [src]
    has the sizes of the slice, or size one along the last axis and is then
    repeated along it.  The result is [dest] afterwards. *)
Definition copy_into_last_slice
  (dest : Tensor) (start stop : option Z) (src : Tensor) : result Tensor :=
  match shape dest, shape src with
  | [a; b; n], [a'; b'; w] =>
      let '(lo, m) := slice_bounds start stop n in
      require (Nat.eqb a a' && Nat.eqb b b' && (Nat.eqb w m || Nat.eqb w 1))
        RuntimeError ;;;
      Ok (mkTensor [a; b; n]
            (flat_map
               (fun r =>
                  let drow := chunk n r (data dest) in
                  let srow := chunk w r (data src) in
                  firstn lo drow
                    ++ (if Nat.eqb w m then srow else repeat (hd 0%Z srow) m)
                    ++ skipn (lo + m) drow)
               (seq 0 (a * b)))
            (device dest))
  | _, _ => Raise IndexError
  end.

Section Generation.

(** [self.model.generate(input_ids, max_length=.., min_length=..,
    num_return_sequences=.., ...)]: the decoder of the wrapped library,
    through the [sequences] of its output.  The other keyword arguments
    are handed over unchanged. *)
Variable model_generate : Tensor -> Z -> Z -> Z -> result Tensor.

(** [ChatGLMForGeneration.generate]: the [sequences] of the returned
    [GenericOutputs]. *)
Definition ChatGLMForGeneration_generate
  (input_ids : Tensor)
  (num_return_sequences min_gen_seq_length max_gen_seq_length : Z)
  : result Tensor :=
  input_seq_length <- Tensor_size input_ids 1 ;;
  let input_seq_length := Z.of_nat input_seq_length in
  outputs_sequences <-
    model_generate input_ids
      (max_gen_seq_length + input_seq_length)%Z
      (min_gen_seq_length + input_seq_length)%Z
      num_return_sequences ;;
  last <- Tensor_size outputs_sequences (-1) ;;
  let last := Z.of_nat last in
  sequences <- torch_reshape outputs_sequences [(-1)%Z; num_return_sequences; last] ;;
  size0 <- Tensor_size sequences 0 ;;
  zeros <- torch_zeros [Z.of_nat size0; num_return_sequences; max_gen_seq_length] ;;
  let outputs_sequences := Tensor_to zeros (device sequences) in
  src <- index_last_slice sequences (Some input_seq_length) (Some last) ;;
  outputs_sequences <-
    copy_into_last_slice outputs_sequences None (Some (last - input_seq_length)%Z) src ;;
  outputs_sequences <-
    (if (num_return_sequences =? 1)%Z
     then torch_reshape outputs_sequences [(-1)%Z; max_gen_seq_length]
     else Ok outputs_sequences) ;;
  Ok (Tensor_long outputs_sequences).

(** [XProphetNetForGeneration.generate]: the [sequences] of the returned
    [GenericOutputs]. *)
Definition XProphetNetForGeneration_generate
  (input_ids : Tensor)
  (num_return_sequences min_gen_seq_length max_gen_seq_length : Z)
  : result Tensor :=
  outputs_sequences <-
    model_generate input_ids max_gen_seq_length min_gen_seq_length
      num_return_sequences ;;
  last <- Tensor_size outputs_sequences (-1) ;;
  let last := Z.of_nat last in
  sequences <- torch_reshape outputs_sequences [(-1)%Z; num_return_sequences; last] ;;
  size0 <- Tensor_size sequences 0 ;;
  zeros <- torch_zeros [Z.of_nat size0; num_return_sequences; max_gen_seq_length] ;;
  let outputs_sequences := Tensor_to zeros (device sequences) in
  outputs_sequences <-
    copy_into_last_slice outputs_sequences None (Some last) sequences ;;
  outputs_sequences <-
    (if (num_return_sequences =? 1)%Z
     then torch_reshape outputs_sequences [(-1)%Z; max_gen_seq_length]
     else Ok outputs_sequences) ;;
  Ok outputs_sequences.

End Generation.

(* ===================================================================== *)
(** ** MiniGPT4ViTLlamaProcessor *)
(* ===================================================================== *)

(** [l[:stop]] *)
Definition slice_to {A : Type} (stop : Z) (l : list A) : list A :=
  firstn (slice_bound stop (length l)) l.

(** [[x] * n] *)
Definition times {A : Type} (x : A) (n : Z) : list A := repeat x (Z.to_nat n).

(** [len(l)] *)
Definition zlen {A : Type} (l : list A) : Z := Z.of_nat (length l).

(** [torch.tensor(ids, dtype=torch.long)] *)
Definition torch_tensor (ids : list Z) : Tensor :=
  mkTensor [length ids] ids cpu_device.

Section MiniGPT4ViTLlamaProcessor.

(** Images are opaque. *)
Variable Image : Type.

(** [self.tokenizer.tokenize] and [self.tokenizer.convert_tokens_to_ids] of
    the wrapped tokenizer. *)
Variable tokenize : string -> list string.
Variable convert_tokens_to_ids : list string -> list Z.

(** [self.bos_token], [self.eos_token], [self.pad_token],
    [self.pad_token_id] *)
Variables bos_token eos_token pad_token : string.
Variable pad_token_id : Z.

(** [self.max_seq_length], [self.max_gen_seq_length] *)
Variables self_max_seq_length self_max_gen_seq_length : option Z.

(** [unitorch.utils.pop_value] on an argument and its fallback. *)
Variable pop_value : option Z -> option Z -> result Z.

(** [HfImageClassificationProcessor.classification(self, image=image)],
    through the [pixel_values] of its output. *)
Variable classification_pixel_values : Image -> result pyval.

(** [MiniGPT4ViTLlamaProcessor.prompt]: the fields of the returned
    [GenericOutputs]. *)
Definition MiniGPT4ViTLlamaProcessor_prompt
  (prefix_text suffix_text : string) (image : Image) (max_seq_length : option Z)
  : result dict :=
  max_seq_length <- pop_value max_seq_length self_max_seq_length ;;
  let prefix_tokens := tokenize prefix_text in
  let suffix_tokens := slice_to (max_seq_length - 1) (tokenize suffix_text) in
  let prefix_tokens :=
    slice_to (max_seq_length - zlen suffix_tokens - 1) prefix_tokens in
  let prefix_tokens := bos_token :: prefix_tokens in
  let padding := times pad_token (max_seq_length - zlen prefix_tokens) in
  let prefix_tokens := padding ++ prefix_tokens in
  let prefix_input_ids := convert_tokens_to_ids prefix_tokens in
  let suffix_input_ids := convert_tokens_to_ids suffix_tokens in
  pixel_values <- classification_pixel_values image ;;
  Ok [("prefix_input_ids", VTensor (torch_tensor prefix_input_ids));
      ("suffix_input_ids", VTensor (torch_tensor suffix_input_ids));
      ("pixel_values", pixel_values)].

(** [MiniGPT4ViTLlamaProcessor.generation_inputs] *)
Definition MiniGPT4ViTLlamaProcessor_generation_inputs
  (prefix_text suffix_text : string) (image : Image) (max_seq_length : option Z)
  : result dict :=
  max_seq_length <- pop_value max_seq_length self_max_seq_length ;;
  let prefix_tokens := tokenize prefix_text in
  let suffix_tokens := tokenize suffix_text in
  let prefix_tokens := slice_to (max_seq_length - 1) prefix_tokens in
  let prefix_tokens := bos_token :: prefix_tokens in
  let padding := times pad_token (max_seq_length - zlen prefix_tokens) in
  let prefix_tokens := padding ++ prefix_tokens in
  let prefix_input_ids := convert_tokens_to_ids prefix_tokens in
  let suffix_input_ids := convert_tokens_to_ids suffix_tokens in
  pixel_values <- classification_pixel_values image ;;
  Ok [("prefix_input_ids", VTensor (torch_tensor prefix_input_ids));
      ("suffix_input_ids", VTensor (torch_tensor suffix_input_ids));
      ("pixel_values", pixel_values)].

(** [MiniGPT4ViTLlamaProcessor.generation_labels].  The first [padding] is
    computed and never used. *)
Definition MiniGPT4ViTLlamaProcessor_generation_labels
  (text : string) (max_gen_seq_length : option Z) : result dict :=
  max_gen_seq_length <- pop_value max_gen_seq_length self_max_gen_seq_length ;;
  let tokens :=
    slice_to (max_gen_seq_length - 1) (tokenize text) ++ [eos_token] in
  let padding := times pad_token (max_gen_seq_length - zlen tokens) in
  let input_ids := convert_tokens_to_ids tokens in
  let attention_mask := times 1%Z (zlen input_ids) in
  let padding := times 0%Z (max_gen_seq_length - zlen input_ids) in
  let input_ids := input_ids ++ times pad_token_id (zlen padding) in
  let attention_mask := attention_mask ++ padding in
  py_assert (zlen input_ids =? max_gen_seq_length)%Z ;;;
  py_assert (zlen attention_mask =? max_gen_seq_length)%Z ;;;
  Ok [("input_ids", VTensor (torch_tensor input_ids));
      ("attention_mask", VTensor (torch_tensor attention_mask))].

(** [MiniGPT4ViTLlamaProcessor.generation].  The source converts the prefix
    and the suffix tokens once more than it needs to. *)
Definition MiniGPT4ViTLlamaProcessor_generation
  (prefix_text suffix_text text_pair : string) (image : Image)
  (max_seq_length max_gen_seq_length : option Z) : result dict :=
  max_seq_length <- pop_value max_seq_length self_max_seq_length ;;
  max_gen_seq_length <- pop_value max_gen_seq_length self_max_gen_seq_length ;;
  let max_seq_length := (max_seq_length + max_gen_seq_length)%Z in
  let prefix_tokens := tokenize prefix_text in
  let suffix_tokens := tokenize suffix_text in
  let prefix_tokens := slice_to (max_seq_length - 1) prefix_tokens in
  let prefix_tokens := bos_token :: prefix_tokens in
  let prefix_input_ids := convert_tokens_to_ids prefix_tokens in
  let suffix_input_ids := convert_tokens_to_ids suffix_tokens in
  let padding_a := times pad_token (max_seq_length - zlen prefix_tokens) in
  let prefix_input_ids := convert_tokens_to_ids (padding_a ++ prefix_tokens) in
  let prefix_attention_mask :=
    times 0%Z (zlen padding_a) ++ times 1%Z (zlen prefix_tokens) in
  let suffix_input_ids := convert_tokens_to_ids suffix_tokens in
  let suffix_attention_mask := times 1%Z (zlen suffix_tokens) in
  let tokens_pair :=
    slice_to (max_gen_seq_length - 1) (tokenize text_pair) ++ [eos_token] in
  let padding_b := times pad_token (max_gen_seq_length - zlen tokens_pair) in
  let input_ids_pair := convert_tokens_to_ids (tokens_pair ++ padding_b) in
  let attention_mask_pair :=
    times 1%Z (zlen tokens_pair) ++ times 0%Z (zlen padding_b) in
  let suffix_seq_length := zlen suffix_tokens in
  let tokens_label :=
    tokens_pair ++ times pad_token (max_gen_seq_length - zlen tokens_pair + 1) in
  let input_ids_label := convert_tokens_to_ids tokens_label in
  let input_ids_label := times 0%Z (suffix_seq_length - 1) ++ input_ids_label in
  let attention_mask_label :=
    times 1%Z (zlen tokens_pair)
      ++ times 0%Z (max_gen_seq_length - zlen tokens_pair + 1) in
  let attention_mask_label :=
    times 0%Z (suffix_seq_length - 1) ++ attention_mask_label in
  pixel_values <- classification_pixel_values image ;;
  Ok [("prefix_input_ids", VTensor (torch_tensor prefix_input_ids));
      ("prefix_attention_mask", VTensor (torch_tensor prefix_attention_mask));
      ("suffix_input_ids", VTensor (torch_tensor suffix_input_ids));
      ("suffix_attention_mask", VTensor (torch_tensor suffix_attention_mask));
      ("input_ids_pair", VTensor (torch_tensor input_ids_pair));
      ("attention_mask_pair", VTensor (torch_tensor attention_mask_pair));
      ("input_ids_label", VTensor (torch_tensor input_ids_label));
      ("attention_mask_label", VTensor (torch_tensor attention_mask_label));
      ("pixel_values", pixel_values)].

End MiniGPT4ViTLlamaProcessor.

(* ===================================================================== *)
(** ** Clip pipelines *)
(* ===================================================================== *)

Section Calls.

Variable V : Type.

(** The parameters of a function after [self]: a name and, when there is
    one, the default. *)
Definition parameters : Type := list (string * option V).

(** The positional arguments of a call take the first parameters; more
    arguments than parameters are a [TypeError]. *)
Fixpoint bind_positional (params : parameters) (args : list V)
  : result (list (string * V) * parameters) :=
  match args, params with
  | [], _ => Ok ([], params)
  | _ :: _, [] => Raise TypeError
  | a :: args', (p, _) :: params' =>
      ' (bound, rest) <- bind_positional params' args' ;;
      Ok ((p, a) :: bound, rest)
  end.

Fixpoint keyword (name : string) (kwargs : list (string * V)) : option V :=
  match kwargs with
  | [] => None
  | (k, v) :: kwargs' => if String.eqb name k then Some v else keyword name kwargs'
  end.

(** Every keyword names a parameter that no positional argument has
    taken. *)
Definition keywords_expected (rest : parameters) (kwargs : list (string * V)) : bool :=
  forallb (fun kv => existsb (String.eqb (fst kv)) (map fst rest)) kwargs.

(** [f(a1, ..., an, k1=v1, ...)] for a function that takes neither [*args]
    nor [**kwargs]: the value of every parameter, or [TypeError] for an
    argument too many, an unexpected keyword, a parameter given twice or a
    parameter without value. *)
Definition bind_arguments
  (params : parameters) (args : list V) (kwargs : list (string * V))
  : result (list (string * V)) :=
  ' (bound, rest) <- bind_positional params args ;;
  require (keywords_expected rest kwargs) TypeError ;;;
  others <-
    comprehension
      (fun p : string * option V =>
         match keyword (fst p) kwargs, snd p with
         | Some v, _ => Ok (fst p, v)
         | None, Some v => Ok (fst p, v)
         | None, None => Raise TypeError
         end)
      rest ;;
  Ok (bound ++ others).

End Calls.

Section ClipPipelines.

(** The values of the configuration, the configuration object and the
    pipeline instances are opaque. *)
Variable value : Type.
Variable config : Type.
Variable instance : Type.

(** [None], an [int] and a [str] as values. *)
Variable None_ : value.
Variable int_ : Z -> value.
Variable str_ : string -> value.

(** [config.set_default_section(section)], [config.getoption(option,
    default)] *)
Variable set_default_section : config -> string -> result config.
Variable getoption : config -> string -> value -> result value.

(** [pretrained_clip_infos], [nested_dict_value(table, *keys)],
    [pop_value(value, fallback, check_none=...)], [cached_path(path)] *)
Variable pretrained_clip_infos : value.
Variable nested_dict_value : value -> list value -> result value.
Variable pop_value : value -> value -> bool -> result value.
Variable cached_path : value -> result value.

(** The bodies of the two [__init__] methods, run on the values of their
    parameters. *)
Variable ClipForTextClassificationPipeline___init__
  : list (string * value) -> result instance.
Variable ClipForImageClassificationPipeline___init__
  : list (string * value) -> result instance.

(** The parameters of [ClipForTextClassificationPipeline.__init__]. *)
Definition ClipForTextClassificationPipeline_parameters : parameters value :=
  [("config_path", None);
   ("vocab_path", None);
   ("merge_path", None);
   ("projection_dim", Some (int_ 512));
   ("num_classes", Some (int_ 1));
   ("max_seq_length", Some (int_ 512));
   ("id2label", Some None_);
   ("weight_path", Some None_);
   ("state_dict", Some None_);
   ("device", Some (str_ "cpu"))].

(** The parameters of [ClipForImageClassificationPipeline.__init__]. *)
Definition ClipForImageClassificationPipeline_parameters : parameters value :=
  [("config_path", None);
   ("vision_config_path", None);
   ("projection_dim", Some (int_ 512));
   ("num_classes", Some (int_ 1));
   ("id2label", Some None_);
   ("weight_path", Some None_);
   ("state_dict", Some None_);
   ("device", Some (str_ "cpu"))].

(** [ClipForTextClassificationPipeline( *args, **kwargs )] *)
Definition ClipForTextClassificationPipeline
  (args : list value) (kwargs : list (string * value)) : result instance :=
  env <- bind_arguments ClipForTextClassificationPipeline_parameters args kwargs ;;
  ClipForTextClassificationPipeline___init__ env.

(** [ClipForImageClassificationPipeline( *args, **kwargs )] *)
Definition ClipForImageClassificationPipeline
  (args : list value) (kwargs : list (string * value)) : result instance :=
  env <- bind_arguments ClipForImageClassificationPipeline_parameters args kwargs ;;
  ClipForImageClassificationPipeline___init__ env.

(** The body of [ClipForTextClassificationPipeline.from_core_configure],
    with [cls] the class itself. *)
Definition ClipForTextClassificationPipeline_from_core_configure
  (config_ : config)
  (pretrained_name config_path vocab_path merge_path id2label
     pretrained_weight_path device : value)
  : result instance :=
  config_ <- set_default_section config_ "core/pipeline/clip/text" ;;
  pretrained_name <- getoption config_ "pretrained_name" pretrained_name ;;
  config_path <- getoption config_ "config_path" config_path ;;
  fallback <- nested_dict_value pretrained_clip_infos [pretrained_name; str_ "config"] ;;
  config_path <- pop_value config_path fallback true ;;
  config_path <- cached_path config_path ;;
  vocab_path <- getoption config_ "vocab_path" vocab_path ;;
  fallback <- nested_dict_value pretrained_clip_infos [pretrained_name; str_ "vocab"] ;;
  vocab_path <- pop_value vocab_path fallback true ;;
  vocab_path <- cached_path vocab_path ;;
  merge_path <- getoption config_ "merge_path" merge_path ;;
  fallback <- nested_dict_value pretrained_clip_infos [pretrained_name; str_ "merge"] ;;
  merge_path <- pop_value merge_path fallback true ;;
  merge_path <- cached_path merge_path ;;
  projection_dim <- getoption config_ "projection_dim" (int_ 512) ;;
  num_classes <- getoption config_ "num_classes" (int_ 1) ;;
  max_seq_length <- getoption config_ "max_seq_length" (int_ 512) ;;
  id2label <- getoption config_ "id2label" id2label ;;
  device <- getoption config_ "device" device ;;
  pretrained_weight_path <-
    getoption config_ "pretrained_weight_path" pretrained_weight_path ;;
  fallback <- nested_dict_value pretrained_clip_infos [pretrained_name; str_ "weight"] ;;
  weight_path <- pop_value pretrained_weight_path fallback false ;;
  ClipForTextClassificationPipeline
    [config_path]
    [("vocab_path", vocab_path);
     ("merge_path", merge_path);
     ("projection_dim", projection_dim);
     ("num_classes", num_classes);
     ("max_seq_length", max_seq_length);
     ("id2label", id2label);
     ("weight_path", weight_path);
     ("device", device)].

(** The body of [ClipForImageClassificationPipeline.from_core_configure],
    with [cls] the class itself. *)
Definition ClipForImageClassificationPipeline_from_core_configure
  (config_ : config)
  (pretrained_name config_path vision_config_path id2label
     pretrained_weight_path device : value)
  : result instance :=
  config_ <- set_default_section config_ "core/pipeline/clip/image" ;;
  pretrained_name <- getoption config_ "pretrained_name" pretrained_name ;;
  config_path <- getoption config_ "config_path" config_path ;;
  fallback <- nested_dict_value pretrained_clip_infos [pretrained_name; str_ "config"] ;;
  config_path <- pop_value config_path fallback true ;;
  config_path <- cached_path config_path ;;
  vision_config_path <- getoption config_ "vision_config_path" vision_config_path ;;
  fallback <-
    nested_dict_value pretrained_clip_infos [pretrained_name; str_ "vision_config"] ;;
  vision_config_path <- pop_value vision_config_path fallback true ;;
  vision_config_path <- cached_path vision_config_path ;;
  projection_dim <- getoption config_ "projection_dim" (int_ 512) ;;
  num_classes <- getoption config_ "num_classes" (int_ 1) ;;
  max_seq_length <- getoption config_ "max_seq_length" (int_ 512) ;;
  id2label <- getoption config_ "id2label" id2label ;;
  device <- getoption config_ "device" device ;;
  pretrained_weight_path <-
    getoption config_ "pretrained_weight_path" pretrained_weight_path ;;
  fallback <- nested_dict_value pretrained_clip_infos [pretrained_name; str_ "weight"] ;;
  weight_path <- pop_value pretrained_weight_path fallback false ;;
  ClipForImageClassificationPipeline
    [config_path]
    [("vision_config_path", vision_config_path);
     ("projection_dim", projection_dim);
     ("num_classes", num_classes);
     ("max_seq_length", max_seq_length);
     ("id2label", id2label);
     ("weight_path", weight_path);
     ("device", device)].

End ClipPipelines.

(* ===================================================================== *)
(** ** import_utils *)
(* ===================================================================== *)

(** [a <= b] on [str]: the order of the first character in which the two
    differ, a proper prefix being smaller. *)
Fixpoint str_le (a b : string) : bool :=
  match a, b with
  | EmptyString, _ => true
  | String _ _, EmptyString => false
  | String x a', String y b' =>
      if Nat.ltb (Ascii.nat_of_ascii x) (Ascii.nat_of_ascii y) then true
      else if Nat.ltb (Ascii.nat_of_ascii y) (Ascii.nat_of_ascii x) then false
      else str_le a' b'
  end.

(** The two module variables of a package: [_<package>_available] and
    [_<package>_version], which is not bound when the lookup of the version
    has failed. *)
Record package : Type := mkPackage {
  _available : bool;
  _version : option string
}.

(** The module code for one package:
    [_available = importlib.util.find_spec(name) is not None], then
    [try: _version = importlib_metadata.version(name)] and
    [except PackageNotFoundError: _available = False].  [found] says whether
    [find_spec] has found the package, [metadata_version] is the version or
    [None] for [PackageNotFoundError]. *)
Definition import_package (found : bool) (metadata_version : option string) : package :=
  let available := found in
  match metadata_version with
  | Some version => mkPackage available (Some version)
  | None => mkPackage false None
  end.

(** [is_deepspeed_available], [is_diffusers_available], [is_torch_available],
    given what [is_offline_debug_mode()] answers. *)
Definition is_deepspeed_available (deepspeed : package) (offline_debug_mode : bool)
  : bool :=
  _available deepspeed || offline_debug_mode.

Definition is_diffusers_available (diffusers : package) (offline_debug_mode : bool)
  : bool :=
  _available diffusers || offline_debug_mode.

Definition is_torch_available (torch : package) (offline_debug_mode : bool) : bool :=
  _available torch || offline_debug_mode.

(** [is_torch2_available]: [_torch_available and _torch_version >= "2.0.0"];
    [None] stands for the [NameError] of reading a name that is not bound. *)
Definition is_torch2_available (torch : package) : option bool :=
  if _available torch then
    match _version torch with
    | Some version => Some (str_le "2.0.0" version)
    | None => None
    end
  else Some false.

(* ===================================================================== *)
(** ** Vocabulary of the statements *)
(* ===================================================================== *)

(** Names that cannot serve as field names: the parameters of the
    [__init__] methods that take the fields as keywords, the two attributes
    that hold the mappings, and the three names [setattr] refuses. *)
Definition reserved_names : list string :=
  ["self"; "inputs"; "__tensors__"; "__list_tensors__";
   "__class__"; "__dict__"; "__weakref__"].

Definition field_name (k : string) : bool :=
  negb (existsb (String.eqb k) reserved_names).

Fixpoint distinct (ks : list string) : bool :=
  match ks with
  | [] => true
  | k :: ks' => negb (existsb (String.eqb k) ks') && distinct ks'
  end.

(** The key list of a mapping of fields: no key twice, no reserved name. *)
Definition field_names (ks : list string) : bool :=
  distinct ks && forallb field_name ks.

(** The value of a list field: a list of tensors. *)
Definition list_of_tensors (v : pyval) : bool :=
  match v with
  | VList l => forallb isinstance_Tensor l
  | _ => false
  end.

(** What a list field may be constructed from: one tensor or a list of
    tensors. *)
Definition tensor_or_list_of_tensors (v : pyval) : bool :=
  isinstance_Tensor v || list_of_tensors v.

(** A mapping with [f] applied to every value. *)
Definition dict_map_values (f : pyval -> pyval) (d : dict) : dict :=
  map (fun kv => (fst kv, f (snd kv))) d.

Definition dict_values (d : dict) : list pyval := map snd d.

Definition is_combine (cls : klass) : bool :=
  match mixin_of cls with
  | combine_tensors_mixin => true
  | _ => false
  end.

(** What [add] leaves in the mapping [d] after it has met the item
    [(k, v)]. *)
Definition add_item (f : pyval -> pyval) (d : dict) (kv : string * pyval) : dict :=
  if dict_contains (fst kv) d then d else dict_set (fst kv) (f (snd kv)) d.

(** What [add] leaves in the attributes [a] of a container with the mapping
    [d]: every item it stores in the mapping it also binds as an attribute. *)
Fixpoint add_attributes (f : pyval -> pyval) (D d a : dict) : dict :=
  match D with
  | [] => a
  | kv :: D' =>
      if dict_contains (fst kv) d then add_attributes f D' d a
      else add_attributes f D'
             (dict_set (fst kv) (f (snd kv)) d) (dict_set (fst kv) (f (snd kv)) a)
  end.

(** Sample tensors for the concrete runs. *)
Definition sample_a : Tensor := mkTensor [2; 2] [1; 2; 3; 4]%Z cpu_device.
Definition sample_b : Tensor := mkTensor [2; 2] [5; 6; 7; 8]%Z cpu_device.
Definition sample_c : Tensor := mkTensor [1; 2] [9; 10]%Z cpu_device.
Definition sample_g : Tensor := mkTensor [2; 2] [1; 2; 3; 4]%Z (cuda_device 0).

(** The concatenation of two field values: [torch.cat] along [dim] for
    tensors, the first list followed by the second for lists. *)
Definition concatenation (dim : Z) (a b : pyval) : result pyval :=
  match a, b with
  | VTensor x, VTensor y => t <- torch_cat [x; y] dim ;; Ok (VTensor t)
  | VList x, VList y => Ok (VList (x ++ y))
  | _, _ => Raise TypeError
  end.

(** Two tensor fields that [torch.cat] accepts along [dim]. *)
Definition concatenable (dim : Z) (a b : pyval) : Prop :=
  exists x y t, a = VTensor x /\ b = VTensor y /\ torch_cat [x; y] dim = Ok t.

(** [x] and [y] joined along the axis [d]: the sizes of [x] with the two
    sizes along [d] added; for every index before the axis, the elements
    [x] has there followed by the elements [y] has there; the device of
    [x]. *)
Definition joined (d : nat) (x y : Tensor) : Tensor :=
  let inner := numel (skipn (S d) (shape x)) in
  mkTensor
    (firstn d (shape x) ++ (nth d (shape x) 0 + nth d (shape y) 0) :: skipn (S d) (shape x))
    (flat_map
       (fun o => chunk (nth d (shape x) 0 * inner) o (data x)
                 ++ chunk (nth d (shape y) 0 * inner) o (data y))
       (seq 0 (numel (firstn d (shape x)))))
    (device x).

(** Two tensor fields that can be joined along [dim]: tensors with the
    elements their shapes announce, [dim] names an axis, the sizes agree
    but along that axis, and both are on one device. *)
Definition joinable (dim : Z) (a b : pyval) : Prop :=
  exists x y d,
    a = VTensor x /\ b = VTensor y
    /\ wf_tensor x /\ wf_tensor y
    /\ wrap_dim dim (length (shape x)) = Ok d
    /\ same_except d (shape x) (shape y) = true
    /\ device y = device x.

(** The elements of a list field, and whether there is exactly one. *)
Definition elements (v : pyval) : list pyval :=
  match v with
  | VList l => l
  | _ => []
  end.

Definition has_one_element (v : pyval) : bool :=
  match v with
  | VList [_] => true
  | _ => false
  end.

(** The values of key [k] in the mappings [ds], one per mapping. *)
Definition column (k : string) (ds : list dict) (vs : list pyval) : Prop :=
  Forall2 (fun d v => dict_get k d = Some v) ds vs.

(** The tensors of key [k] in the mappings [ds] are accepted by
    [torch.stack] along [dim]. *)
Definition stackable (dim : Z) (ds : list dict) (k : string) : Prop :=
  exists vs xs s, column k ds vs /\ tensor_list vs = Ok xs /\ torch_stack xs dim = Ok s.

(** The values [vs] are tensors of one size on one device, each with the
    elements its shape announces, and [dim] is a position at which
    [torch.stack] can insert the new axis. *)
Definition same_size_tensors (dim : Z) (vs : list pyval) : Prop :=
  exists ts t0,
    vs = map VTensor ts
    /\ hd_error ts = Some t0
    /\ Forall (fun t => shape t = shape t0 /\ device t = device t0 /\ wf_tensor t) ts
    /\ (- Z.of_nat (S (length (shape t0))) <= dim < Z.of_nat (S (length (shape t0))))%Z.

(** The elements of [rows] rows of width [L], each without its first
    [prefix] elements and then filled with zeros up to the width [M]. *)
Definition padded_rows (L prefix M rows : nat) (d : list Z) : list Z :=
  flat_map
    (fun r => skipn prefix (chunk L r d) ++ repeat 0%Z (M - (L - prefix)))
    (seq 0 rows).

(** A prompt of two tokens per row and a decoder that answers with two rows
    of four tokens, for the concrete runs. *)
Definition sample_input_ids : Tensor :=
  mkTensor [2; 2] [11; 12; 21; 22]%Z (cuda_device 0).

Definition sample_sequences : Tensor :=
  mkTensor [2; 4] [11; 12; 13; 14; 21; 22; 23; 24]%Z (cuda_device 0).

Definition sample_decoder (input_ids : Tensor) (max_length min_length n : Z)
  : result Tensor :=
  Ok sample_sequences.

(** A field value with every tensor moved by [f]. *)
Definition move_tensor (f : Tensor -> Tensor) (v : pyval) : pyval :=
  match v with
  | VTensor t => VTensor (f t)
  | _ => v
  end.

Definition move_list (f : Tensor -> Tensor) (v : pyval) : pyval :=
  match v with
  | VList l => VList (map (move_tensor f) l)
  | _ => v
  end.

(** The attributes [a] after the guarded [setattr] of
    [TensorsInputs.__init__] and [ListTensorsInputs.__init__] has met the
    item [(k, v)]. *)
Definition guarded_attr (cls : klass) (a : dict) (kv : string * pyval) : dict :=
  if dict_contains (fst kv) a || class_attribute cls (fst kv) then a
  else dict_set (fst kv) (snd kv) a.

(** The fields of [d] whose names the class does not have: the ones the
    guarded [setattr] makes attributes of a new instance. *)
Definition own_fields (cls : klass) (d : dict) : dict :=
  filter (fun kv => negb (class_attribute cls (fst kv))) d.

(** A [TensorsInputs] and a [ListTensorsInputs] as their constructors leave
    them, with the given mapping.  [ListTensorsMixin.__post_init__] makes
    every field an attribute, after the ones [__init__] has set. *)
Definition tensors_inputs (d : dict) : object :=
  mkObject TensorsInputs (Some (VDict d)) None (own_fields TensorsInputs d).

Definition list_tensors_inputs (d : dict) : object :=
  mkObject ListTensorsInputs None (Some (VDict d))
    (dict_merge (own_fields ListTensorsInputs d) d).

(** The mappings of a sequence of bundles. *)
Definition tensors_are (bundles : list object) (ds : list dict) : Prop :=
  Forall2 (fun o d => __tensors__ o = Some (VDict d)) bundles ds.

Definition list_tensors_are (bundles : list object) (ds : list dict) : Prop :=
  Forall2 (fun o d => __list_tensors__ o = Some (VDict d)) bundles ds.

(** A combined container as its constructor leaves it, with the given two
    mappings: every tensor field and then every list field is an attribute. *)
Definition combine_tensors (cls : klass) (t l : dict) : object :=
  mkObject cls (Some (VDict t)) (Some (VDict l)) (dict_merge t l).

Definition combine_tensors_inputs (t l : dict) : object :=
  combine_tensors CombineTensorsInputs t l.

(** The parameters of [CombineTensorsMixin.__init__] besides [self]. *)
Definition combine_parameter (k : string) : bool :=
  String.eqb k "dict_of_tensors" || String.eqb k "dict_of_list_tensors".

(** [torch.cat] of the tensors the mappings [ds] hold under [key]. *)
Definition cat_column (dim : Z) (ds : list dict) (key : string) : result pyval :=
  new_tensor <- comprehension (fun d => getitem (VDict d) key) ds ;;
  ts <- tensor_list new_tensor ;;
  t <- torch_cat ts dim ;;
  Ok (VTensor t).

(** A tensor with the elements its shape announces, for which [dim] names
    an axis. *)
Definition tensor_with_axis (dim : Z) (v : pyval) : Prop :=
  exists t,
    v = VTensor t
    /\ wf_tensor t
    /\ (- Z.of_nat (length (shape t)) <= dim < Z.of_nat (length (shape t)))%Z.

(** A tensor with the elements its shape announces. *)
Definition wf_value (v : pyval) : Prop :=
  exists t, v = VTensor t /\ wf_tensor t.

(** Two tensors that differ at most in their first size, with the elements
    their shapes announce, on one device. *)
Definition rows_of_one_width (va vb : pyval) : Prop :=
  exists x y a b s,
    va = VTensor x /\ vb = VTensor y
    /\ shape x = a :: s /\ shape y = b :: s
    /\ wf_tensor x /\ wf_tensor y
    /\ device y = device x.

(** The lists the mappings [ds] hold under [key], chained into one. *)
Definition chain_column (ds : list dict) (key : string) : result pyval :=
  new_list_tensor <- comprehension (fun d => getitem (VDict d) key) ds ;;
  flat <- chain_from_iterable new_list_tensor ;;
  Ok (VList flat).

(** A tokenizer that cuts a text into its characters and numbers them, an
    image type with one image, and [pop_value] on integers, for the concrete
    runs. *)
Fixpoint sample_tokenize (text : string) : list string :=
  match text with
  | EmptyString => []
  | String c rest => String c EmptyString :: sample_tokenize rest
  end.

Definition sample_convert_tokens_to_ids (tokens : list string) : list Z :=
  map (fun t => match t with
                | String c _ => Z.of_N (Ascii.N_of_ascii c)
                | EmptyString => 0%Z
                end) tokens.

Definition sample_pop_value (value fallback : option Z) : result Z :=
  match value, fallback with
  | Some v, _ => Ok v
  | None, Some v => Ok v
  | None, None => Raise RuntimeError
  end.

Definition sample_classification (image : unit) : result pyval :=
  Ok (VTensor sample_a).

(** A configuration that holds nothing, so that every option has its
    default, with integers for values ([0] for [None]) and the bound
    parameters for an instance, for the concrete runs. *)
Definition sample_set_default_section (c : unit) (section : string) : result unit :=
  Ok c.

Definition sample_getoption (c : unit) (option : string) (default : Z) : result Z :=
  Ok default.

Definition sample_nested_dict_value (table : Z) (keys : list Z) : result Z :=
  Ok table.

Definition sample_pop_value_of (v fallback : Z) (check_none : bool) : result Z :=
  Ok (if Z.eqb v 0 then fallback else v).

Definition sample_cached_path (path : Z) : result Z := Ok path.

Definition sample_init (env : list (string * Z)) : result (list (string * Z)) :=
  Ok env.

(* ===================================================================== *)
(** ** Reasoning principles *)
(* ===================================================================== *)

Lemma bind_Ok_inv {A B : Type} (m : result A) (k : A -> result B) (b : B) :
  bind m k = Ok b -> exists a, m = Ok a /\ k a = Ok b.
Proof.
  destruct m as [a|e]; simpl; intros H; [exists a; auto | discriminate].
Qed.

Lemma bind_assoc {A B C : Type} (m : result A) (f : A -> result B) (g : B -> result C) :
  bind (bind m f) g = bind m (fun a => bind (f a) g).
Proof. destruct m; reflexivity. Qed.

Lemma for_each_ext {A S : Type} (l : list A) (f g : S -> A -> result S) (s : S) :
  (forall s x, In x l -> f s x = g s x) ->
  for_each l f s = for_each l g s.
Proof.
  revert s; induction l as [|x l IH]; intros s H; simpl; [reflexivity|].
  rewrite (H s x (or_introl eq_refl)).
  destruct (g s x) as [s'|e]; simpl; [|reflexivity].
  apply IH; intros; apply H; right; assumption.
Qed.

Lemma for_each_pure {A S : Type} (l : list A) (h : S -> A -> S) (s : S) :
  for_each l (fun s x => Ok (h s x)) s = Ok (fold_left h l s).
Proof.
  revert s; induction l as [|x l IH]; intros s; simpl; [reflexivity|apply IH].
Qed.

Lemma comprehension_pure {A B : Type} (f : A -> B) (l : list A) :
  comprehension (fun x => Ok (f x)) l = Ok (map f l).
Proof.
  induction l as [|x l IH]; simpl; [reflexivity|]. rewrite IH. reflexivity.
Qed.

Lemma comprehension_ext {A B : Type} (f g : A -> result B) (l : list A) :
  (forall x, In x l -> f x = g x) -> comprehension f l = comprehension g l.
Proof.
  induction l as [|x l IH]; intros H; simpl; [reflexivity|].
  rewrite (H x (or_introl eq_refl)), IH; [reflexivity|].
  intros; apply H; right; assumption.
Qed.

(** *** Dictionaries *)

Lemma dict_get_set_eq (k : string) (v : pyval) (d : dict) :
  dict_get k (dict_set k v d) = Some v.
Proof.
  induction d as [|[k' v'] d IH]; simpl.
  - rewrite String.eqb_refl. reflexivity.
  - destruct (String.eqb k k') eqn:E; simpl; rewrite ?String.eqb_refl, ?E; auto.
Qed.

Lemma dict_get_set_ne (k k' : string) (v : pyval) (d : dict) :
  k <> k' -> dict_get k' (dict_set k v d) = dict_get k' d.
Proof.
  intros N. induction d as [|[k0 v0] d IH]; simpl.
  - apply String.eqb_neq in N. rewrite String.eqb_sym, N. reflexivity.
  - destruct (String.eqb k k0) eqn:E; simpl.
    + apply String.eqb_eq in E; subst k0.
      assert (String.eqb k' k = false) as -> by (apply String.eqb_neq; congruence).
      reflexivity.
    + destruct (String.eqb k' k0); auto.
Qed.

Lemma dict_get_None (k : string) (d : dict) :
  dict_get k d = None <-> ~ In k (dict_keys d).
Proof.
  induction d as [|[k' v'] d IH]; simpl; [tauto|].
  destruct (String.eqb k k') eqn:E.
  - apply String.eqb_eq in E; subst. split; [discriminate|intros H; exfalso; auto].
  - apply String.eqb_neq in E. rewrite IH. split; intros H; [intros [?|?]; [congruence|auto]|auto].
Qed.

Lemma dict_get_In (k : string) (v : pyval) (d : dict) :
  dict_get k d = Some v -> In (k, v) d.
Proof.
  induction d as [|[k' v'] d IH]; simpl; [discriminate|].
  destruct (String.eqb k k') eqn:E.
  - apply String.eqb_eq in E; subst. intros [= ->]. auto.
  - auto.
Qed.

Lemma In_dict_get (k : string) (v : pyval) (d : dict) :
  NoDup (dict_keys d) -> In (k, v) d -> dict_get k d = Some v.
Proof.
  induction d as [|[k' v'] d IH]; simpl; [tauto|].
  intros ND [H|H].
  - injection H as -> ->. rewrite String.eqb_refl. reflexivity.
  - inversion ND as [|? ? Hn ND']; subst.
    destruct (String.eqb k k') eqn:E; [|auto].
    apply String.eqb_eq in E; subst. exfalso; apply Hn.
    change k' with (fst (k', v)). apply in_map. assumption.
Qed.

Lemma dict_set_fresh (k : string) (v : pyval) (d : dict) :
  ~ In k (dict_keys d) -> dict_set k v d = d ++ [(k, v)].
Proof.
  induction d as [|[k' v'] d IH]; simpl; intros H; [reflexivity|].
  destruct (String.eqb k k') eqn:E.
  - apply String.eqb_eq in E; subst. exfalso; auto.
  - rewrite IH; auto.
Qed.

Lemma dict_keys_app (a b : dict) : dict_keys (a ++ b) = dict_keys a ++ dict_keys b.
Proof. apply map_app. Qed.

Lemma NoDup_app_cons_fresh {A : Type} (l1 : list A) (x : A) (l2 : list A) :
  NoDup (l1 ++ x :: l2) -> ~ In x l1 /\ NoDup ((l1 ++ [x]) ++ l2).
Proof.
  intros H. split.
  - apply NoDup_remove_2 in H. intros Hin; apply H, in_or_app; auto.
  - rewrite <- app_assoc. exact H.
Qed.

(** Filling an empty dict key by key keeps the keys in their order. *)
Lemma fold_dict_set_fresh {A : Type} (key : A -> string) (val : A -> pyval)
      (l : list A) (acc : dict) :
  NoDup (dict_keys acc ++ map key l) ->
  fold_left (fun acc x => dict_set (key x) (val x) acc) l acc
  = acc ++ map (fun x => (key x, val x)) l.
Proof.
  revert acc; induction l as [|x l IH]; intros acc ND; simpl.
  - rewrite app_nil_r; reflexivity.
  - simpl in ND. apply NoDup_app_cons_fresh in ND as [Hf ND].
    rewrite dict_set_fresh by assumption.
    rewrite IH.
    + rewrite <- app_assoc. reflexivity.
    + rewrite dict_keys_app. exact ND.
Qed.

Lemma for_each_dict_set_fresh {A : Type} (key : A -> string) (val : A -> result pyval)
      (l : list A) (acc : dict) (vs : list pyval) :
  NoDup (dict_keys acc ++ map key l) ->
  comprehension val l = Ok vs ->
  for_each l (fun acc x => v <- val x ;; Ok (dict_set (key x) v acc)) acc
  = Ok (acc ++ combine (map key l) vs).
Proof.
  revert acc vs; induction l as [|x l IH]; intros acc vs ND Hc; simpl in *.
  - injection Hc as <-. rewrite app_nil_r; reflexivity.
  - destruct (val x) as [v|e]; simpl in *; [|discriminate].
    destruct (comprehension val l) as [vs'|e] eqn:E; simpl in *; [|discriminate].
    injection Hc as <-.
    apply NoDup_app_cons_fresh in ND as [Hf ND].
    rewrite dict_set_fresh by assumption.
    rewrite (IH _ vs'); auto.
    + simpl. rewrite <- app_assoc. reflexivity.
    + rewrite dict_keys_app. exact ND.
Qed.

Lemma comprehension_length {A B : Type} (f : A -> result B) (l : list A) (ys : list B) :
  comprehension f l = Ok ys -> length ys = length l.
Proof.
  revert ys; induction l as [|x l IH]; intros ys; simpl.
  - intros [= <-]; reflexivity.
  - destruct (f x); simpl; [|discriminate].
    destruct (comprehension f l); simpl; [|discriminate].
    intros [= <-]. simpl. f_equal. apply IH. reflexivity.
Qed.

Lemma dict_keys_combine (ks : list string) (vs : list pyval) :
  length vs = length ks -> dict_keys (combine ks vs) = ks.
Proof.
  revert vs; induction ks as [|k ks IH]; intros [|v vs]; simpl; intros H; try discriminate; auto.
  f_equal. apply IH. lia.
Qed.

(** *** Field names *)

Lemma existsb_eqb_In (k : string) (ks : list string) :
  existsb (String.eqb k) ks = true <-> In k ks.
Proof.
  rewrite existsb_exists. split.
  - intros (x & Hx & E). apply String.eqb_eq in E; subst; assumption.
  - intros H. exists k. split; [assumption|apply String.eqb_refl].
Qed.

Lemma distinct_NoDup (ks : list string) : distinct ks = true -> NoDup ks.
Proof.
  induction ks as [|k ks IH]; simpl; intros H; [constructor|].
  apply andb_true_iff in H as [H1 H2]. constructor; [|auto].
  intros Hin. apply existsb_eqb_In in Hin. rewrite Hin in H1. discriminate.
Qed.

Lemma field_names_NoDup (ks : list string) : field_names ks = true -> NoDup ks.
Proof.
  unfold field_names. intros H. apply andb_true_iff in H as [H _].
  apply distinct_NoDup; assumption.
Qed.

Lemma field_names_In (ks : list string) (k : string) :
  field_names ks = true -> In k ks -> field_name k = true.
Proof.
  unfold field_names. intros H Hin. apply andb_true_iff in H as [_ H].
  rewrite forallb_forall in H. auto.
Qed.

Lemma field_name_not_reserved (k : string) :
  field_name k = true -> ~ In k reserved_names.
Proof.
  unfold field_name. intros H Hin. apply existsb_eqb_In in Hin.
  rewrite Hin in H. discriminate.
Qed.

Lemma field_names_not_reserved (ks : list string) (r : string) :
  field_names ks = true -> In r reserved_names -> ~ In r ks.
Proof.
  intros H Hr Hin. apply (field_name_not_reserved (field_names_In _ _ H Hin)), Hr.
Qed.

Lemma field_name_eqb (k r : string) :
  field_name k = true -> In r reserved_names -> String.eqb k r = false.
Proof.
  intros H Hr. apply String.eqb_neq. intros ->.
  exact (field_name_not_reserved H Hr).
Qed.

(** A field name is an attribute like any other: [setattr] takes it and
    binds it beside the two mappings. *)
Lemma store_attr_field_name (self : object) (k : string) (v : pyval) :
  field_name k = true ->
  store_attr self k v
  = mkObject (class_of self) (__tensors__ self) (__list_tensors__ self)
      (dict_set k v (attributes self)).
Proof.
  intros H. unfold store_attr.
  rewrite (@field_name_eqb k "__tensors__" H) by (simpl; auto 10).
  rewrite (@field_name_eqb k "__list_tensors__" H) by (simpl; auto 10).
  reflexivity.
Qed.

Lemma setattr_field_name (self : object) (k : string) (v : pyval) :
  field_name k = true ->
  setattr self k v
  = Ok (mkObject (class_of self) (__tensors__ self) (__list_tensors__ self)
          (dict_set k v (attributes self))).
Proof.
  intros H. unfold setattr.
  rewrite (@field_name_eqb k "__class__" H) by (simpl; auto 10).
  rewrite (@field_name_eqb k "__dict__" H) by (simpl; auto 10).
  rewrite (@field_name_eqb k "__weakref__" H) by (simpl; auto 10).
  rewrite (@store_attr_field_name self k v H). reflexivity.
Qed.

Lemma lookup_attr_field_name (self : object) (k : string) :
  field_name k = true -> lookup_attr self k = dict_get k (attributes self).
Proof.
  intros H. unfold lookup_attr.
  rewrite (@field_name_eqb k "__tensors__" H) by (simpl; auto 10).
  rewrite (@field_name_eqb k "__list_tensors__" H) by (simpl; auto 10).
  reflexivity.
Qed.

Lemma hasattr_field_name (self : object) (k : string) :
  field_name k = true ->
  hasattr self k = dict_contains k (attributes self) || class_attribute (class_of self) k.
Proof.
  intros H. unfold hasattr, dict_contains. rewrite (@lookup_attr_field_name self k H).
  destruct (dict_get k (attributes self)); reflexivity.
Qed.

(** The guarded [setattr] of the two [__init__] loops. *)
Lemma guarded_setattr_field_name (self : object) (k : string) (v : pyval) :
  field_name k = true ->
  (if hasattr self k then Ok self else setattr self k v)
  = Ok (mkObject (class_of self) (__tensors__ self) (__list_tensors__ self)
          (guarded_attr (class_of self) (attributes self) (k, v))).
Proof.
  intros H. rewrite (@hasattr_field_name self k H). unfold guarded_attr. cbn [fst snd].
  destruct (dict_contains k (attributes self) || class_attribute (class_of self) k).
  - destruct self; reflexivity.
  - apply (@setattr_field_name self k v H).
Qed.

Lemma dict_contains_false (k : string) (d : dict) :
  ~ In k (dict_keys d) -> dict_contains k d = false.
Proof.
  intros H. unfold dict_contains. apply dict_get_None in H. rewrite H. reflexivity.
Qed.

Lemma dict_remove_absent (k : string) (d : dict) :
  ~ In k (dict_keys d) -> dict_remove k d = d.
Proof.
  induction d as [|[k' v] d IH]; simpl; intros H; [reflexivity|].
  destruct (String.eqb k k') eqn:E.
  - apply String.eqb_eq in E; subst. exfalso; auto.
  - rewrite IH; auto.
Qed.

Lemma dict_merge_empty (d : dict) : NoDup (dict_keys d) -> dict_merge [] d = d.
Proof.
  intros ND. unfold dict_merge.
  rewrite (fold_dict_set_fresh fst snd d []) by exact ND.
  simpl. rewrite <- (map_id d) at 2. apply map_ext. intros [? ?]; reflexivity.
Qed.

(** *** Constructors *)

Lemma NoDup_app_cons_drop {A : Type} (l1 : list A) (x : A) (l2 : list A) :
  NoDup (l1 ++ x :: l2) -> NoDup (l1 ++ l2).
Proof. apply NoDup_remove_1. Qed.

(** On fresh names the guarded [setattr] keeps the fields the class does not
    have, in their order. *)
Lemma guarded_attrs_fresh (cls : klass) (rest a : dict) :
  NoDup (dict_keys a ++ dict_keys rest) ->
  fold_left (guarded_attr cls) rest a = a ++ own_fields cls rest.
Proof.
  revert a; induction rest as [|[k v] rest IH]; intros a ND; simpl in *.
  - rewrite app_nil_r; reflexivity.
  - pose proof (NoDup_app_cons_fresh _ _ _ ND) as [Hf ND'].
    unfold guarded_attr at 2. cbn [fst snd].
    rewrite (dict_contains_false _ _ Hf). cbn [orb].
    destruct (class_attribute cls k); cbn [negb].
    + apply IH. exact (NoDup_app_cons_drop _ _ _ ND).
    + rewrite dict_set_fresh by exact Hf.
      rewrite IH by (rewrite dict_keys_app; exact ND').
      rewrite <- app_assoc. reflexivity.
Qed.

Lemma fill_tensors_loop (cls : klass) (rest acc : dict) (l : option pyval) (a : dict) :
  NoDup (dict_keys acc ++ dict_keys rest) ->
  forallb field_name (dict_keys rest) = true ->
  for_each rest
    (fun self '(k, v) =>
       self <- (if hasattr self k then Ok self else setattr self k v) ;;
       setitem_attr self "__tensors__" k v)
    (mkObject cls (Some (VDict acc)) l a)
  = Ok (mkObject cls (Some (VDict (acc ++ rest))) l (fold_left (guarded_attr cls) rest a)).
Proof.
  revert acc a; induction rest as [|[k v] rest IH]; intros acc a ND F; simpl in *.
  - rewrite app_nil_r; reflexivity.
  - apply andb_true_iff in F as [Fk F].
    rewrite (@guarded_setattr_field_name _ k v Fk). cbn [bind class_of __tensors__
      __list_tensors__ attributes].
    apply NoDup_app_cons_fresh in ND as [Hf ND].
    unfold setitem_attr, getattr; simpl.
    rewrite dict_set_fresh by exact Hf.
    unfold store_attr; simpl.
    rewrite IH; [rewrite <- app_assoc; reflexivity| |exact F].
    rewrite dict_keys_app. exact ND.
Qed.

Lemma fill_list_tensors_loop (cls : klass) (rest acc : dict) (t : option pyval) (a : dict) :
  NoDup (dict_keys acc ++ dict_keys rest) ->
  forallb field_name (dict_keys rest) = true ->
  for_each rest
    (fun self '(k, v) =>
       self <- (if hasattr self k then Ok self else setattr self k v) ;;
       setitem_attr self "__list_tensors__" k v)
    (mkObject cls t (Some (VDict acc)) a)
  = Ok (mkObject cls t (Some (VDict (acc ++ rest))) (fold_left (guarded_attr cls) rest a)).
Proof.
  revert acc a; induction rest as [|[k v] rest IH]; intros acc a ND F; simpl in *.
  - rewrite app_nil_r; reflexivity.
  - apply andb_true_iff in F as [Fk F].
    rewrite (@guarded_setattr_field_name _ k v Fk). cbn [bind class_of __tensors__
      __list_tensors__ attributes].
    apply NoDup_app_cons_fresh in ND as [Hf ND].
    unfold setitem_attr, getattr; simpl.
    rewrite dict_set_fresh by exact Hf.
    unfold store_attr; simpl.
    rewrite IH; [rewrite <- app_assoc; reflexivity| |exact F].
    rewrite dict_keys_app. exact ND.
Qed.

Lemma call_keywords (kw : dict) :
  field_names (dict_keys kw) = true ->
  dict_contains "self" kw = false
  /\ keyword_or_default "inputs" kw = VDict []
  /\ dict_remove "inputs" kw = kw.
Proof.
  intros F.
  assert (~ In "self" (dict_keys kw)) as Hs
    by (apply (field_names_not_reserved _ F); simpl; auto).
  assert (~ In "inputs" (dict_keys kw)) as Hi
    by (apply (field_names_not_reserved _ F); simpl; auto).
  repeat split.
  - apply dict_contains_false, Hs.
  - unfold keyword_or_default. apply dict_get_None in Hi. rewrite Hi. reflexivity.
  - apply dict_remove_absent, Hi.
Qed.

(** [TensorsInputs( **kw )] stores the keywords as its mapping. *)
Lemma call_TensorsInputs (kw : dict) :
  field_names (dict_keys kw) = true ->
  call TensorsInputs kw = Ok (tensors_inputs kw).
Proof.
  intros F. destruct (call_keywords kw F) as (Hs & Hi & Hr).
  unfold call. rewrite Hs, Hi, Hr. simpl.
  unfold TensorsInputs___init__. simpl.
  rewrite dict_merge_empty by (apply field_names_NoDup, F).
  unfold new_object, store_attr. simpl.
  rewrite (@fill_tensors_loop TensorsInputs kw [] None []).
  - unfold tensors_inputs. rewrite guarded_attrs_fresh by (apply field_names_NoDup, F).
    reflexivity.
  - simpl. apply field_names_NoDup, F.
  - unfold field_names in F. apply andb_true_iff in F as [_ F]. exact F.
Qed.

Lemma fold_left_ext {A B : Type} (f g : A -> B -> A) (l : list B) (a : A) :
  (forall a b, f a b = g a b) -> fold_left f l a = fold_left g l a.
Proof.
  intros H. revert a; induction l as [|b l IH]; intros a; simpl; [reflexivity|].
  rewrite H. apply IH.
Qed.

Lemma dict_keys_map_values (f : pyval -> pyval) (d : dict) :
  dict_keys (dict_map_values f d) = dict_keys d.
Proof.
  unfold dict_keys, dict_map_values. rewrite map_map. reflexivity.
Qed.

Lemma dict_get_map_values (f : pyval -> pyval) (k : string) (d : dict) :
  dict_get k (dict_map_values f d) = option_map f (dict_get k d).
Proof.
  induction d as [|[k' v] d IH]; simpl; [reflexivity|].
  destruct (String.eqb k k'); [reflexivity|exact IH].
Qed.

Lemma single_tensor_as_list_ok (v : pyval) :
  tensor_or_list_of_tensors v = true ->
  list_of_tensors (single_tensor_as_list v) = true.
Proof.
  unfold tensor_or_list_of_tensors, single_tensor_as_list.
  destruct v as [t|l|d|]; simpl; intros H; try discriminate; auto.
Qed.

Lemma single_tensor_as_list_id (v : pyval) :
  list_of_tensors v = true -> single_tensor_as_list v = v.
Proof. destruct v; simpl; intros H; try discriminate; reflexivity. Qed.

Lemma dict_map_values_id (f : pyval -> pyval) (d : dict) :
  Forall (fun v => f v = v) (dict_values d) -> dict_map_values f d = d.
Proof.
  induction d as [|[k v] d IH]; simpl; intros H; [reflexivity|].
  inversion H; subst. simpl in *. f_equal; [congruence|auto].
Qed.

(** The checks of [TensorsMixin.__post_init__] pass on tensors. *)
Lemma TensorsMixin_post_init_loop
      (cls : klass) (t l : option pyval) (a items : dict) :
  forallb field_name (dict_keys items) = true ->
  forallb isinstance_Tensor (dict_values items) = true ->
  for_each items
    (fun self '(key, tensor) =>
       py_assert (isinstance_Tensor tensor) ;;;
       setattr self key tensor)
    (mkObject cls t l a)
  = Ok (mkObject cls t l (dict_merge a items)).
Proof.
  revert a; induction items as [|[k v] items IH]; simpl; intros a F T; [reflexivity|].
  apply andb_true_iff in F as [Fk F]. apply andb_true_iff in T as [Tv T].
  rewrite Tv. simpl. rewrite (@setattr_field_name _ k v Fk). simpl.
  rewrite IH by assumption. reflexivity.
Qed.

(** The checks of [ListTensorsMixin.__post_init__] pass on lists of tensors. *)
Lemma ListTensorsMixin_post_init_loop
      (cls : klass) (t l : option pyval) (a items : dict) :
  forallb field_name (dict_keys items) = true ->
  forallb list_of_tensors (dict_values items) = true ->
  for_each items
    (fun self '(key, list_tensor) =>
       py_assert (isinstance_list list_tensor) ;;;
       l <- iterate list_tensor ;;
       py_assert (forallb isinstance_Tensor l) ;;;
       setattr self key list_tensor)
    (mkObject cls t l a)
  = Ok (mkObject cls t l (dict_merge a items)).
Proof.
  revert a; induction items as [|[k v] items IH]; simpl; intros a F T; [reflexivity|].
  apply andb_true_iff in F as [Fk F]. apply andb_true_iff in T as [Tv T].
  destruct v as [x|x|x|]; simpl in Tv; try discriminate.
  simpl. rewrite Tv. simpl. rewrite (@setattr_field_name _ k (VList x) Fk). simpl.
  rewrite IH by assumption. reflexivity.
Qed.

Lemma forallb_dict_values_map (p : pyval -> bool) (f : pyval -> pyval) (d : dict) :
  forallb (fun v => p (f v)) (dict_values d) = true ->
  forallb p (dict_values (dict_map_values f d)) = true.
Proof.
  unfold dict_values, dict_map_values. rewrite map_map. simpl.
  rewrite !forallb_forall. intros H x Hx. apply in_map_iff in Hx as (kv & <- & Hin).
  apply H. apply in_map. exact Hin.
Qed.

Lemma ListTensorsMixin_post_init_fields
      (cls : klass) (t : option pyval) (d a : dict) :
  field_names (dict_keys d) = true ->
  forallb tensor_or_list_of_tensors (dict_values d) = true ->
  ListTensorsMixin___post_init__ (mkObject cls t (Some (VDict d)) a)
  = Ok (mkObject cls t (Some (VDict (dict_map_values single_tensor_as_list d)))
          (dict_merge a (dict_map_values single_tensor_as_list d))).
Proof.
  intros F T. unfold ListTensorsMixin___post_init__.
  unfold hasattr, getattr, lookup_attr; simpl.
  rewrite (fold_left_ext _
             (fun acc x => dict_set (fst x) (single_tensor_as_list (snd x)) acc))
    by (intros a0 [k v]; reflexivity).
  rewrite (fold_dict_set_fresh fst (fun x => single_tensor_as_list (snd x)) d [])
    by (simpl; apply field_names_NoDup, F).
  simpl. fold (dict_map_values single_tensor_as_list d).
  unfold store_attr; simpl.
  apply ListTensorsMixin_post_init_loop.
  - rewrite dict_keys_map_values.
    unfold field_names in F. apply andb_true_iff in F as [_ F]. exact F.
  - apply forallb_dict_values_map.
    rewrite forallb_forall in *. intros v Hv. apply single_tensor_as_list_ok; auto.
Qed.

(** *** Attributes that are overwritten *)

Lemma dict_set_same_keys (k : string) (v : pyval) (x x' : dict) :
  dict_keys x = dict_keys x' ->
  dict_keys (dict_set k v x) = dict_keys (dict_set k v x').
Proof.
  revert x'; induction x as [|[k0 v0] x IH]; intros [|[k1 v1] x'] H;
    simpl in *; try discriminate; [reflexivity|].
  injection H as -> H.
  destruct (String.eqb k k1); simpl; f_equal; auto.
Qed.

Lemma In_dict_keys_set (k k0 : string) (v : pyval) (d : dict) :
  In k0 (dict_keys (dict_set k v d)) -> k0 = k \/ In k0 (dict_keys d).
Proof.
  induction d as [|[k1 v1] d IH]; simpl.
  - intros [<-|[]]; auto.
  - destruct (String.eqb k k1) eqn:E; simpl.
    + apply String.eqb_eq in E; subst k1. intros [<-|H]; auto.
    + intros [<-|H]; auto. destruct (IH H); auto.
Qed.

Lemma NoDup_dict_set (k : string) (v : pyval) (d : dict) :
  NoDup (dict_keys d) -> NoDup (dict_keys (dict_set k v d)).
Proof.
  induction d as [|[k1 v1] d IH]; simpl; intros ND.
  - constructor; [intros []|constructor].
  - inversion ND as [|? ? Hn ND']; subst.
    destruct (String.eqb k k1) eqn:E; simpl.
    + apply String.eqb_eq in E; subst k1. constructor; assumption.
    + constructor; [|auto].
      intros Hin. apply In_dict_keys_set in Hin as [->|Hin]; [|auto].
      rewrite String.eqb_refl in E. discriminate.
Qed.

Lemma dict_ext (x x' : dict) :
  dict_keys x = dict_keys x' ->
  NoDup (dict_keys x) ->
  (forall k, dict_get k x = dict_get k x') ->
  x = x'.
Proof.
  revert x'; induction x as [|[k v] x IH]; intros [|[k' v'] x'] K ND G;
    simpl in *; try discriminate; [reflexivity|].
  injection K as -> K.
  inversion ND as [|? ? Hn ND']; subst.
  pose proof (G k') as Gk. rewrite String.eqb_refl in Gk. injection Gk as ->.
  f_equal. apply IH; [exact K|exact ND'|].
  intros k. pose proof (G k) as Gk.
  destruct (String.eqb k k') eqn:E; [|exact Gk].
  apply String.eqb_eq in E; subst k.
  apply dict_get_None in Hn. rewrite Hn. symmetry.
  apply dict_get_None. rewrite <- K. apply dict_get_None. exact Hn.
Qed.

(** Attributes that [d] overwrites may hold anything before. *)
Lemma dict_merge_overwritten (d x x' : dict) :
  dict_keys x = dict_keys x' ->
  NoDup (dict_keys x) ->
  (forall k, ~ In k (dict_keys d) -> dict_get k x = dict_get k x') ->
  dict_merge x d = dict_merge x' d.
Proof.
  unfold dict_merge.
  revert x x'; induction d as [|[k v] d IH]; intros x x' K ND G; simpl.
  - apply dict_ext; [exact K|exact ND|]. intros k. apply G. intros [].
  - apply IH.
    + apply dict_set_same_keys, K.
    + apply NoDup_dict_set, ND.
    + intros k0 Hk0. destruct (string_dec k k0) as [<-|N].
      * rewrite !dict_get_set_eq. reflexivity.
      * rewrite !dict_get_set_ne by exact N. apply G.
        simpl. intros [E|Hin]; [exact (N E)|exact (Hk0 Hin)].
Qed.

Lemma own_fields_map_values (cls : klass) (f : pyval -> pyval) (d : dict) :
  own_fields cls (dict_map_values f d) = dict_map_values f (own_fields cls d).
Proof.
  unfold own_fields, dict_map_values.
  induction d as [|[k v] d IH]; simpl; [reflexivity|].
  destruct (class_attribute cls k); simpl; rewrite IH; reflexivity.
Qed.

Lemma own_fields_keys_incl (cls : klass) (d : dict) (k : string) :
  In k (dict_keys (own_fields cls d)) -> In k (dict_keys d).
Proof.
  unfold own_fields, dict_keys. intros H.
  apply in_map_iff in H as (kv & <- & Hin). apply filter_In in Hin as [Hin _].
  apply in_map, Hin.
Qed.

Lemma own_fields_NoDup (cls : klass) (d : dict) :
  NoDup (dict_keys d) -> NoDup (dict_keys (own_fields cls d)).
Proof.
  induction d as [|[k v] d IH]; simpl; intros ND; [constructor|].
  inversion ND as [|? ? Hn ND']; subst.
  destruct (class_attribute cls k); simpl; [auto|].
  constructor; [|auto]. intros Hin. apply Hn.
  exact (@own_fields_keys_incl cls d k Hin).
Qed.

(** [ListTensorsInputs( **kw )] stores the keywords, a single tensor as a
    one-element list. *)
Lemma call_ListTensorsInputs (kw : dict) :
  field_names (dict_keys kw) = true ->
  forallb tensor_or_list_of_tensors (dict_values kw) = true ->
  call ListTensorsInputs kw
  = Ok (list_tensors_inputs (dict_map_values single_tensor_as_list kw)).
Proof.
  intros F T. destruct (call_keywords kw F) as (Hs & Hi & Hr).
  unfold call. rewrite Hs, Hi, Hr. simpl.
  unfold ListTensorsInputs___init__. simpl.
  rewrite dict_merge_empty by (apply field_names_NoDup, F).
  unfold new_object, store_attr. simpl.
  rewrite (@fill_list_tensors_loop ListTensorsInputs kw [] None []);
    [|simpl; apply field_names_NoDup, F
     |unfold field_names in F; apply andb_true_iff in F as [_ F]; exact F].
  cbn [bind app].
  rewrite ListTensorsMixin_post_init_fields by assumption.
  unfold list_tensors_inputs. do 2 f_equal.
  rewrite guarded_attrs_fresh by (apply field_names_NoDup, F). cbn [app].
  apply dict_merge_overwritten.
  - rewrite own_fields_map_values, dict_keys_map_values. reflexivity.
  - apply own_fields_NoDup, field_names_NoDup, F.
  - intros k Hk. rewrite dict_keys_map_values in Hk.
    assert (dict_get k (own_fields ListTensorsInputs kw) = None) as ->.
    { apply dict_get_None. intros Hin. apply Hk.
      exact (@own_fields_keys_incl _ _ _ Hin). }
    symmetry. apply dict_get_None. intros Hin. apply Hk.
    apply own_fields_keys_incl in Hin. rewrite dict_keys_map_values in Hin. exact Hin.
Qed.

Lemma call_combine_fields (cls : klass) (a b : dict) :
  is_combine cls = true ->
  field_names (dict_keys a) = true ->
  forallb isinstance_Tensor (dict_values a) = true ->
  field_names (dict_keys b) = true ->
  forallb tensor_or_list_of_tensors (dict_values b) = true ->
  call_combine cls a b
  = Ok (combine_tensors cls a (dict_map_values single_tensor_as_list b)).
Proof.
  intros C Fa Ta Fb Tb.
  assert (call_combine cls a b
          = CombineTensorsMixin___init__ (new_object cls) (VDict a) (VDict b)) as ->
    by (destruct cls; try discriminate; reflexivity).
  unfold CombineTensorsMixin___init__, CombineTensorsMixin___post_init__.
  unfold new_object; simpl.
  unfold TensorsMixin___post_init__, hasattr, getattr, lookup_attr; simpl.
  unfold store_attr; simpl.
  rewrite TensorsMixin_post_init_loop; [cbn [bind]| |exact Ta].
  - rewrite ListTensorsMixin_post_init_fields by assumption.
    rewrite dict_merge_empty by (apply field_names_NoDup, Fa). reflexivity.
  - unfold field_names in Fa. apply andb_true_iff in Fa as [_ Fa]. exact Fa.
Qed.

(** *** Key checks and gathering *)

Lemma keys_eqb_eq (a b : list string) : keys_eqb a b = true <-> a = b.
Proof.
  unfold keys_eqb. destruct (list_eq_dec string_dec a b); split; auto; discriminate.
Qed.

Lemma tensors_keys_of (o : object) (d : dict) :
  __tensors__ o = Some (VDict d) -> tensors_keys o = Ok (dict_keys d).
Proof.
  intros H. unfold tensors_keys, getattr, lookup_attr. simpl. rewrite H. reflexivity.
Qed.

Lemma list_tensors_keys_of (o : object) (d : dict) :
  __list_tensors__ o = Some (VDict d) -> list_tensors_keys o = Ok (dict_keys d).
Proof.
  intros H. unfold list_tensors_keys, getattr, lookup_attr. simpl. rewrite H. reflexivity.
Qed.

Lemma assert_same_tensors_keys_spec (keys : list string) (bs : list object) (ds : list dict) :
  tensors_are bs ds ->
  assert_same_tensors_keys keys bs
  = if forallb (fun d => keys_eqb keys (dict_keys d)) ds
    then Ok tt else Raise AssertionError.
Proof.
  unfold assert_same_tensors_keys.
  induction 1 as [|o d bs ds Ho _ IH]; simpl; [reflexivity|].
  rewrite (tensors_keys_of _ Ho). simpl.
  destruct (keys_eqb keys (dict_keys d)); simpl; [exact IH|reflexivity].
Qed.

Lemma assert_same_list_tensors_keys_spec
      (keys : list string) (bs : list object) (ds : list dict) :
  list_tensors_are bs ds ->
  assert_same_list_tensors_keys keys bs
  = if forallb (fun d => keys_eqb keys (dict_keys d)) ds
    then Ok tt else Raise AssertionError.
Proof.
  unfold assert_same_list_tensors_keys.
  induction 1 as [|o d bs ds Ho _ IH]; simpl; [reflexivity|].
  rewrite (list_tensors_keys_of _ Ho). simpl.
  destruct (keys_eqb keys (dict_keys d)); simpl; [exact IH|reflexivity].
Qed.

Lemma forallb_keys_eqb (keys : list string) (ds : list dict) :
  forallb (fun d => keys_eqb keys (dict_keys d)) ds = true
  <-> Forall (fun d => dict_keys d = keys) ds.
Proof.
  rewrite forallb_forall, Forall_forall. split; intros H d Hd.
  - symmetry. apply keys_eqb_eq. auto.
  - apply keys_eqb_eq. symmetry. auto.
Qed.

Lemma gather_tensors_of (key : string) (bs : list object) (ds : list dict) :
  tensors_are bs ds ->
  gather_tensors key bs = comprehension (fun d => getitem (VDict d) key) ds.
Proof.
  unfold gather_tensors.
  induction 1 as [|o d bs ds Ho _ IH]; [reflexivity|].
  cbn [comprehension]. rewrite IH.
  unfold getattr, lookup_attr. simpl. rewrite Ho. reflexivity.
Qed.

Lemma gather_list_tensors_of (key : string) (bs : list object) (ds : list dict) :
  list_tensors_are bs ds ->
  gather_list_tensors key bs = comprehension (fun d => getitem (VDict d) key) ds.
Proof.
  unfold gather_list_tensors.
  induction 1 as [|o d bs ds Ho _ IH]; [reflexivity|].
  cbn [comprehension]. rewrite IH.
  unfold getattr, lookup_attr. simpl. rewrite Ho. reflexivity.
Qed.

(* ===================================================================== *)
(** ** Empty argument lists *)
(* ===================================================================== *)

(** C9, amended.  For a class that takes its methods from [TensorsMixin] or
    [ListTensorsMixin]: when the class declares no dataclass field, [union]
    and [stack] of no bundle at all return an empty container and raise
    nothing; when it declares one, as [LossOutputs] does, the constructor
    cannot be called without it and both raise [TypeError]. *)
Theorem C9_empty_union_and_stack (cls : klass) (dim : Z) :
  is_combine cls = false ->
  (fields cls = [] ->
   exists o,
     union cls [] dim = Ok o
     /\ stack cls [] dim = Ok o
     /\ dict_ o = Ok (VDict []))
  /\ (fields cls <> [] ->
      union cls [] dim = Raise TypeError
      /\ stack cls [] dim = Raise TypeError).
Proof.
  intros C. split.
  - intros F. destruct cls; try discriminate C; try discriminate F;
      eexists; repeat split; reflexivity.
  - intros F. destruct cls; try discriminate C;
      try (exfalso; apply F; reflexivity).
    split; reflexivity.
Qed.

Lemma C9_empty_union_and_stack_witness :
  is_combine TensorsInputs = false
  /\ fields TensorsInputs = []
  /\ exists o,
       union TensorsInputs [] 0 = Ok o
       /\ stack TensorsInputs [] 0 = Ok o
       /\ dict_ o = Ok (VDict []).
Proof.
  split; [reflexivity|]. split; [reflexivity|].
  exact (proj1 (@C9_empty_union_and_stack TensorsInputs 0 eq_refl) eq_refl).
Defined.

(** C9 as the claim states it fails for [LossOutputs]: [LossOutputs.union()]
    and [LossOutputs.stack()] raise [TypeError], since [LossOutputs()] lacks
    the required argument [loss]. *)
Lemma C9_empty_union_of_LossOutputs_raises :
  union LossOutputs [] 0 = Raise TypeError
  /\ stack LossOutputs [] 0 = Raise TypeError
  /\ ~ (exists o, union LossOutputs [] 0 = Ok o /\ dict_ o = Ok (VDict [])).
Proof.
  split; [reflexivity|]. split; [reflexivity|].
  intros (o & H & _). discriminate H.
Qed.

(* ===================================================================== *)
(** ** Key mismatches *)
(* ===================================================================== *)

(** C4.  Given at least one bundle, [TensorsMixin.union] and
    [TensorsMixin.stack] raise [AssertionError] as soon as one bundle's key
    list is not the first bundle's, whatever the tensors are; when all key
    lists are the first bundle's, the key assertion passes. *)
Theorem C4_key_mismatch_is_an_assertion_error
        (cls : klass) (bundles : list object) (ds : list dict) (first : dict) (dim : Z) :
  tensors_are bundles ds ->
  hd_error ds = Some first ->
  (Exists (fun d => dict_keys d <> dict_keys first) ds ->
   TensorsMixin_union cls bundles dim = Raise AssertionError
   /\ TensorsMixin_stack cls bundles dim = Raise AssertionError)
  /\ (Forall (fun d => dict_keys d = dict_keys first) ds ->
      assert_same_tensors_keys (dict_keys first) bundles = Ok tt).
Proof.
  intros Hb Hf.
  pose proof (assert_same_tensors_keys_spec (dict_keys first) Hb) as Hk.
  split.
  - intros Hex.
    assert (forallb (fun d => keys_eqb (dict_keys first) (dict_keys d)) ds = false) as Hfalse.
    { destruct (forallb _ ds) eqn:E; [|reflexivity].
      apply forallb_keys_eqb in E. rewrite Forall_forall in E.
      apply Exists_exists in Hex as (d & Hd & Hne). exfalso. apply Hne, E, Hd. }
    rewrite Hfalse in Hk.
    destruct Hb as [|o d bs ds' Ho Hrest]; [discriminate Hf|].
    injection Hf as ->.
    unfold TensorsMixin_union, TensorsMixin_stack.
    rewrite (tensors_keys_of _ Ho). simpl bind at 1.
    split.
    + cbn [bind]. rewrite Hk. reflexivity.
    + cbn [bind]. rewrite Hk. reflexivity.
  - intros Hall. apply forallb_keys_eqb in Hall. rewrite Hall in Hk. exact Hk.
Qed.

Lemma C4_key_mismatch_is_an_assertion_error_witness :
  let a := [("x", VTensor sample_a)] in
  let b := [("y", VTensor sample_b)] in
  tensors_are [tensors_inputs a; tensors_inputs b] [a; b]
  /\ hd_error [a; b] = Some a
  /\ Exists (fun d => dict_keys d <> dict_keys a) [a; b]
  /\ TensorsMixin_union TensorsInputs [tensors_inputs a; tensors_inputs b] 0
     = Raise AssertionError
  /\ TensorsMixin_stack TensorsInputs [tensors_inputs a; tensors_inputs b] 0
     = Raise AssertionError.
Proof.
  intros a b.
  assert (tensors_are [tensors_inputs a; tensors_inputs b] [a; b]) as Hb
    by (repeat constructor).
  assert (Exists (fun d => dict_keys d <> dict_keys a) [a; b]) as Hex
    by (apply Exists_cons_tl, Exists_cons_hd; discriminate).
  split; [exact Hb|]. split; [reflexivity|]. split; [exact Hex|].
  exact (proj1 (C4_key_mismatch_is_an_assertion_error TensorsInputs 0 Hb eq_refl) Hex).
Defined.

(* ===================================================================== *)
(** ** add *)
(* ===================================================================== *)

Lemma dict_contains_true (k : string) (d : dict) :
  dict_contains k d = true <-> In k (dict_keys d).
Proof.
  unfold dict_contains. destruct (dict_get k d) eqn:E.
  - split; [intros _|reflexivity].
    apply dict_get_In in E. change k with (fst (k, p)). apply in_map. exact E.
  - split; [discriminate|]. intros H. apply dict_get_None in E. contradiction.
Qed.

Lemma add_item_keeps (f : pyval -> pyval) (D d : dict) (k : string) (v : pyval) :
  dict_get k d = Some v ->
  dict_get k (fold_left (add_item f) D d) = Some v.
Proof.
  revert d; induction D as [|[k' v'] D IH]; intros d H; simpl; [exact H|].
  apply IH. unfold add_item; simpl.
  destruct (dict_contains k' d) eqn:E; [exact H|].
  rewrite dict_get_set_ne; [exact H|].
  intros ->. unfold dict_contains in E. rewrite H in E. discriminate.
Qed.

Lemma add_item_adds (f : pyval -> pyval) (D d : dict) (k : string) (v : pyval) :
  NoDup (dict_keys D) ->
  In (k, v) D ->
  dict_get k d = None ->
  dict_get k (fold_left (add_item f) D d) = Some (f v).
Proof.
  revert d; induction D as [|[k' v'] D IH]; intros d ND Hin Hd; simpl in *; [tauto|].
  inversion ND as [|? ? Hn ND']; subst.
  destruct Hin as [H|H].
  - injection H as -> ->.
    apply add_item_keeps. unfold add_item; simpl.
    unfold dict_contains. rewrite Hd. apply dict_get_set_eq.
  - apply IH; auto. unfold add_item; simpl.
    destruct (dict_contains k' d); [exact Hd|].
    rewrite dict_get_set_ne; [exact Hd|].
    intros ->. apply Hn. change k with (fst (k, v)). apply in_map. exact H.
Qed.

(** [TensorsMixin.add] never raises on tensors: it walks the items and
    skips every key that is already there. *)
Lemma TensorsMixin_add_spec (cls : klass) (l : option pyval) (D d a : dict) :
  forallb isinstance_Tensor (dict_values D) = true ->
  forallb field_name (dict_keys D) = true ->
  TensorsMixin_add (mkObject cls (Some (VDict d)) l a) (a_dict D)
  = Ok (mkObject cls (Some (VDict (fold_left (add_item (fun v => v)) D d))) l
          (add_attributes (fun v => v) D d a)).
Proof.
  unfold TensorsMixin_add. cbn [bind].
  revert d a; induction D as [|[k v] D IH]; intros d a T F; simpl in *; [reflexivity|].
  apply andb_true_iff in T as [Tv T]. apply andb_true_iff in F as [Fk F].
  rewrite Tv. simpl. unfold add_item at 2; simpl.
  destruct (dict_contains k d) eqn:E; simpl.
  - apply IH; assumption.
  - unfold setitem_attr, getattr, store_attr; simpl.
    rewrite (@setattr_field_name _ k v Fk). simpl. apply IH; assumption.
Qed.

(** [ListTensorsMixin.add], likewise, on lists. *)
Lemma ListTensorsMixin_add_spec (cls : klass) (t : option pyval) (D d a : dict) :
  forallb isinstance_list (dict_values D) = true ->
  forallb field_name (dict_keys D) = true ->
  ListTensorsMixin_add (mkObject cls t (Some (VDict d)) a) (a_dict D)
  = Ok (mkObject cls t (Some (VDict (fold_left (add_item single_tensor_as_list) D d)))
          (add_attributes single_tensor_as_list D d a)).
Proof.
  unfold ListTensorsMixin_add. cbn [bind].
  revert d a; induction D as [|[k v] D IH]; intros d a T F; simpl in *; [reflexivity|].
  apply andb_true_iff in T as [Tv T]. apply andb_true_iff in F as [Fk F].
  rewrite Tv. simpl. unfold add_item at 2; simpl.
  destruct (dict_contains k d) eqn:E; simpl.
  - apply IH; assumption.
  - unfold setitem_attr, getattr, store_attr; simpl.
    rewrite (@setattr_field_name _ k (single_tensor_as_list v) Fk). simpl.
    apply IH; assumption.
Qed.

(** C2, as the code behaves.  [add] returns normally although a key of its
    argument is already in the container; that key keeps the value it had,
    and the keys that were not there are added.  Nothing is raised. *)
Theorem C2_add_skips_a_colliding_key
        (cls : klass) (other : option pyval) (d a D : dict)
        (k : string) (old new : pyval) :
  dict_get k d = Some old ->
  In (k, new) D ->
  NoDup (dict_keys D) ->
  forallb field_name (dict_keys D) = true ->
  (forallb isinstance_Tensor (dict_values D) = true ->
   exists d',
     TensorsMixin_add (mkObject cls (Some (VDict d)) other a) (a_dict D)
     = Ok (mkObject cls (Some (VDict d')) other (add_attributes (fun v => v) D d a))
     /\ dict_get k d' = Some old
     /\ forall k' v', In (k', v') D -> dict_get k' d = None ->
                      dict_get k' d' = Some v')
  /\ (forallb list_of_tensors (dict_values D) = true ->
      exists d',
        ListTensorsMixin_add (mkObject cls other (Some (VDict d)) a) (a_dict D)
        = Ok (mkObject cls other (Some (VDict d'))
                (add_attributes single_tensor_as_list D d a))
        /\ dict_get k d' = Some old
        /\ forall k' v', In (k', v') D -> dict_get k' d = None ->
                         dict_get k' d' = Some v').
Proof.
  intros Hold Hin ND F. split.
  - intros T. eexists. split; [apply TensorsMixin_add_spec; assumption|].
    split; [apply add_item_keeps, Hold|].
    intros k' v' Hin' Hnone.
    apply (add_item_adds (fun v => v)); assumption.
  - intros T. eexists. split.
    + apply ListTensorsMixin_add_spec; [|assumption].
      rewrite forallb_forall in *. intros v Hv. specialize (T v Hv).
      destruct v; simpl in *; try discriminate; reflexivity.
    + split; [apply add_item_keeps, Hold|].
      intros k' v' Hin' Hnone.
      rewrite (add_item_adds single_tensor_as_list) with (v := v'); try assumption.
      f_equal. apply single_tensor_as_list_id.
      rewrite forallb_forall in T. apply T.
      change v' with (snd (k', v')). apply in_map. exact Hin'.
Qed.

Lemma C2_add_skips_a_colliding_key_witness :
  let d := [("x", VTensor sample_a)] in
  let D := [("x", VTensor sample_b); ("y", VTensor sample_c)] in
  dict_get "x" d = Some (VTensor sample_a)
  /\ In ("x", VTensor sample_b) D
  /\ NoDup (dict_keys D)
  /\ forallb field_name (dict_keys D) = true
  /\ forallb isinstance_Tensor (dict_values D) = true
  /\ exists d',
       TensorsMixin_add (tensors_inputs d) (a_dict D)
       = Ok (mkObject TensorsInputs (Some (VDict d')) None
               [("x", VTensor sample_a); ("y", VTensor sample_c)])
       /\ dict_get "x" d' = Some (VTensor sample_a)
       /\ forall k' v', In (k', v') D -> dict_get k' d = None ->
                        dict_get k' d' = Some v'.
Proof.
  intros d D.
  assert (NoDup (dict_keys D)) as ND by (apply distinct_NoDup; reflexivity).
  split; [reflexivity|]. split; [left; reflexivity|]. split; [exact ND|].
  split; [reflexivity|]. split; [reflexivity|].
  exact (proj1 (@C2_add_skips_a_colliding_key TensorsInputs None d
                  (own_fields TensorsInputs d) D "x"
                  (VTensor sample_a) (VTensor sample_b)
                  eq_refl (or_introl eq_refl) ND eq_refl) eq_refl).
Defined.

(* ===================================================================== *)
(** ** cpu and cuda *)
(* ===================================================================== *)

Lemma combine_map {A B C : Type} (f : A -> B) (g : A -> C) (l : list A) :
  combine (map f l) (map g l) = map (fun x => (f x, g x)) l.
Proof. induction l as [|x l IH]; simpl; [reflexivity|]. rewrite IH. reflexivity. Qed.

Lemma comprehension_Ok_map {A B : Type} (h : A -> result B) (g : A -> B) (l : list A) :
  (forall x, In x l -> h x = Ok (g x)) -> comprehension h l = Ok (map g l).
Proof.
  induction l as [|x l IH]; intros H; simpl; [reflexivity|].
  rewrite (H x (or_introl eq_refl)). simpl.
  rewrite IH by (intros; apply H; right; assumption). reflexivity.
Qed.

(** A loop that computes a new value for every item of a mapping. *)
Lemma build_mapped (h : pyval -> result pyval) (g : pyval -> pyval) (items : dict) :
  NoDup (dict_keys items) ->
  (forall v, In v (dict_values items) -> h v = Ok (g v)) ->
  for_each items
    (fun acc '(key, value) => new_value <- h value ;; Ok (dict_set key new_value acc))
    []
  = Ok (dict_map_values g items).
Proof.
  intros ND H.
  rewrite (for_each_ext _ _
             (fun acc x => v <- h (snd x) ;; Ok (dict_set (fst x) v acc)))
    by (intros acc [k v] _; reflexivity).
  rewrite (for_each_dict_set_fresh fst (fun x => h (snd x)) items []
             (vs := map (fun x => g (snd x)) items)).
  - simpl. unfold dict_keys. rewrite combine_map. reflexivity.
  - simpl. exact ND.
  - apply comprehension_Ok_map. intros x Hx. apply H. apply in_map. exact Hx.
Qed.

Lemma setitem_tensors_loop (cls : klass) (l : option pyval) (items d a : dict) :
  for_each items
    (fun self '(key, value) => setitem_attr self "__tensors__" key value)
    (mkObject cls (Some (VDict d)) l a)
  = Ok (mkObject cls (Some (VDict (dict_merge d items))) l a).
Proof.
  revert d; induction items as [|[k v] items IH]; intros d; simpl; [reflexivity|].
  unfold setitem_attr, getattr, store_attr; simpl. apply IH.
Qed.

Lemma setitem_list_tensors_loop (cls : klass) (t : option pyval) (items d a : dict) :
  for_each items
    (fun self '(key, value) => setitem_attr self "__list_tensors__" key value)
    (mkObject cls t (Some (VDict d)) a)
  = Ok (mkObject cls t (Some (VDict (dict_merge d items))) a).
Proof.
  revert d; induction items as [|[k v] items IH]; intros d; simpl; [reflexivity|].
  unfold setitem_attr, getattr, store_attr; simpl. apply IH.
Qed.

Lemma dict_set_skip (k : string) (v : pyval) (a b : dict) :
  ~ In k (dict_keys a) -> dict_set k v (a ++ b) = a ++ dict_set k v b.
Proof.
  induction a as [|[k' v'] a IH]; simpl; intros H; [reflexivity|].
  destruct (String.eqb k k') eqn:E.
  - apply String.eqb_eq in E; subst. exfalso; auto.
  - rewrite IH; auto.
Qed.

(** Assigning new values to the keys of a mapping, in its own order, keeps
    the keys where they are. *)
Lemma dict_merge_overwrite (g : pyval -> pyval) (d : dict) :
  NoDup (dict_keys d) -> dict_merge d (dict_map_values g d) = dict_map_values g d.
Proof.
  intros ND. unfold dict_merge.
  enough (forall rest done,
             NoDup (dict_keys done ++ dict_keys rest) ->
             fold_left (fun acc kv => dict_set (fst kv) (snd kv) acc)
               (dict_map_values g rest) (done ++ rest)
             = done ++ dict_map_values g rest) as H
      by (apply (H d []); exact ND).
  induction rest as [|[k v] rest IH]; intros done ND'; simpl; [reflexivity|].
  simpl in ND'. apply NoDup_app_cons_fresh in ND' as [Hf ND'].
  rewrite dict_set_skip by exact Hf. simpl. rewrite String.eqb_refl.
  change (done ++ (k, g v) :: rest) with (done ++ [(k, g v)] ++ rest).
  rewrite app_assoc. rewrite IH.
  - rewrite <- app_assoc. reflexivity.
  - rewrite dict_keys_app. exact ND'.
Qed.

Lemma method_cpu_tensor (v : pyval) :
  isinstance_Tensor v = true -> method_cpu v = Ok (move_tensor Tensor_cpu v).
Proof. destruct v; simpl; intros H; try discriminate; reflexivity. Qed.

Lemma method_cuda_tensor (v : pyval) :
  isinstance_Tensor v = true -> method_cuda v = Ok (move_tensor Tensor_cuda v).
Proof. destruct v; simpl; intros H; try discriminate; reflexivity. Qed.

Lemma move_list_cpu (v : pyval) :
  list_of_tensors v = true ->
  (l <- iterate v ;; new_value <- comprehension method_cpu l ;; Ok (VList new_value))
  = Ok (move_list Tensor_cpu v).
Proof.
  destruct v as [t|l|d|]; simpl; intros H; try discriminate.
  rewrite (comprehension_Ok_map method_cpu (move_tensor Tensor_cpu)); [reflexivity|].
  intros x Hx. apply method_cpu_tensor. rewrite forallb_forall in H. auto.
Qed.

Lemma move_list_cuda (v : pyval) :
  list_of_tensors v = true ->
  (l <- iterate v ;; new_value <- comprehension method_cuda l ;; Ok (VList new_value))
  = Ok (move_list Tensor_cuda v).
Proof.
  destruct v as [t|l|d|]; simpl; intros H; try discriminate.
  rewrite (comprehension_Ok_map method_cuda (move_tensor Tensor_cuda)); [reflexivity|].
  intros x Hx. apply method_cuda_tensor. rewrite forallb_forall in H. auto.
Qed.

(** The first loop of [ListTensorsMixin.cpu] and [ListTensorsMixin.cuda]. *)
Lemma moved_list_tensors (move : pyval -> result pyval) (f : Tensor -> Tensor) (d : dict) :
  NoDup (dict_keys d) ->
  forallb list_of_tensors (dict_values d) = true ->
  (forall v, list_of_tensors v = true ->
     (l <- iterate v ;; new_value <- comprehension move l ;; Ok (VList new_value))
     = Ok (move_list f v)) ->
  for_each d
    (fun new_list_tensors '(key, value) =>
       l <- iterate value ;;
       new_value <- comprehension move l ;;
       Ok (dict_set key (VList new_value) new_list_tensors))
    []
  = Ok (dict_map_values (move_list f) d).
Proof.
  intros ND T H.
  rewrite <- (build_mapped
                (fun v => l <- iterate v ;; nv <- comprehension move l ;; Ok (VList nv))
                (move_list f) d ND).
  - apply for_each_ext. intros acc [k v] _. simpl.
    rewrite !bind_assoc. destruct (iterate v); simpl; [|reflexivity].
    rewrite !bind_assoc. destruct (comprehension move a); reflexivity.
  - intros v Hv. apply H. rewrite forallb_forall in T. auto.
Qed.

(** [TensorsMixin.cpu(inplace=True)] moves the mapping of the receiver. *)
Lemma TensorsMixin_cpu_inplace (cls : klass) (l : option pyval) (d a : dict) :
  NoDup (dict_keys d) ->
  forallb isinstance_Tensor (dict_values d) = true ->
  TensorsMixin_cpu (mkObject cls (Some (VDict d)) l a) true
  = Ok (mkObject cls (Some (VDict (dict_map_values (move_tensor Tensor_cpu) d))) l a,
        None).
Proof.
  intros ND T. unfold TensorsMixin_cpu, getattr. simpl.
  rewrite (build_mapped method_cpu (move_tensor Tensor_cpu) d ND)
    by (intros v Hv; apply method_cpu_tensor; rewrite forallb_forall in T; auto).
  simpl. rewrite setitem_tensors_loop. simpl.
  rewrite dict_merge_overwrite by exact ND. reflexivity.
Qed.

(** [TensorsInputs.cpu()] returns a moved copy and leaves the receiver. *)
Lemma TensorsMixin_cpu_copy (d : dict) :
  field_names (dict_keys d) = true ->
  forallb isinstance_Tensor (dict_values d) = true ->
  TensorsMixin_cpu (tensors_inputs d) false
  = Ok (tensors_inputs d,
        Some (tensors_inputs (dict_map_values (move_tensor Tensor_cpu) d))).
Proof.
  intros F T. unfold TensorsMixin_cpu, tensors_inputs, getattr. simpl.
  rewrite (build_mapped method_cpu (move_tensor Tensor_cpu) d (field_names_NoDup _ F))
    by (intros v Hv; apply method_cpu_tensor; rewrite forallb_forall in T; auto).
  simpl. rewrite call_TensorsInputs; [reflexivity|].
  rewrite dict_keys_map_values. exact F.
Qed.

(** C3, as the code behaves.  On a container that holds only a list
    mapping, [cpu(inplace=True)] raises [AttributeError]: it assigns the
    moved lists to [self.__tensors__], which is not there.  On a container
    that holds both mappings it stores the moved lists in the tensor mapping
    and leaves the list mapping as it was.  [cuda(inplace=True)] assigns to
    [self.__list_tensors__] and moves the list mapping. *)
Theorem C3_list_cpu_inplace_misses_the_list_mapping (cls : klass) (d a : dict) :
  d <> [] ->
  NoDup (dict_keys d) ->
  forallb list_of_tensors (dict_values d) = true ->
  ListTensorsMixin_cpu (mkObject cls None (Some (VDict d)) a) true = Raise AttributeError
  /\ (forall t : dict,
        ListTensorsMixin_cpu (mkObject cls (Some (VDict t)) (Some (VDict d)) a) true
        = Ok (mkObject cls
                (Some (VDict (dict_merge t (dict_map_values (move_list Tensor_cpu) d))))
                (Some (VDict d)) a,
              None))
  /\ ListTensorsMixin_cuda (mkObject cls None (Some (VDict d)) a) true
     = Ok (mkObject cls None (Some (VDict (dict_map_values (move_list Tensor_cuda) d))) a,
           None).
Proof.
  intros Hne ND T. repeat split.
  - unfold ListTensorsMixin_cpu, getattr. simpl.
    rewrite (moved_list_tensors method_cpu Tensor_cpu d ND T move_list_cpu). simpl.
    destruct d as [|[k v] d]; [contradiction|]. reflexivity.
  - intros t. unfold ListTensorsMixin_cpu, getattr. simpl.
    rewrite (moved_list_tensors method_cpu Tensor_cpu d ND T move_list_cpu). simpl.
    rewrite setitem_tensors_loop. reflexivity.
  - unfold ListTensorsMixin_cuda, getattr. simpl.
    rewrite (moved_list_tensors method_cuda Tensor_cuda d ND T move_list_cuda). simpl.
    rewrite setitem_list_tensors_loop. simpl.
    rewrite dict_merge_overwrite by exact ND. reflexivity.
Qed.

Lemma C3_list_cpu_inplace_misses_the_list_mapping_witness :
  let d := [("x", VList [VTensor sample_g])] in
  d <> []
  /\ NoDup (dict_keys d)
  /\ forallb list_of_tensors (dict_values d) = true
  /\ ListTensorsMixin_cpu (list_tensors_inputs d) true = Raise AttributeError.
Proof.
  intros d.
  assert (d <> []) as Hne by discriminate.
  assert (NoDup (dict_keys d)) as ND by (apply distinct_NoDup; reflexivity).
  split; [exact Hne|]. split; [exact ND|]. split; [reflexivity|].
  exact (proj1 (@C3_list_cpu_inplace_misses_the_list_mapping ListTensorsInputs d
                  (dict_merge (own_fields ListTensorsInputs d) d) Hne ND eq_refl)).
Defined.

(* ===================================================================== *)
(** ** Construction of a list bundle *)
(* ===================================================================== *)

Lemma dict_get_merge (k : string) (a b : dict) :
  NoDup (dict_keys b) ->
  dict_get k (dict_merge a b)
  = match dict_get k b with Some v => Some v | None => dict_get k a end.
Proof.
  unfold dict_merge. revert a; induction b as [|[k' v'] b IH]; intros a ND; simpl.
  - reflexivity.
  - inversion ND as [|? ? Hn ND']; subst. rewrite IH by exact ND'.
    destruct (String.eqb k k') eqn:E.
    + apply String.eqb_eq in E; subst k'.
      apply dict_get_None in Hn. rewrite Hn. apply dict_get_set_eq.
    + apply String.eqb_neq in E.
      rewrite dict_get_set_ne by congruence. reflexivity.
Qed.

(** *** Methods and the attributes that hide them *)

Lemma bound_method_free {A : Type} (self : object) (name : string) (m : result A) :
  lookup_attr self name = None -> bound_method self name m = m.
Proof. unfold bound_method. intros ->. reflexivity. Qed.

Lemma bound_method_hidden {A : Type} (self : object) (name : string) (m : result A) :
  lookup_attr self name <> None -> bound_method self name m = Raise TypeError.
Proof.
  unfold bound_method. destruct (lookup_attr self name); [reflexivity|contradiction].
Qed.

Lemma dict_get_own_fields (cls : klass) (k : string) (d : dict) :
  dict_get k (own_fields cls d)
  = if class_attribute cls k then None else dict_get k d.
Proof.
  induction d as [|[k' v] d IH]; simpl.
  - destruct (class_attribute cls k); reflexivity.
  - destruct (class_attribute cls k') eqn:E'; simpl.
    + rewrite IH. destruct (String.eqb k k') eqn:E; [|reflexivity].
      apply String.eqb_eq in E; subst k'. rewrite E'. reflexivity.
    + destruct (String.eqb k k') eqn:E; [|exact IH].
      apply String.eqb_eq in E; subst k'. rewrite E'. reflexivity.
Qed.

(** The guarded [setattr] of [TensorsInputs.__init__] hides no method. *)
Lemma tensors_inputs_hides_no_method (d : dict) (name : string) :
  In name method_names -> lookup_attr (tensors_inputs d) name = None.
Proof.
  intros H. unfold lookup_attr, tensors_inputs. cbn [__tensors__ __list_tensors__ attributes].
  assert (class_attribute TensorsInputs name = true) as C.
  { unfold class_attribute. apply orb_true_iff. left.
    apply existsb_eqb_In, in_or_app. left. exact H. }
  rewrite dict_get_own_fields, C.
  simpl in H. repeat (destruct H as [<-|H]; [reflexivity|]). destruct H.
Qed.

(** Of a [ListTensorsInputs] every field is an attribute. *)
Lemma lookup_list_tensors_inputs (d : dict) (name : string) :
  NoDup (dict_keys d) ->
  field_name name = true ->
  lookup_attr (list_tensors_inputs d) name = dict_get name d.
Proof.
  intros ND F. rewrite (@lookup_attr_field_name _ name F).
  unfold list_tensors_inputs. cbn [attributes].
  rewrite dict_get_merge by exact ND.
  destruct (dict_get name d) eqn:E; [reflexivity|].
  rewrite dict_get_own_fields, E. destruct (class_attribute _ name); reflexivity.
Qed.

(** Of a combined container every tensor field and every list field is an
    attribute. *)
Lemma lookup_combine_tensors (cls : klass) (t l : dict) (name : string) :
  NoDup (dict_keys l) ->
  field_name name = true ->
  lookup_attr (combine_tensors cls t l) name
  = match dict_get name l with Some v => Some v | None => dict_get name t end.
Proof.
  intros ND F. rewrite (@lookup_attr_field_name _ name F).
  unfold combine_tensors. cbn [attributes]. apply dict_get_merge, ND.
Qed.

(** [dict()] of the containers the constructors build. *)
Lemma dict_tensors_inputs (d : dict) : dict_ (tensors_inputs d) = Ok (VDict d).
Proof.
  unfold dict_. rewrite bound_method_free; [reflexivity|].
  apply tensors_inputs_hides_no_method. simpl. auto 10.
Qed.

Lemma dict_list_tensors_inputs (d : dict) :
  NoDup (dict_keys d) ->
  ~ In "dict" (dict_keys d) ->
  dict_ (list_tensors_inputs d) = Ok (VDict d).
Proof.
  intros ND H. unfold dict_. rewrite bound_method_free; [reflexivity|].
  rewrite lookup_list_tensors_inputs; [|exact ND|reflexivity].
  apply dict_get_None, H.
Qed.

Lemma dict_combine_tensors (cls : klass) (t l : dict) :
  is_combine cls = true ->
  NoDup (dict_keys l) ->
  ~ In "dict" (dict_keys t) ->
  ~ In "dict" (dict_keys l) ->
  dict_ (combine_tensors cls t l) = Ok (VDict (dict_merge t l)).
Proof.
  intros C ND Ht Hl. unfold dict_. rewrite bound_method_free.
  - unfold is_combine in C. cbn [combine_tensors class_of].
    destruct (mixin_of cls); try discriminate C. reflexivity.
  - rewrite lookup_combine_tensors; [|exact ND|reflexivity].
    apply dict_get_None in Hl. rewrite Hl. apply dict_get_None, Ht.
Qed.

(** C8.  A field given to the constructor as a single tensor [t] is stored
    as the one-element list [[t]]: [dict()] maps the field to [[t]], for a
    [ListTensorsInputs] and for the list half of a combined container.  No
    field is named [dict]: the constructor makes every field an attribute of
    the instance, and an attribute [dict] would hide the method. *)
Theorem C8_single_tensor_becomes_a_list (kw : dict) (k : string) (t : Tensor) :
  field_names (dict_keys kw) = true ->
  forallb tensor_or_list_of_tensors (dict_values kw) = true ->
  dict_get k kw = Some (VTensor t) ->
  ~ In "dict" (dict_keys kw) ->
  (exists o d,
      call ListTensorsInputs kw = Ok o
      /\ dict_ o = Ok (VDict d)
      /\ dict_get k d = Some (VList [VTensor t]))
  /\ (forall (cls : klass) (a : dict),
        is_combine cls = true ->
        field_names (dict_keys a) = true ->
        forallb isinstance_Tensor (dict_values a) = true ->
        ~ In "dict" (dict_keys a) ->
        exists o d,
          call_combine cls a kw = Ok o
          /\ dict_ o = Ok (VDict d)
          /\ dict_get k d = Some (VList [VTensor t])).
Proof.
  intros F T Hk Hd.
  assert (dict_get k (dict_map_values single_tensor_as_list kw)
          = Some (VList [VTensor t])) as Hget
    by (rewrite dict_get_map_values, Hk; reflexivity).
  assert (NoDup (dict_keys (dict_map_values single_tensor_as_list kw))) as ND
    by (rewrite dict_keys_map_values; apply field_names_NoDup, F).
  assert (dict_get "dict" (dict_map_values single_tensor_as_list kw) = None) as Hnone
    by (apply dict_get_None; rewrite dict_keys_map_values; exact Hd).
  split.
  - eexists; eexists. split; [apply call_ListTensorsInputs; assumption|].
    split; [|exact Hget].
    unfold dict_. rewrite bound_method_free; [reflexivity|].
    rewrite lookup_list_tensors_inputs; [exact Hnone|exact ND|reflexivity].
  - intros cls a C Fa Ta Ha. eexists; eexists.
    split; [apply call_combine_fields; assumption|].
    split.
    + unfold dict_. rewrite bound_method_free.
      * unfold is_combine in C. cbn [combine_tensors class_of].
        destruct (mixin_of cls); try discriminate C. reflexivity.
      * rewrite lookup_combine_tensors; [|exact ND|reflexivity].
        rewrite Hnone. apply dict_get_None, Ha.
    + rewrite dict_get_merge, Hget; [reflexivity|exact ND].
Qed.

Lemma C8_single_tensor_becomes_a_list_witness :
  let kw := [("pixel_values", VTensor sample_a);
             ("candidates", VList [VTensor sample_b; VTensor sample_c])] in
  field_names (dict_keys kw) = true
  /\ forallb tensor_or_list_of_tensors (dict_values kw) = true
  /\ dict_get "pixel_values" kw = Some (VTensor sample_a)
  /\ ~ In "dict" (dict_keys kw)
  /\ exists o d,
       call ListTensorsInputs kw = Ok o
       /\ dict_ o = Ok (VDict d)
       /\ dict_get "pixel_values" d = Some (VList [VTensor sample_a]).
Proof.
  intros kw.
  assert (~ In "dict" (dict_keys kw)) as Hd
    by (simpl; intros [H|[H|[]]]; discriminate H).
  split; [reflexivity|]. split; [reflexivity|]. split; [reflexivity|].
  split; [exact Hd|].
  exact (proj1 (@C8_single_tensor_becomes_a_list kw "pixel_values" sample_a
                  eq_refl eq_refl eq_refl Hd)).
Defined.

(* ===================================================================== *)
(** ** Loops over the keys *)
(* ===================================================================== *)

Lemma comprehension_Forall2 {A B : Type} (F : A -> result B) (l : list A) :
  Forall (fun x => exists y, F x = Ok y) l ->
  exists ys, comprehension F l = Ok ys /\ Forall2 (fun x y => F x = Ok y) l ys.
Proof.
  induction 1 as [|x l [y Hy] _ (ys & Hc & H2)]; simpl.
  - exists []. split; [reflexivity|constructor].
  - exists (y :: ys). rewrite Hy, Hc. split; [reflexivity|constructor; assumption].
Qed.

Lemma dict_get_combine (R : string -> pyval -> Prop) (ks : list string) (vs : list pyval)
      (k : string) :
  Forall2 R ks vs -> In k ks -> exists v, dict_get k (combine ks vs) = Some v /\ R k v.
Proof.
  induction 1 as [|k' v' ks vs Hr _ IH]; simpl; [tauto|].
  intros Hin. destruct (String.eqb k k') eqn:E.
  - apply String.eqb_eq in E; subst. exists v'. auto.
  - apply IH. destruct Hin as [->|H]; [|exact H].
    rewrite String.eqb_refl in E. discriminate.
Qed.

(** The loop [for key in keys: new[key] = F(key)] that fills a new dict. *)
Lemma per_key_loop (F : string -> result pyval) (keys : list string) :
  NoDup keys ->
  Forall (fun k => exists v, F k = Ok v) keys ->
  exists d,
    for_each keys (fun acc key => v <- F key ;; Ok (dict_set key v acc)) [] = Ok d
    /\ dict_keys d = keys
    /\ forall k, In k keys -> exists v, dict_get k d = Some v /\ F k = Ok v.
Proof.
  intros ND H. destruct (comprehension_Forall2 F H) as (vs & Hc & H2).
  exists (combine keys vs).
  split.
  - rewrite (for_each_dict_set_fresh (fun k => k) F keys [] (vs := vs)).
    + rewrite map_id. reflexivity.
    + rewrite map_id. exact ND.
    + exact Hc.
  - split.
    + apply dict_keys_combine. apply (comprehension_length _ _ Hc).
    + intros k Hin. apply (@dict_get_combine _ _ _ k H2 Hin).
Qed.

(** The values a key has in each of the bundles. *)
Lemma lookup_all (key : string) (keys : list string) (ds : list dict) :
  Forall (fun d => dict_keys d = keys) ds ->
  In key keys ->
  exists vs,
    comprehension (fun d => getitem (VDict d) key) ds = Ok vs
    /\ Forall2 (fun d v => dict_get key d = Some v) ds vs.
Proof.
  intros Hk Hin.
  induction Hk as [|d ds Hd _ (vs & Hc & H2)].
  - exists []. split; [reflexivity|constructor].
  - destruct (dict_get key d) as [v|] eqn:E.
    + exists (v :: vs). cbn [comprehension]. rewrite Hc. cbn [getitem]. rewrite E.
      split; [reflexivity|constructor; assumption].
    + apply dict_get_None in E. rewrite Hd in E. contradiction.
Qed.

(* ===================================================================== *)
(** ** union *)
(* ===================================================================== *)

Lemma values_of_loop (P : pyval -> bool) (F : string -> result pyval) (d : dict) :
  NoDup (dict_keys d) ->
  (forall k, In k (dict_keys d) -> exists v, dict_get k d = Some v /\ F k = Ok v) ->
  (forall k v, F k = Ok v -> P v = true) ->
  forallb P (dict_values d) = true.
Proof.
  intros ND H HP. apply forallb_forall. intros v Hv.
  apply in_map_iff in Hv as ([k v'] & <- & Hin). simpl.
  assert (In k (dict_keys d)) as Hk
    by (change k with (fst (k, v')); apply in_map; exact Hin).
  destruct (H k Hk) as (v & Hg & HF).
  rewrite (@In_dict_get k v' d ND Hin) in Hg. injection Hg as ->.
  apply (HP k v HF).
Qed.

(** The tensor loop of [union] on two bundles. *)
Lemma union_tensors_loop (A B : object) (dA dB : dict) (dim : Z) :
  tensors_are [A; B] [dA; dB] ->
  dict_keys dB = dict_keys dA ->
  NoDup (dict_keys dA) ->
  (forall k va vb, dict_get k dA = Some va -> dict_get k dB = Some vb ->
                   concatenable dim va vb) ->
  exists d,
    for_each (dict_keys dA)
      (fun new_tensors key =>
         new_tensor <- gather_tensors key [A; B] ;;
         ts <- tensor_list new_tensor ;;
         t <- torch_cat ts dim ;;
         Ok (dict_set key (VTensor t) new_tensors))
      []
    = Ok d
    /\ dict_keys d = dict_keys dA
    /\ forallb isinstance_Tensor (dict_values d) = true
    /\ forall k va vb, dict_get k dA = Some va -> dict_get k dB = Some vb ->
                       exists v, concatenation dim va vb = Ok v /\ dict_get k d = Some v.
Proof.
  intros Hb Hkeys ND Hcat.
  set (F := fun key =>
              new_tensor <- gather_tensors key [A; B] ;;
              ts <- tensor_list new_tensor ;;
              t <- torch_cat ts dim ;;
              Ok (VTensor t)).
  assert (forall k va vb, dict_get k dA = Some va -> dict_get k dB = Some vb ->
                          F k = concatenation dim va vb) as HF.
  { intros k va vb Ha Hb'. unfold F. rewrite (gather_tensors_of k Hb).
    cbn [comprehension getitem]. rewrite Ha, Hb'. cbn [bind].
    destruct (Hcat k va vb Ha Hb') as (x & y & t & -> & -> & Ht).
    simpl. reflexivity. }
  assert (forall k, In k (dict_keys dA) ->
                    exists va vb, dict_get k dA = Some va /\ dict_get k dB = Some vb) as Hboth.
  { intros k Hin.
    destruct (dict_get k dA) as [va|] eqn:Ea;
      [|apply dict_get_None in Ea; contradiction].
    destruct (dict_get k dB) as [vb|] eqn:Eb;
      [|apply dict_get_None in Eb; rewrite Hkeys in Eb; contradiction].
    eauto. }
  destruct (per_key_loop F ND) as (d & Hloop & Hk & Hget).
  { apply Forall_forall. intros k Hin. destruct (Hboth k Hin) as (va & vb & Ha & Hb').
    rewrite (HF k va vb Ha Hb').
    destruct (Hcat k va vb Ha Hb') as (x & y & t & -> & -> & Ht).
    simpl. rewrite Ht. simpl. eauto. }
  exists d. split; [|split; [exact Hk|split]].
  - rewrite <- Hloop. apply for_each_ext. intros acc key _. unfold F.
    rewrite !bind_assoc. destruct (gather_tensors key [A; B]); [|reflexivity].
    cbn [bind]. rewrite !bind_assoc. destruct (tensor_list a); [|reflexivity].
    cbn [bind]. rewrite !bind_assoc. destruct (torch_cat a0 dim); reflexivity.
  - apply (values_of_loop isinstance_Tensor F).
    + rewrite Hk. exact ND.
    + rewrite Hk. exact Hget.
    + intros k v. unfold F.
      destruct (gather_tensors k [A; B]); [|discriminate]. cbn [bind].
      destruct (tensor_list a); [|discriminate]. cbn [bind].
      destruct (torch_cat a0 dim); [|discriminate]. cbn [bind].
      intros [= <-]. reflexivity.
  - intros k va vb Ha Hb'.
    assert (In k (dict_keys dA)) as Hin.
    { destruct (in_dec string_dec k (dict_keys dA)) as [H|H]; [exact H|].
      apply dict_get_None in H. congruence. }
    destruct (Hget k Hin) as (v & Hv & HFk). exists v.
    rewrite <- (HF k va vb Ha Hb'). auto.
Qed.

Lemma chain_two_lists (x y : list pyval) :
  chain_from_iterable [VList x; VList y] = Ok (x ++ y).
Proof. reflexivity. Qed.

(** The list loop of [union] on two bundles. *)
Lemma union_list_tensors_loop (A B : object) (dA dB : dict) :
  list_tensors_are [A; B] [dA; dB] ->
  dict_keys dB = dict_keys dA ->
  NoDup (dict_keys dA) ->
  forallb list_of_tensors (dict_values dA) = true ->
  forallb list_of_tensors (dict_values dB) = true ->
  exists d,
    for_each (dict_keys dA)
      (fun new_list_tensors key =>
         new_list_tensor <- gather_list_tensors key [A; B] ;;
         flat <- chain_from_iterable new_list_tensor ;;
         Ok (dict_set key (VList flat) new_list_tensors))
      []
    = Ok d
    /\ dict_keys d = dict_keys dA
    /\ forallb list_of_tensors (dict_values d) = true
    /\ forall k va vb, dict_get k dA = Some va -> dict_get k dB = Some vb ->
                       forall dim,
                       exists v, concatenation dim va vb = Ok v /\ dict_get k d = Some v.
Proof.
  intros Hb Hkeys ND TA TB.
  set (F := fun key =>
              new_list_tensor <- gather_list_tensors key [A; B] ;;
              flat <- chain_from_iterable new_list_tensor ;;
              Ok (VList flat)).
  assert (forall k v d0, forallb list_of_tensors (dict_values d0) = true ->
                         dict_get k d0 = Some v -> list_of_tensors v = true) as Hlist.
  { intros k v d0 T Hg. rewrite forallb_forall in T. apply T.
    change v with (snd (k, v)). apply in_map. apply dict_get_In. exact Hg. }
  assert (forall k va vb, dict_get k dA = Some va -> dict_get k dB = Some vb ->
            exists x y, va = VList x /\ vb = VList y
                        /\ forallb isinstance_Tensor (x ++ y) = true
                        /\ F k = Ok (VList (x ++ y))) as HF.
  { intros k va vb Ha Hb'.
    pose proof (Hlist k va dA TA Ha) as La. pose proof (Hlist k vb dB TB Hb') as Lb.
    destruct va as [|x| |]; try discriminate La.
    destruct vb as [|y| |]; try discriminate Lb.
    exists x, y. repeat split.
    - rewrite forallb_app. simpl in La, Lb. rewrite La, Lb. reflexivity.
    - unfold F. rewrite (gather_list_tensors_of k Hb).
      cbn [comprehension getitem]. rewrite Ha, Hb'. reflexivity. }
  assert (forall k, In k (dict_keys dA) ->
                    exists va vb, dict_get k dA = Some va /\ dict_get k dB = Some vb) as Hboth.
  { intros k Hin.
    destruct (dict_get k dA) as [va|] eqn:Ea;
      [|apply dict_get_None in Ea; contradiction].
    destruct (dict_get k dB) as [vb|] eqn:Eb;
      [|apply dict_get_None in Eb; rewrite Hkeys in Eb; contradiction].
    eauto. }
  destruct (per_key_loop F ND) as (d & Hloop & Hk & Hget).
  { apply Forall_forall. intros k Hin. destruct (Hboth k Hin) as (va & vb & Ha & Hb').
    destruct (HF k va vb Ha Hb') as (x & y & _ & _ & _ & HFk). eauto. }
  exists d. split; [|split; [exact Hk|split]].
  - rewrite <- Hloop. apply for_each_ext. intros acc key _. unfold F.
    rewrite !bind_assoc. destruct (gather_list_tensors key [A; B]); [|reflexivity].
    cbn [bind]. rewrite !bind_assoc. destruct (chain_from_iterable a); reflexivity.
  - apply forallb_forall. intros v Hv.
    apply in_map_iff in Hv as ([k v'] & <- & Hin). simpl.
    assert (In k (dict_keys dA)) as Hk'
      by (rewrite <- Hk; change k with (fst (k, v')); apply in_map; exact Hin).
    destruct (Hget k Hk') as (v & Hg & HFk).
    rewrite (@In_dict_get k v' d) in Hg; [|rewrite Hk; exact ND|exact Hin].
    injection Hg as ->.
    destruct (Hboth k Hk') as (va & vb & Ha & Hb').
    destruct (HF k va vb Ha Hb') as (x & y & _ & _ & Hall & HFk').
    rewrite HFk in HFk'. injection HFk' as ->. exact Hall.
  - intros k va vb Ha Hb' dim.
    assert (In k (dict_keys dA)) as Hin.
    { destruct (in_dec string_dec k (dict_keys dA)) as [H|H]; [exact H|].
      apply dict_get_None in H. congruence. }
    destruct (Hget k Hin) as (v & Hv & HFk).
    destruct (HF k va vb Ha Hb') as (x & y & -> & -> & _ & HFk').
    exists v. split; [|exact Hv]. simpl. congruence.
Qed.

Lemma list_of_tensors_values_id (d : dict) :
  forallb list_of_tensors (dict_values d) = true ->
  dict_map_values single_tensor_as_list d = d.
Proof.
  intros T. apply dict_map_values_id. apply Forall_forall. intros v Hv.
  apply single_tensor_as_list_id. rewrite forallb_forall in T. auto.
Qed.

Lemma list_of_tensors_is_tensor_or_list (d : dict) :
  forallb list_of_tensors (dict_values d) = true ->
  forallb tensor_or_list_of_tensors (dict_values d) = true.
Proof.
  rewrite !forallb_forall. intros T v Hv. unfold tensor_or_list_of_tensors.
  rewrite (T v Hv). apply orb_true_r.
Qed.

Lemma dict_get_same_keys (k : string) (a b : dict) :
  dict_keys b = dict_keys a -> dict_get k a = None -> dict_get k b = None.
Proof.
  intros Hk Ha. apply dict_get_None. rewrite Hk. apply dict_get_None. exact Ha.
Qed.

(** [union] of two [TensorsInputs]-like bundles with the same key list builds
    a [TensorsInputs] from the concatenations. *)
Lemma union_of_two_tensors_inputs (dim : Z) (A B : object) (dA dB : dict) :
  tensors_are [A; B] [dA; dB] ->
  dict_keys dB = dict_keys dA ->
  field_names (dict_keys dA) = true ->
  (forall k va vb, dict_get k dA = Some va -> dict_get k dB = Some vb ->
                   concatenable dim va vb) ->
  exists dR,
    union TensorsInputs [A; B] dim = Ok (tensors_inputs dR)
    /\ dict_keys dR = dict_keys dA
    /\ forall k va vb, dict_get k dA = Some va -> dict_get k dB = Some vb ->
         exists v, concatenation dim va vb = Ok v /\ dict_get k dR = Some v.
Proof.
  intros Hb Hkeys F Hcat.
  destruct (union_tensors_loop Hb Hkeys (field_names_NoDup _ F) Hcat)
    as (d & Hloop & Hk & HT & Hget).
  exists d.
  split; [|split; assumption].
  inversion Hb as [|? ? ? ? HA HB']; subst.
  unfold union, TensorsMixin_union. cbn [mixin_of].
  rewrite (tensors_keys_of _ HA). cbn [bind].
  rewrite (assert_same_tensors_keys_spec (dict_keys dA) Hb).
  assert (forallb (fun d0 => keys_eqb (dict_keys dA) (dict_keys d0)) [dA; dB] = true) as ->
    by (apply forallb_keys_eqb; repeat constructor; assumption).
  cbn [bind]. rewrite Hloop. cbn [bind].
  apply call_TensorsInputs. rewrite Hk. exact F.
Qed.

(** [union] of two list bundles with the same key list builds a
    [ListTensorsInputs] from the chained lists. *)
Lemma union_of_two_list_tensors_inputs (dim : Z) (A B : object) (dA dB : dict) :
  list_tensors_are [A; B] [dA; dB] ->
  dict_keys dB = dict_keys dA ->
  field_names (dict_keys dA) = true ->
  forallb list_of_tensors (dict_values dA) = true ->
  forallb list_of_tensors (dict_values dB) = true ->
  exists dR,
    union ListTensorsInputs [A; B] dim = Ok (list_tensors_inputs dR)
    /\ dict_keys dR = dict_keys dA
    /\ forall k va vb, dict_get k dA = Some va -> dict_get k dB = Some vb ->
         exists v, concatenation dim va vb = Ok v /\ dict_get k dR = Some v.
Proof.
  intros Hb Hkeys F TA TB.
  destruct (union_list_tensors_loop Hb Hkeys (field_names_NoDup _ F) TA TB)
    as (d & Hloop & Hk & HT & Hget).
  exists d.
  split; [|split; [assumption|]].
  - inversion Hb as [|? ? ? ? HA HB']; subst.
    unfold union, ListTensorsMixin_union. cbn [mixin_of].
    rewrite (list_tensors_keys_of _ HA). cbn [bind].
    rewrite (assert_same_list_tensors_keys_spec (dict_keys dA) Hb).
    assert (forallb (fun d0 => keys_eqb (dict_keys dA) (dict_keys d0)) [dA; dB] = true) as ->
      by (apply forallb_keys_eqb; repeat constructor; assumption).
    cbn [bind]. rewrite Hloop. cbn [bind].
    rewrite call_ListTensorsInputs.
    + rewrite (list_of_tensors_values_id _ HT). reflexivity.
    + rewrite Hk. exact F.
    + apply list_of_tensors_is_tensor_or_list, HT.
  - intros k va vb Ha Hb'. apply (Hget k va vb Ha Hb' dim).
Qed.

Lemma union_of_combine (cls : klass) (bs : list object) (dim : Z) :
  is_combine cls = true -> union cls bs dim = CombineTensorsMixin_union cls bs dim.
Proof.
  unfold is_combine, union. destruct (mixin_of cls); try discriminate. reflexivity.
Qed.

(** [union] of two combined bundles builds a combined container from the
    concatenated tensors and the chained lists. *)
Lemma union_of_two_combined
      (dim : Z) (cls : klass) (A B : object) (tA tB lA lB : dict) :
  is_combine cls = true ->
  tensors_are [A; B] [tA; tB] ->
  list_tensors_are [A; B] [lA; lB] ->
  dict_keys tB = dict_keys tA ->
  dict_keys lB = dict_keys lA ->
  field_names (dict_keys tA) = true ->
  field_names (dict_keys lA) = true ->
  (forall k va vb, dict_get k tA = Some va -> dict_get k tB = Some vb ->
                   concatenable dim va vb) ->
  forallb list_of_tensors (dict_values lA) = true ->
  forallb list_of_tensors (dict_values lB) = true ->
  exists dT dL,
    union cls [A; B] dim = Ok (combine_tensors cls dT dL)
    /\ dict_keys dT = dict_keys tA
    /\ dict_keys dL = dict_keys lA
    /\ forall k va vb,
         dict_get k (dict_merge tA lA) = Some va ->
         dict_get k (dict_merge tB lB) = Some vb ->
         exists v, concatenation dim va vb = Ok v
                   /\ dict_get k (dict_merge dT dL) = Some v.
Proof.
  intros C Hbt Hbl Hkt Hkl Ft Fl Hcat TA TB.
  destruct (union_tensors_loop Hbt Hkt (field_names_NoDup _ Ft) Hcat)
    as (dT & HloopT & HkT & HTT & HgetT).
  destruct (union_list_tensors_loop Hbl Hkl (field_names_NoDup _ Fl) TA TB)
    as (dL & HloopL & HkL & HTL & HgetL).
  exists dT, dL.
  split; [|split; [exact HkT|split; [exact HkL|]]].
  - inversion Hbt as [|? ? ? ? HA HB']; subst.
    inversion Hbl as [|? ? ? ? HA' HB'']; subst.
    rewrite (@union_of_combine cls [A; B] dim C).
    unfold CombineTensorsMixin_union.
    rewrite (tensors_keys_of _ HA). cbn [bind].
    rewrite (list_tensors_keys_of _ HA'). cbn [bind].
    assert (assert_same_mix_keys (dict_keys tA) (dict_keys lA) [A; B] = Ok tt) as ->.
    { unfold assert_same_mix_keys. cbn [for_each].
      inversion HB' as [|? ? ? ? HB1 _]; subst.
      inversion HB'' as [|? ? ? ? HB2 _]; subst.
      rewrite (tensors_keys_of _ HA), (list_tensors_keys_of _ HA').
      rewrite (tensors_keys_of _ HB1), (list_tensors_keys_of _ HB2).
      rewrite Hkt, Hkl. cbn [bind].
      assert (forall ks, keys_eqb ks ks = true) as Hrefl
        by (intros ks; apply keys_eqb_eq; reflexivity).
      rewrite !Hrefl. reflexivity. }
    cbn [bind]. rewrite HloopT. cbn [bind]. rewrite HloopL. cbn [bind].
    rewrite call_combine_fields; try assumption.
    + rewrite (list_of_tensors_values_id _ HTL). reflexivity.
    + rewrite HkT. exact Ft.
    + rewrite HkL. exact Fl.
    + apply list_of_tensors_is_tensor_or_list, HTL.
  - intros k va vb Ha Hb'.
    assert (NoDup (dict_keys lA)) as NDl by (apply field_names_NoDup, Fl).
    rewrite dict_get_merge in Ha by exact NDl.
    rewrite dict_get_merge in Hb' by (rewrite Hkl; exact NDl).
    rewrite dict_get_merge by (rewrite HkL; exact NDl).
    destruct (dict_get k lA) as [la|] eqn:ELA.
    + injection Ha as <-.
      destruct (dict_get k lB) as [lb|] eqn:ELB.
      * injection Hb' as <-.
        destruct (HgetL k la lb ELA ELB dim) as (v & Hv & Hd).
        exists v. rewrite Hd. auto.
      * apply dict_get_None in ELB. rewrite Hkl in ELB.
        apply dict_get_None in ELB. congruence.
    + rewrite (dict_get_same_keys k lA lB Hkl ELA) in Hb'.
      rewrite (dict_get_same_keys k lA dL HkL ELA).
      apply (HgetT k va vb Ha Hb').
Qed.

(** Tensors of sizes (2, 2) and (1, 2) are merged into one of sizes (3, 2);
    bundles whose keys come in another order are refused. *)
Example union_of_sample_inputs :
  union TensorsInputs
    [tensors_inputs [("x", VTensor sample_a)]; tensors_inputs [("x", VTensor sample_c)]] 0
  = Ok (tensors_inputs
          [("x", VTensor (mkTensor [3; 2] [1; 2; 3; 4; 9; 10]%Z cpu_device))])
  /\ union TensorsInputs
       [tensors_inputs [("x", VTensor sample_a); ("y", VTensor sample_b)];
        tensors_inputs [("y", VTensor sample_b); ("x", VTensor sample_a)]] 0
     = Raise AssertionError.
Proof. split; reflexivity. Qed.

(* ===================================================================== *)
(** ** stack of list bundles *)
(* ===================================================================== *)

Lemma for_each_raises {A S : Type} (l : list A) (body : S -> A -> result S) (E : exn) (s : S) :
  (forall x s, In x l -> (exists s', body s x = Ok s') \/ body s x = Raise E) ->
  (exists x, In x l /\ forall s, body s x = Raise E) ->
  for_each l body s = Raise E.
Proof.
  revert s; induction l as [|x l IH]; intros s Hall (x0 & Hin & Hx0); [destruct Hin|].
  cbn [for_each].
  destruct (Hall x s (or_introl eq_refl)) as [(s' & Hs')|Hr].
  - rewrite Hs'. cbn [bind]. apply IH.
    + intros; apply Hall; right; assumption.
    + destruct Hin as [->|Hin]; [rewrite Hx0 in Hs'; discriminate|].
      exists x0. auto.
  - rewrite Hr. reflexivity.
Qed.

Lemma len_list_of_tensors (vs : list pyval) :
  Forall (fun v => list_of_tensors v = true) vs ->
  comprehension len vs = Ok (map (fun v => length (elements v)) vs).
Proof.
  intros H. apply comprehension_Ok_map. intros v Hv.
  rewrite Forall_forall in H. specialize (H v Hv).
  destruct v; simpl in *; try discriminate; reflexivity.
Qed.

Lemma chain_list_of_tensors (vs : list pyval) (acc : list pyval) :
  Forall (fun v => list_of_tensors v = true) vs ->
  for_each vs (fun acc l => xs <- iterate l ;; Ok (acc ++ xs)) acc
  = Ok (acc ++ concat (map elements vs)).
Proof.
  intros H. revert acc; induction H as [|v vs Hv _ IH]; intros acc; simpl.
  - rewrite app_nil_r. reflexivity.
  - destruct v; simpl in *; try discriminate.
    rewrite IH. rewrite app_assoc. reflexivity.
Qed.

Lemma has_one_element_length (v : pyval) :
  list_of_tensors v = true ->
  Nat.eqb (length (elements v)) 1 = has_one_element v.
Proof.
  destruct v as [|[|x [|y l]]| |]; simpl; intros H; try discriminate; reflexivity.
Qed.

(** What the body of the loop of [ListTensorsMixin.stack] computes for one
    key, given the values of that key in the bundles. *)
Lemma stack_list_tensors_key (key : string) (bs : list object) (ds : list dict)
      (vs : list pyval) :
  list_tensors_are bs ds ->
  column key ds vs ->
  Forall (fun v => list_of_tensors v = true) vs ->
  (new_list_tensor <- gather_list_tensors key bs ;;
   lens <- comprehension len new_list_tensor ;;
   py_assert (forallb (fun n => Nat.eqb n 1) lens) ;;;
   flat <- chain_from_iterable new_list_tensor ;;
   Ok (VList flat))
  = if forallb has_one_element vs
    then Ok (VList (concat (map elements vs)))
    else Raise AssertionError.
Proof.
  intros Hb Hcol HT.
  rewrite (gather_list_tensors_of key Hb).
  assert (comprehension (fun d => getitem (VDict d) key) ds = Ok vs) as ->.
  { clear HT Hb. induction Hcol as [|d v ds vs Hd _ IH]; [reflexivity|].
    cbn [comprehension]. rewrite IH. cbn [getitem]. rewrite Hd. reflexivity. }
  cbn [bind]. rewrite (len_list_of_tensors HT). cbn [bind].
  assert (forallb (fun n => Nat.eqb n 1) (map (fun v => length (elements v)) vs)
          = forallb has_one_element vs) as ->.
  { clear Hcol. induction HT as [|v vs Hv _ IH]; [reflexivity|].
    simpl. rewrite IH, (has_one_element_length _ Hv). reflexivity. }
  destruct (forallb has_one_element vs); [|reflexivity].
  cbn [py_assert bind]. unfold chain_from_iterable.
  rewrite (chain_list_of_tensors [] HT). reflexivity.
Qed.

Lemma column_exists (k : string) (keys : list string) (ds : list dict) :
  Forall (fun d => dict_keys d = keys) ds ->
  In k keys ->
  exists vs, column k ds vs.
Proof.
  intros Hk Hin. destruct (lookup_all k Hk Hin) as (vs & _ & H). exists vs. exact H.
Qed.

Lemma column_list_of_tensors (k : string) (ds : list dict) (vs : list pyval) :
  column k ds vs ->
  Forall (fun d => forallb list_of_tensors (dict_values d) = true) ds ->
  Forall (fun v => list_of_tensors v = true) vs.
Proof.
  induction 1 as [|d v ds vs Hd _ IH]; intros HT; [constructor|].
  inversion HT as [|? ? Td Tds]; subst. constructor; [|auto].
  rewrite forallb_forall in Td. apply Td.
  change v with (snd (k, v)). apply in_map. apply dict_get_In. exact Hd.
Qed.

Lemma column_In (k : string) (ds : list dict) (vs : list pyval) (d : dict) (v : pyval) :
  column k ds vs -> In d ds -> dict_get k d = Some v -> In v vs.
Proof.
  induction 1 as [|d' v' ds vs Hd _ IH]; simpl; [tauto|].
  intros [->|Hin] Hg; [left; congruence|right; auto].
Qed.

Lemma column_source (k : string) (ds : list dict) (vs : list pyval) (v : pyval) :
  column k ds vs -> In v vs -> exists d, In d ds /\ dict_get k d = Some v.
Proof.
  induction 1 as [|d' v' ds vs Hd _ IH]; simpl; [tauto|].
  intros [<-|Hin]; [exists d'; auto|].
  destruct (IH Hin) as (d & Hd' & Hg). exists d. auto.
Qed.

Lemma single_tensors (vs : list pyval) :
  Forall (fun v => list_of_tensors v = true) vs ->
  forallb has_one_element vs = true ->
  exists ts,
    Forall2 (fun v t => v = VList [VTensor t]) vs ts
    /\ concat (map elements vs) = map VTensor ts.
Proof.
  induction 1 as [|v vs Hv _ IH]; simpl; intros H1.
  - exists []. split; constructor.
  - apply andb_true_iff in H1 as [Hone H1]. destruct (IH H1) as (ts & H2 & Hc).
    destruct v as [|[|x [|y l]]| |]; simpl in *; try discriminate.
    destruct x as [t| | |]; simpl in *; try discriminate.
    exists (t :: ts). split; [constructor; auto|]. rewrite Hc. reflexivity.
Qed.

(** C7.  Given at least one bundle, all with the key list of the first and
    with lists of tensors as values: if some bundle's list for some key does
    not have exactly one element, [ListTensorsMixin.stack] raises
    [AssertionError]; otherwise it returns a container whose [dict()] maps
    every key to the list of the bundles' single tensors for that key, in
    the order of the bundles.  For [dict()] no field is named [dict]: the
    constructor makes every field an attribute of the result, and an
    attribute [dict] would hide the method. *)
Theorem C7_list_stack_takes_one_element_each
        (bundles : list object) (ds : list dict) (first : dict) (dim : Z) :
  list_tensors_are bundles ds ->
  hd_error ds = Some first ->
  Forall (fun d => dict_keys d = dict_keys first) ds ->
  Forall (fun d => forallb list_of_tensors (dict_values d) = true) ds ->
  field_names (dict_keys first) = true ->
  (Exists (fun d => exists k l, dict_get k d = Some (VList l) /\ length l <> 1) ds ->
   forall cls, ListTensorsMixin_stack cls bundles dim = Raise AssertionError)
  /\ (Forall (fun d => forall k l, dict_get k d = Some (VList l) -> length l = 1) ds ->
      ~ In "dict" (dict_keys first) ->
      exists R dR,
        stack ListTensorsInputs bundles dim = Ok R
        /\ dict_ R = Ok (VDict dR)
        /\ dict_keys dR = dict_keys first
        /\ forall k, In k (dict_keys first) ->
             exists ts,
               Forall2 (fun d t => dict_get k d = Some (VList [VTensor t])) ds ts
               /\ dict_get k dR = Some (VList (map VTensor ts))).
Proof.
  intros Hb Hf Hkeys HT F.
  pose proof (field_names_NoDup _ F) as ND.
  set (G := fun key =>
              new_list_tensor <- gather_list_tensors key bundles ;;
              lens <- comprehension len new_list_tensor ;;
              py_assert (forallb (fun n => Nat.eqb n 1) lens) ;;;
              flat <- chain_from_iterable new_list_tensor ;;
              Ok (VList flat)).
  assert (forall cls,
             ListTensorsMixin_stack cls bundles dim
             = (new_list_tensors <-
                  for_each (dict_keys first)
                    (fun acc key => v <- G key ;; Ok (dict_set key v acc)) [] ;;
                call cls new_list_tensors)) as Hstack.
  { intros cls. destruct Hb as [|o d bs ds' Ho Hrest]; [discriminate Hf|].
    injection Hf as ->.
    assert (list_tensors_are (o :: bs) (first :: ds')) as Hb by (constructor; assumption).
    unfold ListTensorsMixin_stack.
    rewrite (list_tensors_keys_of _ Ho). cbn [bind].
    rewrite (assert_same_list_tensors_keys_spec (dict_keys first) Hb).
    assert (forallb (fun d0 => keys_eqb (dict_keys first) (dict_keys d0)) (first :: ds')
            = true) as -> by (apply forallb_keys_eqb; exact Hkeys).
    cbn [bind]. f_equal. apply for_each_ext. intros acc key _. unfold G.
    rewrite ?bind_assoc. destruct (gather_list_tensors key (o :: bs)); [|reflexivity].
    cbn [bind]. rewrite ?bind_assoc. destruct (comprehension len a); [|reflexivity].
    cbn [bind]. rewrite ?bind_assoc.
    destruct (py_assert (forallb (fun n => Nat.eqb n 1) a0)); [|reflexivity].
    cbn [bind]. rewrite ?bind_assoc. destruct (chain_from_iterable a); reflexivity. }
  assert (forall k vs, column k ds vs ->
            G k = if forallb has_one_element vs
                  then Ok (VList (concat (map elements vs)))
                  else Raise AssertionError) as HG.
  { intros k vs Hcol. apply (stack_list_tensors_key Hb Hcol).
    apply (column_list_of_tensors Hcol HT). }
  split.
  - intros Hex cls. rewrite Hstack.
    apply Exists_exists in Hex as (d & Hd & k & l & Hg & Hlen).
    assert (In k (dict_keys first)) as Hin.
    { rewrite Forall_forall in Hkeys. rewrite <- (Hkeys d Hd).
      destruct (in_dec string_dec k (dict_keys d)) as [H|H]; [exact H|].
      apply dict_get_None in H. congruence. }
    rewrite (@for_each_raises _ _ (dict_keys first) _ AssertionError); [reflexivity| |].
    + intros key acc Hkey. destruct (column_exists key Hkeys Hkey) as (vs & Hcol).
      rewrite (HG key vs Hcol).
      destruct (forallb has_one_element vs); [left; eexists; reflexivity|right; reflexivity].
    + exists k. split; [exact Hin|]. intros acc.
      destruct (column_exists k Hkeys Hin) as (vs & Hcol).
      rewrite (HG k vs Hcol).
      assert (forallb has_one_element vs = false) as ->; [|reflexivity].
      destruct (forallb has_one_element vs) eqn:E; [|reflexivity].
      rewrite forallb_forall in E.
      specialize (E (VList l) (@column_In k ds vs d (VList l) Hcol Hd Hg)).
      destruct l as [|x [|y l]]; simpl in *; [discriminate|contradiction|discriminate].
  - intros Hone Hdict.
    assert (forall k vs, column k ds vs -> forallb has_one_element vs = true) as Hall.
    { intros k vs Hcol. apply forallb_forall. intros v Hv.
      destruct (@column_source k ds vs v Hcol Hv) as (d & Hd & Hg).
      pose proof (column_list_of_tensors Hcol HT) as Tv.
      rewrite Forall_forall in Tv. specialize (Tv v Hv).
      rewrite Forall_forall in Hone.
      destruct v as [|l| |]; simpl in Tv; try discriminate.
      pose proof (Hone d Hd k l Hg) as Hl.
      destruct l as [|x [|y l]]; simpl in *; [discriminate|reflexivity|discriminate]. }
    destruct (per_key_loop G ND) as (dR & Hloop & Hk & Hget).
    { apply Forall_forall. intros k Hin.
      destruct (column_exists k Hkeys Hin) as (vs & Hcol).
      rewrite (HG k vs Hcol), (Hall k vs Hcol). eauto. }
    assert (forall k, In k (dict_keys first) ->
              exists ts,
                Forall2 (fun d t => dict_get k d = Some (VList [VTensor t])) ds ts
                /\ dict_get k dR = Some (VList (map VTensor ts))) as Hres.
    { intros k Hin. destruct (column_exists k Hkeys Hin) as (vs & Hcol).
      destruct (Hget k Hin) as (v & Hv & HGk).
      rewrite (HG k vs Hcol), (Hall k vs Hcol) in HGk. injection HGk as <-.
      destruct (single_tensors (column_list_of_tensors Hcol HT) (Hall k vs Hcol))
        as (ts & H2 & Hc).
      exists ts. split; [|rewrite Hv, Hc; reflexivity].
      clear - Hcol H2. revert ts H2.
      induction Hcol as [|d v ds vs Hd _ IH]; intros ts H2;
        inversion H2; subst; constructor; auto. }
    assert (forallb list_of_tensors (dict_values dR) = true) as TR.
    { apply forallb_forall. intros v Hv.
      apply in_map_iff in Hv as ([k v'] & <- & Hin). simpl.
      assert (In k (dict_keys first)) as Hk'
        by (rewrite <- Hk; change k with (fst (k, v')); apply in_map; exact Hin).
      destruct (Hres k Hk') as (ts & _ & Hg).
      rewrite (@In_dict_get k v' dR) in Hg; [|rewrite Hk; exact ND|exact Hin].
      injection Hg as ->. simpl.
      apply forallb_forall. intros x Hx. apply in_map_iff in Hx as (t & <- & _).
      reflexivity. }
    exists (list_tensors_inputs dR), dR.
    split; [|split; [|split; assumption]].
    + unfold stack. cbn [mixin_of]. rewrite Hstack, Hloop. cbn [bind].
      rewrite call_ListTensorsInputs.
      * rewrite (list_of_tensors_values_id _ TR). reflexivity.
      * rewrite Hk. exact F.
      * apply list_of_tensors_is_tensor_or_list, TR.
    + apply dict_list_tensors_inputs; rewrite Hk; assumption.
Qed.

Lemma C7_list_stack_takes_one_element_each_witness :
  let a := [("x", VList [VTensor sample_a])] in
  let b := [("x", VList [VTensor sample_b])] in
  let c := [("x", VList [VTensor sample_b; VTensor sample_c])] in
  (list_tensors_are [list_tensors_inputs a; list_tensors_inputs b] [a; b]
   /\ hd_error [a; b] = Some a
   /\ Forall (fun d => dict_keys d = dict_keys a) [a; b]
   /\ Forall (fun d => forallb list_of_tensors (dict_values d) = true) [a; b]
   /\ field_names (dict_keys a) = true
   /\ Forall (fun d => forall k l, dict_get k d = Some (VList l) -> length l = 1) [a; b]
   /\ ~ In "dict" (dict_keys a)
   /\ exists R dR,
        stack ListTensorsInputs [list_tensors_inputs a; list_tensors_inputs b] 0 = Ok R
        /\ dict_ R = Ok (VDict dR)
        /\ dict_keys dR = dict_keys a
        /\ forall k, In k (dict_keys a) ->
             exists ts,
               Forall2 (fun d t => dict_get k d = Some (VList [VTensor t])) [a; b] ts
               /\ dict_get k dR = Some (VList (map VTensor ts)))
  /\ (list_tensors_are [list_tensors_inputs a; list_tensors_inputs c] [a; c]
      /\ Exists (fun d => exists k l, dict_get k d = Some (VList l) /\ length l <> 1) [a; c]
      /\ forall cls,
           ListTensorsMixin_stack cls [list_tensors_inputs a; list_tensors_inputs c] 0
           = Raise AssertionError).
Proof.
  intros a b c.
  assert (list_tensors_are [list_tensors_inputs a; list_tensors_inputs b] [a; b]) as Hab
    by (repeat constructor).
  assert (list_tensors_are [list_tensors_inputs a; list_tensors_inputs c] [a; c]) as Hac
    by (repeat constructor).
  assert (Forall (fun d => dict_keys d = dict_keys a) [a; b]) as Kab by (repeat constructor).
  assert (Forall (fun d => dict_keys d = dict_keys a) [a; c]) as Kac by (repeat constructor).
  assert (Forall (fun d => forallb list_of_tensors (dict_values d) = true) [a; b]) as Tab
    by (repeat constructor).
  assert (Forall (fun d => forallb list_of_tensors (dict_values d) = true) [a; c]) as Tac
    by (repeat constructor).
  assert (Forall (fun d => forall k l, dict_get k d = Some (VList l) -> length l = 1) [a; b])
    as Hone.
  { repeat constructor; intros k l; simpl;
      (destruct (String.eqb k "x"); [intros [= <-]; reflexivity|discriminate]). }
  assert (Exists (fun d => exists k l, dict_get k d = Some (VList l) /\ length l <> 1) [a; c])
    as Hex.
  { apply Exists_cons_tl, Exists_cons_hd.
    exists "x", [VTensor sample_b; VTensor sample_c]. split; [reflexivity|discriminate]. }
  assert (~ In "dict" (dict_keys a)) as Hd by (simpl; intros [H|[]]; discriminate H).
  split.
  - split; [exact Hab|]. split; [reflexivity|]. split; [exact Kab|]. split; [exact Tab|].
    split; [reflexivity|]. split; [exact Hone|]. split; [exact Hd|].
    exact (proj2 (@C7_list_stack_takes_one_element_each _ [a; b] a 0
                    Hab eq_refl Kab Tab eq_refl) Hone Hd).
  - split; [exact Hac|]. split; [exact Hex|].
    exact (proj1 (@C7_list_stack_takes_one_element_each _ [a; c] a 0
                    Hac eq_refl Kac Tac eq_refl) Hex).
Defined.

(* ===================================================================== *)
(** ** stack of combined bundles *)
(* ===================================================================== *)

Lemma bind_never_Ok {A B : Type} (m : result A) (k : A -> result B) :
  (forall a b, m = Ok a -> k a <> Ok b) -> forall b, bind m k <> Ok b.
Proof.
  intros H b. destruct m as [a|e]; simpl; [apply (H a b eq_refl)|discriminate].
Qed.

Lemma for_each_dict_set_inv {A : Type} (key : A -> string) (val : A -> result pyval)
      (l : list A) (acc d : dict) :
  NoDup (dict_keys acc ++ map key l) ->
  for_each l (fun acc x => v <- val x ;; Ok (dict_set (key x) v acc)) acc = Ok d ->
  exists vs, comprehension val l = Ok vs /\ d = acc ++ combine (map key l) vs.
Proof.
  revert acc; induction l as [|x l IH]; intros acc ND H; simpl in *.
  - injection H as <-. exists []. rewrite app_nil_r. auto.
  - destruct (val x) as [v|e]; simpl in *; [|discriminate].
    apply NoDup_app_cons_fresh in ND as [Hf ND].
    rewrite dict_set_fresh in H by exact Hf.
    destruct (IH (acc ++ [(key x, v)])) as (vs & Hc & ->).
    + rewrite dict_keys_app. exact ND.
    + exact H.
    + exists (v :: vs). rewrite Hc. simpl. rewrite <- app_assoc. auto.
Qed.

Lemma assert_same_mix_keys_spec (tk lk : list string) (bs : list object) :
  forall ts ls,
    tensors_are bs ts ->
    list_tensors_are bs ls ->
    assert_same_mix_keys tk lk bs
    = if forallb (fun d => keys_eqb tk (dict_keys d)) ts
         && forallb (fun d => keys_eqb lk (dict_keys d)) ls
      then Ok tt else Raise AssertionError.
Proof.
  unfold assert_same_mix_keys.
  induction bs as [|o bs IH]; intros ts ls Ht Hl;
    inversion Ht as [|? t ? ts' Hot Hts]; inversion Hl as [|? lt ? ls' Hol Hls]; subst;
    [reflexivity|].
  cbn [for_each forallb].
  rewrite (tensors_keys_of _ Hot), (list_tensors_keys_of _ Hol). cbn [bind].
  destruct (keys_eqb tk (dict_keys t)); cbn [py_assert bind andb]; [|reflexivity].
  destruct (keys_eqb lk (dict_keys lt)); cbn [py_assert bind andb].
  - apply IH; assumption.
  - rewrite andb_false_r. reflexivity.
Qed.

(** The constructor refuses a list mapping whose first value is a list
    with an element that is not a tensor. *)
Lemma call_combine_refuses (cls : klass) (a b : dict) (k : string) (l : list pyval)
      (rest : dict) :
  is_combine cls = true ->
  forallb field_name (dict_keys a) = true ->
  forallb isinstance_Tensor (dict_values a) = true ->
  NoDup (dict_keys b) ->
  b = (k, VList l) :: rest ->
  forallb isinstance_Tensor l = false ->
  call_combine cls a b = Raise AssertionError.
Proof.
  intros C Fa Ta ND -> Hl.
  assert (call_combine cls a ((k, VList l) :: rest)
          = CombineTensorsMixin___init__ (new_object cls) (VDict a)
              (VDict ((k, VList l) :: rest))) as ->
    by (destruct cls; try discriminate; reflexivity).
  unfold CombineTensorsMixin___init__, CombineTensorsMixin___post_init__.
  unfold new_object; simpl.
  unfold TensorsMixin___post_init__, hasattr, getattr, lookup_attr; simpl.
  unfold store_attr; simpl.
  rewrite TensorsMixin_post_init_loop by assumption. cbn [bind].
  unfold ListTensorsMixin___post_init__, hasattr, getattr, lookup_attr; simpl.
  rewrite (fold_left_ext _
             (fun acc x => dict_set (fst x) (single_tensor_as_list (snd x)) acc))
    by (intros acc [k' v]; reflexivity).
  change (single_tensor_as_list (VList l)) with (VList l).
  assert (NoDup (dict_keys [(k, VList l)] ++ map fst rest)) as ND' by exact ND.
  rewrite (fold_dict_set_fresh fst (fun x => single_tensor_as_list (snd x))
             rest [(k, VList l)] ND').
  simpl. rewrite Hl. reflexivity.
Qed.

Lemma gathered_first_is_a_list (k : string) (first : dict) (ls : list dict)
      (g : list pyval) :
  comprehension (fun d => getitem (VDict d) k) (first :: ls) = Ok g ->
  forallb isinstance_list (dict_values first) = true ->
  forallb isinstance_Tensor g = false.
Proof.
  cbn [comprehension getitem]. intros H T.
  destruct (dict_get k first) as [v|] eqn:E; cbn [bind] in H; [|discriminate].
  match type of H with bind ?m _ = _ => destruct m end; cbn [bind] in H; [|discriminate].
  injection H as <-. simpl.
  assert (isinstance_list v = true) as Hv.
  { rewrite forallb_forall in T. apply T.
    change v with (snd (k, v)). apply in_map, dict_get_In, E. }
  destruct v; simpl in *; try discriminate; reflexivity.
Qed.

Lemma comprehension_inv {A B : Type} (F : A -> result B) (l : list A) (ys : list B) :
  comprehension F l = Ok ys -> Forall2 (fun x y => F x = Ok y) l ys.
Proof.
  revert ys; induction l as [|x l IH]; intros ys; simpl.
  - intros [= <-]. constructor.
  - destruct (F x) as [y|e] eqn:E; simpl; [|discriminate].
    destruct (comprehension F l) as [ys'|e]; simpl; [|discriminate].
    intros [= <-]. constructor; auto.
Qed.

Lemma dict_values_combine (ks : list string) (vs : list pyval) :
  length vs = length ks -> dict_values (combine ks vs) = vs.
Proof.
  revert vs; induction ks as [|k ks IH]; intros [|v vs]; simpl; intros H;
    try discriminate; auto.
  f_equal. apply IH. lia.
Qed.

Lemma column_gathered (k : string) (ds : list dict) (vs : list pyval) :
  column k ds vs -> comprehension (fun d => getitem (VDict d) k) ds = Ok vs.
Proof.
  induction 1 as [|d v ds vs Hd _ IH]; [reflexivity|].
  cbn [comprehension]. rewrite IH. cbn [getitem]. rewrite Hd. reflexivity.
Qed.

(** The two loops of [CombineTensorsMixin.stack], key by key. *)
Lemma combined_stack_loops (bs : list object) (dim : Z) (tk lk : list string) :
  for_each tk
    (fun new_tensors key =>
       new_tensor <- gather_tensors key bs ;;
       ts <- tensor_list new_tensor ;;
       t <- torch_stack ts dim ;;
       Ok (dict_set key (VTensor t) new_tensors))
    []
  = for_each tk
      (fun acc key =>
         v <- (new_tensor <- gather_tensors key bs ;;
               ts <- tensor_list new_tensor ;;
               t <- torch_stack ts dim ;;
               Ok (VTensor t)) ;;
         Ok (dict_set key v acc))
      []
  /\ for_each lk
       (fun new_list_tensors key =>
          new_list_tensor <- gather_list_tensors key bs ;;
          Ok (dict_set key (VList new_list_tensor) new_list_tensors))
       []
     = for_each lk
         (fun acc key =>
            v <- (new_list_tensor <- gather_list_tensors key bs ;;
                  Ok (VList new_list_tensor)) ;;
            Ok (dict_set key v acc))
         [].
Proof.
  split; apply for_each_ext; intros acc key _.
  - rewrite ?bind_assoc. destruct (gather_tensors key bs); [|reflexivity].
    cbn [bind]. rewrite ?bind_assoc. destruct (tensor_list a); [|reflexivity].
    cbn [bind]. rewrite ?bind_assoc. destruct (torch_stack a0 dim); reflexivity.
  - rewrite ?bind_assoc. destruct (gather_list_tensors key bs); reflexivity.
Qed.

(** Whatever the two loops of [CombineTensorsMixin.stack] have built, the
    constructor refuses it: the first list field holds the bundles' lists,
    not tensors. *)
Lemma combined_stack_constructor_refuses
      (cls : klass) (o : object) (bs : list object) (lfirst : dict) (ls : list dict)
      (tk : list string) (dim : Z) (nt nl : dict) :
  is_combine cls = true ->
  list_tensors_are (o :: bs) (lfirst :: ls) ->
  field_names tk = true ->
  NoDup (dict_keys lfirst) ->
  forallb isinstance_list (dict_values lfirst) = true ->
  lfirst <> [] ->
  for_each tk
    (fun new_tensors key =>
       new_tensor <- gather_tensors key (o :: bs) ;;
       ts <- tensor_list new_tensor ;;
       t <- torch_stack ts dim ;;
       Ok (dict_set key (VTensor t) new_tensors))
    [] = Ok nt ->
  for_each (dict_keys lfirst)
    (fun new_list_tensors key =>
       new_list_tensor <- gather_list_tensors key (o :: bs) ;;
       Ok (dict_set key (VList new_list_tensor) new_list_tensors))
    [] = Ok nl ->
  call_combine cls nt nl = Raise AssertionError.
Proof.
  intros C Hl F ND TL Hne HT HL.
  destruct (combined_stack_loops (o :: bs) dim tk (dict_keys lfirst)) as [ET EL].
  rewrite ET in HT. rewrite EL in HL. clear ET EL.
  apply (for_each_dict_set_inv (fun k => k)) in HT;
    [|rewrite map_id; apply field_names_NoDup, F].
  apply (for_each_dict_set_inv (fun k => k)) in HL; [|rewrite map_id; exact ND].
  destruct HT as (vt & Hvt & ->). destruct HL as (vl & Hvl & ->).
  rewrite !map_id. simpl "++".
  pose proof (comprehension_length _ _ Hvt) as Lt.
  pose proof (comprehension_length _ _ Hvl) as Ll.
  destruct lfirst as [|[k1 v1] lrest]; [contradiction|].
  simpl in Hvl, Ll |- *.
  destruct (gather_list_tensors k1 (o :: bs)) as [g|e] eqn:Eg; cbn [bind] in Hvl;
    [|discriminate].
  match type of Hvl with bind ?m _ = _ => destruct m as [vl'|e] eqn:Evl end;
    cbn [bind] in Hvl; [|discriminate].
  injection Hvl as <-. simpl.
  assert (forallb field_name (dict_keys (combine tk vt)) = true) as H1.
  { rewrite dict_keys_combine by exact Lt.
    unfold field_names in F. apply andb_true_iff in F as [_ F]. exact F. }
  assert (forallb isinstance_Tensor (dict_values (combine tk vt)) = true) as H2.
  { rewrite dict_values_combine by exact Lt.
    apply comprehension_inv in Hvt. clear - Hvt.
    induction Hvt as [|k v ks vs Hk _ IH]; [reflexivity|]. simpl. rewrite IH.
    destruct (gather_tensors k (o :: bs)); cbn [bind] in Hk; [|discriminate].
    destruct (tensor_list a); cbn [bind] in Hk; [|discriminate].
    destruct (torch_stack a0 dim); cbn [bind] in Hk; [|discriminate].
    injection Hk as <-. reflexivity. }
  assert (NoDup (dict_keys ((k1, VList g) :: combine (dict_keys lrest) vl'))) as H3.
  { simpl. simpl in ND. rewrite dict_keys_combine; [exact ND|].
    simpl in Ll. lia. }
  assert (forallb isinstance_Tensor g = false) as H4.
  { rewrite (gather_list_tensors_of k1 Hl) in Eg.
    apply (@gathered_first_is_a_list k1 _ ls g Eg TL). }
  exact (@call_combine_refuses cls _ _ k1 g (combine (dict_keys lrest) vl')
           C H1 H2 H3 eq_refl H4).
Qed.

(** C10, amended.  Given at least one combined bundle with at least one list
    field, [CombineTensorsMixin.stack] never returns a container: it hands
    the bundles' lists, one list per bundle, to the constructor, whose check
    that the elements of a list field are tensors fails.  The exception is
    [AssertionError] whenever the tensor fields themselves can be stacked;
    when [torch.stack] refuses the tensors of the first tensor field, its
    exception comes first and the constructor is not reached. *)
Theorem C10_combined_stack_never_returns
        (cls : klass) (bundles : list object) (ts ls : list dict)
        (tfirst lfirst : dict) (dim : Z) :
  is_combine cls = true ->
  tensors_are bundles ts ->
  list_tensors_are bundles ls ->
  hd_error ts = Some tfirst ->
  hd_error ls = Some lfirst ->
  field_names (dict_keys tfirst) = true ->
  NoDup (dict_keys lfirst) ->
  forallb isinstance_list (dict_values lfirst) = true ->
  lfirst <> [] ->
  (forall R, stack cls bundles dim <> Ok R)
  /\ ((forall k, In k (dict_keys tfirst) -> stackable dim ts k) ->
      stack cls bundles dim = Raise AssertionError)
  /\ (forall k vs xs e,
        Forall (fun d => dict_keys d = dict_keys tfirst) ts ->
        Forall (fun d => dict_keys d = dict_keys lfirst) ls ->
        hd_error (dict_keys tfirst) = Some k ->
        column k ts vs ->
        tensor_list vs = Ok xs ->
        torch_stack xs dim = Raise e ->
        stack cls bundles dim = Raise e).
Proof.
  intros C Ht Hl Hft Hfl F ND TL Hne.
  assert (stack cls bundles dim = CombineTensorsMixin_stack cls bundles dim) as ->
    by (destruct cls; try discriminate C; reflexivity).
  destruct Ht as [|o t bs ts' Hot Hts]; [discriminate Hft|]. injection Hft as ->.
  inversion Hl as [|? l ? ls' Hol Hls]; subst. injection Hfl as ->.
  assert (tensors_are (o :: bs) (tfirst :: ts')) as Ht by (constructor; assumption).
  unfold CombineTensorsMixin_stack.
  rewrite (tensors_keys_of _ Hot). cbn [bind].
  rewrite (list_tensors_keys_of _ Hol). cbn [bind].
  rewrite (assert_same_mix_keys_spec (dict_keys tfirst) (dict_keys lfirst) Ht Hl).
  split; [|split].
  - intros R.
    match goal with |- context [if ?b then _ else _] => destruct b end; [|discriminate].
    cbn [bind]. apply bind_never_Ok. intros nt R' HT.
    apply bind_never_Ok. intros nl R'' HL.
    rewrite (@combined_stack_constructor_refuses cls o bs lfirst ls' (dict_keys tfirst)
               dim nt nl C Hl F ND TL Hne HT HL).
    discriminate.
  - intros Hstack.
    match goal with
    | |- context [if ?b then _ else _] => destruct b eqn:K; [|reflexivity]
    end.
    apply andb_true_iff in K as [Kt Kl].
    cbn [bind].
    apply forallb_keys_eqb in Kt. apply forallb_keys_eqb in Kl.
    destruct (combined_stack_loops (o :: bs) dim (dict_keys tfirst) (dict_keys lfirst))
      as [ET EL].
    destruct (per_key_loop
                (fun key =>
                   new_tensor <- gather_tensors key (o :: bs) ;;
                   xs <- tensor_list new_tensor ;;
                   t <- torch_stack xs dim ;;
                   Ok (VTensor t))
                (field_names_NoDup _ F)) as (nt & HT & _).
    { apply Forall_forall. intros k Hin.
      destruct (Hstack k Hin) as (vs & xs & s & Hcol & Hxs & Hs).
      assert (gather_tensors k (o :: bs) = Ok vs) as ->
        by (rewrite (gather_tensors_of k Ht); exact (column_gathered Hcol)).
      cbn [bind].
      rewrite Hxs. cbn [bind]. rewrite Hs. cbn [bind]. eauto. }
    destruct (per_key_loop
                (fun key =>
                   new_list_tensor <- gather_list_tensors key (o :: bs) ;;
                   Ok (VList new_list_tensor))
                ND) as (nl & HL & _).
    { apply Forall_forall. intros k Hin.
      destruct (lookup_all k Kl Hin) as (vs & Hvs & _).
      assert (gather_list_tensors k (o :: bs) = Ok vs) as ->
        by (rewrite (gather_list_tensors_of k Hl); exact Hvs).
      cbn [bind]. eauto. }
    rewrite <- ET in HT. rewrite <- EL in HL.
    rewrite HT. cbn [bind]. rewrite HL. cbn [bind].
    exact (@combined_stack_constructor_refuses cls o bs lfirst ls' (dict_keys tfirst)
             dim nt nl C Hl F ND TL Hne HT HL).
  - intros k vs xs e Kt Kl Hk Hcol Hxs He.
    apply forallb_keys_eqb in Kt. apply forallb_keys_eqb in Kl.
    match goal with
    | |- context [if ?b then _ else _] =>
        replace b with true
          by (symmetry; apply andb_true_iff; split; [exact Kt|exact Kl])
    end.
    cbn [bind].
    destruct (dict_keys tfirst) as [|k' rest]; [discriminate Hk|].
    injection Hk as ->. cbn [for_each].
    assert (gather_tensors k (o :: bs) = Ok vs) as ->
      by (rewrite (gather_tensors_of k Ht); exact (column_gathered Hcol)).
    cbn [bind]. rewrite Hxs. cbn [bind]. rewrite He. reflexivity.
Qed.

Lemma C10_combined_stack_never_returns_witness :
  let t := [("x", VTensor sample_a)] in
  let l := [("y", VList [VTensor sample_b])] in
  let o := combine_tensors_inputs t l in
  is_combine CombineTensorsInputs = true
  /\ tensors_are [o; o] [t; t]
  /\ list_tensors_are [o; o] [l; l]
  /\ field_names (dict_keys t) = true
  /\ NoDup (dict_keys l)
  /\ forallb isinstance_list (dict_values l) = true
  /\ l <> []
  /\ (forall k, In k (dict_keys t) -> stackable 0 [t; t] k)
  /\ (forall R, stack CombineTensorsInputs [o; o] 0 <> Ok R)
  /\ stack CombineTensorsInputs [o; o] 0 = Raise AssertionError.
Proof.
  intros t l o.
  assert (tensors_are [o; o] [t; t]) as Ht by (repeat constructor).
  assert (list_tensors_are [o; o] [l; l]) as Hl by (repeat constructor).
  assert (NoDup (dict_keys l)) as ND by (apply distinct_NoDup; reflexivity).
  assert (l <> []) as Hne by discriminate.
  assert (forall k, In k (dict_keys t) -> stackable 0 [t; t] k) as Hs.
  { intros k [<-|[]]. exists [VTensor sample_a; VTensor sample_a].
    do 2 eexists. split; [repeat constructor|]. split; reflexivity. }
  pose proof (@C10_combined_stack_never_returns CombineTensorsInputs [o; o] [t; t] [l; l]
                t l 0 eq_refl Ht Hl eq_refl eq_refl eq_refl ND eq_refl Hne)
    as (H1 & H2 & _).
  repeat (split; [first [reflexivity|assumption]|]).
  exact (H2 Hs).
Defined.

(** C10 as the claim states it fails for two combined containers whose
    tensor fields have the sizes (2, 2) and (1, 2): [torch.stack] refuses
    them, and [CombineTensorsMixin.stack] raises [RuntimeError], not an
    assertion error, before it calls the constructor. *)
Lemma C10_combined_stack_of_unequal_sizes_raises_RuntimeError :
  call_combine CombineTensorsInputs
    [("x", VTensor sample_a)] [("y", VList [VTensor sample_b])]
  = Ok (combine_tensors_inputs [("x", VTensor sample_a)] [("y", VList [VTensor sample_b])])
  /\ call_combine CombineTensorsInputs
       [("x", VTensor sample_c)] [("y", VList [VTensor sample_b])]
     = Ok (combine_tensors_inputs
             [("x", VTensor sample_c)] [("y", VList [VTensor sample_b])])
  /\ stack CombineTensorsInputs
       [combine_tensors_inputs [("x", VTensor sample_a)] [("y", VList [VTensor sample_b])];
        combine_tensors_inputs [("x", VTensor sample_c)] [("y", VList [VTensor sample_b])]]
       0
     = Raise RuntimeError
  /\ stack CombineTensorsInputs
       [combine_tensors_inputs [("x", VTensor sample_a)] [("y", VList [VTensor sample_b])];
        combine_tensors_inputs [("x", VTensor sample_c)] [("y", VList [VTensor sample_b])]]
       0
     <> Raise AssertionError.
Proof.
  split; [reflexivity|]. split; [reflexivity|]. split; [reflexivity|].
  intros H. discriminate H.
Qed.

(* ===================================================================== *)
(** ** stack and select *)
(* ===================================================================== *)

Lemma numel_app (a b : list nat) : numel (a ++ b) = numel a * numel b.
Proof.
  induction a as [|x a IH]; simpl; [lia|]. rewrite IH. lia.
Qed.

Lemma numel_split (d : nat) (s : list nat) :
  numel (firstn d s) * numel (skipn d s) = numel s.
Proof. rewrite <- numel_app, firstn_skipn. reflexivity. Qed.

Lemma chunk_succ (m j : nat) (l : list Z) :
  chunk m (S j) l = chunk m j (skipn m l).
Proof.
  unfold chunk. rewrite skipn_skipn. f_equal. f_equal. simpl. lia.
Qed.

Lemma chunk_length (m j : nat) (l : list Z) :
  (j + 1) * m <= length l -> length (chunk m j l) = m.
Proof.
  intros H. unfold chunk. rewrite length_firstn, length_skipn. nia.
Qed.

(** The [j]-th block of a list made of blocks of length [m]. *)
Lemma chunk_concat (m : nat) (blocks : list (list Z)) (j : nat) :
  Forall (fun b => length b = m) blocks ->
  j < length blocks ->
  chunk m j (concat blocks) = nth j blocks [].
Proof.
  intros H. revert j. induction H as [|b blocks Hb _ IH]; intros j Hj; simpl in Hj; [lia|].
  destruct j as [|j].
  - unfold chunk. simpl. rewrite firstn_app, Hb, Nat.sub_diag, firstn_0, app_nil_r.
    apply firstn_all2. lia.
  - rewrite chunk_succ. simpl concat.
    rewrite skipn_app, Hb, Nat.sub_diag, skipn_0.
    rewrite skipn_all2 by lia. simpl. apply IH. lia.
Qed.

(** Cutting a list into its blocks and gluing them again. *)
Lemma chunks_rebuild (m outer : nat) (l : list Z) :
  length l = outer * m ->
  flat_map (fun o => chunk m o l) (seq 0 outer) = l.
Proof.
  revert l; induction outer as [|outer IH]; intros l H.
  - destruct l; [reflexivity|discriminate].
  - simpl seq. rewrite <- seq_shift. simpl flat_map.
    rewrite flat_map_concat_map, map_map, <- flat_map_concat_map.
    rewrite (flat_map_ext _ (fun o => chunk m o (skipn m l)))
      by (intros o; apply chunk_succ).
    rewrite IH by (rewrite length_skipn; simpl in H; lia).
    unfold chunk. simpl. apply firstn_skipn.
Qed.

Lemma nth_flat_map_uniform {A : Type} (F : nat -> list A) (n : nat) (d : A) :
  (forall x, length (F x) = n) ->
  forall outer a o i,
    o < outer -> i < n ->
    nth (o * n + i) (flat_map F (seq a outer)) d = nth i (F (a + o)) d.
Proof.
  intros HF. induction outer as [|outer IH]; intros a o i Ho Hi; [lia|].
  simpl. destruct o as [|o].
  - simpl. rewrite app_nth1 by (rewrite HF; exact Hi). rewrite Nat.add_0_r. reflexivity.
  - replace (S o * n + i) with (length (F a) + (o * n + i)) by (rewrite HF; simpl; lia).
    rewrite app_nth2_plus. rewrite IH by lia. f_equal. f_equal. lia.
Qed.

Lemma flat_map_blocks {A : Type} (h : nat -> A -> list Z) (ts : list A) (L : list nat) :
  flat_map (fun o => flat_map (h o) ts) L
  = concat (flat_map (fun o => map (h o) ts) L).
Proof.
  induction L as [|o L IH]; simpl; [reflexivity|].
  rewrite concat_app, IH, flat_map_concat_map. reflexivity.
Qed.

Lemma wrap_dim_valid (dim : Z) (n : nat) :
  (- Z.of_nat n <= dim < Z.of_nat n)%Z ->
  exists d, wrap_dim dim n = Ok d /\ d < n.
Proof.
  intros H. unfold wrap_dim.
  destruct ((0 <=? dim) && (dim <? Z.of_nat n))%Z eqn:E.
  - exists (Z.to_nat dim). split; [reflexivity|]. lia.
  - destruct ((- Z.of_nat n <=? dim) && (dim <? 0))%Z eqn:E'.
    + exists (Z.to_nat (dim + Z.of_nat n)). split; [reflexivity|]. lia.
    + exfalso. apply andb_false_iff in E, E'. lia.
Qed.

Lemma wrap_dim_index (i n : nat) : i < n -> wrap_dim (Z.of_nat i) n = Ok i.
Proof.
  intros H. unfold wrap_dim.
  assert (((0 <=? Z.of_nat i) && (Z.of_nat i <? Z.of_nat n))%Z = true) as ->
    by (apply andb_true_iff; split; lia).
  rewrite Nat2Z.id. reflexivity.
Qed.

Lemma flat_map_ext_in {A B : Type} (f g : A -> list B) (l : list A) :
  (forall x, In x l -> f x = g x) -> flat_map f l = flat_map g l.
Proof.
  induction l as [|x l IH]; intros H; simpl; [reflexivity|].
  rewrite (H x (or_introl eq_refl)), IH; [reflexivity|].
  intros; apply H; right; assumption.
Qed.

Lemma length_flat_map_uniform {A : Type} (F : nat -> list A) (n : nat) :
  (forall x, length (F x) = n) ->
  forall outer a, length (flat_map F (seq a outer)) = outer * n.
Proof.
  intros HF. induction outer as [|outer IH]; intros a; simpl; [reflexivity|].
  rewrite length_app, HF, IH. reflexivity.
Qed.

Lemma forallb_same (A : Type) (p : A -> bool) (l : list A) :
  Forall (fun x => p x = true) l -> forallb p l = true.
Proof. intros H. apply forallb_forall. apply Forall_forall. exact H. Qed.

Lemma shape_eqb_refl (s : list nat) : shape_eqb s s = true.
Proof. unfold shape_eqb. destruct (list_eq_dec Nat.eq_dec s s); congruence. Qed.

Lemma Device_eqb_refl (d : Device) : Device_eqb d d = true.
Proof. destruct d; simpl; [reflexivity|apply Nat.eqb_refl]. Qed.

(** Stacking tensors of one size and taking the [i]-th slice along the new
    axis gives back the [i]-th tensor. *)
Lemma torch_stack_select (ts : list Tensor) (t0 : Tensor) (dim : Z) (i : nat) :
  hd_error ts = Some t0 ->
  Forall (fun t => shape t = shape t0 /\ device t = device t0 /\ wf_tensor t) ts ->
  (- Z.of_nat (S (length (shape t0))) <= dim < Z.of_nat (S (length (shape t0))))%Z ->
  i < length ts ->
  exists s,
    torch_stack ts dim = Ok s
    /\ torch_select s dim (Z.of_nat i) = Ok (nth i ts t0).
Proof.
  intros Hhd Hall Hdim Hi.
  destruct (@wrap_dim_valid dim _ Hdim) as (d & Hw & Hd).
  set (s0 := shape t0) in *.
  set (n := length ts) in *.
  set (outer := numel (firstn d s0)).
  set (inner := numel (skipn d s0)).
  assert (forall t, In t ts ->
            shape t = s0 /\ device t = device t0 /\ length (data t) = outer * inner) as Hts.
  { intros t Ht. rewrite Forall_forall in Hall. destruct (Hall t Ht) as (H1 & H2 & H3).
    repeat split; try assumption. unfold wf_tensor in H3. rewrite H3, H1.
    symmetry. apply numel_split. }
  assert (torch_stack ts dim
          = Ok (mkTensor (firstn d s0 ++ n :: skipn d s0)
                  (flat_map (fun o => flat_map (fun t => chunk inner o (data t)) ts)
                     (seq 0 outer))
                  (device t0))) as Hstack.
  { unfold torch_stack. destruct ts as [|t' ts']; [discriminate Hhd|].
    injection Hhd as ->. fold s0. rewrite Hw. cbn [bind].
    rewrite forallb_same; [|apply Forall_forall; intros t Ht;
                            rewrite (proj1 (Hts t Ht)); apply shape_eqb_refl].
    rewrite forallb_same; [|apply Forall_forall; intros t Ht;
                            rewrite (proj1 (proj2 (Hts t Ht))); apply Device_eqb_refl].
    reflexivity. }
  eexists. split; [exact Hstack|].
  assert (length (firstn d s0) = d) as Lf by (rewrite length_firstn; lia).
  unfold torch_select. cbn [shape data device].
  assert (length (firstn d s0 ++ n :: skipn d s0) = S (length s0)) as ->.
  { rewrite length_app, Lf. simpl. rewrite length_skipn. lia. }
  rewrite Hw. cbn [bind].
  assert (nth d (firstn d s0 ++ n :: skipn d s0) 0 = n) as ->.
  { rewrite app_nth2 by lia. rewrite Lf, Nat.sub_diag. reflexivity. }
  rewrite (wrap_dim_index Hi). cbn [bind].
  assert (firstn d (firstn d s0 ++ n :: skipn d s0) = firstn d s0) as ->.
  { rewrite firstn_app, Lf, Nat.sub_diag, firstn_0, app_nil_r.
    apply firstn_all2. lia. }
  assert (skipn (S d) (firstn d s0 ++ n :: skipn d s0) = skipn d s0) as ->.
  { rewrite skipn_app, Lf. rewrite skipn_all2 by lia.
    replace (S d - d) with 1 by lia. reflexivity. }
  fold outer inner. rewrite firstn_skipn.
  assert (In (nth i ts t0) ts) as Hin by (apply nth_In; exact Hi).
  destruct (Hts _ Hin) as (Hs & Hdev & Hlen).
  set (blocks := flat_map (fun o => map (fun t => chunk inner o (data t)) ts) (seq 0 outer)).
  assert (Forall (fun b => length b = inner) blocks) as Hblocks.
  { apply Forall_forall. intros b Hb. unfold blocks in Hb.
    apply in_flat_map in Hb as (o & Ho & Hb). apply in_map_iff in Hb as (t & <- & Ht).
    apply in_seq in Ho. apply chunk_length.
    rewrite (proj2 (proj2 (Hts t Ht))). nia. }
  assert (length blocks = outer * n) as Lblocks.
  { unfold blocks.
    apply (length_flat_map_uniform (fun o => map (fun t => chunk inner o (data t)) ts)).
    intros x. rewrite length_map. reflexivity. }
  rewrite flat_map_blocks. fold blocks.
  rewrite (flat_map_ext_in _ (fun o => chunk inner o (data (nth i ts t0)))).
  - rewrite chunks_rebuild by exact Hlen.
    destruct (nth i ts t0) as [sh da de]. simpl in *. subst. reflexivity.
  - intros o Ho. apply in_seq in Ho.
    rewrite chunk_concat; [|exact Hblocks|rewrite Lblocks; nia].
    unfold blocks.
    rewrite (nth_flat_map_uniform
               (fun o => map (fun t => chunk inner o (data t)) ts) (n := n))
      by (try (intros x; rewrite length_map; reflexivity); lia).
    simpl.
    rewrite (nth_indep _ [] (chunk inner o (data t0)))
      by (rewrite length_map; exact Hi).
    apply (map_nth (fun t => chunk inner o (data t))).
Qed.

Lemma tensor_list_tensors (ts : list Tensor) : tensor_list (map VTensor ts) = Ok ts.
Proof.
  unfold tensor_list. induction ts as [|t ts IH]; simpl; [reflexivity|].
  rewrite IH. reflexivity.
Qed.

Lemma column_nth (k : string) (ds : list dict) (vs : list pyval) (i : nat) (d : dict) :
  column k ds vs ->
  nth_error ds i = Some d ->
  exists v, nth_error vs i = Some v /\ dict_get k d = Some v.
Proof.
  intros H. revert i. induction H as [|d' v' ds vs Hd _ IH]; intros [|i] Hi;
    simpl in Hi; try discriminate.
  - injection Hi as ->. exists v'. auto.
  - apply (IH i Hi).
Qed.

(** C6.  For at least one [TensorsInputs]-like bundle, all with the key
    list of the first and, key by key, tensors of one size: [stack] returns
    a container, and the slice at index [i] of its tensor for a key, taken
    along the new axis [dim], is the tensor the [i]-th bundle has for that
    key. *)
Theorem C6_stack_then_select_recovers_the_inputs
        (bundles : list object) (ds : list dict) (first : dict) (dim : Z) :
  tensors_are bundles ds ->
  hd_error ds = Some first ->
  Forall (fun d => dict_keys d = dict_keys first) ds ->
  field_names (dict_keys first) = true ->
  (forall k vs, In k (dict_keys first) -> column k ds vs -> same_size_tensors dim vs) ->
  exists R dR,
    stack TensorsInputs bundles dim = Ok R
    /\ dict_ R = Ok (VDict dR)
    /\ dict_keys dR = dict_keys first
    /\ forall i di k t,
         nth_error ds i = Some di ->
         dict_get k di = Some (VTensor t) ->
         exists s,
           dict_get k dR = Some (VTensor s)
           /\ torch_select s dim (Z.of_nat i) = Ok t.
Proof.
  intros Hb Hf Hkeys F Hsame.
  pose proof (field_names_NoDup _ F) as ND.
  set (FT := fun key =>
               new_tensor <- gather_tensors key bundles ;;
               xs <- tensor_list new_tensor ;;
               t <- torch_stack xs dim ;;
               Ok (VTensor t)).
  assert (forall k vs ts,
             column k ds vs -> vs = map VTensor ts ->
             FT k = (t <- torch_stack ts dim ;; Ok (VTensor t))) as HFT.
  { intros k vs ts Hcol ->. unfold FT.
    assert (gather_tensors k bundles = Ok (map VTensor ts)) as ->
      by (rewrite (gather_tensors_of k Hb); exact (column_gathered Hcol)).
    cbn [bind]. rewrite tensor_list_tensors. reflexivity. }
  destruct (per_key_loop FT ND) as (dR & Hloop & Hk & Hget).
  { apply Forall_forall. intros k Hin.
    destruct (column_exists k Hkeys Hin) as (vs & Hcol).
    destruct (Hsame k vs Hin Hcol) as (ts & t0 & Hvs & Hhd & Hall & Hdim).
    rewrite (HFT k vs ts Hcol Hvs).
    assert (0 < length ts) as Hpos by (destruct ts; [discriminate|simpl; lia]).
    destruct (@torch_stack_select ts t0 dim 0 Hhd Hall Hdim Hpos) as (s & Hs & _).
    rewrite Hs. cbn [bind]. eauto. }
  exists (tensors_inputs dR), dR.
  split; [|split; [apply dict_tensors_inputs|split; [exact Hk|]]].
  - destruct Hb as [|o d bs ds' Ho Hrest]; [discriminate Hf|]. injection Hf as ->.
    assert (tensors_are (o :: bs) (first :: ds')) as Hb by (constructor; assumption).
    unfold stack, TensorsMixin_stack. cbn [mixin_of].
    rewrite (tensors_keys_of _ Ho). cbn [bind].
    rewrite (assert_same_tensors_keys_spec (dict_keys first) Hb).
    assert (forallb (fun d0 => keys_eqb (dict_keys first) (dict_keys d0)) (first :: ds')
            = true) as -> by (apply forallb_keys_eqb; exact Hkeys).
    cbn [bind].
    destruct (combined_stack_loops (o :: bs) dim (dict_keys first) []) as [ET _].
    rewrite ET. unfold FT in Hloop. rewrite Hloop. cbn [bind].
    apply call_TensorsInputs. rewrite Hk. exact F.
  - intros i di k t Hi Hg.
    assert (In di ds) as Hdi by (apply (nth_error_In _ _ Hi)).
    assert (In k (dict_keys first)) as Hin.
    { rewrite Forall_forall in Hkeys. rewrite <- (Hkeys di Hdi).
      destruct (in_dec string_dec k (dict_keys di)) as [H|H]; [exact H|].
      apply dict_get_None in H. congruence. }
    destruct (column_exists k Hkeys Hin) as (vs & Hcol).
    destruct (Hsame k vs Hin Hcol) as (ts & t0 & Hvs & Hhd & Hall & Hdim).
    destruct (column_nth i Hcol Hi) as (v & Hv & Hg').
    rewrite Hg in Hg'. injection Hg' as <-.
    rewrite Hvs, nth_error_map in Hv.
    destruct (nth_error ts i) as [t'|] eqn:Et; simpl in Hv; [|discriminate].
    injection Hv as ->.
    assert (i < length ts) as Hlt by (apply nth_error_Some; congruence).
    destruct (@torch_stack_select ts t0 dim i Hhd Hall Hdim Hlt) as (s & Hs & Hsel).
    rewrite (nth_error_nth _ _ t0 Et) in Hsel.
    destruct (Hget k Hin) as (v & Hdv & HFk).
    rewrite (HFT k vs ts Hcol Hvs), Hs in HFk. cbn [bind] in HFk.
    injection HFk as <-. exists s. auto.
Qed.

Lemma C6_stack_then_select_recovers_the_inputs_witness :
  let a := [("x", VTensor sample_a)] in
  let b := [("x", VTensor sample_b)] in
  tensors_are [tensors_inputs a; tensors_inputs b] [a; b]
  /\ hd_error [a; b] = Some a
  /\ Forall (fun d => dict_keys d = dict_keys a) [a; b]
  /\ field_names (dict_keys a) = true
  /\ (forall k vs, In k (dict_keys a) -> column k [a; b] vs -> same_size_tensors 1 vs)
  /\ exists R dR,
       stack TensorsInputs [tensors_inputs a; tensors_inputs b] 1 = Ok R
       /\ dict_ R = Ok (VDict dR)
       /\ dict_keys dR = dict_keys a
       /\ forall i di k t,
            nth_error [a; b] i = Some di ->
            dict_get k di = Some (VTensor t) ->
            exists s,
              dict_get k dR = Some (VTensor s)
              /\ torch_select s 1 (Z.of_nat i) = Ok t.
Proof.
  intros a b.
  assert (tensors_are [tensors_inputs a; tensors_inputs b] [a; b]) as Hb
    by (repeat constructor).
  assert (Forall (fun d => dict_keys d = dict_keys a) [a; b]) as Hk by (repeat constructor).
  assert (forall k vs, In k (dict_keys a) -> column k [a; b] vs -> same_size_tensors 1 vs)
    as Hsame.
  { intros k vs [<-|[]] Hcol.
    inversion Hcol as [|? v1 ? vs1 H1 Hcol1]; subst.
    inversion Hcol1 as [|? v2 ? vs2 H2 Hcol2]; subst.
    inversion Hcol2; subst.
    injection H1 as <-. injection H2 as <-.
    exists [sample_a; sample_b], sample_a.
    split; [reflexivity|]. split; [reflexivity|].
    split; [repeat constructor|]. simpl. lia. }
  split; [exact Hb|]. split; [reflexivity|]. split; [exact Hk|].
  split; [reflexivity|]. split; [exact Hsame|].
  exact (@C6_stack_then_select_recovers_the_inputs _ [a; b] a 1 Hb eq_refl Hk eq_refl Hsame).
Defined.

(** Two (2, 2) tensors stacked along axis 1, and the two slices. *)
Example stack_of_samples :
  torch_stack [sample_a; sample_b] 1
  = Ok (mkTensor [2; 2; 2] [1; 2; 5; 6; 3; 4; 7; 8]%Z cpu_device)
  /\ (s <- torch_stack [sample_a; sample_b] 1 ;; torch_select s 1 0) = Ok sample_a
  /\ (s <- torch_stack [sample_a; sample_b] 1 ;; torch_select s (-2) 1) = Ok sample_b.
Proof. repeat split; reflexivity. Qed.

(* ===================================================================== *)
(** ** Generation wrappers *)
(* ===================================================================== *)

Lemma reshape_batch_rows (t : Tensor) (B n L : nat) :
  0 < n -> 0 < L ->
  numel (shape t) = B * (n * L) ->
  torch_reshape t [(-1)%Z; Z.of_nat n; Z.of_nat L]
  = Ok (mkTensor [B; n; L] (data t) (device t)).
Proof.
  intros Hn HL Hnum. unfold torch_reshape.
  assert (forallb (fun s => (-1 <=? s)%Z) [(-1)%Z; Z.of_nat n; Z.of_nat L] = true) as ->.
  { simpl. rewrite !andb_true_iff. repeat split; try reflexivity; apply Z.leb_le; lia. }
  cbn [require bind].
  assert (count_occ Z.eq_dec [(-1)%Z; Z.of_nat n; Z.of_nat L] (-1)%Z = 1) as ->.
  { simpl. destruct (Z.eq_dec (-1) (-1)); [|congruence].
    destruct (Z.eq_dec (Z.of_nat n) (-1)); [lia|].
    destruct (Z.eq_dec (Z.of_nat L) (-1)); [lia|]. reflexivity. }
  assert ((Z.of_nat n =? -1)%Z = false) as En by (apply Z.eqb_neq; lia).
  assert ((Z.of_nat L =? -1)%Z = false) as EL by (apply Z.eqb_neq; lia).
  cbn [filter map fold_right]. rewrite En, EL. cbn [negb fold_right Z.eqb Pos.eqb].
  rewrite Hnum.
  assert ((Z.of_nat n * (Z.of_nat L * 1))%Z = Z.of_nat (n * L)) as -> by lia.
  assert ((0 <? Z.of_nat (n * L))%Z = true) as -> by (apply Z.ltb_lt; nia).
  cbn [require bind].
  assert ((Z.of_nat (B * (n * L)) mod Z.of_nat (n * L))%Z = 0%Z) as ->.
  { rewrite Nat2Z.inj_mul. apply Z.mod_mul. nia. }
  cbn [Z.eqb require bind].
  assert (Z.to_nat (Z.of_nat (B * (n * L)) / Z.of_nat (n * L)) = B) as ->.
  { rewrite Nat2Z.inj_mul, Z.div_mul by nia. apply Nat2Z.id. }
  rewrite !Nat2Z.id. reflexivity.
Qed.

Lemma reshape_rows (t : Tensor) (B M : nat) :
  0 < M ->
  numel (shape t) = B * M ->
  torch_reshape t [(-1)%Z; Z.of_nat M]
  = Ok (mkTensor [B; M] (data t) (device t)).
Proof.
  intros HM Hnum. unfold torch_reshape.
  assert (forallb (fun s => (-1 <=? s)%Z) [(-1)%Z; Z.of_nat M] = true) as ->.
  { simpl. rewrite !andb_true_iff. repeat split; try reflexivity; apply Z.leb_le; lia. }
  cbn [require bind].
  assert (count_occ Z.eq_dec [(-1)%Z; Z.of_nat M] (-1)%Z = 1) as ->.
  { simpl. destruct (Z.eq_dec (-1) (-1)); [|congruence].
    destruct (Z.eq_dec (Z.of_nat M) (-1)); [lia|]. reflexivity. }
  assert ((Z.of_nat M =? -1)%Z = false) as EM by (apply Z.eqb_neq; lia).
  cbn [filter map fold_right]. rewrite EM. cbn [negb fold_right Z.eqb Pos.eqb].
  rewrite Hnum.
  assert ((Z.of_nat M * 1)%Z = Z.of_nat M) as -> by lia.
  assert ((0 <? Z.of_nat M)%Z = true) as -> by (apply Z.ltb_lt; nia).
  cbn [require bind].
  assert ((Z.of_nat (B * M) mod Z.of_nat M)%Z = 0%Z) as ->.
  { rewrite Nat2Z.inj_mul. apply Z.mod_mul. nia. }
  cbn [Z.eqb require bind].
  assert (Z.to_nat (Z.of_nat (B * M) / Z.of_nat M) = B) as ->.
  { rewrite Nat2Z.inj_mul, Z.div_mul by nia. apply Nat2Z.id. }
  rewrite !Nat2Z.id. reflexivity.
Qed.

Lemma zeros_three (B n M : nat) :
  torch_zeros [Z.of_nat B; Z.of_nat n; Z.of_nat M]
  = Ok (mkTensor [B; n; M] (repeat 0%Z (B * n * M)) cpu_device).
Proof.
  unfold torch_zeros.
  assert (forallb (fun s => (0 <=? s)%Z) [Z.of_nat B; Z.of_nat n; Z.of_nat M] = true) as ->.
  { simpl. rewrite !andb_true_iff. repeat split; try reflexivity; apply Z.leb_le; lia. }
  cbn [require bind map]. rewrite !Nat2Z.id.
  do 3 f_equal. simpl. lia.
Qed.

Lemma slice_bound_inside (i n : nat) : i <= n -> slice_bound (Z.of_nat i) n = i.
Proof.
  intros H. unfold slice_bound.
  assert ((Z.of_nat i <? 0)%Z = false) as -> by (apply Z.ltb_ge; lia). lia.
Qed.

Lemma skipn_repeat_same (z : Z) (k n : nat) : skipn k (repeat z n) = repeat z (n - k).
Proof.
  revert n; induction k as [|k IH]; intros [|n]; simpl; auto.
Qed.

Lemma firstn_repeat_same (z : Z) (k n : nat) :
  k <= n -> firstn k (repeat z n) = repeat z k.
Proof.
  revert n; induction k as [|k IH]; intros [|n] H; simpl; try reflexivity; try lia.
  rewrite IH by lia. reflexivity.
Qed.

Lemma chunk_repeat (z : Z) (M R r : nat) :
  r < R -> chunk M r (repeat z (R * M)) = repeat z M.
Proof.
  intros H. unfold chunk. rewrite skipn_repeat_same. apply firstn_repeat_same. nia.
Qed.

(** The [r]-th block of a list built block by block. *)
Lemma chunk_flat_map (G : nat -> list Z) (w R r : nat) :
  (forall x, x < R -> length (G x) = w) ->
  r < R ->
  chunk w r (flat_map G (seq 0 R)) = G r.
Proof.
  intros HG Hr. rewrite flat_map_concat_map.
  rewrite chunk_concat.
  - rewrite (nth_indep _ [] (G 0)) by (rewrite length_map, length_seq; exact Hr).
    rewrite map_nth, seq_nth by exact Hr. reflexivity.
  - apply Forall_forall. intros b Hb. apply in_map_iff in Hb as (x & <- & Hx).
    apply in_seq in Hx. apply HG. lia.
  - rewrite length_map, length_seq. exact Hr.
Qed.

Lemma slice_rows (B n L isl : nat) (d : list Z) (dev : Device) :
  isl <= L ->
  index_last_slice (mkTensor [B; n; L] d dev) (Some (Z.of_nat isl)) (Some (Z.of_nat L))
  = Ok (mkTensor [B; n; L - isl]
          (flat_map (fun r => firstn (L - isl) (skipn isl (chunk L r d))) (seq 0 (B * n)))
          dev).
Proof.
  intros H. unfold index_last_slice, slice_bounds. cbn [shape data device].
  rewrite (@slice_bound_inside isl L H), (@slice_bound_inside L L (Nat.le_refl L)). reflexivity.
Qed.

Lemma copy_rows (B n M w : nat) (G : nat -> list Z) (dev dev' : Device) :
  (forall r, r < B * n -> length (G r) = w) ->
  w <= M ->
  copy_into_last_slice
    (mkTensor [B; n; M] (repeat 0%Z (B * n * M)) dev) None (Some (Z.of_nat w))
    (mkTensor [B; n; w] (flat_map G (seq 0 (B * n))) dev')
  = Ok (mkTensor [B; n; M]
          (flat_map (fun r => G r ++ repeat 0%Z (M - w)) (seq 0 (B * n)))
          dev).
Proof.
  intros HG Hw. unfold copy_into_last_slice, slice_bounds. cbn [shape data device].
  rewrite (@slice_bound_inside w M Hw), Nat.sub_0_r, !Nat.eqb_refl.
  cbn [andb orb require bind]. do 2 f_equal.
  apply flat_map_ext_in. intros r Hr. apply in_seq in Hr.
  rewrite chunk_repeat by lia.
  rewrite chunk_flat_map by (try exact HG; lia).
  simpl. rewrite skipn_repeat_same. reflexivity.
Qed.

Lemma wf_rows (out : Tensor) (R L : nat) :
  shape out = [R; L] -> wf_tensor out ->
  length (data out) = R * L
  /\ forall r, r < R -> length (chunk L r (data out)) = L.
Proof.
  intros Hs Hwf. unfold wf_tensor in Hwf. rewrite Hs in Hwf. simpl in Hwf.
  assert (length (data out) = R * L) as Hlen by lia.
  split; [exact Hlen|]. intros r Hr. apply chunk_length. nia.
Qed.

Lemma last_size_of_rows (out : Tensor) (R L : nat) :
  shape out = [R; L] -> Tensor_size out (-1) = Ok L.
Proof. intros Hs. unfold Tensor_size. rewrite Hs. reflexivity. Qed.

(** The last step of the two wrappers. *)
Lemma reshape_if_single (B n M : nat) (d : list Z) (dev : Device) :
  0 < M ->
  (if (Z.of_nat n =? 1)%Z
   then torch_reshape (mkTensor [B; n; M] d dev) [(-1)%Z; Z.of_nat M]
   else Ok (mkTensor [B; n; M] d dev))
  = Ok (mkTensor (if Nat.eqb n 1 then [B; M] else [B; n; M]) d dev).
Proof.
  intros HM. destruct (Nat.eqb n 1) eqn:E.
  - apply Nat.eqb_eq in E. subst n. simpl (Z.of_nat 1 =? 1)%Z. cbn iota.
    rewrite (@reshape_rows _ B M HM); [reflexivity|]. simpl. lia.
  - apply Nat.eqb_neq in E.
    assert ((Z.of_nat n =? 1)%Z = false) as -> by (apply Z.eqb_neq; lia).
    reflexivity.
Qed.

(** C5.  Let the decoder return [B * n] rows of width [L] for
    [num_return_sequences = n], no longer than the maximal length it was
    given and, for ChatGLM, no shorter than the prompt.  Then [generate]
    returns a tensor whose last axis has width [max_gen_seq_length = M]:
    every row holds the decoder's tokens from position 0 on (for ChatGLM
    without the [input_ids.size(1)] tokens of the prompt) followed by zeros;
    its sizes are [(B, M)] when [n = 1] and [(B, n, M)] otherwise. *)
Theorem C5_generate_fills_a_fixed_width_buffer
        (model_generate : Tensor -> Z -> Z -> Z -> result Tensor)
        (input_ids out : Tensor) (B n L M : nat) (min_gen_seq_length : Z) :
  shape out = [B * n; L] ->
  wf_tensor out ->
  0 < n -> 0 < L -> 0 < M ->
  (forall input_seq_length,
      Tensor_size input_ids 1 = Ok input_seq_length ->
      model_generate input_ids
        (Z.of_nat M + Z.of_nat input_seq_length)%Z
        (min_gen_seq_length + Z.of_nat input_seq_length)%Z
        (Z.of_nat n) = Ok out ->
      input_seq_length <= L <= M + input_seq_length ->
      ChatGLMForGeneration_generate model_generate input_ids
        (Z.of_nat n) min_gen_seq_length (Z.of_nat M)
      = Ok (mkTensor (if Nat.eqb n 1 then [B; M] else [B; n; M])
              (padded_rows L input_seq_length M (B * n) (data out))
              (device out)))
  /\ (model_generate input_ids (Z.of_nat M) min_gen_seq_length (Z.of_nat n) = Ok out ->
      L <= M ->
      XProphetNetForGeneration_generate model_generate input_ids
        (Z.of_nat n) min_gen_seq_length (Z.of_nat M)
      = Ok (mkTensor (if Nat.eqb n 1 then [B; M] else [B; n; M])
              (padded_rows L 0 M (B * n) (data out))
              (device out))).
Proof.
  intros Hs Hwf Hn HL HM.
  destruct (@wf_rows out (B * n) L Hs Hwf) as (Hlen & Hrows).
  assert (numel (shape out) = B * (n * L)) as Hnum by (rewrite Hs; simpl; lia).
  split.
  - intros isl Hisl Hgen Hbounds.
    unfold ChatGLMForGeneration_generate.
    rewrite Hisl. cbn [bind]. rewrite Hgen. cbn [bind].
    rewrite (@last_size_of_rows out (B * n) L Hs). cbn [bind].
    rewrite (@reshape_batch_rows out B n L Hn HL Hnum). cbn [bind].
    unfold Tensor_size at 1. cbn [shape length nth].
    assert (wrap_dim 0 3 = Ok 0) as -> by reflexivity. cbn [bind].
    rewrite zeros_three. cbn [bind device]. unfold Tensor_to. cbn [shape data device].
    rewrite (@slice_rows B n L isl (data out) (device out) (proj1 Hbounds)). cbn [bind].
    assert ((Z.of_nat L - Z.of_nat isl)%Z = Z.of_nat (L - isl)) as -> by lia.
    set (G := fun r => firstn (L - isl) (skipn isl (chunk L r (data out)))).
    assert (forall r, r < B * n -> G r = skipn isl (chunk L r (data out))) as HG.
    { intros r Hr. unfold G. apply firstn_all2.
      rewrite length_skipn, (Hrows r Hr). lia. }
    rewrite (@copy_rows B n M (L - isl) G (device out) (device out));
      [|intros r Hr; rewrite (HG r Hr), length_skipn, (Hrows r Hr); lia|lia].
    cbn [bind]. rewrite (reshape_if_single B n _ (device out) HM). cbn [bind].
    unfold Tensor_long, padded_rows. do 2 f_equal.
    apply flat_map_ext_in. intros r Hr. apply in_seq in Hr. rewrite HG by lia. reflexivity.
  - intros Hgen Hbound.
    unfold XProphetNetForGeneration_generate.
    rewrite Hgen. cbn [bind].
    rewrite (@last_size_of_rows out (B * n) L Hs). cbn [bind].
    rewrite (@reshape_batch_rows out B n L Hn HL Hnum). cbn [bind].
    unfold Tensor_size at 1. cbn [shape length nth].
    assert (wrap_dim 0 3 = Ok 0) as -> by reflexivity. cbn [bind].
    rewrite zeros_three. cbn [bind device]. unfold Tensor_to. cbn [shape data device].
    rewrite <- (chunks_rebuild L (B * n) (data out) Hlen) at 1.
    rewrite (@copy_rows B n M L (fun r => chunk L r (data out)) (device out) (device out)
               Hrows Hbound).
    cbn [bind]. rewrite (reshape_if_single B n _ (device out) HM). cbn [bind].
    unfold padded_rows. do 2 f_equal.
    apply flat_map_ext_in. intros r Hr. rewrite Nat.sub_0_r. reflexivity.
Qed.

Lemma C5_generate_fills_a_fixed_width_buffer_witness :
  shape sample_sequences = [2 * 1; 4]
  /\ wf_tensor sample_sequences
  /\ Tensor_size sample_input_ids 1 = Ok 2
  /\ ChatGLMForGeneration_generate sample_decoder sample_input_ids 1 0 3
     = Ok (mkTensor [2; 3] [13; 14; 0; 23; 24; 0]%Z (cuda_device 0))
  /\ XProphetNetForGeneration_generate sample_decoder sample_input_ids 1 0 6
     = Ok (mkTensor [2; 6] [11; 12; 13; 14; 0; 0; 21; 22; 23; 24; 0; 0]%Z (cuda_device 0)).
Proof.
  assert (shape sample_sequences = [2 * 1; 4]) as Hs by reflexivity.
  assert (wf_tensor sample_sequences) as Hwf by reflexivity.
  split; [exact Hs|]. split; [exact Hwf|]. split; [reflexivity|]. split.
  - exact (proj1 (@C5_generate_fills_a_fixed_width_buffer sample_decoder sample_input_ids
                    sample_sequences 2 1 4 3 0 Hs Hwf
                    ltac:(lia) ltac:(lia) ltac:(lia))
             2 eq_refl eq_refl ltac:(lia)).
  - exact (proj2 (@C5_generate_fills_a_fixed_width_buffer sample_decoder sample_input_ids
                    sample_sequences 2 1 4 6 0 Hs Hwf
                    ltac:(lia) ltac:(lia) ltac:(lia))
             eq_refl ltac:(lia)).
Defined.

(** With three sequences per prompt the buffer keeps its three axes. *)
Example generate_of_samples :
  ChatGLMForGeneration_generate
    (fun _ _ _ _ => Ok (mkTensor [2; 3] [1; 2; 3; 4; 5; 6]%Z cpu_device))
    (mkTensor [1; 1] [1]%Z cpu_device) 2 0 4
  = Ok (mkTensor [1; 2; 4] [2; 3; 0; 0; 5; 6; 0; 0]%Z cpu_device).
Proof. reflexivity. Qed.

(* ===================================================================== *)
(** ** Construction and its checks *)
(* ===================================================================== *)

Lemma field_names_field_name (ks : list string) :
  field_names ks = true -> forallb field_name ks = true.
Proof. unfold field_names. intros H. apply andb_true_iff in H as [_ H]. exact H. Qed.

(** X1.  [TensorsInputs(inputs=inputs, **kwargs)] checks no value: whatever
    the values are (tensors, lists, [None]), the call returns a container
    whose [dict()] is [{**inputs, **kwargs}], so a keyword wins over the
    entry of [inputs] with the same name. *)
Theorem TensorsInputs_stores_any_value (inputs kwargs : dict) :
  field_names (dict_keys (dict_merge inputs kwargs)) = true ->
  field_names (dict_keys kwargs) = true ->
  exists o,
    call TensorsInputs (("inputs", VDict inputs) :: kwargs) = Ok o
    /\ dict_ o = Ok (VDict (dict_merge inputs kwargs))
    /\ forall k,
         dict_get k (dict_merge inputs kwargs)
         = match dict_get k kwargs with
           | Some v => Some v
           | None => dict_get k inputs
           end.
Proof.
  intros F Fk.
  destruct (call_keywords kwargs Fk) as (Hs & _ & Hr).
  exists (tensors_inputs (dict_merge inputs kwargs)).
  split; [|split; [apply dict_tensors_inputs|]].
  - unfold call.
    assert (dict_contains "self" (("inputs", VDict inputs) :: kwargs)
            = dict_contains "self" kwargs) as -> by reflexivity.
    assert (keyword_or_default "inputs" (("inputs", VDict inputs) :: kwargs)
            = VDict inputs) as -> by reflexivity.
    assert (dict_remove "inputs" (("inputs", VDict inputs) :: kwargs)
            = dict_remove "inputs" kwargs) as -> by reflexivity.
    rewrite Hs, Hr. cbn [negb require bind].
    unfold TensorsInputs___init__.
    assert (setattr (new_object TensorsInputs) "__tensors__" (VDict [])
            = Ok (mkObject TensorsInputs (Some (VDict [])) None [])) as -> by reflexivity.
    cbn [mapping bind].
    rewrite (@fill_tensors_loop TensorsInputs (dict_merge inputs kwargs) [] None []).
    + unfold tensors_inputs.
      rewrite guarded_attrs_fresh by (apply field_names_NoDup, F). reflexivity.
    + simpl. apply field_names_NoDup, F.
    + apply field_names_field_name, F.
  - intros k. apply dict_get_merge. apply field_names_NoDup, Fk.
Qed.

Lemma TensorsInputs_stores_any_value_witness :
  let inputs := [("x", VTensor sample_a); ("y", VNone)] in
  let kwargs := [("y", VList [VNone]); ("z", VTensor sample_c)] in
  field_names (dict_keys (dict_merge inputs kwargs)) = true
  /\ field_names (dict_keys kwargs) = true
  /\ exists o,
       call TensorsInputs (("inputs", VDict inputs) :: kwargs) = Ok o
       /\ dict_ o = Ok (VDict (dict_merge inputs kwargs))
       /\ forall k,
            dict_get k (dict_merge inputs kwargs)
            = match dict_get k kwargs with
              | Some v => Some v
              | None => dict_get k inputs
              end.
Proof.
  intros inputs kwargs. split; [reflexivity|]. split; [reflexivity|].
  exact (@TensorsInputs_stores_any_value inputs kwargs eq_refl eq_refl).
Defined.

Lemma list_of_single_tensor_as_list (v : pyval) :
  list_of_tensors (single_tensor_as_list v) = tensor_or_list_of_tensors v.
Proof. destruct v as [t|l|d|]; reflexivity. Qed.

Lemma forallb_values_single_tensor_as_list (d : dict) :
  forallb list_of_tensors (dict_values (dict_map_values single_tensor_as_list d))
  = forallb tensor_or_list_of_tensors (dict_values d).
Proof.
  induction d as [|[k v] d IH]; simpl; [reflexivity|].
  rewrite list_of_single_tensor_as_list, IH. reflexivity.
Qed.

(** The checks of [TensorsMixin.__post_init__] stop at the first value that
    is not a tensor. *)
Lemma TensorsMixin_post_init_loop_rejects (self : object) (items : dict) :
  forallb field_name (dict_keys items) = true ->
  forallb isinstance_Tensor (dict_values items) = false ->
  for_each items
    (fun self '(key, tensor) =>
       py_assert (isinstance_Tensor tensor) ;;;
       setattr self key tensor)
    self
  = Raise AssertionError.
Proof.
  revert self; induction items as [|[k v] items IH]; simpl; intros self F T;
    [discriminate|].
  apply andb_true_iff in F as [Fk F].
  destruct (isinstance_Tensor v); simpl in *; [|reflexivity].
  rewrite (@setattr_field_name self k v Fk). cbn [bind]. auto.
Qed.

(** The checks of [ListTensorsMixin.__post_init__] stop at the first value
    that is not a list of tensors. *)
Lemma ListTensorsMixin_post_init_loop_rejects (self : object) (items : dict) :
  forallb field_name (dict_keys items) = true ->
  forallb list_of_tensors (dict_values items) = false ->
  for_each items
    (fun self '(key, list_tensor) =>
       py_assert (isinstance_list list_tensor) ;;;
       l <- iterate list_tensor ;;
       py_assert (forallb isinstance_Tensor l) ;;;
       setattr self key list_tensor)
    self
  = Raise AssertionError.
Proof.
  revert self; induction items as [|[k v] items IH]; simpl; intros self F T;
    [discriminate|].
  apply andb_true_iff in F as [Fk F].
  destruct v as [t|l|d|]; simpl in *; try reflexivity.
  destruct (forallb isinstance_Tensor l); simpl in *; [|reflexivity].
  rewrite (@setattr_field_name self k (VList l) Fk). cbn [bind]. auto.
Qed.

(** [ListTensorsMixin.__post_init__] on a mapping of fields. *)
Lemma ListTensorsMixin_post_init_checked
      (cls : klass) (t : option pyval) (d a : dict) :
  field_names (dict_keys d) = true ->
  ListTensorsMixin___post_init__ (mkObject cls t (Some (VDict d)) a)
  = if forallb tensor_or_list_of_tensors (dict_values d)
    then Ok (mkObject cls t (Some (VDict (dict_map_values single_tensor_as_list d)))
               (dict_merge a (dict_map_values single_tensor_as_list d)))
    else Raise AssertionError.
Proof.
  intros F.
  destruct (forallb tensor_or_list_of_tensors (dict_values d)) eqn:T.
  - apply ListTensorsMixin_post_init_fields; assumption.
  - unfold ListTensorsMixin___post_init__.
    unfold hasattr, getattr, lookup_attr; simpl.
    rewrite (fold_left_ext _
               (fun acc x => dict_set (fst x) (single_tensor_as_list (snd x)) acc))
      by (intros a0 [k v]; reflexivity).
    rewrite (fold_dict_set_fresh fst (fun x => single_tensor_as_list (snd x)) d [])
      by (simpl; apply field_names_NoDup, F).
    simpl. fold (dict_map_values single_tensor_as_list d).
    apply ListTensorsMixin_post_init_loop_rejects.
    + rewrite dict_keys_map_values. apply field_names_field_name, F.
    + rewrite forallb_values_single_tensor_as_list. exact T.
Qed.

(** [ListTensorsInputs( **kw )] and its checks. *)
Lemma call_ListTensorsInputs_checked (kw : dict) :
  field_names (dict_keys kw) = true ->
  call ListTensorsInputs kw
  = if forallb tensor_or_list_of_tensors (dict_values kw)
    then Ok (list_tensors_inputs (dict_map_values single_tensor_as_list kw))
    else Raise AssertionError.
Proof.
  intros F.
  destruct (forallb tensor_or_list_of_tensors (dict_values kw)) eqn:T.
  - apply call_ListTensorsInputs; assumption.
  - destruct (call_keywords kw F) as (Hs & Hi & Hr).
    unfold call. rewrite Hs, Hi, Hr. cbn [negb require bind].
    unfold ListTensorsInputs___init__.
    assert (setattr (new_object ListTensorsInputs) "__list_tensors__" (VDict [])
            = Ok (mkObject ListTensorsInputs None (Some (VDict [])) [])) as ->
      by reflexivity.
    cbn [mapping bind].
    rewrite dict_merge_empty by (apply field_names_NoDup, F).
    rewrite (@fill_list_tensors_loop ListTensorsInputs kw [] None []);
      [|simpl; apply field_names_NoDup, F|apply field_names_field_name, F].
    cbn [bind app]. rewrite ListTensorsMixin_post_init_checked by exact F.
    rewrite T. reflexivity.
Qed.

(** X2.  [ListTensorsInputs( **kw )] returns exactly when every value is a
    tensor or a list of tensors, and then stores a single tensor as a
    one-element list; any other value (a list with an element that is no
    tensor, a dict, [None]) makes the constructor raise [AssertionError]. *)
Theorem ListTensorsInputs_checks_every_value (kw : dict) :
  field_names (dict_keys kw) = true ->
  call ListTensorsInputs kw
  = if forallb tensor_or_list_of_tensors (dict_values kw)
    then Ok (list_tensors_inputs (dict_map_values single_tensor_as_list kw))
    else Raise AssertionError.
Proof. apply call_ListTensorsInputs_checked. Qed.

Lemma ListTensorsInputs_checks_every_value_witness :
  let kw := [("images", VList [VTensor sample_a; VNone])] in
  field_names (dict_keys kw) = true
  /\ call ListTensorsInputs kw = Raise AssertionError.
Proof.
  intros kw. split; [reflexivity|].
  exact (@ListTensorsInputs_checks_every_value kw eq_refl).
Defined.

(** X3.  The constructor of a combined container returns exactly when every
    value of [dict_of_tensors] is a tensor and every value of
    [dict_of_list_tensors] is a tensor or a list of tensors; otherwise it
    raises [AssertionError]. *)
Theorem combined_constructor_checks_both_mappings (cls : klass) (a b : dict) :
  is_combine cls = true ->
  field_names (dict_keys a) = true ->
  field_names (dict_keys b) = true ->
  call_combine cls a b
  = if forallb isinstance_Tensor (dict_values a)
       && forallb tensor_or_list_of_tensors (dict_values b)
    then Ok (combine_tensors cls a (dict_map_values single_tensor_as_list b))
    else Raise AssertionError.
Proof.
  intros C Fa Fb.
  assert (call_combine cls a b
          = CombineTensorsMixin___init__ (new_object cls) (VDict a) (VDict b)) as ->
    by (destruct cls; try discriminate; reflexivity).
  unfold CombineTensorsMixin___init__, CombineTensorsMixin___post_init__.
  unfold new_object; simpl.
  unfold TensorsMixin___post_init__, hasattr, getattr, lookup_attr; simpl.
  unfold store_attr; simpl.
  destruct (forallb isinstance_Tensor (dict_values a)) eqn:Ta.
  - rewrite TensorsMixin_post_init_loop;
      [|apply field_names_field_name, Fa|exact Ta].
    cbn [bind andb]. rewrite ListTensorsMixin_post_init_checked by exact Fb.
    rewrite dict_merge_empty by (apply field_names_NoDup, Fa). reflexivity.
  - rewrite TensorsMixin_post_init_loop_rejects;
      [reflexivity|apply field_names_field_name, Fa|exact Ta].
Qed.

Lemma combined_constructor_checks_both_mappings_witness :
  let a := [("x", VList [VTensor sample_a])] in
  let b := [("y", VTensor sample_b)] in
  is_combine CombineTensorsInputs = true
  /\ field_names (dict_keys a) = true
  /\ field_names (dict_keys b) = true
  /\ call_combine CombineTensorsInputs a b = Raise AssertionError.
Proof.
  intros a b. split; [reflexivity|]. split; [reflexivity|]. split; [reflexivity|].
  exact (@combined_constructor_checks_both_mappings CombineTensorsInputs a b
           eq_refl eq_refl eq_refl).
Defined.

(* ===================================================================== *)
(** ** More on add *)
(* ===================================================================== *)

(** X4.  [TensorsMixin.add] raises [AssertionError] as soon as its argument
    holds a value that is not a tensor, also under a key that is already
    present and would be skipped. *)
Theorem TensorsMixin_add_rejects_a_value_that_is_no_tensor
        (cls : klass) (other : option pyval) (d a D : dict) :
  forallb field_name (dict_keys D) = true ->
  forallb isinstance_Tensor (dict_values D) = false ->
  TensorsMixin_add (mkObject cls (Some (VDict d)) other a) (a_dict D)
  = Raise AssertionError.
Proof.
  unfold TensorsMixin_add. cbn [bind].
  revert d a; induction D as [|[k v] D IH]; intros d a F T; simpl in *; [discriminate|].
  apply andb_true_iff in F as [Fk F].
  destruct (isinstance_Tensor v); simpl in *; [|reflexivity].
  destruct (dict_contains k d); simpl.
  - apply IH; assumption.
  - unfold setitem_attr, getattr, store_attr; simpl.
    rewrite (@setattr_field_name _ k v Fk). simpl. apply IH; assumption.
Qed.

Lemma TensorsMixin_add_rejects_a_value_that_is_no_tensor_witness :
  let d := [("x", VTensor sample_a)] in
  let D := [("x", VList [VTensor sample_b])] in
  forallb field_name (dict_keys D) = true
  /\ forallb isinstance_Tensor (dict_values D) = false
  /\ TensorsMixin_add (tensors_inputs d) (a_dict D) = Raise AssertionError.
Proof.
  intros d D. split; [reflexivity|]. split; [reflexivity|].
  exact (@TensorsMixin_add_rejects_a_value_that_is_no_tensor
           TensorsInputs None d (own_fields TensorsInputs d) D eq_refl eq_refl).
Defined.

Lemma fold_add_item_ext (f g : pyval -> pyval) (D d : dict) :
  (forall v, In v (dict_values D) -> f v = g v) ->
  fold_left (add_item f) D d = fold_left (add_item g) D d.
Proof.
  revert d; induction D as [|[k v] D IH]; intros d H; simpl; [reflexivity|].
  unfold add_item at 2 4. simpl.
  rewrite (H v) by (left; reflexivity).
  apply IH. intros v' Hv'. apply H. right. exact Hv'.
Qed.

Lemma add_attributes_ext (f g : pyval -> pyval) (D d a : dict) :
  (forall v, In v (dict_values D) -> f v = g v) ->
  add_attributes f D d a = add_attributes g D d a.
Proof.
  revert d a; induction D as [|[k v] D IH]; intros d a H; simpl; [reflexivity|].
  rewrite (H v) by (left; reflexivity).
  destruct (dict_contains k d); apply IH; intros v' Hv'; apply H; right; exact Hv'.
Qed.

(** [ListTensorsMixin.add] stores a list as it is. *)
Lemma ListTensorsMixin_add_lists (cls : klass) (other : option pyval) (d a D : dict) :
  forallb field_name (dict_keys D) = true ->
  forallb isinstance_list (dict_values D) = true ->
  ListTensorsMixin_add (mkObject cls other (Some (VDict d)) a) (a_dict D)
  = Ok (mkObject cls other (Some (VDict (fold_left (add_item (fun v => v)) D d)))
          (add_attributes (fun v => v) D d a)).
Proof.
  intros F T. rewrite ListTensorsMixin_add_spec by assumption.
  assert (forall v, In v (dict_values D) -> single_tensor_as_list v = v) as H.
  { intros v Hv. rewrite forallb_forall in T. specialize (T v Hv).
    destruct v; simpl in *; try discriminate; reflexivity. }
  rewrite (fold_add_item_ext single_tensor_as_list (fun v => v) D d H).
  rewrite (add_attributes_ext single_tensor_as_list (fun v => v) D d a H).
  reflexivity.
Qed.

(** X5.  [ListTensorsMixin.add] asserts that every value is a list before it
    looks at the key.  A bare tensor, which the constructor would wrap into a
    one-element list, makes [add] raise [AssertionError]: the wrapping in
    [add] is never reached.  A list is stored as it is, whatever its elements
    are. *)
Theorem ListTensorsMixin_add_takes_lists_only
        (cls : klass) (other : option pyval) (d a D : dict) :
  forallb field_name (dict_keys D) = true ->
  ListTensorsMixin_add (mkObject cls other (Some (VDict d)) a) (a_dict D)
  = if forallb isinstance_list (dict_values D)
    then Ok (mkObject cls other
               (Some (VDict (fold_left (add_item (fun v => v)) D d)))
               (add_attributes (fun v => v) D d a))
    else Raise AssertionError.
Proof.
  intros F. destruct (forallb isinstance_list (dict_values D)) eqn:T.
  - apply ListTensorsMixin_add_lists; assumption.
  - unfold ListTensorsMixin_add. cbn [bind].
    revert d a T F; induction D as [|[k v] D IH]; intros d a T F; simpl in *;
      [discriminate|].
    apply andb_true_iff in F as [Fk F].
    destruct (isinstance_list v); simpl in *; [|reflexivity].
    destruct (dict_contains k d); simpl.
    + apply IH; assumption.
    + unfold setitem_attr, getattr, store_attr; simpl.
      rewrite (@setattr_field_name _ k (single_tensor_as_list v) Fk). simpl.
      apply IH; assumption.
Qed.

Lemma ListTensorsMixin_add_takes_lists_only_witness :
  let D := [("images", VTensor sample_a)] in
  forallb field_name (dict_keys D) = true
  /\ call ListTensorsInputs D
     = Ok (list_tensors_inputs [("images", VList [VTensor sample_a])])
  /\ ListTensorsMixin_add (list_tensors_inputs []) (a_dict D) = Raise AssertionError.
Proof.
  intros D. split; [reflexivity|]. split; [reflexivity|].
  exact (@ListTensorsMixin_add_takes_lists_only ListTensorsInputs None [] [] D eq_refl).
Defined.

Lemma add_item_present (f : pyval -> pyval) (D d : dict) :
  (forall k, In k (dict_keys D) -> In k (dict_keys d)) ->
  fold_left (add_item f) D d = d.
Proof.
  revert d; induction D as [|[k v] D IH]; intros d H; simpl; [reflexivity|].
  unfold add_item at 2. simpl.
  assert (dict_contains k d = true) as ->
    by (apply dict_contains_true, H; left; reflexivity).
  apply IH. intros k' Hk'. apply H. right. exact Hk'.
Qed.

Lemma add_attributes_present (f : pyval -> pyval) (D d a : dict) :
  (forall k, In k (dict_keys D) -> In k (dict_keys d)) ->
  add_attributes f D d a = a.
Proof.
  revert d a; induction D as [|[k v] D IH]; intros d a H; simpl; [reflexivity|].
  assert (dict_contains k d = true) as ->
    by (apply dict_contains_true, H; left; reflexivity).
  apply IH. intros k' Hk'. apply H. right. exact Hk'.
Qed.

Lemma dict_keys_set_incl (k k' : string) (v : pyval) (d : dict) :
  In k' (dict_keys d) -> In k' (dict_keys (dict_set k v d)).
Proof.
  induction d as [|[k0 v0] d IH]; simpl; [tauto|].
  destruct (String.eqb k k0) eqn:E; simpl.
  - apply String.eqb_eq in E; subst. tauto.
  - intros [->|H]; [left; reflexivity|right; auto].
Qed.

Lemma dict_keys_set_In (k : string) (v : pyval) (d : dict) :
  In k (dict_keys (dict_set k v d)).
Proof.
  induction d as [|[k0 v0] d IH]; simpl; [left; reflexivity|].
  destruct (String.eqb k k0) eqn:E; simpl; [left; reflexivity|right; exact IH].
Qed.

Lemma add_item_keys_grow (f : pyval -> pyval) (D d : dict) (k : string) :
  In k (dict_keys d) -> In k (dict_keys (fold_left (add_item f) D d)).
Proof.
  revert d; induction D as [|[k' v] D IH]; intros d H; simpl; [exact H|].
  apply IH. unfold add_item. simpl.
  destruct (dict_contains k' d); [exact H|apply dict_keys_set_incl, H].
Qed.

Lemma add_item_keys_all (f : pyval -> pyval) (D d : dict) (k : string) :
  In k (dict_keys D) -> In k (dict_keys (fold_left (add_item f) D d)).
Proof.
  revert d; induction D as [|[k' v] D IH]; intros d H; simpl in *; [contradiction|].
  destruct H as [->|H]; [|apply IH, H].
  apply add_item_keys_grow. unfold add_item. simpl.
  destruct (dict_contains k d) eqn:E; [apply dict_contains_true, E|].
  apply dict_keys_set_In.
Qed.

(** A name that [add] does not store keeps the attribute it had. *)
Lemma add_attributes_other (f : pyval -> pyval) (D d a : dict) (k : string) :
  ~ In k (dict_keys D) \/ In k (dict_keys d) ->
  dict_get k (add_attributes f D d a) = dict_get k a.
Proof.
  revert d a; induction D as [|[k' v] D IH]; intros d a H; simpl; [reflexivity|].
  destruct (dict_contains k' d) eqn:E.
  - apply IH. destruct H as [H|H]; [left|right; exact H].
    intros Hin. apply H. right. exact Hin.
  - rewrite IH.
    + apply dict_get_set_ne. intros ->.
      destruct H as [H|H]; [apply H; left; reflexivity|].
      apply dict_contains_true in H. rewrite H in E. discriminate.
    + destruct H as [H|H]; [left|right; apply dict_keys_set_incl, H].
      intros Hin. apply H. right. exact Hin.
Qed.

(** A name that [add] stores becomes an attribute. *)
Lemma add_attributes_new (f : pyval -> pyval) (D d a : dict) (k : string) :
  In k (dict_keys D) ->
  ~ In k (dict_keys d) ->
  dict_get k (add_attributes f D d a) <> None.
Proof.
  revert d a; induction D as [|[k' v] D IH]; intros d a Hin Hd; simpl in *;
    [contradiction|].
  destruct (dict_contains k' d) eqn:E.
  - destruct Hin as [->|Hin].
    + apply dict_contains_true in E. contradiction.
    + apply IH; assumption.
  - destruct (string_dec k' k) as [->|N].
    + rewrite add_attributes_other by (right; apply dict_keys_set_In).
      rewrite dict_get_set_eq. discriminate.
    + destruct Hin as [Hin|Hin]; [contradiction|].
      apply IH; [exact Hin|].
      intros H. apply In_dict_keys_set in H as [H|H]; [congruence|contradiction].
Qed.

Lemma add_of_tensors_mixin (cls : klass) (t l : option pyval) (a : dict)
      (other : dict_or_object) :
  mixin_of cls = tensors_mixin ->
  add (mkObject cls t l a) other
  = bound_method (mkObject cls t l a) "add" (TensorsMixin_add (mkObject cls t l a) other).
Proof. intros M. unfold add. cbn [class_of]. rewrite M. reflexivity. Qed.

(** X6.  [C.add(D)] a second time: once [C.add(D)] has returned, every key
    of [D] is present, so that a second [C.add(D)] skips them all and leaves
    the container as it is.  It does so unless the first call has stored a
    field named [add]: [add] binds every field it stores as an attribute of
    the container, the attribute [add] hides the method, and the second call
    raises [TypeError]. *)
Theorem add_a_second_time_changes_nothing
        (cls : klass) (other : option pyval) (d a D : dict) (o : object) :
  mixin_of cls = tensors_mixin ->
  forallb field_name (dict_keys D) = true ->
  forallb isinstance_Tensor (dict_values D) = true ->
  add (mkObject cls (Some (VDict d)) other a) (a_dict D) = Ok o ->
  (~ In "add" (dict_keys D) \/ In "add" (dict_keys d) -> add o (a_dict D) = Ok o)
  /\ (In "add" (dict_keys D) -> ~ In "add" (dict_keys d) ->
      add o (a_dict D) = Raise TypeError).
Proof.
  intros M F T H.
  rewrite (@add_of_tensors_mixin cls _ _ a (a_dict D) M) in H.
  unfold bound_method in H.
  destruct (lookup_attr (mkObject cls (Some (VDict d)) other a) "add") eqn:L;
    [discriminate H|].
  rewrite TensorsMixin_add_spec in H by assumption. injection H as <-.
  rewrite (@add_of_tensors_mixin cls _ _ _ (a_dict D) M).
  assert (lookup_attr
            (mkObject cls (Some (VDict (fold_left (add_item (fun v => v)) D d))) other
               (add_attributes (fun v => v) D d a)) "add"
          = dict_get "add" (add_attributes (fun v => v) D d a)) as L' by reflexivity.
  assert (dict_get "add" a = None) as La by exact L.
  split.
  - intros Hfree. rewrite bound_method_free
      by (rewrite L', add_attributes_other by exact Hfree; exact La).
    rewrite TensorsMixin_add_spec by assumption.
    rewrite (add_item_present (fun v => v) D)
      by (intros k Hk; apply add_item_keys_all, Hk).
    rewrite (add_attributes_present (fun v => v) D)
      by (intros k Hk; apply add_item_keys_all, Hk).
    reflexivity.
  - intros Hin Hd. apply bound_method_hidden. rewrite L'.
    apply add_attributes_new; assumption.
Qed.

Lemma add_a_second_time_changes_nothing_witness :
  let d := [("x", VTensor sample_a)] in
  let D := [("x", VTensor sample_b); ("y", VTensor sample_c)] in
  let o := mkObject TensorsInputs
             (Some (VDict [("x", VTensor sample_a); ("y", VTensor sample_c)])) None
             [("x", VTensor sample_a); ("y", VTensor sample_c)] in
  mixin_of TensorsInputs = tensors_mixin
  /\ forallb field_name (dict_keys D) = true
  /\ forallb isinstance_Tensor (dict_values D) = true
  /\ add (tensors_inputs d) (a_dict D) = Ok o
  /\ ~ In "add" (dict_keys D)
  /\ add o (a_dict D) = Ok o.
Proof.
  intros d D o.
  assert (~ In "add" (dict_keys D)) as Hn
    by (simpl; intros [H|[H|[]]]; discriminate H).
  split; [reflexivity|]. split; [reflexivity|]. split; [reflexivity|].
  split; [reflexivity|]. split; [exact Hn|].
  exact (proj1 (@add_a_second_time_changes_nothing TensorsInputs None d
                  (own_fields TensorsInputs d) D o eq_refl eq_refl eq_refl eq_refl)
           (or_introl Hn)).
Defined.

(** A container that takes a field named [add] cannot take another one. *)
Example add_of_a_field_named_add :
  exists o,
    add (tensors_inputs [("x", VTensor sample_a)]) (a_dict [("add", VTensor sample_b)])
    = Ok o
    /\ add o (a_dict [("y", VTensor sample_c)]) = Raise TypeError.
Proof. eexists. split; reflexivity. Qed.

Lemma add_item_fresh (f : pyval -> pyval) (D d : dict) :
  NoDup (dict_keys d ++ dict_keys D) ->
  fold_left (add_item f) D d = d ++ dict_map_values f D.
Proof.
  revert d; induction D as [|[k v] D IH]; intros d ND; simpl.
  - rewrite app_nil_r. reflexivity.
  - simpl in ND. apply NoDup_app_cons_fresh in ND as [Hf ND].
    unfold add_item at 2. simpl.
    rewrite dict_contains_false by exact Hf.
    rewrite dict_set_fresh by exact Hf.
    rewrite IH by (rewrite dict_keys_app; exact ND).
    rewrite <- app_assoc. reflexivity.
Qed.

(** When every item is new, each becomes an attribute. *)
Lemma add_attributes_fresh (f : pyval -> pyval) (D d a : dict) :
  NoDup (dict_keys d ++ dict_keys D) ->
  add_attributes f D d a = dict_merge a (dict_map_values f D).
Proof.
  revert d a; induction D as [|[k v] D IH]; intros d a ND; simpl; [reflexivity|].
  simpl in ND. apply NoDup_app_cons_fresh in ND as [Hf ND].
  rewrite dict_contains_false by exact Hf.
  rewrite dict_set_fresh by exact Hf.
  rewrite IH by (rewrite dict_keys_app; exact ND). reflexivity.
Qed.

(** X7.  When no key of [D] is in the container, [add] appends the fields of
    [D] after the fields the container has, in the order of [D]: the key list
    afterwards, which [union] and [stack] compare, is the old one followed by
    the keys of [D].  Every field of [D] is then an attribute of the
    container as well. *)
Theorem add_appends_new_fields_in_order
        (cls : klass) (other : option pyval) (d a D : dict) :
  forallb field_name (dict_keys D) = true ->
  NoDup (dict_keys d ++ dict_keys D) ->
  (forallb isinstance_Tensor (dict_values D) = true ->
   TensorsMixin_add (mkObject cls (Some (VDict d)) other a) (a_dict D)
   = Ok (mkObject cls (Some (VDict (d ++ D))) other (dict_merge a D)))
  /\ (forallb isinstance_list (dict_values D) = true ->
      ListTensorsMixin_add (mkObject cls other (Some (VDict d)) a) (a_dict D)
      = Ok (mkObject cls other (Some (VDict (d ++ D))) (dict_merge a D))).
Proof.
  intros F ND.
  assert (dict_map_values (fun v => v) D = D) as Hid
    by (apply dict_map_values_id, Forall_forall; reflexivity).
  split; intros T.
  - rewrite TensorsMixin_add_spec by assumption.
    rewrite add_item_fresh, add_attributes_fresh by exact ND.
    rewrite Hid. reflexivity.
  - rewrite ListTensorsMixin_add_lists by assumption.
    rewrite add_item_fresh, add_attributes_fresh by exact ND.
    rewrite Hid. reflexivity.
Qed.

Lemma add_appends_new_fields_in_order_witness :
  let d := [("x", VTensor sample_a)] in
  let D := [("z", VTensor sample_b); ("y", VTensor sample_c)] in
  forallb field_name (dict_keys D) = true
  /\ NoDup (dict_keys d ++ dict_keys D)
  /\ forallb isinstance_Tensor (dict_values D) = true
  /\ TensorsMixin_add (tensors_inputs d) (a_dict D) = Ok (tensors_inputs (d ++ D)).
Proof.
  intros d D.
  assert (NoDup (dict_keys d ++ dict_keys D)) as ND
    by (apply distinct_NoDup; reflexivity).
  split; [reflexivity|]. split; [exact ND|]. split; [reflexivity|].
  exact (proj1 (@add_appends_new_fields_in_order TensorsInputs None d
                  (own_fields TensorsInputs d) D eq_refl ND)
           eq_refl).
Defined.

(* ===================================================================== *)
(** ** Combined containers *)
(* ===================================================================== *)

(** X8.  [CombineTensorsMixin.add] looks at the class of its argument: from a
    [TensorsInputs] it adds the new tensor fields and leaves the list mapping
    alone, from a [ListTensorsInputs] it adds the new list fields and leaves
    the tensor mapping alone, and from a combined container it adds both. *)
Theorem combined_add_goes_by_the_class_of_its_argument
        (cls : klass) (t l a Dt Dl : dict) :
  forallb field_name (dict_keys Dt) = true ->
  forallb isinstance_Tensor (dict_values Dt) = true ->
  forallb field_name (dict_keys Dl) = true ->
  forallb isinstance_list (dict_values Dl) = true ->
  let self := mkObject cls (Some (VDict t)) (Some (VDict l)) a in
  let t' := fold_left (add_item (fun v => v)) Dt t in
  let l' := fold_left (add_item (fun v => v)) Dl l in
  let at' := add_attributes (fun v => v) Dt t a in
  CombineTensorsMixin_add self (tensors_inputs Dt)
  = Ok (mkObject cls (Some (VDict t')) (Some (VDict l)) at')
  /\ CombineTensorsMixin_add self (list_tensors_inputs Dl)
     = Ok (mkObject cls (Some (VDict t)) (Some (VDict l'))
             (add_attributes (fun v => v) Dl l a))
  /\ CombineTensorsMixin_add self (combine_tensors_inputs Dt Dl)
     = Ok (mkObject cls (Some (VDict t')) (Some (VDict l'))
             (add_attributes (fun v => v) Dl l at')).
Proof.
  intros Ft Tt Fl Tl self t' l' at'. unfold self, t', l', at', CombineTensorsMixin_add.
  repeat split.
  - cbn [isinstance_TensorsMixin isinstance_ListTensorsMixin tensors_inputs class_of
           getattr lookup_attr String.eqb Ascii.eqb Bool.eqb __tensors__ bind
           mapping_or_object].
    rewrite TensorsMixin_add_spec by assumption. reflexivity.
  - cbn [isinstance_TensorsMixin isinstance_ListTensorsMixin list_tensors_inputs class_of
           getattr lookup_attr String.eqb Ascii.eqb Bool.eqb __list_tensors__ bind
           mapping_or_object].
    apply ListTensorsMixin_add_lists; assumption.
  - cbn [isinstance_TensorsMixin isinstance_ListTensorsMixin combine_tensors_inputs
           combine_tensors class_of getattr lookup_attr String.eqb Ascii.eqb Bool.eqb
           __tensors__ __list_tensors__ bind mapping_or_object].
    rewrite TensorsMixin_add_spec by assumption. cbn [bind].
    apply ListTensorsMixin_add_lists; assumption.
Qed.

Lemma combined_add_goes_by_the_class_of_its_argument_witness :
  let t := [("x", VTensor sample_a)] in
  let l := [("images", VList [VTensor sample_b])] in
  let Dt := [("y", VTensor sample_c)] in
  let Dl := [("masks", VList [VTensor sample_c])] in
  forallb field_name (dict_keys Dt) = true
  /\ forallb isinstance_Tensor (dict_values Dt) = true
  /\ forallb field_name (dict_keys Dl) = true
  /\ forallb isinstance_list (dict_values Dl) = true
  /\ CombineTensorsMixin_add (combine_tensors_inputs t l) (tensors_inputs Dt)
     = Ok (mkObject CombineTensorsInputs (Some (VDict (t ++ Dt))) (Some (VDict l))
             (dict_merge t l ++ Dt)).
Proof.
  intros t l Dt Dl.
  split; [reflexivity|]. split; [reflexivity|]. split; [reflexivity|].
  split; [reflexivity|].
  exact (proj1 (@combined_add_goes_by_the_class_of_its_argument
                  CombineTensorsInputs t l (dict_merge t l) Dt Dl
                  eq_refl eq_refl eq_refl eq_refl)).
Defined.

(** X9.  A field named [dict] hides the method [dict] on a list bundle and
    on a combined container, whose constructors bind every field as an
    attribute of the instance: they return a container that holds the
    field, and [dict()] of that container raises [TypeError].  It does not
    on a [TensorsInputs], whose constructor binds a field as an attribute
    only under a name the instance does not have yet. *)
Theorem a_field_named_dict_hides_the_method (kw : dict) :
  field_names (dict_keys kw) = true ->
  In "dict" (dict_keys kw) ->
  (forallb tensor_or_list_of_tensors (dict_values kw) = true ->
   exists o,
     call ListTensorsInputs kw = Ok o
     /\ __list_tensors__ o = Some (VDict (dict_map_values single_tensor_as_list kw))
     /\ dict_ o = Raise TypeError)
  /\ (forallb isinstance_Tensor (dict_values kw) = true ->
      forall cls, is_combine cls = true ->
        exists o,
          call_combine cls kw [] = Ok o
          /\ __tensors__ o = Some (VDict kw)
          /\ dict_ o = Raise TypeError)
  /\ (exists o,
        call TensorsInputs kw = Ok o
        /\ dict_ o = Ok (VDict kw)).
Proof.
  intros F Hin.
  assert (NoDup (dict_keys kw)) as ND by (apply field_names_NoDup, F).
  destruct (dict_get "dict" kw) as [v|] eqn:Hv;
    [|apply dict_get_None in Hv; contradiction].
  split; [|split].
  - intros T. eexists. split; [apply call_ListTensorsInputs; assumption|].
    split; [reflexivity|].
    unfold dict_. apply bound_method_hidden.
    rewrite lookup_list_tensors_inputs;
      [|rewrite dict_keys_map_values; exact ND|reflexivity].
    rewrite dict_get_map_values, Hv. discriminate.
  - intros T cls C. eexists.
    split; [apply call_combine_fields; try assumption; reflexivity|].
    split; [reflexivity|].
    unfold dict_. apply bound_method_hidden.
    rewrite lookup_combine_tensors; [|constructor|reflexivity].
    cbn [dict_map_values map dict_get]. rewrite Hv. discriminate.
  - eexists. split; [apply call_TensorsInputs, F|apply dict_tensors_inputs].
Qed.

Lemma a_field_named_dict_hides_the_method_witness :
  let kw := [("dict", VTensor sample_a)] in
  field_names (dict_keys kw) = true
  /\ In "dict" (dict_keys kw)
  /\ forallb tensor_or_list_of_tensors (dict_values kw) = true
  /\ exists o,
       call ListTensorsInputs kw = Ok o
       /\ __list_tensors__ o = Some (VDict (dict_map_values single_tensor_as_list kw))
       /\ dict_ o = Raise TypeError.
Proof.
  intros kw.
  assert (In "dict" (dict_keys kw)) as Hin by (left; reflexivity).
  split; [reflexivity|]. split; [exact Hin|]. split; [reflexivity|].
  exact (proj1 (@a_field_named_dict_hides_the_method kw eq_refl Hin) eq_refl).
Defined.

Lemma call_combined_unexpected_keyword (cls : klass) (kw : dict) :
  is_combine cls = true ->
  kw <> [] ->
  forallb (fun k => negb (combine_parameter k)) (dict_keys kw) = true ->
  call cls kw = Raise TypeError.
Proof.
  intros C Hne H. unfold call.
  destruct (dict_contains "self" kw); [reflexivity|]. cbn [negb require bind].
  destruct kw as [|[k v] kw]; [contradiction|].
  simpl in H. apply andb_true_iff in H as [Hk _].
  apply negb_true_iff in Hk. unfold combine_parameter in Hk.
  destruct cls; try discriminate C; simpl; rewrite Hk; reflexivity.
Qed.

Lemma call_combined_empty (cls : klass) :
  is_combine cls = true ->
  call cls [] = Ok (combine_tensors cls [] []).
Proof. intros C. destruct cls; try discriminate C; reflexivity. Qed.

Lemma forallb_app_true {A : Type} (p : A -> bool) (a b : list A) :
  forallb p (a ++ b) = true -> forallb p a = true /\ forallb p b = true.
Proof. rewrite forallb_app. apply andb_true_iff. Qed.

Lemma dict_map_values_nonempty (f : pyval -> pyval) (d : dict) :
  d <> [] -> dict_map_values f d <> [].
Proof. destruct d; [contradiction|discriminate]. Qed.

Lemma cpu_of_combine (self : object) (inplace : bool) :
  is_combine (class_of self) = true ->
  cpu self inplace = bound_method self "cpu" (CombineTensorsMixin_cpu self inplace).
Proof.
  unfold is_combine, cpu. destruct (mixin_of (class_of self)); try discriminate.
  reflexivity.
Qed.

Lemma cuda_of_combine (self : object) (inplace : bool) :
  is_combine (class_of self) = true ->
  cuda self inplace = bound_method self "cuda" (CombineTensorsMixin_cuda self inplace).
Proof.
  unfold is_combine, cuda. destruct (mixin_of (class_of self)); try discriminate.
  reflexivity.
Qed.

Lemma bound_method_TypeError {A : Type} (self : object) (name : string) (m : result A) :
  m = Raise TypeError -> bound_method self name m = Raise TypeError.
Proof.
  intros ->. unfold bound_method. destruct (lookup_attr self name); reflexivity.
Qed.

(** X10.  On a combined container that has a field, [cpu()] and [cuda()]
    without [inplace] raise [TypeError]: the two mixin methods call
    [type(self)( **fields )], and the constructor of a combined container
    takes no field as a keyword, only [dict_of_tensors] and
    [dict_of_list_tensors]. *)
Theorem combined_copy_to_a_device_raises (cls : klass) (t l a : dict) :
  is_combine cls = true ->
  NoDup (dict_keys t) ->
  NoDup (dict_keys l) ->
  forallb isinstance_Tensor (dict_values t) = true ->
  forallb list_of_tensors (dict_values l) = true ->
  forallb (fun k => negb (combine_parameter k)) (dict_keys t ++ dict_keys l) = true ->
  t <> [] \/ l <> [] ->
  cpu (mkObject cls (Some (VDict t)) (Some (VDict l)) a) false = Raise TypeError
  /\ cuda (mkObject cls (Some (VDict t)) (Some (VDict l)) a) false = Raise TypeError.
Proof.
  intros C NDt NDl Tt Tl P Hne.
  apply forallb_app_true in P as [Pt Pl].
  rewrite (@cpu_of_combine (mkObject cls (Some (VDict t)) (Some (VDict l)) a) false C).
  rewrite (@cuda_of_combine (mkObject cls (Some (VDict t)) (Some (VDict l)) a) false C).
  split; apply bound_method_TypeError.
  - unfold CombineTensorsMixin_cpu, TensorsMixin_cpu, getattr. simpl.
    rewrite (build_mapped method_cpu (move_tensor Tensor_cpu) t NDt)
      by (intros v Hv; apply method_cpu_tensor; rewrite forallb_forall in Tt; auto).
    cbn [bind].
    destruct t as [|kv t].
    + destruct Hne as [Hne|Hne]; [contradiction|].
      cbn [dict_map_values map]. rewrite (@call_combined_empty cls C). cbn [bind].
      unfold ListTensorsMixin_cpu, getattr. simpl.
      rewrite (moved_list_tensors method_cpu Tensor_cpu l NDl Tl move_list_cpu).
      cbn [bind].
      rewrite (@call_combined_unexpected_keyword cls _ C);
        [reflexivity|apply dict_map_values_nonempty; exact Hne
        |rewrite dict_keys_map_values; exact Pl].
    + rewrite (@call_combined_unexpected_keyword cls _ C);
        [reflexivity|discriminate|rewrite dict_keys_map_values; exact Pt].
  - unfold CombineTensorsMixin_cuda, TensorsMixin_cuda, getattr. simpl.
    rewrite (build_mapped method_cuda (move_tensor Tensor_cuda) t NDt)
      by (intros v Hv; apply method_cuda_tensor; rewrite forallb_forall in Tt; auto).
    cbn [bind].
    destruct t as [|kv t].
    + destruct Hne as [Hne|Hne]; [contradiction|].
      cbn [dict_map_values map]. rewrite (@call_combined_empty cls C). cbn [bind].
      unfold ListTensorsMixin_cuda, getattr. simpl.
      rewrite (moved_list_tensors method_cuda Tensor_cuda l NDl Tl move_list_cuda).
      cbn [bind].
      rewrite (@call_combined_unexpected_keyword cls _ C);
        [reflexivity|apply dict_map_values_nonempty; exact Hne
        |rewrite dict_keys_map_values; exact Pl].
    + rewrite (@call_combined_unexpected_keyword cls _ C);
        [reflexivity|discriminate|rewrite dict_keys_map_values; exact Pt].
Qed.

Lemma combined_copy_to_a_device_raises_witness :
  let t := [("x", VTensor sample_a)] in
  let l := [("images", VList [VTensor sample_b])] in
  is_combine CombineTensorsInputs = true
  /\ NoDup (dict_keys t)
  /\ NoDup (dict_keys l)
  /\ forallb isinstance_Tensor (dict_values t) = true
  /\ forallb list_of_tensors (dict_values l) = true
  /\ forallb (fun k => negb (combine_parameter k)) (dict_keys t ++ dict_keys l) = true
  /\ (t <> [] \/ l <> [])
  /\ cpu (combine_tensors_inputs t l) false = Raise TypeError
  /\ cuda (combine_tensors_inputs t l) false = Raise TypeError.
Proof.
  intros t l.
  assert (NoDup (dict_keys t)) as NDt by (apply distinct_NoDup; reflexivity).
  assert (NoDup (dict_keys l)) as NDl by (apply distinct_NoDup; reflexivity).
  assert (t <> [] \/ l <> []) as Hne by (left; discriminate).
  split; [reflexivity|]. split; [exact NDt|]. split; [exact NDl|].
  split; [reflexivity|]. split; [reflexivity|]. split; [reflexivity|].
  split; [exact Hne|].
  exact (@combined_copy_to_a_device_raises CombineTensorsInputs t l (dict_merge t l)
           eq_refl NDt NDl eq_refl eq_refl eq_refl Hne).
Defined.

(** [TensorsMixin.cuda(inplace=True)] moves the mapping of the receiver. *)
Lemma TensorsMixin_cuda_inplace (cls : klass) (l : option pyval) (d a : dict) :
  NoDup (dict_keys d) ->
  forallb isinstance_Tensor (dict_values d) = true ->
  TensorsMixin_cuda (mkObject cls (Some (VDict d)) l a) true
  = Ok (mkObject cls (Some (VDict (dict_map_values (move_tensor Tensor_cuda) d))) l a,
        None).
Proof.
  intros ND T. unfold TensorsMixin_cuda, getattr. simpl.
  rewrite (build_mapped method_cuda (move_tensor Tensor_cuda) d ND)
    by (intros v Hv; apply method_cuda_tensor; rewrite forallb_forall in T; auto).
  simpl. rewrite setitem_tensors_loop. simpl.
  rewrite dict_merge_overwrite by exact ND. reflexivity.
Qed.

(** X11.  [cuda(inplace=True)] on a combined container with the attributes
    [a], none of them named [cuda]: it returns [None] and leaves the
    container with every tensor of the two mappings moved to the CUDA
    device, under the same keys in the same order.  The attributes stay as
    they are, so that the attribute of a field still holds the tensor from
    before the move.  With an attribute named [cuda], which a field of that
    name is, the call raises [TypeError]. *)
Theorem combined_cuda_inplace_moves_both_mappings (cls : klass) (t l a : dict) :
  is_combine cls = true ->
  NoDup (dict_keys t) ->
  NoDup (dict_keys l) ->
  forallb isinstance_Tensor (dict_values t) = true ->
  forallb list_of_tensors (dict_values l) = true ->
  (dict_get "cuda" a = None ->
   cuda (mkObject cls (Some (VDict t)) (Some (VDict l)) a) true
   = Ok (mkObject cls
           (Some (VDict (dict_map_values (move_tensor Tensor_cuda) t)))
           (Some (VDict (dict_map_values (move_list Tensor_cuda) l)))
           a,
         None))
  /\ (dict_get "cuda" a <> None ->
      cuda (mkObject cls (Some (VDict t)) (Some (VDict l)) a) true = Raise TypeError).
Proof.
  intros C NDt NDl Tt Tl.
  rewrite (@cuda_of_combine (mkObject cls (Some (VDict t)) (Some (VDict l)) a) true C).
  split; intros H.
  - rewrite bound_method_free by exact H.
    unfold CombineTensorsMixin_cuda.
    rewrite TensorsMixin_cuda_inplace by assumption. cbn [bind].
    unfold ListTensorsMixin_cuda, getattr. simpl.
    rewrite (moved_list_tensors method_cuda Tensor_cuda l NDl Tl move_list_cuda). simpl.
    rewrite setitem_list_tensors_loop. simpl.
    rewrite dict_merge_overwrite by exact NDl. reflexivity.
  - apply bound_method_hidden. exact H.
Qed.

Lemma combined_cuda_inplace_moves_both_mappings_witness :
  let t := [("x", VTensor sample_a)] in
  let l := [("images", VList [VTensor sample_b])] in
  is_combine CombineTensorsInputs = true
  /\ NoDup (dict_keys t)
  /\ NoDup (dict_keys l)
  /\ forallb isinstance_Tensor (dict_values t) = true
  /\ forallb list_of_tensors (dict_values l) = true
  /\ dict_get "cuda" (dict_merge t l) = None
  /\ cuda (combine_tensors_inputs t l) true
     = Ok (mkObject CombineTensorsInputs
             (Some (VDict [("x", VTensor (Tensor_cuda sample_a))]))
             (Some (VDict [("images", VList [VTensor (Tensor_cuda sample_b)])]))
             [("x", VTensor sample_a); ("images", VList [VTensor sample_b])],
           None).
Proof.
  intros t l.
  assert (NoDup (dict_keys t)) as NDt by (apply distinct_NoDup; reflexivity).
  assert (NoDup (dict_keys l)) as NDl by (apply distinct_NoDup; reflexivity).
  split; [reflexivity|]. split; [exact NDt|]. split; [exact NDl|].
  split; [reflexivity|]. split; [reflexivity|]. split; [reflexivity|].
  exact (proj1 (@combined_cuda_inplace_moves_both_mappings CombineTensorsInputs t l
                  (dict_merge t l) eq_refl NDt NDl eq_refl eq_refl) eq_refl).
Defined.

(* ===================================================================== *)
(** ** The algebra of union *)
(* ===================================================================== *)

Lemma for_each_dict_set_raise {A : Type} (key : A -> string) (val : A -> result pyval)
      (l : list A) (acc : dict) (e : exn) :
  comprehension val l = Raise e ->
  for_each l (fun acc x => v <- val x ;; Ok (dict_set (key x) v acc)) acc = Raise e.
Proof.
  revert acc; induction l as [|x l IH]; intros acc H; simpl in *; [discriminate|].
  destruct (val x) as [v|e']; simpl in *; [|congruence].
  apply IH. destruct (comprehension val l); simpl in H; [discriminate|congruence].
Qed.

(** The loop that fills a new dict key by key, as a comprehension. *)
Lemma for_each_dict_set_comprehension (F : string -> result pyval) (keys : list string) :
  NoDup keys ->
  for_each keys (fun acc key => v <- F key ;; Ok (dict_set key v acc)) []
  = (vs <- comprehension F keys ;; Ok (combine keys vs)).
Proof.
  intros ND. destruct (comprehension F keys) as [vs|e] eqn:E; cbn [bind].
  - rewrite (for_each_dict_set_fresh (fun k => k) F keys [] (vs := vs)).
    + rewrite map_id. reflexivity.
    + rewrite map_id. exact ND.
    + exact E.
  - apply (for_each_dict_set_raise (fun k => k)). exact E.
Qed.

(** [TensorsInputs.union] of at least one bundle, key by key. *)
Lemma TensorsInputs_union_by_key (bs : list object) (ds : list dict)
      (keys : list string) (dim : Z) :
  tensors_are bs ds ->
  bs <> [] ->
  Forall (fun d => dict_keys d = keys) ds ->
  field_names keys = true ->
  union TensorsInputs bs dim
  = (vs <- comprehension (cat_column dim ds) keys ;;
     Ok (tensors_inputs (combine keys vs))).
Proof.
  intros Hb Hne Hkeys F.
  destruct Hb as [|o d bs ds Ho Hrest]; [contradiction|].
  assert (tensors_are (o :: bs) (d :: ds)) as Hb by (constructor; assumption).
  assert (dict_keys d = keys) as Hd by (inversion Hkeys; assumption).
  unfold union, TensorsMixin_union.
  rewrite (tensors_keys_of _ Ho), Hd. cbn [bind].
  rewrite (assert_same_tensors_keys_spec keys Hb).
  assert (forallb (fun d0 => keys_eqb keys (dict_keys d0)) (d :: ds) = true) as ->
    by (apply forallb_keys_eqb; exact Hkeys).
  cbn [bind].
  rewrite (for_each_ext keys _
             (fun acc key => v <- cat_column dim (d :: ds) key ;; Ok (dict_set key v acc))).
  - rewrite for_each_dict_set_comprehension by (apply field_names_NoDup, F).
    destruct (comprehension (cat_column dim (d :: ds)) keys) as [vs|e] eqn:E;
      cbn [bind]; [|reflexivity].
    apply call_TensorsInputs.
    rewrite dict_keys_combine by (apply (comprehension_length _ _ E)). exact F.
  - intros acc key _. unfold cat_column.
    rewrite (gather_tensors_of key Hb).
    rewrite !bind_assoc.
    destruct (comprehension (fun d0 => getitem (VDict d0) key) (d :: ds));
      [|reflexivity].
    cbn [bind]. rewrite !bind_assoc. destruct (tensor_list a); [|reflexivity].
    cbn [bind]. rewrite !bind_assoc. destruct (torch_cat a0 dim); reflexivity.
Qed.

Lemma shape_at (d : nat) (s : list nat) :
  d < length s -> firstn d s ++ nth d s 0 :: skipn (S d) s = s.
Proof.
  revert d; induction s as [|a s IH]; intros d H; simpl in H; [lia|].
  destruct d as [|d]; [reflexivity|].
  simpl. f_equal. apply IH. lia.
Qed.

Lemma numel_at (d : nat) (s : list nat) :
  d < length s ->
  numel s = numel (firstn d s) * (nth d s 0 * numel (skipn (S d) s)).
Proof.
  intros H. rewrite <- (@shape_at d s H) at 1. rewrite numel_app. reflexivity.
Qed.

Lemma same_except_true (d : nat) (s1 s2 : list nat) :
  same_except d s1 s2 = true
  <-> length s1 = length s2
      /\ firstn d s1 = firstn d s2
      /\ skipn (S d) s1 = skipn (S d) s2.
Proof.
  unfold same_except, shape_eqb.
  destruct (list_eq_dec Nat.eq_dec (firstn d s1) (firstn d s2));
    destruct (list_eq_dec Nat.eq_dec (skipn (S d) s1) (skipn (S d) s2));
    rewrite ?andb_true_r, ?andb_false_r, ?Nat.eqb_eq; split; intros H;
    try discriminate; try tauto.
Qed.

Lemma same_except_refl (d : nat) (s : list nat) : same_except d s s = true.
Proof. apply same_except_true. auto. Qed.

(** [torch.cat] of one tensor returns it. *)
Lemma torch_cat_single (t : Tensor) (dim : Z) :
  wf_tensor t ->
  (- Z.of_nat (length (shape t)) <= dim < Z.of_nat (length (shape t)))%Z ->
  torch_cat [t] dim = Ok t.
Proof.
  intros Hwf Hdim. unfold torch_cat. cbn [filter].
  destruct (legacy_empty t); cbn [negb]; [reflexivity|].
  assert (Nat.eqb (length (shape t)) 0 = false) as -> by (apply Nat.eqb_neq; lia).
  cbn [negb require bind].
  destruct (@wrap_dim_valid _ _ Hdim) as (d & -> & Hd). cbn [bind forallb].
  rewrite same_except_refl, Device_eqb_refl. cbn [andb require bind map].
  destruct t as [s dt dev]. cbn [shape data device] in *. f_equal. f_equal.
  - unfold list_sum. cbn [fold_right]. rewrite Nat.add_0_r. apply shape_at, Hd.
  - rewrite (flat_map_ext_in _ (fun o => chunk (nth d s 0 * numel (skipn (S d) s)) o dt))
      by (intros o _; cbn [flat_map]; apply app_nil_r).
    apply chunks_rebuild. unfold wf_tensor in Hwf. cbn [shape data] in Hwf.
    rewrite Hwf. apply numel_at, Hd.
Qed.

Lemma combine_keys_values (d : dict) : combine (dict_keys d) (dict_values d) = d.
Proof.
  induction d as [|[k v] d IH]; simpl; [reflexivity|]. rewrite IH. reflexivity.
Qed.

Lemma comprehension_keys_values (F : string -> result pyval) (d : dict) :
  (forall k v, In (k, v) d -> F k = Ok v) ->
  comprehension F (dict_keys d) = Ok (dict_values d).
Proof.
  induction d as [|[k v] d IH]; intros H; simpl; [reflexivity|].
  rewrite (H k v) by (left; reflexivity). cbn [bind].
  rewrite IH by (intros k' v' Hin; apply H; right; exact Hin). reflexivity.
Qed.

(** X12.  [union] of a single bundle returns a container with the very fields
    of that bundle, when [dim] names an axis of each of its tensors. *)
Theorem union_of_one_bundle_returns_its_fields (A : object) (d : dict) (dim : Z) :
  __tensors__ A = Some (VDict d) ->
  field_names (dict_keys d) = true ->
  Forall (tensor_with_axis dim) (dict_values d) ->
  union TensorsInputs [A] dim = Ok (tensors_inputs d).
Proof.
  intros HA F Hv.
  rewrite (@TensorsInputs_union_by_key [A] [d] (dict_keys d) dim);
    [|repeat constructor; exact HA|discriminate|repeat constructor|exact F].
  rewrite (comprehension_keys_values (cat_column dim [d]) d).
  - cbn [bind]. rewrite combine_keys_values. reflexivity.
  - intros k v Hin. unfold cat_column. cbn [comprehension getitem].
    rewrite (@In_dict_get k v d (field_names_NoDup _ F) Hin). cbn [bind].
    rewrite Forall_forall in Hv.
    destruct (Hv v) as (t & -> & Hwf & Hdim);
      [change v with (snd (k, v)); apply in_map; exact Hin|].
    cbn [tensor_list comprehension bind].
    rewrite (@torch_cat_single t dim Hwf Hdim). reflexivity.
Qed.

Lemma union_of_one_bundle_returns_its_fields_witness :
  let d := [("x", VTensor sample_a); ("y", VTensor sample_c)] in
  __tensors__ (tensors_inputs d) = Some (VDict d)
  /\ field_names (dict_keys d) = true
  /\ Forall (tensor_with_axis (-1)) (dict_values d)
  /\ union TensorsInputs [tensors_inputs d] (-1) = Ok (tensors_inputs d).
Proof.
  intros d.
  assert (Forall (tensor_with_axis (-1)) (dict_values d)) as Hv.
  { repeat constructor.
    - exists sample_a. split; [reflexivity|]. split; [reflexivity|]. simpl. lia.
    - exists sample_c. split; [reflexivity|]. split; [reflexivity|]. simpl. lia. }
  split; [reflexivity|]. split; [reflexivity|]. split; [exact Hv|].
  exact (@union_of_one_bundle_returns_its_fields (tensors_inputs d) d (-1)
           eq_refl eq_refl Hv).
Defined.

Lemma wrap_dim_Ok (dim : Z) (n d : nat) :
  wrap_dim dim n = Ok d ->
  d < n /\ (- Z.of_nat n <= dim < Z.of_nat n)%Z.
Proof.
  unfold wrap_dim.
  destruct ((0 <=? dim) && (dim <? Z.of_nat n))%Z eqn:E.
  - intros [= <-]. apply andb_true_iff in E. lia.
  - destruct ((- Z.of_nat n <=? dim) && (dim <? 0))%Z eqn:E'; [|discriminate].
    intros [= <-]. apply andb_true_iff in E'. lia.
Qed.

Lemma shape_replace_at (d a : nat) (s : list nat) :
  d < length s ->
  length (firstn d s ++ a :: skipn (S d) s) = length s
  /\ firstn d (firstn d s ++ a :: skipn (S d) s) = firstn d s
  /\ skipn (S d) (firstn d s ++ a :: skipn (S d) s) = skipn (S d) s
  /\ nth d (firstn d s ++ a :: skipn (S d) s) 0 = a.
Proof.
  revert d; induction s as [|x s IH]; intros d H; simpl in H; [lia|].
  destruct d as [|d].
  - simpl. auto.
  - destruct (IH d ltac:(lia)) as (H1 & H2 & H3 & H4).
    cbn [firstn skipn app length nth].
    repeat split; [f_equal; exact H1|f_equal; exact H2|exact H3|exact H4].
Qed.

Lemma length_flat_map_seq {A : Type} (F : nat -> list A) (n : nat) :
  forall outer a,
    (forall x, a <= x < a + outer -> length (F x) = n) ->
    length (flat_map F (seq a outer)) = outer * n.
Proof.
  induction outer as [|outer IH]; intros a H; simpl; [reflexivity|].
  rewrite length_app, H by lia. rewrite IH; [reflexivity|].
  intros x Hx. apply H. lia.
Qed.

(** [torch.cat] of two tensors, none of them a one-dimensional empty one. *)
Lemma torch_cat_two (x y : Tensor) (dim : Z) :
  legacy_empty x = false ->
  legacy_empty y = false ->
  torch_cat [x; y] dim
  = (require (negb (Nat.eqb (length (shape x)) 0)) RuntimeError ;;;
     d <- wrap_dim dim (length (shape x)) ;;
     require (same_except d (shape x) (shape y)) RuntimeError ;;;
     require (Device_eqb (device y) (device x)) RuntimeError ;;;
     let inner := numel (skipn (S d) (shape x)) in
     Ok (mkTensor
           (firstn d (shape x)
              ++ (nth d (shape x) 0 + nth d (shape y) 0) :: skipn (S d) (shape x))
           (flat_map
              (fun o => chunk (nth d (shape x) 0 * inner) o (data x)
                        ++ chunk (nth d (shape y) 0 * inner) o (data y))
              (seq 0 (numel (firstn d (shape x)))))
           (device x))).
Proof.
  intros Hx Hy. unfold torch_cat. cbn [filter]. rewrite Hx, Hy. cbn [negb].
  destruct (negb (Nat.eqb (length (shape x)) 0)); cbn [require bind]; [|reflexivity].
  destruct (wrap_dim dim (length (shape x))) as [d|e]; cbn [bind]; [|reflexivity].
  cbn [forallb]. rewrite same_except_refl, Device_eqb_refl, !andb_true_r. cbn [andb].
  destruct (same_except d (shape x) (shape y)); cbn [require bind]; [|reflexivity].
  destruct (Device_eqb (device y) (device x)); cbn [require bind]; [|reflexivity].
  f_equal. f_equal.
  - unfold list_sum. cbn [map fold_right]. rewrite Nat.add_0_r. reflexivity.
  - apply flat_map_ext_in. intros o _. cbn [flat_map]. rewrite app_nil_r. reflexivity.
Qed.

(** [torch.cat] of three such tensors. *)
Lemma torch_cat_three (x y z : Tensor) (dim : Z) :
  legacy_empty x = false ->
  legacy_empty y = false ->
  legacy_empty z = false ->
  torch_cat [x; y; z] dim
  = (require (negb (Nat.eqb (length (shape x)) 0)) RuntimeError ;;;
     d <- wrap_dim dim (length (shape x)) ;;
     require (same_except d (shape x) (shape y) && same_except d (shape x) (shape z))
       RuntimeError ;;;
     require (Device_eqb (device y) (device x) && Device_eqb (device z) (device x))
       RuntimeError ;;;
     let inner := numel (skipn (S d) (shape x)) in
     Ok (mkTensor
           (firstn d (shape x)
              ++ (nth d (shape x) 0 + nth d (shape y) 0 + nth d (shape z) 0)
              :: skipn (S d) (shape x))
           (flat_map
              (fun o => (chunk (nth d (shape x) 0 * inner) o (data x)
                         ++ chunk (nth d (shape y) 0 * inner) o (data y))
                        ++ chunk (nth d (shape z) 0 * inner) o (data z))
              (seq 0 (numel (firstn d (shape x)))))
           (device x))).
Proof.
  intros Hx Hy Hz. unfold torch_cat. cbn [filter]. rewrite Hx, Hy, Hz. cbn [negb].
  destruct (negb (Nat.eqb (length (shape x)) 0)); cbn [require bind]; [|reflexivity].
  destruct (wrap_dim dim (length (shape x))) as [d|e]; cbn [bind]; [|reflexivity].
  cbn [forallb]. rewrite same_except_refl, Device_eqb_refl, !andb_true_r. cbn [andb].
  destruct (same_except d (shape x) (shape y) && same_except d (shape x) (shape z));
    cbn [require bind]; [|reflexivity].
  destruct (Device_eqb (device y) (device x) && Device_eqb (device z) (device x));
    cbn [require bind]; [|reflexivity].
  f_equal. f_equal.
  - unfold list_sum. cbn [map fold_right]. f_equal. f_equal. lia.
  - apply flat_map_ext_in. intros o _. cbn [flat_map].
    rewrite app_nil_r, app_assoc. reflexivity.
Qed.

Lemma legacy_empty_shape (t : Tensor) : legacy_empty t = true <-> shape t = [0].
Proof.
  unfold legacy_empty, shape_eqb.
  destruct (list_eq_dec Nat.eq_dec (shape t) [0]); split; congruence.
Qed.

(** What [torch.cat] of two non-empty tensors returns: its parts. *)
Lemma torch_cat_two_Ok (x y xy : Tensor) (dim : Z) :
  legacy_empty x = false ->
  legacy_empty y = false ->
  torch_cat [x; y] dim = Ok xy ->
  exists d,
    wrap_dim dim (length (shape x)) = Ok d
    /\ d < length (shape x)
    /\ same_except d (shape x) (shape y) = true
    /\ Device_eqb (device y) (device x) = true
    /\ xy = mkTensor
              (firstn d (shape x)
                 ++ (nth d (shape x) 0 + nth d (shape y) 0) :: skipn (S d) (shape x))
              (flat_map
                 (fun o => chunk (nth d (shape x) 0 * numel (skipn (S d) (shape x))) o (data x)
                           ++ chunk (nth d (shape y) 0 * numel (skipn (S d) (shape x))) o
                                (data y))
                 (seq 0 (numel (firstn d (shape x)))))
              (device x).
Proof.
  intros Hx Hy. rewrite (@torch_cat_two x y dim Hx Hy).
  destruct (negb (Nat.eqb (length (shape x)) 0)); cbn [require bind]; [|discriminate].
  destruct (wrap_dim dim (length (shape x))) as [d|e] eqn:Ed; cbn [bind]; [|discriminate].
  destruct (same_except d (shape x) (shape y)) eqn:Es; cbn [require bind]; [|discriminate].
  destruct (Device_eqb (device y) (device x)) eqn:Ev; cbn [require bind]; [|discriminate].
  intros [= <-]. exists d.
  split; [reflexivity|]. split; [apply (@wrap_dim_Ok dim _ d Ed)|].
  split; [exact Es|]. split; reflexivity.
Qed.

(** The blocks of two tensors that [torch.cat] puts side by side. *)
Lemma cat_blocks (x y : Tensor) (d : nat) :
  wf_tensor x -> wf_tensor y ->
  d < length (shape x) ->
  same_except d (shape x) (shape y) = true ->
  forall o,
    o < numel (firstn d (shape x)) ->
    length (chunk (nth d (shape x) 0 * numel (skipn (S d) (shape x))) o (data x)
            ++ chunk (nth d (shape y) 0 * numel (skipn (S d) (shape x))) o (data y))
    = (nth d (shape x) 0 + nth d (shape y) 0) * numel (skipn (S d) (shape x)).
Proof.
  intros Hwx Hwy Hd Hse o Ho.
  apply same_except_true in Hse as (Hlen & Hfst & Hskp).
  unfold wf_tensor in *.
  rewrite (@numel_at d (shape x) Hd) in Hwx.
  rewrite (@numel_at d (shape y)) in Hwy by lia.
  rewrite <- Hfst, <- Hskp in Hwy.
  rewrite length_app, !chunk_length by nia. lia.
Qed.

(** The result of [torch.cat] on two tensors owns the elements its shape
    announces. *)
Lemma torch_cat_two_wf (x y xy : Tensor) (dim : Z) :
  wf_tensor x -> wf_tensor y ->
  legacy_empty x = false ->
  legacy_empty y = false ->
  torch_cat [x; y] dim = Ok xy ->
  wf_tensor xy /\ legacy_empty xy = false
  /\ (- Z.of_nat (length (shape xy)) <= dim < Z.of_nat (length (shape xy)))%Z.
Proof.
  intros Hwx Hwy Hx Hy H.
  destruct (@torch_cat_two_Ok x y xy dim Hx Hy H) as (d & Ed & Hd & Hse & Hdev & ->).
  destruct (@shape_replace_at d (nth d (shape x) 0 + nth d (shape y) 0) (shape x) Hd)
    as (H1 & H2 & H3 & H4).
  split; [|split].
  - unfold wf_tensor. cbn [shape data].
    rewrite numel_app. cbn [numel fold_right]. fold (numel (skipn (S d) (shape x))).
    apply length_flat_map_seq. intros o Ho.
    apply (@cat_blocks x y d Hwx Hwy Hd Hse). lia.
  - apply Bool.not_true_is_false. intros E.
    apply legacy_empty_shape in E. cbn [shape] in E.
    assert (legacy_empty x = true) as Hx'; [|congruence].
    apply legacy_empty_shape.
    rewrite E in H1, H4. simpl in H1.
    destruct (shape x) as [|a [|b s]]; simpl in H1; try discriminate.
    destruct d as [|d]; [|simpl in Hd; lia].
    simpl in E. injection E as E. simpl in E. f_equal. lia.
  - cbn [shape]. rewrite H1. apply (@wrap_dim_Ok dim _ d Ed).
Qed.

Lemma torch_cat_single_Ok (t r : Tensor) (dim : Z) :
  wf_tensor t -> torch_cat [t] dim = Ok r -> r = t.
Proof.
  intros Hwf H. pose proof H as H'.
  unfold torch_cat in H'. cbn [filter] in H'.
  destruct (legacy_empty t) eqn:E; cbn [negb] in H'; [congruence|].
  destruct (negb (Nat.eqb (length (shape t)) 0)); cbn [require bind] in H';
    [|discriminate].
  destruct (wrap_dim dim (length (shape t))) as [d|e] eqn:Ed; [|discriminate].
  apply wrap_dim_Ok in Ed as [_ Hr].
  rewrite (@torch_cat_single t dim Hwf Hr) in H. congruence.
Qed.

Lemma same_except_replace (d a : nat) (s s' : list nat) :
  d < length s ->
  same_except d (firstn d s ++ a :: skipn (S d) s) s' = same_except d s s'.
Proof.
  intros H. destruct (@shape_replace_at d a s H) as (H1 & H2 & H3 & _).
  unfold same_except. rewrite H1, H2, H3. reflexivity.
Qed.

(** [torch.cat] may be taken in two steps: concatenating the result of
    [torch.cat([x, y])] with [z] is [torch.cat([x, y, z])], errors
    included. *)
Lemma torch_cat_assoc (x y z xy : Tensor) (dim : Z) :
  wf_tensor x -> wf_tensor y ->
  torch_cat [x; y] dim = Ok xy ->
  torch_cat [xy; z] dim = torch_cat [x; y; z] dim.
Proof.
  intros Hwx Hwy H.
  destruct (legacy_empty x) eqn:Hx; destruct (legacy_empty y) eqn:Hy.
  - assert (xy = x) as ->.
    { unfold torch_cat in H. cbn [filter] in H. rewrite Hx, Hy in H.
      cbn [negb] in H. congruence. }
    unfold torch_cat. cbn [filter]. rewrite Hx, Hy. cbn [negb].
    destruct (legacy_empty z); reflexivity.
  - assert (torch_cat [x; y] dim = torch_cat [y] dim) as E
        by (unfold torch_cat; cbn [filter]; rewrite Hx, Hy; reflexivity).
    rewrite E in H. apply (@torch_cat_single_Ok y xy dim Hwy) in H. subst xy.
    unfold torch_cat. cbn [filter]. rewrite Hx, Hy. cbn [negb]. reflexivity.
  - assert (torch_cat [x; y] dim = torch_cat [x] dim) as E
        by (unfold torch_cat; cbn [filter]; rewrite Hx, Hy; reflexivity).
    rewrite E in H. apply (@torch_cat_single_Ok x xy dim Hwx) in H. subst xy.
    unfold torch_cat. cbn [filter]. rewrite Hx, Hy. cbn [negb]. reflexivity.
  - destruct (@torch_cat_two_wf x y xy dim Hwx Hwy Hx Hy H) as (Hwxy & Hexy & Hrange).
    destruct (@torch_cat_two_Ok x y xy dim Hx Hy H) as (d & Ed & Hd & Hse & Hdev & Hxy).
    destruct (legacy_empty z) eqn:Hz.
    + assert (torch_cat [xy; z] dim = torch_cat [xy] dim) as ->
          by (unfold torch_cat; cbn [filter]; rewrite Hexy, Hz; reflexivity).
      assert (torch_cat [x; y; z] dim = torch_cat [x; y] dim) as ->
          by (unfold torch_cat; cbn [filter]; rewrite Hx, Hy, Hz; reflexivity).
      rewrite H. apply torch_cat_single; assumption.
    + rewrite (@torch_cat_two xy z dim Hexy Hz), (@torch_cat_three x y z dim Hx Hy Hz).
      subst xy. cbn [shape data device].
      destruct (@shape_replace_at d (nth d (shape x) 0 + nth d (shape y) 0) (shape x) Hd)
        as (H1 & H2 & H3 & H4).
      rewrite H1, Ed. 
      destruct (negb (Nat.eqb (length (shape x)) 0)); cbn [require bind]; [|reflexivity].
      rewrite (@same_except_replace d _ (shape x) (shape z) Hd), Hse, Hdev.
      cbn [andb].
      destruct (same_except d (shape x) (shape z)); cbn [require bind]; [|reflexivity].
      destruct (Device_eqb (device z) (device x)); cbn [require bind]; [|reflexivity].
      rewrite H2, H3, H4. f_equal. f_equal.
      apply flat_map_ext_in. intros o Ho. apply in_seq in Ho. f_equal.
      apply (chunk_flat_map
               (fun o => chunk (nth d (shape x) 0 * numel (skipn (S d) (shape x))) o (data x)
                         ++ chunk (nth d (shape y) 0 * numel (skipn (S d) (shape x))) o
                              (data y))).
      * intros o' Ho'. apply (@cat_blocks x y d Hwx Hwy Hd Hse). exact Ho'.
      * lia.
Qed.

Lemma dict_get_Some_of_key (k : string) (d : dict) :
  In k (dict_keys d) -> exists v, dict_get k d = Some v.
Proof.
  intros H. destruct (dict_get k d) as [v|] eqn:E; [eauto|].
  apply dict_get_None in E. contradiction.
Qed.

Lemma dict_get_value_In (k : string) (v : pyval) (d : dict) :
  dict_get k d = Some v -> In v (dict_values d).
Proof.
  intros H. apply dict_get_In in H.
  change v with (snd (k, v)). apply in_map. exact H.
Qed.

(** X13.  [union] may be taken in two steps: when [union(A, B)] has returned
    [R], [union(R, C)] is [union(A, B, C)], the same container or the same
    exception. *)
Theorem union_in_two_steps (A B C R : object) (dA dB dC : dict) (dim : Z) :
  tensors_are [A; B; C] [dA; dB; dC] ->
  dict_keys dB = dict_keys dA ->
  dict_keys dC = dict_keys dA ->
  field_names (dict_keys dA) = true ->
  Forall wf_value (dict_values dA) ->
  Forall wf_value (dict_values dB) ->
  union TensorsInputs [A; B] dim = Ok R ->
  union TensorsInputs [R; C] dim = union TensorsInputs [A; B; C] dim.
Proof.
  intros Hb HkB HkC F HwA HwB H.
  inversion Hb as [|? ? ? ? HA Hb1]; subst.
  inversion Hb1 as [|? ? ? ? HB Hb2]; subst.
  inversion Hb2 as [|? ? ? ? HC _]; subst.
  rewrite (@TensorsInputs_union_by_key [A; B] [dA; dB] (dict_keys dA) dim) in H;
    [|repeat constructor; assumption|discriminate|repeat constructor; assumption|exact F].
  destruct (comprehension (cat_column dim [dA; dB]) (dict_keys dA)) as [vs|e] eqn:E;
    cbn [bind] in H; [|discriminate].
  injection H as <-.
  pose proof (comprehension_length _ _ E) as Hlen.
  pose proof (comprehension_inv _ _ E) as H2.
  rewrite (@TensorsInputs_union_by_key
             [tensors_inputs (combine (dict_keys dA) vs); C]
             [combine (dict_keys dA) vs; dC] (dict_keys dA) dim);
    [|repeat constructor; assumption|discriminate
     |repeat constructor; [apply dict_keys_combine; exact Hlen|assumption]|exact F].
  rewrite (@TensorsInputs_union_by_key [A; B; C] [dA; dB; dC] (dict_keys dA) dim);
    [|exact Hb|discriminate|repeat constructor; assumption|exact F].
  rewrite (comprehension_ext
             (cat_column dim [combine (dict_keys dA) vs; dC])
             (cat_column dim [dA; dB; dC])); [reflexivity|].
  intros k Hin.
  destruct (@dict_get_combine _ _ _ k H2 Hin) as (v & Hv & Hcat).
  destruct (@dict_get_Some_of_key k dA Hin) as (va & Ha).
  destruct (@dict_get_Some_of_key k dB) as (vb & Hb'); [rewrite HkB; exact Hin|].
  rewrite Forall_forall in HwA, HwB.
  destruct (HwA va (dict_get_value_In _ _ Ha)) as (x & -> & Hwx).
  destruct (HwB vb (dict_get_value_In _ _ Hb')) as (y & -> & Hwy).
  unfold cat_column in Hcat. cbn [comprehension getitem] in Hcat.
  rewrite Ha, Hb' in Hcat. cbn [bind tensor_list comprehension] in Hcat.
  destruct (torch_cat [x; y] dim) as [xy|e] eqn:Hxy; cbn [bind] in Hcat; [|discriminate].
  injection Hcat as <-.
  unfold cat_column. cbn [comprehension getitem]. rewrite Hv, Ha, Hb'. cbn [bind].
  destruct (dict_get k dC) as [[z|l|m|]|]; cbn [bind tensor_list comprehension];
    try reflexivity.
  rewrite (@torch_cat_assoc x y z xy dim Hwx Hwy Hxy). reflexivity.
Qed.

Lemma union_in_two_steps_witness :
  let dA := [("x", VTensor sample_a)] in
  let dB := [("x", VTensor sample_b)] in
  let dC := [("x", VTensor sample_c)] in
  let R := tensors_inputs
             [("x", VTensor (mkTensor [4; 2] [1; 2; 3; 4; 5; 6; 7; 8]%Z cpu_device))] in
  tensors_are [tensors_inputs dA; tensors_inputs dB; tensors_inputs dC] [dA; dB; dC]
  /\ dict_keys dB = dict_keys dA
  /\ dict_keys dC = dict_keys dA
  /\ field_names (dict_keys dA) = true
  /\ Forall wf_value (dict_values dA)
  /\ Forall wf_value (dict_values dB)
  /\ union TensorsInputs [tensors_inputs dA; tensors_inputs dB] 0 = Ok R
  /\ union TensorsInputs [R; tensors_inputs dC] 0
     = union TensorsInputs [tensors_inputs dA; tensors_inputs dB; tensors_inputs dC] 0.
Proof.
  intros dA dB dC R.
  assert (tensors_are [tensors_inputs dA; tensors_inputs dB; tensors_inputs dC]
            [dA; dB; dC]) as Hb by (repeat constructor).
  assert (Forall wf_value (dict_values dA)) as HwA
    by (repeat constructor; exists sample_a; split; reflexivity).
  assert (Forall wf_value (dict_values dB)) as HwB
    by (repeat constructor; exists sample_b; split; reflexivity).
  split; [exact Hb|]. split; [reflexivity|]. split; [reflexivity|].
  split; [reflexivity|]. split; [exact HwA|]. split; [exact HwB|].
  split; [reflexivity|].
  exact (@union_in_two_steps _ _ _ R dA dB dC 0 Hb eq_refl eq_refl eq_refl HwA HwB
           eq_refl).
Defined.

Lemma wf_empty_data (t : Tensor) :
  wf_tensor t -> shape t = [0] -> data t = [].
Proof.
  unfold wf_tensor. intros H E. rewrite E in H. simpl in H.
  destruct (data t); [reflexivity|discriminate].
Qed.

(** [torch.cat] along the first axis appends the elements. *)
Lemma torch_cat_rows (x y : Tensor) (a b : nat) (s : list nat) :
  shape x = a :: s -> shape y = b :: s ->
  wf_tensor x -> wf_tensor y ->
  device y = device x ->
  torch_cat [x; y] 0 = Ok (mkTensor ((a + b) :: s) (data x ++ data y) (device x)).
Proof.
  intros Hsx Hsy Hwx Hwy Hdev.
  assert ((- Z.of_nat (length (shape x)) <= 0 < Z.of_nat (length (shape x)))%Z) as Hrx
    by (rewrite Hsx; simpl; lia).
  assert ((- Z.of_nat (length (shape y)) <= 0 < Z.of_nat (length (shape y)))%Z) as Hry
    by (rewrite Hsy; simpl; lia).
  destruct (legacy_empty x) eqn:Hx; destruct (legacy_empty y) eqn:Hy.
  - apply legacy_empty_shape in Hx, Hy.
    rewrite (@wf_empty_data x Hwx Hx), (@wf_empty_data y Hwy Hy).
    assert (torch_cat [x; y] 0 = Ok x) as ->.
    { unfold torch_cat. cbn [filter]. unfold legacy_empty. rewrite Hx, Hy. reflexivity. }
    rewrite Hx in Hsx. rewrite Hy in Hsy. injection Hsx as <- <-. injection Hsy as <-.
    pose proof (@wf_empty_data x Hwx Hx) as Hdx.
    destruct x as [sx dx dev]. cbn [shape data device] in *. subst. reflexivity.
  - assert (torch_cat [x; y] 0 = torch_cat [y] 0) as ->
        by (unfold torch_cat; cbn [filter]; rewrite Hx, Hy; reflexivity).
    rewrite (@torch_cat_single y 0 Hwy Hry).
    apply legacy_empty_shape in Hx.
    rewrite (@wf_empty_data x Hwx Hx).
    rewrite Hx in Hsx. injection Hsx as <- <-.
    destruct y as [sy dy dev]. cbn [shape data device] in *. subst. reflexivity.
  - assert (torch_cat [x; y] 0 = torch_cat [x] 0) as ->
        by (unfold torch_cat; cbn [filter]; rewrite Hx, Hy; reflexivity).
    rewrite (@torch_cat_single x 0 Hwx Hrx).
    apply legacy_empty_shape in Hy.
    rewrite (@wf_empty_data y Hwy Hy).
    rewrite Hy in Hsy. injection Hsy as <- <-.
    destruct x as [sx dx dev]. cbn [shape data device] in *. subst.
    rewrite Nat.add_0_r, app_nil_r. reflexivity.
  - rewrite (@torch_cat_two x y 0 Hx Hy). rewrite Hsx, Hsy, Hdev.
    cbn [length Nat.eqb negb require bind].
    assert (wrap_dim 0 (S (length s)) = Ok 0) as -> by reflexivity.
    cbn [bind].
    assert (same_except 0 (a :: s) (b :: s) = true) as ->
        by (apply same_except_true; simpl; auto).
    rewrite Device_eqb_refl. cbn [require bind firstn skipn nth app numel fold_right seq flat_map].
    fold (numel s). rewrite app_nil_r.
    unfold wf_tensor in Hwx, Hwy. rewrite Hsx in Hwx. rewrite Hsy in Hwy.
    cbn [numel fold_right] in Hwx, Hwy. fold (numel s) in Hwx, Hwy.
    unfold chunk. cbn [Nat.mul skipn].
    rewrite !firstn_all2 by lia. reflexivity.
Qed.

(** [torch.cat] of two tensors that agree but along the axis. *)
Lemma torch_cat_joined (x y : Tensor) (dim : Z) (d : nat) :
  wf_tensor x -> wf_tensor y ->
  wrap_dim dim (length (shape x)) = Ok d ->
  same_except d (shape x) (shape y) = true ->
  device y = device x ->
  torch_cat [x; y] dim = Ok (joined d x y).
Proof.
  intros Hwx Hwy Hd Hse Hdev.
  destruct (@wrap_dim_Ok dim (length (shape x)) d Hd) as [Hlt Hrx].
  pose proof (proj1 (same_except_true d (shape x) (shape y)) Hse) as (Hlen & Hpre & Hpost).
  assert ((- Z.of_nat (length (shape y)) <= dim < Z.of_nat (length (shape y)))%Z) as Hry
    by (rewrite <- Hlen; exact Hrx).
  destruct (legacy_empty x) eqn:Hx; destruct (legacy_empty y) eqn:Hy.
  - apply legacy_empty_shape in Hx, Hy.
    assert (torch_cat [x; y] dim = Ok x) as ->.
    { unfold torch_cat. cbn [filter]. unfold legacy_empty. rewrite Hx, Hy. reflexivity. }
    pose proof (@wf_empty_data x Hwx Hx) as Hdx.
    pose proof (@wf_empty_data y Hwy Hy) as Hdy.
    unfold joined. rewrite Hx, Hy, Hdx, Hdy.
    rewrite Hx in Hlt. simpl in Hlt. assert (d = 0) as -> by lia.
    destruct x as [sx dx dev]. cbn [shape data device] in *. subst. reflexivity.
  - assert (torch_cat [x; y] dim = torch_cat [y] dim) as ->
        by (unfold torch_cat; cbn [filter]; rewrite Hx, Hy; reflexivity).
    rewrite (@torch_cat_single y dim Hwy Hry).
    apply legacy_empty_shape in Hx.
    pose proof (@wf_empty_data x Hwx Hx) as Hdx.
    rewrite Hx in Hlt. simpl in Hlt. assert (d = 0) as -> by lia.
    unfold joined. rewrite Hx, Hdx.
    rewrite Hx in Hlen, Hpost. cbn [length skipn firstn] in *.
    destruct (shape y) as [|b [|c sy]] eqn:Esy; try discriminate.
    cbn [firstn skipn nth app numel fold_right seq flat_map Nat.mul Nat.add].
    unfold chunk. cbn [Nat.mul skipn firstn app].
    rewrite ?Nat.add_0_r, ?app_nil_r.
    unfold wf_tensor in Hwy. rewrite Esy in Hwy. cbn [numel fold_right] in Hwy.
    rewrite firstn_all2 by lia.
    destruct y as [sy' dy dev]. cbn [shape data device] in *. subst. reflexivity.
  - assert (torch_cat [x; y] dim = torch_cat [x] dim) as ->
        by (unfold torch_cat; cbn [filter]; rewrite Hx, Hy; reflexivity).
    rewrite (@torch_cat_single x dim Hwx Hrx).
    apply legacy_empty_shape in Hy.
    pose proof (@wf_empty_data y Hwy Hy) as Hdy.
    unfold joined. rewrite Hy, Hdy.
    rewrite Hy in Hlen, Hpost. cbn [length] in Hlen.
    destruct (shape x) as [|a [|c sx]] eqn:Esx; try discriminate.
    cbn [length] in Hlt. assert (d = 0) as -> by lia.
    cbn [firstn skipn nth app numel fold_right seq flat_map Nat.mul Nat.add].
    unfold chunk. cbn [Nat.mul skipn firstn app].
    rewrite ?Nat.add_0_r, ?app_nil_r.
    unfold wf_tensor in Hwx. rewrite Esx in Hwx. cbn [numel fold_right] in Hwx.
    rewrite firstn_all2 by lia.
    destruct x as [sx' dx dev]. cbn [shape data device] in *. subst. reflexivity.
  - rewrite (@torch_cat_two x y dim Hx Hy).
    assert (negb (Nat.eqb (length (shape x)) 0) = true) as ->
      by (apply negb_true_iff, Nat.eqb_neq; lia).
    cbn [require bind]. rewrite Hd. cbn [bind]. rewrite Hse. cbn [require bind].
    rewrite Hdev, Device_eqb_refl. reflexivity.
Qed.

(** The joined tensor has the elements its shape announces. *)
Lemma joined_wf (x y : Tensor) (d : nat) :
  wf_tensor x -> wf_tensor y ->
  d < length (shape x) ->
  same_except d (shape x) (shape y) = true ->
  wf_tensor (joined d x y).
Proof.
  intros Hwx Hwy Hd Hse. unfold wf_tensor, joined. cbn [shape data].
  rewrite numel_app. cbn [numel fold_right]. fold (numel (skipn (S d) (shape x))).
  apply length_flat_map_seq. intros o Ho.
  apply (@cat_blocks x y d Hwx Hwy Hd Hse). lia.
Qed.

(** Joined along the first axis, the elements of [x] are followed by the
    elements of [y]. *)
Lemma joined_rows (x y : Tensor) (a b : nat) (s : list nat) :
  shape x = a :: s -> shape y = b :: s ->
  wf_tensor x -> wf_tensor y ->
  joined 0 x y = mkTensor ((a + b) :: s) (data x ++ data y) (device x).
Proof.
  intros Hsx Hsy Hwx Hwy. unfold joined. rewrite Hsx, Hsy.
  cbn [firstn skipn nth app numel fold_right seq flat_map].
  fold (numel s). rewrite app_nil_r.
  unfold wf_tensor in Hwx, Hwy. rewrite Hsx in Hwx. rewrite Hsy in Hwy.
  cbn [numel fold_right] in Hwx, Hwy. fold (numel s) in Hwx, Hwy.
  unfold chunk. cbn [Nat.mul skipn].
  rewrite !firstn_all2 by lia. reflexivity.
Qed.

(** C1.  For two containers with the same key list, [union] returns a
    container whose [dict()] maps every key to the concatenation of the two
    values of that key.  For a tensor field it is the two tensors joined
    along [dim]: the sizes of the first with the two sizes along [dim]
    added, and for every index before that axis the elements of the first
    followed by the elements of the second.  For a list field it is the list
    of the first container followed by the list of the second.  Stated for
    [TensorsInputs], for [ListTensorsInputs] and for the combined classes.
    With lists no field is named [dict]: the constructor makes every list
    field, and every field of a combined container, an attribute of the
    result, and an attribute [dict] would hide the method. *)
Theorem C1_union_concatenates (dim : Z) :
  (forall (A B : object) (dA dB : dict),
      tensors_are [A; B] [dA; dB] ->
      dict_keys dB = dict_keys dA ->
      field_names (dict_keys dA) = true ->
      (forall k va vb, dict_get k dA = Some va -> dict_get k dB = Some vb ->
                       joinable dim va vb) ->
      exists R dR,
        union TensorsInputs [A; B] dim = Ok R
        /\ dict_ R = Ok (VDict dR)
        /\ dict_keys dR = dict_keys dA
        /\ forall k x y,
             dict_get k dA = Some (VTensor x) ->
             dict_get k dB = Some (VTensor y) ->
             exists d,
               wrap_dim dim (length (shape x)) = Ok d
               /\ dict_get k dR = Some (VTensor (joined d x y)))
  /\ (forall (A B : object) (dA dB : dict),
      list_tensors_are [A; B] [dA; dB] ->
      dict_keys dB = dict_keys dA ->
      field_names (dict_keys dA) = true ->
      ~ In "dict" (dict_keys dA) ->
      forallb list_of_tensors (dict_values dA) = true ->
      forallb list_of_tensors (dict_values dB) = true ->
      exists R dR,
        union ListTensorsInputs [A; B] dim = Ok R
        /\ dict_ R = Ok (VDict dR)
        /\ dict_keys dR = dict_keys dA
        /\ forall k x y,
             dict_get k dA = Some (VList x) ->
             dict_get k dB = Some (VList y) ->
             dict_get k dR = Some (VList (x ++ y)))
  /\ (forall (cls : klass) (A B : object) (tA tB lA lB : dict),
      is_combine cls = true ->
      tensors_are [A; B] [tA; tB] ->
      list_tensors_are [A; B] [lA; lB] ->
      dict_keys tB = dict_keys tA ->
      dict_keys lB = dict_keys lA ->
      field_names (dict_keys tA) = true ->
      field_names (dict_keys lA) = true ->
      ~ In "dict" (dict_keys tA) ->
      ~ In "dict" (dict_keys lA) ->
      (forall k va vb, dict_get k tA = Some va -> dict_get k tB = Some vb ->
                       joinable dim va vb) ->
      forallb list_of_tensors (dict_values lA) = true ->
      forallb list_of_tensors (dict_values lB) = true ->
      exists R dR,
        union cls [A; B] dim = Ok R
        /\ dict_ R = Ok (VDict dR)
        /\ (forall k x y,
               dict_get k (dict_merge tA lA) = Some (VTensor x) ->
               dict_get k (dict_merge tB lB) = Some (VTensor y) ->
               exists d,
                 wrap_dim dim (length (shape x)) = Ok d
                 /\ dict_get k dR = Some (VTensor (joined d x y)))
        /\ (forall k x y,
               dict_get k (dict_merge tA lA) = Some (VList x) ->
               dict_get k (dict_merge tB lB) = Some (VList y) ->
               dict_get k dR = Some (VList (x ++ y)))).
Proof.
  assert (forall va vb, joinable dim va vb -> concatenable dim va vb) as Hjc.
  { intros va vb (x & y & d & -> & -> & Hwx & Hwy & Hd & Hse & Hdev).
    exists x, y, (joined d x y). repeat split.
    apply torch_cat_joined; assumption. }
  assert (forall x y v, joinable dim (VTensor x) (VTensor y) ->
            concatenation dim (VTensor x) (VTensor y) = Ok v ->
            exists d, wrap_dim dim (length (shape x)) = Ok d
                      /\ v = VTensor (joined d x y)) as Hjoin.
  { intros x y v (x' & y' & d & Ex & Ey & Hwx & Hwy & Hd & Hse & Hdev) Hv.
    injection Ex as <-. injection Ey as <-.
    cbn [concatenation] in Hv.
    rewrite (@torch_cat_joined x y dim d Hwx Hwy Hd Hse Hdev) in Hv.
    injection Hv as <-. exists d. auto. }
  split; [|split].
  - intros A B dA dB Hb Hkeys F Hcat.
    destruct (@union_of_two_tensors_inputs dim A B dA dB Hb Hkeys F)
      as (dR & HR & Hk & Hget).
    { intros k va vb Ha Hb'. apply Hjc, (Hcat k va vb Ha Hb'). }
    exists (tensors_inputs dR), dR.
    split; [exact HR|]. split; [apply dict_tensors_inputs|]. split; [exact Hk|].
    intros k x y Ha Hb'.
    destruct (Hget k _ _ Ha Hb') as (v & Hv & Hg).
    destruct (Hjoin x y v (Hcat k _ _ Ha Hb') Hv) as (d & Hd & ->).
    exists d. auto.
  - intros A B dA dB Hb Hkeys F Hdict TA TB.
    destruct (@union_of_two_list_tensors_inputs dim A B dA dB Hb Hkeys F TA TB)
      as (dR & HR & Hk & Hget).
    exists (list_tensors_inputs dR), dR.
    split; [exact HR|]. split; [|split; [exact Hk|]].
    + apply dict_list_tensors_inputs; rewrite Hk;
        [apply field_names_NoDup, F|exact Hdict].
    + intros k x y Ha Hb'.
      destruct (Hget k _ _ Ha Hb') as (v & Hv & Hg).
      cbn [concatenation] in Hv. injection Hv as <-. exact Hg.
  - intros cls A B tA tB lA lB C Hbt Hbl Hkt Hkl Ft Fl Hdt Hdl Hcat TA TB.
    destruct (@union_of_two_combined dim cls A B tA tB lA lB C Hbt Hbl Hkt Hkl Ft Fl)
      as (dT & dL & HR & HkT & HkL & Hget); try assumption.
    { intros k va vb Ha Hb'. apply Hjc, (Hcat k va vb Ha Hb'). }
    assert (NoDup (dict_keys lA)) as NDl by (apply field_names_NoDup, Fl).
    exists (combine_tensors cls dT dL), (dict_merge dT dL).
    split; [exact HR|]. split; [|split].
    + apply dict_combine_tensors; rewrite ?HkT, ?HkL; assumption.
    + intros k x y Ha Hb'.
      destruct (Hget k _ _ Ha Hb') as (v & Hv & Hg).
      assert (joinable dim (VTensor x) (VTensor y)) as Hj.
      { rewrite dict_get_merge in Ha by exact NDl.
        rewrite dict_get_merge in Hb' by (rewrite Hkl; exact NDl).
        assert (forall d0 k0 v0, forallb list_of_tensors (dict_values d0) = true ->
                                 dict_get k0 d0 = Some v0 -> list_of_tensors v0 = true)
          as Hlist.
        { intros d0 k0 v0 T Hg0. rewrite forallb_forall in T. apply T.
          change v0 with (snd (k0, v0)). apply in_map, dict_get_In, Hg0. }
        destruct (dict_get k lA) as [la|] eqn:ELA.
        - injection Ha as ->. pose proof (Hlist lA k _ TA ELA) as H. discriminate H.
        - rewrite (dict_get_same_keys k lA lB Hkl ELA) in Hb'.
          apply (Hcat k _ _ Ha Hb'). }
      destruct (Hjoin x y v Hj Hv) as (d & Hd & ->).
      exists d. auto.
    + intros k x y Ha Hb'.
      destruct (Hget k _ _ Ha Hb') as (v & Hv & Hg).
      cbn [concatenation] in Hv. injection Hv as <-. exact Hg.
Qed.

Lemma C1_union_concatenates_witness :
  let tA := [("x", VTensor sample_a)] in
  let tB := [("x", VTensor sample_b)] in
  let lA := [("y", VList [VTensor sample_a])] in
  let lB := [("y", VList [VTensor sample_b; VTensor sample_c])] in
  let A := combine_tensors_inputs tA lA in
  let B := combine_tensors_inputs tB lB in
  (tensors_are [A; B] [tA; tB]
   /\ dict_keys tB = dict_keys tA
   /\ field_names (dict_keys tA) = true
   /\ (forall k va vb, dict_get k tA = Some va -> dict_get k tB = Some vb ->
                       joinable 1 va vb)
   /\ exists R dR,
        union TensorsInputs [A; B] 1 = Ok R
        /\ dict_ R = Ok (VDict dR)
        /\ dict_keys dR = dict_keys tA
        /\ forall k x y,
             dict_get k tA = Some (VTensor x) ->
             dict_get k tB = Some (VTensor y) ->
             exists d,
               wrap_dim 1 (length (shape x)) = Ok d
               /\ dict_get k dR = Some (VTensor (joined d x y)))
  /\ (list_tensors_are [A; B] [lA; lB]
      /\ dict_keys lB = dict_keys lA
      /\ field_names (dict_keys lA) = true
      /\ ~ In "dict" (dict_keys lA)
      /\ forallb list_of_tensors (dict_values lA) = true
      /\ forallb list_of_tensors (dict_values lB) = true
      /\ exists R dR,
           union ListTensorsInputs [A; B] 1 = Ok R
           /\ dict_ R = Ok (VDict dR)
           /\ dict_keys dR = dict_keys lA
           /\ forall k x y,
                dict_get k lA = Some (VList x) ->
                dict_get k lB = Some (VList y) ->
                dict_get k dR = Some (VList (x ++ y)))
  /\ (is_combine CombineTensorsInputs = true
      /\ ~ In "dict" (dict_keys tA)
      /\ exists R dR,
           union CombineTensorsInputs [A; B] 1 = Ok R
           /\ dict_ R = Ok (VDict dR)
           /\ (forall k x y,
                  dict_get k (dict_merge tA lA) = Some (VTensor x) ->
                  dict_get k (dict_merge tB lB) = Some (VTensor y) ->
                  exists d,
                    wrap_dim 1 (length (shape x)) = Ok d
                    /\ dict_get k dR = Some (VTensor (joined d x y)))
           /\ (forall k x y,
                  dict_get k (dict_merge tA lA) = Some (VList x) ->
                  dict_get k (dict_merge tB lB) = Some (VList y) ->
                  dict_get k dR = Some (VList (x ++ y)))).
Proof.
  intros tA tB lA lB A B.
  assert (tensors_are [A; B] [tA; tB]) as Ht by (repeat constructor).
  assert (list_tensors_are [A; B] [lA; lB]) as Hl by (repeat constructor).
  assert (forall k va vb, dict_get k tA = Some va -> dict_get k tB = Some vb ->
                          joinable 1 va vb) as Hcat.
  { intros k va vb. simpl. destruct (String.eqb k "x"); [|discriminate].
    intros [= <-] [= <-]. exists sample_a, sample_b, 1. repeat split; reflexivity. }
  assert (~ In "dict" (dict_keys tA)) as Hdt by (simpl; intros [H|[]]; discriminate H).
  assert (~ In "dict" (dict_keys lA)) as Hdl by (simpl; intros [H|[]]; discriminate H).
  destruct (C1_union_concatenates 1) as (HT & HL & HC).
  split; [|split].
  - split; [exact Ht|]. split; [reflexivity|]. split; [reflexivity|]. split; [exact Hcat|].
    exact (HT A B tA tB Ht eq_refl eq_refl Hcat).
  - split; [exact Hl|]. split; [reflexivity|]. split; [reflexivity|]. split; [exact Hdl|].
    split; [reflexivity|]. split; [reflexivity|].
    exact (HL A B lA lB Hl eq_refl eq_refl Hdl eq_refl eq_refl).
  - split; [reflexivity|]. split; [exact Hdt|].
    exact (HC CombineTensorsInputs A B tA tB lA lB eq_refl Ht Hl eq_refl eq_refl
              eq_refl eq_refl Hdt Hdl Hcat eq_refl eq_refl).
Defined.

(** Two tensors of sizes (2, 2) joined along the second axis: every row of
    the first is followed by the row of the second. *)
Example joined_along_the_second_axis :
  joined 1 sample_a sample_b = mkTensor [2; 4] [1; 2; 5; 6; 3; 4; 7; 8]%Z cpu_device
  /\ union TensorsInputs
       [tensors_inputs [("x", VTensor sample_a)]; tensors_inputs [("x", VTensor sample_b)]] 1
     = Ok (tensors_inputs
             [("x", VTensor (mkTensor [2; 4] [1; 2; 5; 6; 3; 4; 7; 8]%Z cpu_device))]).
Proof. split; reflexivity. Qed.

(** X14.  For two bundles whose tensors agree, key by key, in every size but
    the first, [union(A, B, dim=0)] returns a container that holds under
    every key the rows of [A]'s tensor followed by the rows of [B]'s: sizes
    [(a, ...)] and [(b, ...)] give the size [(a + b, ...)]. *)
Theorem union_along_the_first_axis_appends_the_rows (A B : object) (dA dB : dict) :
  tensors_are [A; B] [dA; dB] ->
  dict_keys dB = dict_keys dA ->
  field_names (dict_keys dA) = true ->
  (forall k va vb, dict_get k dA = Some va -> dict_get k dB = Some vb ->
                   rows_of_one_width va vb) ->
  exists dR,
    union TensorsInputs [A; B] 0 = Ok (tensors_inputs dR)
    /\ dict_keys dR = dict_keys dA
    /\ forall k x y,
         dict_get k dA = Some (VTensor x) ->
         dict_get k dB = Some (VTensor y) ->
         dict_get k dR
         = Some (VTensor (mkTensor ((hd 0 (shape x) + hd 0 (shape y)) :: tl (shape x))
                            (data x ++ data y) (device x))).
Proof.
  intros Hb HkB F Hrows.
  assert (forall k x y,
             dict_get k dA = Some (VTensor x) -> dict_get k dB = Some (VTensor y) ->
             cat_column 0 [dA; dB] k
             = Ok (VTensor (mkTensor ((hd 0 (shape x) + hd 0 (shape y)) :: tl (shape x))
                              (data x ++ data y) (device x)))) as Hcol.
  { intros k x y Ha Hb'.
    destruct (Hrows k _ _ Ha Hb') as (x' & y' & a & b & s & Ex & Ey & Hsx & Hsy & Hwx & Hwy & Hd).
    injection Ex as <-. injection Ey as <-.
    unfold cat_column. cbn [comprehension getitem]. rewrite Ha, Hb'.
    cbn [bind tensor_list comprehension].
    rewrite (@torch_cat_rows x y a b s Hsx Hsy Hwx Hwy Hd). rewrite Hsx, Hsy. reflexivity. }
  assert (forall k, In k (dict_keys dA) ->
                    exists x y, dict_get k dA = Some (VTensor x)
                                /\ dict_get k dB = Some (VTensor y)) as Hboth.
  { intros k Hin.
    destruct (@dict_get_Some_of_key k dA Hin) as (va & Ha).
    destruct (@dict_get_Some_of_key k dB) as (vb & Hb'); [rewrite HkB; exact Hin|].
    destruct (Hrows k _ _ Ha Hb') as (x & y & _ & _ & _ & -> & -> & _). eauto. }
  destruct (@comprehension_Forall2 _ _ (cat_column 0 [dA; dB]) (dict_keys dA))
    as (vs & Hc & H2).
  { apply Forall_forall. intros k Hin. destruct (Hboth k Hin) as (x & y & Ha & Hb').
    rewrite (Hcol k x y Ha Hb'). eauto. }
  exists (combine (dict_keys dA) vs). split; [|split].
  - rewrite (@TensorsInputs_union_by_key [A; B] [dA; dB] (dict_keys dA) 0);
      [|exact Hb|discriminate|repeat constructor; assumption|exact F].
    rewrite Hc. reflexivity.
  - apply dict_keys_combine. apply (comprehension_length _ _ Hc).
  - intros k x y Ha Hb'.
    assert (In k (dict_keys dA)) as Hin.
    { destruct (in_dec string_dec k (dict_keys dA)) as [Hi|Hi]; [exact Hi|].
      apply dict_get_None in Hi. congruence. }
    destruct (@dict_get_combine _ _ _ k H2 Hin) as (v & Hv & Hcat).
    rewrite (Hcol k x y Ha Hb') in Hcat. congruence.
Qed.

Lemma union_along_the_first_axis_appends_the_rows_witness :
  let dA := [("x", VTensor sample_a)] in
  let dB := [("x", VTensor sample_c)] in
  tensors_are [tensors_inputs dA; tensors_inputs dB] [dA; dB]
  /\ dict_keys dB = dict_keys dA
  /\ field_names (dict_keys dA) = true
  /\ (forall k va vb, dict_get k dA = Some va -> dict_get k dB = Some vb ->
                      rows_of_one_width va vb)
  /\ exists dR,
       union TensorsInputs [tensors_inputs dA; tensors_inputs dB] 0
       = Ok (tensors_inputs dR)
       /\ dict_keys dR = dict_keys dA
       /\ forall k x y,
            dict_get k dA = Some (VTensor x) ->
            dict_get k dB = Some (VTensor y) ->
            dict_get k dR
            = Some (VTensor (mkTensor ((hd 0 (shape x) + hd 0 (shape y)) :: tl (shape x))
                               (data x ++ data y) (device x))).
Proof.
  intros dA dB.
  assert (tensors_are [tensors_inputs dA; tensors_inputs dB] [dA; dB]) as Hb
    by (repeat constructor).
  assert (forall k va vb, dict_get k dA = Some va -> dict_get k dB = Some vb ->
                          rows_of_one_width va vb) as Hrows.
  { intros k va vb Ha Hb'. simpl in Ha, Hb'.
    destruct (String.eqb k "x"); [|discriminate].
    injection Ha as <-. injection Hb' as <-.
    exists sample_a, sample_c, 2, 1, [2]. repeat split. }
  split; [exact Hb|]. split; [reflexivity|]. split; [reflexivity|].
  split; [exact Hrows|].
  exact (@union_along_the_first_axis_appends_the_rows _ _ dA dB Hb eq_refl eq_refl Hrows).
Defined.

Lemma tensor_list_tensors_only (vs : list pyval) (ts : list Tensor) :
  tensor_list vs = Ok ts -> forallb isinstance_Tensor vs = true.
Proof.
  unfold tensor_list. revert ts; induction vs as [|v vs IH]; intros ts H; [reflexivity|].
  cbn [comprehension] in H. destruct v as [t|l|d|]; try discriminate H.
  cbn [bind] in H.
  destruct (comprehension
              (fun v => match v with VTensor t => Ok t | _ => Raise TypeError end) vs)
    as [ts'|e] eqn:E; [|discriminate].
  simpl. apply (IH ts'). reflexivity.
Qed.

Lemma Forall2_In_left {A B : Type} (P : A -> B -> Prop) (l : list A) (l' : list B) (x : A) :
  Forall2 P l l' -> In x l -> exists y, In y l' /\ P x y.
Proof.
  induction 1 as [|a b l l' Hab _ IH]; simpl; [tauto|].
  intros [->|H]; [exists b; auto|].
  destruct (IH H) as (y & Hy & HP). exists y. auto.
Qed.

(** X15.  Although [TensorsInputs] stores any value, [union] returns a
    container only when every field of every bundle is a tensor: with a field
    that holds a list or [None], it raises. *)
Theorem union_returns_only_for_tensors
        (bs : list object) (ds : list dict) (keys : list string) (dim : Z) (R : object) :
  tensors_are bs ds ->
  Forall (fun d => dict_keys d = keys) ds ->
  field_names keys = true ->
  union TensorsInputs bs dim = Ok R ->
  Forall (fun d => forallb isinstance_Tensor (dict_values d) = true) ds.
Proof.
  intros Hb Hkeys F H.
  destruct bs as [|o bs]; [inversion Hb; constructor|].
  rewrite (@TensorsInputs_union_by_key (o :: bs) ds keys dim Hb) in H;
    [|discriminate|exact Hkeys|exact F].
  destruct (comprehension (cat_column dim ds) keys) as [vs|e] eqn:E; [|discriminate].
  pose proof (comprehension_inv _ _ E) as H2.
  apply Forall_forall. intros d Hd. apply forallb_forall. intros v Hv.
  apply in_map_iff in Hv as ([k v'] & <- & Hin). cbn [snd].
  assert (dict_keys d = keys) as Hkd by (rewrite Forall_forall in Hkeys; auto).
  assert (In k keys) as Hk
    by (rewrite <- Hkd; change k with (fst (k, v')); apply in_map; exact Hin).
  destruct (Forall2_In_left _ H2 Hk) as (r & _ & Hcat).
  unfold cat_column in Hcat.
  destruct (comprehension (fun d0 => getitem (VDict d0) k) ds) as [col|e] eqn:Ec;
    [|discriminate].
  cbn [bind] in Hcat.
  destruct (tensor_list col) as [ts|e] eqn:Et; [|discriminate].
  pose proof (tensor_list_tensors_only _ Et) as Hall.
  destruct (Forall2_In_left _ (comprehension_inv _ _ Ec) Hd) as (c & Hc & Hget).
  cbn [getitem] in Hget.
  rewrite (@In_dict_get k v' d) in Hget;
    [|rewrite Hkd; apply field_names_NoDup, F|exact Hin].
  injection Hget as ->.
  rewrite forallb_forall in Hall. apply Hall, Hc.
Qed.

Lemma union_returns_only_for_tensors_witness :
  let d := [("x", VTensor sample_a)] in
  tensors_are [tensors_inputs d; tensors_inputs d] [d; d]
  /\ Forall (fun d' => dict_keys d' = ["x"]) [d; d]
  /\ field_names ["x"] = true
  /\ union TensorsInputs [tensors_inputs d; tensors_inputs d] 1
     = Ok (tensors_inputs
             [("x", VTensor (mkTensor [2; 4] [1; 2; 1; 2; 3; 4; 3; 4]%Z cpu_device))])
  /\ Forall (fun d' => forallb isinstance_Tensor (dict_values d') = true) [d; d].
Proof.
  intros d.
  assert (tensors_are [tensors_inputs d; tensors_inputs d] [d; d]) as Hb
    by (repeat constructor).
  assert (Forall (fun d' => dict_keys d' = ["x"]) [d; d]) as Hk by (repeat constructor).
  split; [exact Hb|]. split; [exact Hk|]. split; [reflexivity|]. split; [reflexivity|].
  exact (@union_returns_only_for_tensors _ [d; d] ["x"] 1 _ Hb Hk eq_refl eq_refl).
Defined.

(** A bundle with a field that is no tensor cannot be merged. *)
Example union_of_a_field_that_is_None :
  exists o,
    call TensorsInputs [("position_ids", VNone)] = Ok o
    /\ union TensorsInputs [o; o] 0 = Raise TypeError.
Proof. eexists. split; reflexivity. Qed.

(* ===================================================================== *)
(** ** union and stack of list bundles *)
(* ===================================================================== *)

Lemma for_each_Ok_mono {A S : Type} (l : list A) (f g : S -> A -> result S) :
  (forall s x s', f s x = Ok s' -> g s x = Ok s') ->
  forall s s', for_each l f s = Ok s' -> for_each l g s = Ok s'.
Proof.
  intros H. induction l as [|x l IH]; intros s s' Hf; simpl in *; [exact Hf|].
  destruct (f s x) as [s1|e] eqn:E; [|discriminate].
  rewrite (H s x s1 E). cbn [bind] in *. apply IH, Hf.
Qed.

(** X16.  On list bundles [stack] differs from [union] by one assertion
    only: whenever [ListTensorsMixin.stack] returns a container,
    [ListTensorsMixin.union] of the same bundles returns that container. *)
Theorem list_stack_returns_what_union_returns
        (cls : klass) (bundles : list object) (dim : Z) (R : object) :
  ListTensorsMixin_stack cls bundles dim = Ok R ->
  ListTensorsMixin_union cls bundles dim = Ok R.
Proof.
  unfold ListTensorsMixin_stack, ListTensorsMixin_union.
  destruct bundles as [|first rest]; [exact (fun H => H)|].
  destruct (list_tensors_keys first) as [keys|e]; [|discriminate]. cbn [bind].
  destruct (assert_same_list_tensors_keys keys (first :: rest)); [|discriminate].
  cbn [bind].
  match goal with
  | |- bind (for_each keys ?f []) _ = _ -> bind (for_each keys ?g []) _ = _ =>
      destruct (for_each keys f []) as [d|e] eqn:E; [|discriminate];
      assert (for_each keys g [] = Ok d) as ->;
      [apply (@for_each_Ok_mono _ _ keys f g); [|exact E]|exact (fun H => H)]
  end.
  intros acc key acc'.
  destruct (gather_list_tensors key (first :: rest)) as [new|e]; [|discriminate].
  cbn [bind].
  destruct (comprehension len new) as [lens|e]; [|discriminate]. cbn [bind].
  destruct (forallb (fun n => Nat.eqb n 1) lens); [|discriminate]. cbn [py_assert bind].
  exact (fun H => H).
Qed.

Lemma list_stack_returns_what_union_returns_witness :
  let A := list_tensors_inputs [("images", VList [VTensor sample_a])] in
  let B := list_tensors_inputs [("images", VList [VTensor sample_b])] in
  let R := list_tensors_inputs [("images", VList [VTensor sample_a; VTensor sample_b])] in
  ListTensorsMixin_stack ListTensorsInputs [A; B] 0 = Ok R
  /\ ListTensorsMixin_union ListTensorsInputs [A; B] 0 = Ok R.
Proof.
  intros A B R. split; [reflexivity|].
  exact (@list_stack_returns_what_union_returns ListTensorsInputs [A; B] 0 R eq_refl).
Defined.

(** [ListTensorsInputs.union] of at least one bundle, key by key. *)
Lemma ListTensorsInputs_union_by_key (bs : list object) (ds : list dict)
      (keys : list string) (dim : Z) :
  list_tensors_are bs ds ->
  bs <> [] ->
  Forall (fun d => dict_keys d = keys) ds ->
  NoDup keys ->
  union ListTensorsInputs bs dim
  = (vs <- comprehension (chain_column ds) keys ;;
     call ListTensorsInputs (combine keys vs)).
Proof.
  intros Hb Hne Hkeys ND.
  destruct Hb as [|o d bs ds Ho Hrest]; [contradiction|].
  assert (list_tensors_are (o :: bs) (d :: ds)) as Hb by (constructor; assumption).
  assert (dict_keys d = keys) as Hd by (inversion Hkeys; assumption).
  unfold union, ListTensorsMixin_union.
  rewrite (list_tensors_keys_of _ Ho), Hd. cbn [bind].
  rewrite (assert_same_list_tensors_keys_spec keys Hb).
  assert (forallb (fun d0 => keys_eqb keys (dict_keys d0)) (d :: ds) = true) as ->
    by (apply forallb_keys_eqb; exact Hkeys).
  cbn [bind].
  rewrite (for_each_ext keys _
             (fun acc key => v <- chain_column (d :: ds) key ;; Ok (dict_set key v acc))).
  - rewrite for_each_dict_set_comprehension by exact ND.
    destruct (comprehension (chain_column (d :: ds)) keys); reflexivity.
  - intros acc key _. unfold chain_column.
    rewrite (gather_list_tensors_of key Hb).
    rewrite !bind_assoc.
    destruct (comprehension (fun d0 => getitem (VDict d0) key) (d :: ds));
      [|reflexivity].
    cbn [bind]. rewrite !bind_assoc. destruct (chain_from_iterable a); reflexivity.
Qed.

Lemma chain_from_iterable_from (ls : list pyval) (acc : list pyval) :
  for_each ls (fun acc l => xs <- iterate l ;; Ok (acc ++ xs)) acc
  = (flat <- chain_from_iterable ls ;; Ok (acc ++ flat)).
Proof.
  unfold chain_from_iterable. revert acc.
  induction ls as [|l ls IH]; intros acc; simpl.
  - rewrite app_nil_r. reflexivity.
  - destruct (iterate l) as [xs|e]; cbn [bind]; [|reflexivity].
    rewrite (IH (acc ++ xs)), (IH xs).
    destruct (for_each ls (fun acc0 l0 => xs0 <- iterate l0;; Ok (acc0 ++ xs0)) []);
      cbn [bind]; [|reflexivity].
    rewrite app_assoc. reflexivity.
Qed.

Lemma forallb_list_of_tensors_chained (keys : list string) (ds : list dict)
      (vs : list pyval) :
  comprehension (chain_column ds) keys = Ok vs ->
  Forall (fun v => single_tensor_as_list v = v) vs.
Proof.
  intros H. apply comprehension_inv in H.
  induction H as [|k v keys vs Hk _ IH]; constructor; [|exact IH].
  unfold chain_column in Hk.
  destruct (comprehension (fun d => getitem (VDict d) k) ds); [|discriminate].
  cbn [bind] in Hk. destruct (chain_from_iterable a); [|discriminate].
  injection Hk as <-. reflexivity.
Qed.

(** X17.  [union] of list bundles may be taken in two steps as well: when
    [union(A, B)] has returned [R], [union(R, C)] is [union(A, B, C)], the
    same container or the same exception. *)
Theorem list_union_in_two_steps (A B C R : object) (dA dB dC : dict) (dim : Z) :
  list_tensors_are [A; B; C] [dA; dB; dC] ->
  dict_keys dB = dict_keys dA ->
  dict_keys dC = dict_keys dA ->
  field_names (dict_keys dA) = true ->
  forallb isinstance_list (dict_values dA) = true ->
  forallb isinstance_list (dict_values dB) = true ->
  union ListTensorsInputs [A; B] dim = Ok R ->
  union ListTensorsInputs [R; C] dim = union ListTensorsInputs [A; B; C] dim.
Proof.
  intros Hb HkB HkC F HlA HlB H.
  pose proof (field_names_NoDup _ F) as ND.
  inversion Hb as [|? ? ? ? HA Hb1]; subst.
  inversion Hb1 as [|? ? ? ? HB Hb2]; subst.
  inversion Hb2 as [|? ? ? ? HC _]; subst.
  rewrite (@ListTensorsInputs_union_by_key [A; B] [dA; dB] (dict_keys dA) dim) in H;
    [|repeat constructor; assumption|discriminate|repeat constructor; assumption|exact ND].
  destruct (comprehension (chain_column [dA; dB]) (dict_keys dA)) as [vs|e] eqn:E;
    cbn [bind] in H; [|discriminate].
  pose proof (comprehension_length _ _ E) as Hlen.
  pose proof (comprehension_inv _ _ E) as H2.
  assert (dict_keys (combine (dict_keys dA) vs) = dict_keys dA) as Hkeys
    by (apply dict_keys_combine; exact Hlen).
  rewrite call_ListTensorsInputs_checked in H by (rewrite Hkeys; exact F).
  destruct (forallb tensor_or_list_of_tensors (dict_values (combine (dict_keys dA) vs)));
    [|discriminate].
  injection H as <-.
  rewrite dict_map_values_id
    by (rewrite dict_values_combine by exact Hlen;
        apply (forallb_list_of_tensors_chained _ _ E)).
  rewrite (@ListTensorsInputs_union_by_key
             [list_tensors_inputs (combine (dict_keys dA) vs); C]
             [combine (dict_keys dA) vs; dC] (dict_keys dA) dim);
    [|repeat constructor; assumption|discriminate
     |repeat constructor; assumption|exact ND].
  rewrite (@ListTensorsInputs_union_by_key [A; B; C] [dA; dB; dC] (dict_keys dA) dim);
    [|exact Hb|discriminate|repeat constructor; assumption|exact ND].
  rewrite (comprehension_ext
             (chain_column [combine (dict_keys dA) vs; dC])
             (chain_column [dA; dB; dC])); [reflexivity|].
  intros k Hin.
  destruct (@dict_get_combine _ _ _ k H2 Hin) as (v & Hv & Hch).
  destruct (@dict_get_Some_of_key k dA Hin) as (va & Ha).
  destruct (@dict_get_Some_of_key k dB) as (vb & Hb'); [rewrite HkB; exact Hin|].
  rewrite forallb_forall in HlA, HlB.
  pose proof (HlA va (dict_get_value_In _ _ Ha)) as Hla.
  pose proof (HlB vb (dict_get_value_In _ _ Hb')) as Hlb.
  destruct va as [|a| |]; try discriminate Hla.
  destruct vb as [|b| |]; try discriminate Hlb.
  unfold chain_column in Hch. cbn [comprehension getitem] in Hch.
  rewrite Ha, Hb' in Hch. cbn in Hch. injection Hch as <-.
  unfold chain_column. cbn [comprehension getitem]. rewrite Hv, Ha, Hb'. cbn [bind].
  destruct (dict_get k dC) as [vc|]; cbn [bind]; [|reflexivity].
  unfold chain_from_iterable. cbn [for_each iterate bind app].
  destruct (iterate vc); cbn [bind]; [|reflexivity].
  rewrite <- app_assoc. reflexivity.
Qed.

Lemma list_union_in_two_steps_witness :
  let dA := [("images", VList [VTensor sample_a])] in
  let dB := [("images", VList [VTensor sample_b; VTensor sample_c])] in
  let dC := [("images", VList [])] in
  let R := list_tensors_inputs
             [("images", VList [VTensor sample_a; VTensor sample_b; VTensor sample_c])] in
  list_tensors_are
    [list_tensors_inputs dA; list_tensors_inputs dB; list_tensors_inputs dC] [dA; dB; dC]
  /\ dict_keys dB = dict_keys dA
  /\ dict_keys dC = dict_keys dA
  /\ field_names (dict_keys dA) = true
  /\ forallb isinstance_list (dict_values dA) = true
  /\ forallb isinstance_list (dict_values dB) = true
  /\ union ListTensorsInputs [list_tensors_inputs dA; list_tensors_inputs dB] 0 = Ok R
  /\ union ListTensorsInputs [R; list_tensors_inputs dC] 0
     = union ListTensorsInputs
         [list_tensors_inputs dA; list_tensors_inputs dB; list_tensors_inputs dC] 0.
Proof.
  intros dA dB dC R.
  assert (list_tensors_are
            [list_tensors_inputs dA; list_tensors_inputs dB; list_tensors_inputs dC]
            [dA; dB; dC]) as Hb by (repeat constructor).
  split; [exact Hb|]. split; [reflexivity|]. split; [reflexivity|].
  split; [reflexivity|]. split; [reflexivity|]. split; [reflexivity|].
  split; [reflexivity|].
  exact (@list_union_in_two_steps _ _ _ R dA dB dC 0 Hb eq_refl eq_refl eq_refl
           eq_refl eq_refl eq_refl).
Defined.

(* ===================================================================== *)
(** ** More on the generation wrappers *)
(* ===================================================================== *)

Lemma slice_bound_outside (i n : nat) : n <= i -> slice_bound (Z.of_nat i) n = n.
Proof.
  intros H. unfold slice_bound.
  assert ((Z.of_nat i <? 0)%Z = false) as -> by (apply Z.ltb_ge; lia). lia.
Qed.

(** A source that is wider than the buffer cannot be copied into it. *)
Lemma copy_rows_too_wide (B n M w : nat) (d d' : list Z) (dev dev' : Device) :
  0 < M -> M < w ->
  copy_into_last_slice
    (mkTensor [B; n; M] d dev) None (Some (Z.of_nat w)) (mkTensor [B; n; w] d' dev')
  = Raise RuntimeError.
Proof.
  intros HM Hw. unfold copy_into_last_slice, slice_bounds. cbn [shape data device].
  rewrite (@slice_bound_outside w M) by lia. rewrite Nat.sub_0_r, !Nat.eqb_refl.
  assert (Nat.eqb w M = false) as -> by (apply Nat.eqb_neq; lia).
  assert (Nat.eqb w 1 = false) as -> by (apply Nat.eqb_neq; lia).
  reflexivity.
Qed.

(** X18.  The two [generate] wrappers never cut a sequence: when the decoder
    returns rows with more tokens than the buffer of width
    [max_gen_seq_length] can take (for ChatGLM: more than that after the
    prompt), the copy into the buffer fails and [generate] raises
    [RuntimeError]. *)
Theorem generate_does_not_truncate
        (model_generate : Tensor -> Z -> Z -> Z -> result Tensor)
        (input_ids out : Tensor) (B n L M : nat) (min_gen_seq_length : Z) :
  shape out = [B * n; L] ->
  0 < n -> 0 < M ->
  (forall input_seq_length,
      Tensor_size input_ids 1 = Ok input_seq_length ->
      model_generate input_ids
        (Z.of_nat M + Z.of_nat input_seq_length)%Z
        (min_gen_seq_length + Z.of_nat input_seq_length)%Z
        (Z.of_nat n) = Ok out ->
      M + input_seq_length < L ->
      ChatGLMForGeneration_generate model_generate input_ids
        (Z.of_nat n) min_gen_seq_length (Z.of_nat M)
      = Raise RuntimeError)
  /\ (model_generate input_ids (Z.of_nat M) min_gen_seq_length (Z.of_nat n) = Ok out ->
      M < L ->
      XProphetNetForGeneration_generate model_generate input_ids
        (Z.of_nat n) min_gen_seq_length (Z.of_nat M)
      = Raise RuntimeError).
Proof.
  intros Hs Hn HM.
  assert (numel (shape out) = B * (n * L)) as Hnum by (rewrite Hs; simpl; lia).
  split.
  - intros isl Hisl Hgen Hlong.
    unfold ChatGLMForGeneration_generate.
    rewrite Hisl. cbn [bind]. rewrite Hgen. cbn [bind].
    rewrite (@last_size_of_rows out (B * n) L Hs). cbn [bind].
    rewrite (@reshape_batch_rows out B n L Hn ltac:(lia) Hnum). cbn [bind].
    unfold Tensor_size at 1. cbn [shape length nth].
    assert (wrap_dim 0 3 = Ok 0) as -> by reflexivity. cbn [bind].
    rewrite zeros_three. cbn [bind device]. unfold Tensor_to. cbn [shape data device].
    rewrite (@slice_rows B n L isl (data out) (device out) ltac:(lia)). cbn [bind].
    assert ((Z.of_nat L - Z.of_nat isl)%Z = Z.of_nat (L - isl)) as -> by lia.
    rewrite copy_rows_too_wide by lia. reflexivity.
  - intros Hgen Hlong.
    unfold XProphetNetForGeneration_generate.
    rewrite Hgen. cbn [bind].
    rewrite (@last_size_of_rows out (B * n) L Hs). cbn [bind].
    rewrite (@reshape_batch_rows out B n L Hn ltac:(lia) Hnum). cbn [bind].
    unfold Tensor_size at 1. cbn [shape length nth].
    assert (wrap_dim 0 3 = Ok 0) as -> by reflexivity. cbn [bind].
    rewrite zeros_three. cbn [bind device]. unfold Tensor_to. cbn [shape data device].
    rewrite copy_rows_too_wide by lia. reflexivity.
Qed.

Lemma generate_does_not_truncate_witness :
  shape sample_sequences = [2 * 1; 4]
  /\ Tensor_size sample_input_ids 1 = Ok 2
  /\ ChatGLMForGeneration_generate sample_decoder sample_input_ids 1 0 1
     = Raise RuntimeError
  /\ XProphetNetForGeneration_generate sample_decoder sample_input_ids 1 0 3
     = Raise RuntimeError.
Proof.
  assert (shape sample_sequences = [2 * 1; 4]) as Hs by reflexivity.
  split; [exact Hs|]. split; [reflexivity|]. split.
  - exact (proj1 (@generate_does_not_truncate sample_decoder sample_input_ids
                    sample_sequences 2 1 4 1 0 Hs ltac:(lia) ltac:(lia))
             2 eq_refl eq_refl ltac:(lia)).
  - exact (proj2 (@generate_does_not_truncate sample_decoder sample_input_ids
                    sample_sequences 2 1 4 3 0 Hs ltac:(lia) ltac:(lia))
             eq_refl ltac:(lia)).
Defined.

(* ===================================================================== *)
(** ** MiniGPT4ViTLlamaProcessor *)
(* ===================================================================== *)

Lemma firstn_min_length {A : Type} (n : nat) (l : list A) :
  firstn (Nat.min n (length l)) l = firstn n l.
Proof.
  destruct (Nat.le_ge_cases n (length l)) as [H|H].
  - rewrite Nat.min_l by exact H. reflexivity.
  - rewrite Nat.min_r by exact H. rewrite !firstn_all2 by lia. reflexivity.
Qed.

(** [l[:stop]] for a bound that does not count from the end. *)
Lemma slice_to_firstn {A : Type} (stop : Z) (l : list A) :
  (0 <= stop)%Z -> slice_to stop l = firstn (Z.to_nat stop) l.
Proof.
  intros H. unfold slice_to, slice_bound.
  assert ((stop <? 0)%Z = false) as -> by (apply Z.ltb_ge; exact H).
  replace (Z.to_nat (Z.max 0 (Z.min stop (Z.of_nat (length l)))))
    with (Nat.min (Z.to_nat stop) (length l)) by lia.
  apply firstn_min_length.
Qed.

(** [l[:stop]] for a bound that counts from the end. *)
Lemma slice_to_from_the_end {A : Type} (stop : Z) (l : list A) :
  (stop < 0)%Z -> slice_to stop l = firstn (length l - Z.to_nat (- stop)) l.
Proof.
  intros H. unfold slice_to, slice_bound.
  assert ((stop <? 0)%Z = true) as -> by (apply Z.ltb_lt; exact H).
  f_equal. lia.
Qed.

(** X19.  [MiniGPT4ViTLlamaProcessor.generation_labels] with
    [max_gen_seq_length = M]: for [1 <= M] it returns [input_ids] and
    [attention_mask] of length exactly [M], the ids of at most [M - 1] tokens
    of the text and of the end token, then the padding id, and as many ones
    as there are tokens, then zeros; for [M <= 0] the end token alone is too
    long and the method raises [AssertionError]. *)
Theorem generation_labels_fills_the_given_width
        (tokenize : string -> list string)
        (convert_tokens_to_ids : list string -> list Z)
        (eos_token pad_token : string) (pad_token_id : Z)
        (self_max_gen_seq_length : option Z)
        (pop_value : option Z -> option Z -> result Z)
        (text : string) (max_gen_seq_length : option Z) (M : Z) :
  (forall tokens, length (convert_tokens_to_ids tokens) = length tokens) ->
  pop_value max_gen_seq_length self_max_gen_seq_length = Ok M ->
  let tokens := firstn (Z.to_nat (M - 1)) (tokenize text) ++ [eos_token] in
  ((1 <= M)%Z ->
   length tokens <= Z.to_nat M
   /\ @MiniGPT4ViTLlamaProcessor_generation_labels
        tokenize convert_tokens_to_ids eos_token pad_token pad_token_id
        self_max_gen_seq_length pop_value text max_gen_seq_length
      = Ok [("input_ids",
             VTensor (mkTensor [Z.to_nat M]
                        (convert_tokens_to_ids tokens
                           ++ repeat pad_token_id (Z.to_nat M - length tokens))
                        cpu_device));
            ("attention_mask",
             VTensor (mkTensor [Z.to_nat M]
                        (repeat 1%Z (length tokens)
                           ++ repeat 0%Z (Z.to_nat M - length tokens))
                        cpu_device))])
  /\ ((M <= 0)%Z ->
      @MiniGPT4ViTLlamaProcessor_generation_labels
        tokenize convert_tokens_to_ids eos_token pad_token pad_token_id
        self_max_gen_seq_length pop_value text max_gen_seq_length
      = Raise AssertionError).
Proof.
  intros Hconv Hpop tokens. split.
  - intros HM.
    assert (length tokens <= Z.to_nat M) as Hfit.
    { unfold tokens. rewrite length_app, length_firstn. simpl. lia. }
    split; [exact Hfit|].
    unfold MiniGPT4ViTLlamaProcessor_generation_labels. rewrite Hpop. cbn [bind].
    rewrite slice_to_firstn by lia. fold tokens.
    unfold times, zlen, torch_tensor.
    rewrite !repeat_length, !Hconv, !Nat2Z.id.
    replace (Z.to_nat (M - Z.of_nat (length tokens))) with (Z.to_nat M - length tokens)
      by lia.
    rewrite !length_app, !repeat_length, Hconv.
    assert ((Z.of_nat (length tokens + (Z.to_nat M - length tokens)) =? M)%Z = true) as ->
      by (apply Z.eqb_eq; lia).
    cbn [py_assert bind].
    replace (length tokens + (Z.to_nat M - length tokens)) with (Z.to_nat M) by lia.
    reflexivity.
  - intros HM.
    unfold MiniGPT4ViTLlamaProcessor_generation_labels. rewrite Hpop. cbn [bind].
    unfold times, zlen.
    rewrite !length_app, !repeat_length, !Hconv, !length_app.
    cbn [length].
    match goal with
    | |- context [py_assert ?b] =>
        assert (b = false) as -> by (apply Z.eqb_neq; lia)
    end.
    reflexivity.
Qed.

Lemma generation_labels_fills_the_given_width_witness :
  (forall tokens, length (sample_convert_tokens_to_ids tokens) = length tokens)
  /\ sample_pop_value (Some 4%Z) (Some 48%Z) = Ok 4%Z
  /\ (1 <= 4)%Z
  /\ @MiniGPT4ViTLlamaProcessor_generation_labels
       sample_tokenize sample_convert_tokens_to_ids "$" "_" 0%Z
       (Some 48%Z) sample_pop_value "ab" (Some 4%Z)
     = Ok [("input_ids", VTensor (mkTensor [4] [97; 98; 36; 0]%Z cpu_device));
           ("attention_mask", VTensor (mkTensor [4] [1; 1; 1; 0]%Z cpu_device))].
Proof.
  assert (forall tokens, length (sample_convert_tokens_to_ids tokens) = length tokens)
    as Hconv by (intros tokens; apply length_map).
  split; [exact Hconv|]. split; [reflexivity|]. split; [lia|].
  exact (proj2 (proj1 (@generation_labels_fills_the_given_width
                         sample_tokenize sample_convert_tokens_to_ids "$" "_" 0%Z
                         (Some 48%Z) sample_pop_value "ab" (Some 4%Z) 4%Z
                         Hconv eq_refl)
                  ltac:(lia))).
Defined.

(** X20.  [MiniGPT4ViTLlamaProcessor.prompt] with [max_seq_length = M >= 1]:
    the suffix keeps its first [M - 1] tokens, the prefix keeps what then
    still fits beside the start token, and [prefix_input_ids] has length
    exactly [M]: padding on the left, then the start token and the prefix.
    The start token, the prefix and the suffix together never exceed [M]. *)
Theorem prompt_left_pads_to_the_given_width
        (Image : Type)
        (tokenize : string -> list string)
        (convert_tokens_to_ids : list string -> list Z)
        (bos_token pad_token : string)
        (self_max_seq_length : option Z)
        (pop_value : option Z -> option Z -> result Z)
        (classification_pixel_values : Image -> result pyval)
        (prefix_text suffix_text : string) (image : Image)
        (max_seq_length : option Z) (M : Z) (pixel_values : pyval) :
  (forall tokens, length (convert_tokens_to_ids tokens) = length tokens) ->
  pop_value max_seq_length self_max_seq_length = Ok M ->
  classification_pixel_values image = Ok pixel_values ->
  (1 <= M)%Z ->
  let suffix := firstn (Z.to_nat M - 1) (tokenize suffix_text) in
  let prefix := firstn (Z.to_nat M - 1 - length suffix) (tokenize prefix_text) in
  length prefix + 1 + length suffix <= Z.to_nat M
  /\ @MiniGPT4ViTLlamaProcessor_prompt
       Image tokenize convert_tokens_to_ids bos_token pad_token
       self_max_seq_length pop_value classification_pixel_values
       prefix_text suffix_text image max_seq_length
     = Ok [("prefix_input_ids",
            VTensor (mkTensor [Z.to_nat M]
                       (convert_tokens_to_ids
                          (repeat pad_token (Z.to_nat M - 1 - length prefix)
                             ++ bos_token :: prefix))
                       cpu_device));
           ("suffix_input_ids",
            VTensor (mkTensor [length suffix] (convert_tokens_to_ids suffix) cpu_device));
           ("pixel_values", pixel_values)].
Proof.
  intros Hconv Hpop Hpix HM suffix prefix.
  assert (length suffix <= Z.to_nat M - 1) as Hs
    by (unfold suffix; rewrite length_firstn; lia).
  assert (length prefix <= Z.to_nat M - 1 - length suffix) as Hp
    by (unfold prefix; rewrite length_firstn; lia).
  split; [lia|].
  unfold MiniGPT4ViTLlamaProcessor_prompt. rewrite Hpop. cbn [bind].
  rewrite (@slice_to_firstn _ (M - 1)%Z) by lia.
  replace (Z.to_nat (M - 1)) with (Z.to_nat M - 1) by lia. fold suffix.
  unfold zlen.
  rewrite slice_to_firstn by lia.
  replace (Z.to_nat (M - Z.of_nat (length suffix) - 1))
    with (Z.to_nat M - 1 - length suffix) by lia.
  fold prefix. rewrite Hpix. cbn [bind].
  unfold times, zlen, torch_tensor. cbn [length].
  replace (Z.to_nat (M - Z.of_nat (S (length prefix))))
    with (Z.to_nat M - 1 - length prefix) by lia.
  rewrite !Hconv, length_app, repeat_length. cbn [length].
  replace (Z.to_nat M - 1 - length prefix + S (length prefix)) with (Z.to_nat M) by lia.
  reflexivity.
Qed.

Lemma prompt_left_pads_to_the_given_width_witness :
  (forall tokens, length (sample_convert_tokens_to_ids tokens) = length tokens)
  /\ sample_pop_value None (Some 5%Z) = Ok 5%Z
  /\ sample_classification tt = Ok (VTensor sample_a)
  /\ (1 <= 5)%Z
  /\ @MiniGPT4ViTLlamaProcessor_prompt
       unit sample_tokenize sample_convert_tokens_to_ids "^" "_"
       (Some 5%Z) sample_pop_value sample_classification "abcd" "xy" tt None
     = Ok [("prefix_input_ids", VTensor (mkTensor [5] [95; 95; 94; 97; 98]%Z cpu_device));
           ("suffix_input_ids", VTensor (mkTensor [2] [120; 121]%Z cpu_device));
           ("pixel_values", VTensor sample_a)].
Proof.
  assert (forall tokens, length (sample_convert_tokens_to_ids tokens) = length tokens)
    as Hconv by (intros tokens; apply length_map).
  split; [exact Hconv|]. split; [reflexivity|]. split; [reflexivity|]. split; [lia|].
  exact (proj2 (@prompt_left_pads_to_the_given_width
                  unit sample_tokenize sample_convert_tokens_to_ids "^" "_"
                  (Some 5%Z) sample_pop_value sample_classification "abcd" "xy" tt None
                  5%Z (VTensor sample_a) Hconv eq_refl eq_refl ltac:(lia))).
Defined.

(** X21.  [MiniGPT4ViTLlamaProcessor.generation_inputs] with
    [max_seq_length = M >= 1]: [prefix_input_ids] has length exactly [M],
    padding on the left, then the start token and the first [M - 1] tokens of
    the prefix; the suffix is converted whole, whatever its length. *)
Theorem generation_inputs_cuts_the_prefix_only
        (Image : Type)
        (tokenize : string -> list string)
        (convert_tokens_to_ids : list string -> list Z)
        (bos_token pad_token : string)
        (self_max_seq_length : option Z)
        (pop_value : option Z -> option Z -> result Z)
        (classification_pixel_values : Image -> result pyval)
        (prefix_text suffix_text : string) (image : Image)
        (max_seq_length : option Z) (M : Z) (pixel_values : pyval) :
  (forall tokens, length (convert_tokens_to_ids tokens) = length tokens) ->
  pop_value max_seq_length self_max_seq_length = Ok M ->
  classification_pixel_values image = Ok pixel_values ->
  (1 <= M)%Z ->
  let suffix := tokenize suffix_text in
  let prefix := firstn (Z.to_nat M - 1) (tokenize prefix_text) in
  @MiniGPT4ViTLlamaProcessor_generation_inputs
    Image tokenize convert_tokens_to_ids bos_token pad_token
    self_max_seq_length pop_value classification_pixel_values
    prefix_text suffix_text image max_seq_length
  = Ok [("prefix_input_ids",
         VTensor (mkTensor [Z.to_nat M]
                    (convert_tokens_to_ids
                       (repeat pad_token (Z.to_nat M - 1 - length prefix)
                          ++ bos_token :: prefix))
                    cpu_device));
        ("suffix_input_ids",
         VTensor (mkTensor [length suffix] (convert_tokens_to_ids suffix) cpu_device));
        ("pixel_values", pixel_values)].
Proof.
  intros Hconv Hpop Hpix HM suffix prefix.
  assert (length prefix <= Z.to_nat M - 1) as Hp
    by (unfold prefix; rewrite length_firstn; lia).
  unfold MiniGPT4ViTLlamaProcessor_generation_inputs. rewrite Hpop. cbn [bind].
  rewrite slice_to_firstn by lia.
  replace (Z.to_nat (M - 1)) with (Z.to_nat M - 1) by lia. fold prefix suffix.
  rewrite Hpix. cbn [bind].
  unfold times, zlen, torch_tensor. cbn [length].
  replace (Z.to_nat (M - Z.of_nat (S (length prefix))))
    with (Z.to_nat M - 1 - length prefix) by lia.
  rewrite !Hconv, length_app, repeat_length. cbn [length].
  replace (Z.to_nat M - 1 - length prefix + S (length prefix)) with (Z.to_nat M) by lia.
  reflexivity.
Qed.

Lemma generation_inputs_cuts_the_prefix_only_witness :
  (forall tokens, length (sample_convert_tokens_to_ids tokens) = length tokens)
  /\ sample_pop_value (Some 3%Z) None = Ok 3%Z
  /\ sample_classification tt = Ok (VTensor sample_a)
  /\ (1 <= 3)%Z
  /\ @MiniGPT4ViTLlamaProcessor_generation_inputs
       unit sample_tokenize sample_convert_tokens_to_ids "^" "_"
       None sample_pop_value sample_classification "abcd" "wxyz" tt (Some 3%Z)
     = Ok [("prefix_input_ids", VTensor (mkTensor [3] [94; 97; 98]%Z cpu_device));
           ("suffix_input_ids", VTensor (mkTensor [4] [119; 120; 121; 122]%Z cpu_device));
           ("pixel_values", VTensor sample_a)].
Proof.
  assert (forall tokens, length (sample_convert_tokens_to_ids tokens) = length tokens)
    as Hconv by (intros tokens; apply length_map).
  split; [exact Hconv|]. split; [reflexivity|]. split; [reflexivity|]. split; [lia|].
  exact (@generation_inputs_cuts_the_prefix_only
           unit sample_tokenize sample_convert_tokens_to_ids "^" "_"
           None sample_pop_value sample_classification "abcd" "wxyz" tt (Some 3%Z)
           3%Z (VTensor sample_a) Hconv eq_refl eq_refl ltac:(lia)).
Defined.

(** X22.  [MiniGPT4ViTLlamaProcessor.generation] with
    [max_seq_length = M >= 0] and [max_gen_seq_length = G >= 1]: the prefix
    (start token and at most [M + G - 1] tokens) is padded on the left to the
    width [M + G], not [M]; the pair (at most [G - 1] tokens and the end
    token) is padded on the right to the width [G]; the label sequences are
    the pair padded to [G + 1] behind [len(suffix) - 1] zeros; the suffix is
    taken whole.  Every mask has a one exactly where its sequence has a
    token. *)
Theorem generation_pads_each_part_to_its_width
        (Image : Type)
        (tokenize : string -> list string)
        (convert_tokens_to_ids : list string -> list Z)
        (bos_token eos_token pad_token : string)
        (self_max_seq_length self_max_gen_seq_length : option Z)
        (pop_value : option Z -> option Z -> result Z)
        (classification_pixel_values : Image -> result pyval)
        (prefix_text suffix_text text_pair : string) (image : Image)
        (max_seq_length max_gen_seq_length : option Z) (M G : Z)
        (pixel_values : pyval) :
  (forall tokens, length (convert_tokens_to_ids tokens) = length tokens) ->
  pop_value max_seq_length self_max_seq_length = Ok M ->
  pop_value max_gen_seq_length self_max_gen_seq_length = Ok G ->
  classification_pixel_values image = Ok pixel_values ->
  (0 <= M)%Z -> (1 <= G)%Z ->
  let W := Z.to_nat (M + G) in
  let g := Z.to_nat G in
  let prefix := bos_token :: firstn (W - 1) (tokenize prefix_text) in
  let suffix := tokenize suffix_text in
  let pair := firstn (g - 1) (tokenize text_pair) ++ [eos_token] in
  length prefix <= W
  /\ length pair <= g
  /\ @MiniGPT4ViTLlamaProcessor_generation
       Image tokenize convert_tokens_to_ids bos_token eos_token pad_token
       self_max_seq_length self_max_gen_seq_length pop_value
       classification_pixel_values
       prefix_text suffix_text text_pair image max_seq_length max_gen_seq_length
     = Ok [("prefix_input_ids",
            VTensor (mkTensor [W]
                       (convert_tokens_to_ids
                          (repeat pad_token (W - length prefix) ++ prefix))
                       cpu_device));
           ("prefix_attention_mask",
            VTensor (mkTensor [W]
                       (repeat 0%Z (W - length prefix) ++ repeat 1%Z (length prefix))
                       cpu_device));
           ("suffix_input_ids",
            VTensor (mkTensor [length suffix] (convert_tokens_to_ids suffix) cpu_device));
           ("suffix_attention_mask",
            VTensor (mkTensor [length suffix] (repeat 1%Z (length suffix)) cpu_device));
           ("input_ids_pair",
            VTensor (mkTensor [g]
                       (convert_tokens_to_ids
                          (pair ++ repeat pad_token (g - length pair)))
                       cpu_device));
           ("attention_mask_pair",
            VTensor (mkTensor [g]
                       (repeat 1%Z (length pair) ++ repeat 0%Z (g - length pair))
                       cpu_device));
           ("input_ids_label",
            VTensor (mkTensor [length suffix - 1 + (g + 1)]
                       (repeat 0%Z (length suffix - 1)
                          ++ convert_tokens_to_ids
                               (pair ++ repeat pad_token (g - length pair + 1)))
                       cpu_device));
           ("attention_mask_label",
            VTensor (mkTensor [length suffix - 1 + (g + 1)]
                       (repeat 0%Z (length suffix - 1)
                          ++ repeat 1%Z (length pair)
                          ++ repeat 0%Z (g - length pair + 1))
                       cpu_device));
           ("pixel_values", pixel_values)].
Proof.
  intros Hconv HpopM HpopG Hpix HM HG W g prefix suffix pair.
  assert (length prefix <= W) as Hp.
  { unfold prefix. cbn [length]. rewrite length_firstn. unfold W. lia. }
  assert (length pair <= g) as Hq.
  { unfold pair. rewrite length_app, length_firstn. cbn [length]. unfold g. lia. }
  split; [exact Hp|]. split; [exact Hq|].
  unfold MiniGPT4ViTLlamaProcessor_generation.
  rewrite HpopM. cbn [bind]. rewrite HpopG. cbn [bind].
  rewrite !slice_to_firstn by lia.
  replace (Z.to_nat (M + G - 1)) with (W - 1) by (unfold W; lia).
  replace (Z.to_nat (G - 1)) with (g - 1) by (unfold g; lia).
  fold prefix suffix pair. rewrite Hpix. cbn [bind].
  unfold times, zlen, torch_tensor.
  rewrite !repeat_length, !Nat2Z.id.
  replace (Z.to_nat (M + G - Z.of_nat (length prefix))) with (W - length prefix)
    by (unfold W; lia).
  replace (Z.to_nat (G - Z.of_nat (length pair))) with (g - length pair)
    by (unfold g; lia).
  replace (Z.to_nat (G - Z.of_nat (length pair) + 1)) with (g - length pair + 1)
    by (unfold g; lia).
  replace (Z.to_nat (Z.of_nat (length suffix) - 1)) with (length suffix - 1) by lia.
  rewrite !Hconv, !length_app, !repeat_length, !Hconv, !length_app, !repeat_length.
  replace (W - length prefix + length prefix) with W by lia.
  replace (length pair + (g - length pair)) with g by lia.
  replace (length pair + (g - length pair + 1)) with (g + 1) by lia.
  reflexivity.
Qed.

Lemma generation_pads_each_part_to_its_width_witness :
  (forall tokens, length (sample_convert_tokens_to_ids tokens) = length tokens)
  /\ sample_pop_value (Some 2%Z) None = Ok 2%Z
  /\ sample_pop_value (Some 3%Z) None = Ok 3%Z
  /\ sample_classification tt = Ok (VTensor sample_a)
  /\ (0 <= 2)%Z /\ (1 <= 3)%Z
  /\ @MiniGPT4ViTLlamaProcessor_generation
       unit sample_tokenize sample_convert_tokens_to_ids "^" "$" "_"
       None None sample_pop_value sample_classification
       "ab" "xy" "c" tt (Some 2%Z) (Some 3%Z)
     = Ok [("prefix_input_ids", VTensor (mkTensor [5] [95; 95; 94; 97; 98]%Z cpu_device));
           ("prefix_attention_mask", VTensor (mkTensor [5] [0; 0; 1; 1; 1]%Z cpu_device));
           ("suffix_input_ids", VTensor (mkTensor [2] [120; 121]%Z cpu_device));
           ("suffix_attention_mask", VTensor (mkTensor [2] [1; 1]%Z cpu_device));
           ("input_ids_pair", VTensor (mkTensor [3] [99; 36; 95]%Z cpu_device));
           ("attention_mask_pair", VTensor (mkTensor [3] [1; 1; 0]%Z cpu_device));
           ("input_ids_label", VTensor (mkTensor [5] [0; 99; 36; 95; 95]%Z cpu_device));
           ("attention_mask_label", VTensor (mkTensor [5] [0; 1; 1; 0; 0]%Z cpu_device));
           ("pixel_values", VTensor sample_a)].
Proof.
  assert (forall tokens, length (sample_convert_tokens_to_ids tokens) = length tokens)
    as Hconv by (intros tokens; apply length_map).
  split; [exact Hconv|]. split; [reflexivity|]. split; [reflexivity|].
  split; [reflexivity|]. split; [lia|]. split; [lia|].
  exact (proj2 (proj2 (@generation_pads_each_part_to_its_width
                         unit sample_tokenize sample_convert_tokens_to_ids "^" "$" "_"
                         None None sample_pop_value sample_classification
                         "ab" "xy" "c" tt (Some 2%Z) (Some 3%Z) 2%Z 3%Z
                         (VTensor sample_a) Hconv eq_refl eq_refl eq_refl
                         ltac:(lia) ltac:(lia)))).
Defined.

(* ===================================================================== *)
(** ** Clip pipelines *)
(* ===================================================================== *)

Lemma bind_positional_rest (V : Type) (params : parameters V) (args : list V)
      (bound : list (string * V)) (rest : parameters V) :
  bind_positional params args = Ok (bound, rest) ->
  incl (map fst rest) (map fst params).
Proof.
  revert params bound rest; induction args as [|a args IH]; intros params bound rest H.
  - simpl in H. destruct params; injection H as <- <-; apply incl_refl.
  - destruct params as [|[p d] params]; simpl in H; [discriminate|].
    destruct (bind_positional params args) as [[bound' rest']|e] eqn:E; [|discriminate].
    simpl in H. injection H as <- <-.
    simpl. apply incl_tl. apply (IH params bound' rest' E).
Qed.

Lemma keywords_expected_known (V : Type) (rest : parameters V)
      (kwargs : list (string * V)) (k : string) (v : V) :
  keywords_expected rest kwargs = true ->
  keyword k kwargs = Some v ->
  In k (map fst rest).
Proof.
  unfold keywords_expected. induction kwargs as [|[k' v'] kwargs IH]; simpl; [discriminate|].
  intros H Hk. apply andb_true_iff in H as [H1 H2].
  destruct (String.eqb k k') eqn:E; [|apply IH; assumption].
  apply String.eqb_eq in E. subst k'.
  apply existsb_exists in H1 as (x & Hx & Ex).
  apply String.eqb_eq in Ex. subst x. exact Hx.
Qed.

(** A keyword that names no parameter makes the call raise [TypeError]. *)
Lemma bind_arguments_unexpected_keyword (V : Type) (params : parameters V)
      (args : list V) (kwargs : list (string * V)) (k : string) (v : V) :
  keyword k kwargs = Some v ->
  ~ In k (map fst params) ->
  bind_arguments params args kwargs = Raise TypeError.
Proof.
  intros Hk Hn. unfold bind_arguments.
  destruct (bind_positional params args) as [[bound rest]|e] eqn:E.
  - cbn [bind].
    destruct (keywords_expected rest kwargs) eqn:K; [|reflexivity].
    exfalso. apply Hn. apply (bind_positional_rest _ _ E).
    apply (keywords_expected_known _ _ _ K Hk).
  - assert (e = TypeError) as ->; [|reflexivity].
    clear Hk Hn. revert params E; induction args as [|a args IH]; intros params E.
    + destruct params; discriminate.
    + destruct params as [|[p d] params]; simpl in E; [congruence|].
      destruct (bind_positional params args) as [[b r]|e'] eqn:E'; [discriminate|].
      simpl in E. injection E as <-. apply (IH params E').
Qed.

(** X23.  [ClipForImageClassificationPipeline.__init__] has no parameter
    [max_seq_length], so every call of the class with that keyword raises
    [TypeError] before the body of [__init__] runs.  The body of
    [from_core_configure] ends in such a call: whatever the configuration
    holds, it never returns a pipeline. *)
Theorem image_pipeline_cannot_be_built_from_a_configuration
        (value config instance : Type)
        (None_ : value) (int_ : Z -> value) (str_ : string -> value)
        (set_default_section : config -> string -> result config)
        (getoption : config -> string -> value -> result value)
        (pretrained_clip_infos : value)
        (nested_dict_value : value -> list value -> result value)
        (pop_value : value -> value -> bool -> result value)
        (cached_path : value -> result value)
        (init : list (string * value) -> result instance) :
  (forall args kwargs v,
      keyword "max_seq_length" kwargs = Some v ->
      @ClipForImageClassificationPipeline value instance None_ int_ str_ init args kwargs
      = Raise TypeError)
  /\ forall config_ pretrained_name config_path vision_config_path id2label
            pretrained_weight_path device pipeline,
       @ClipForImageClassificationPipeline_from_core_configure
         value config instance None_ int_ str_ set_default_section getoption
         pretrained_clip_infos nested_dict_value pop_value cached_path init
         config_ pretrained_name config_path vision_config_path id2label
         pretrained_weight_path device
       <> Ok pipeline.
Proof.
  assert (forall args kwargs v,
             keyword "max_seq_length" kwargs = Some v ->
             @ClipForImageClassificationPipeline value instance None_ int_ str_ init
               args kwargs
             = Raise TypeError) as Hcall.
  { intros args kwargs v Hk. unfold ClipForImageClassificationPipeline.
    rewrite (@bind_arguments_unexpected_keyword value
               (ClipForImageClassificationPipeline_parameters None_ int_ str_)
               args kwargs "max_seq_length" v Hk); [reflexivity|].
    simpl. intuition discriminate. }
  split; [exact Hcall|].
  intros config_ pretrained_name config_path vision_config_path id2label
         pretrained_weight_path device pipeline.
  unfold ClipForImageClassificationPipeline_from_core_configure.
  do 18 (apply bind_never_Ok; intros ? ? _).
  erewrite Hcall; [discriminate|reflexivity].
Qed.

Lemma image_pipeline_cannot_be_built_from_a_configuration_witness :
  keyword "max_seq_length" [("vision_config_path", 7%Z); ("max_seq_length", 512%Z)]
  = Some 512%Z
  /\ @ClipForImageClassificationPipeline Z (list (string * Z)) 0%Z (fun z => z)
       (fun _ => 1%Z) sample_init
       [5%Z] [("vision_config_path", 7%Z); ("max_seq_length", 512%Z)]
     = Raise TypeError.
Proof.
  split; [reflexivity|].
  exact (proj1 (@image_pipeline_cannot_be_built_from_a_configuration
                  Z unit (list (string * Z)) 0%Z (fun z => z) (fun _ => 1%Z)
                  sample_set_default_section sample_getoption 9%Z
                  sample_nested_dict_value sample_pop_value_of sample_cached_path
                  sample_init)
           [5%Z] [("vision_config_path", 7%Z); ("max_seq_length", 512%Z)] 512%Z eq_refl).
Defined.

(** On a configuration that holds nothing the text pipeline reaches its
    [__init__] with every parameter bound, and the image pipeline, built the
    same way, stops at the call. *)
Example pipelines_from_an_empty_configuration :
  @ClipForTextClassificationPipeline_from_core_configure
    Z unit (list (string * Z)) 0%Z (fun z => z) (fun _ => 1%Z)
    sample_set_default_section sample_getoption 9%Z
    sample_nested_dict_value sample_pop_value_of sample_cached_path sample_init
    tt 2%Z 0%Z 0%Z 0%Z 0%Z 0%Z 1%Z
  = Ok [("config_path", 9%Z); ("vocab_path", 9%Z); ("merge_path", 9%Z);
        ("projection_dim", 512%Z); ("num_classes", 1%Z); ("max_seq_length", 512%Z);
        ("id2label", 0%Z); ("weight_path", 9%Z); ("state_dict", 0%Z); ("device", 1%Z)]
  /\ @ClipForImageClassificationPipeline_from_core_configure
       Z unit (list (string * Z)) 0%Z (fun z => z) (fun _ => 1%Z)
       sample_set_default_section sample_getoption 9%Z
       sample_nested_dict_value sample_pop_value_of sample_cached_path sample_init
       tt 2%Z 0%Z 0%Z 0%Z 0%Z 1%Z
     = Raise TypeError.
Proof. split; reflexivity. Qed.

(* ===================================================================== *)
(** ** import_utils *)
(* ===================================================================== *)

(** X24.  [is_torch2_available] never reads [_torch_version] unbound: when
    the version lookup has failed the module has set [_torch_available] to
    [False], and [and] stops there.  The version is compared with ["2.0.0"]
    as a string, character by character: every version that starts with the
    digit 1 is below it, 10.0.0 as well as 1.13.1, and every version that
    starts with a digit from 3 to 9 is above it. *)
Theorem is_torch2_available_reads_a_bound_version_by_characters :
  (forall found metadata_version,
      is_torch2_available (import_package found metadata_version)
      = Some (match metadata_version with
              | Some version => found && str_le "2.0.0" version
              | None => false
              end))
  /\ (forall rest,
        is_torch2_available (import_package true (Some ("1" ++ rest)%string)) = Some false)
  /\ (forall c rest,
        3 <= Ascii.nat_of_ascii c - 48 <= 9 ->
        is_torch2_available (import_package true (Some (String c rest))) = Some true).
Proof.
  split; [|split].
  - intros found [version|]; [|reflexivity].
    unfold import_package, is_torch2_available. cbn [_available _version].
    destruct found; reflexivity.
  - intros rest. reflexivity.
  - intros c rest H.
    unfold import_package, is_torch2_available. cbn [_available _version str_le].
    match goal with
    | |- context [Nat.ltb ?n (Ascii.nat_of_ascii c)] =>
        replace n with 50 by reflexivity
    end.
    assert (Nat.ltb 50 (Ascii.nat_of_ascii c) = true) as ->
      by (apply Nat.ltb_lt; lia).
    reflexivity.
Qed.

Lemma is_torch2_available_reads_a_bound_version_by_characters_witness :
  3 <= Ascii.nat_of_ascii (Ascii.ascii_of_nat 51) - 48 <= 9
  /\ is_torch2_available (import_package true (Some "3.1.0")) = Some true
  /\ is_torch2_available (import_package true (Some "10.0.0")) = Some false
  /\ is_torch2_available (import_package true None) = Some false.
Proof.
  assert (3 <= Ascii.nat_of_ascii (Ascii.ascii_of_nat 51) - 48 <= 9) as H by (simpl; lia).
  split; [exact H|]. split; [|split].
  - exact (proj2 (proj2 is_torch2_available_reads_a_bound_version_by_characters)
             (Ascii.ascii_of_nat 51) "1.0" H).
  - exact (proj1 (proj2 is_torch2_available_reads_a_bound_version_by_characters) "0.0.0").
  - exact (proj1 is_torch2_available_reads_a_bound_version_by_characters true None).
Defined.
